(** * rflink: a shallow embedding of the link-layer engine (rflink.h, rflink.cpp)

    The engine is modelled the way the C++ is written: bytes and machine words
    are integers with their wrap-around written out, nullable pointers are
    options, the task pool and the packet-id cache are lists indexed like the
    arrays they stand for, and every function that can abort (a failed
    [assert], a null dereference, a write outside an array) returns in an
    error type that names the fault.

    What the model takes from the environment of the code. Every [malloc]
    and [new] is taken to succeed: the code tests none of them and
    dereferences what they return. A registered callback returns.
    [sleep_cpu], which parks the processor until an interrupt wakes it, is
    recorded as a call, after which the code goes on. A packet is kept as its
    header and its payload, which is what the buffers of the code hold as
    long as the six bytes of the header and the announced payload fit the
    byte that counts them (a length byte of at most 249); this is the case of
    every frame [check_rcvd_pkt_is_ok] accepts on a link whose driver
    announced 6 to 255 bytes. The statements below name these conditions
    where they depend on them. *)

From Stdlib Require Import ZArith Lia Bool List.
From stdpp Require Import base list.
Import ListNotations.

Open Scope Z_scope.

(** ** Machine integers (AVR: byte = 8 bits, int = 16 bits, long = 32 bits) *)

Definition wrap8 (z : Z) : Z := z mod 256.
Definition wrap16 (z : Z) : Z := z mod 65536.
Definition wrap32 (z : Z) : Z := z mod 4294967296.

(** [(long int)x] for an [unsigned long] x: the two's complement reading. *)
Definition signed32 (z : Z) : Z :=
  if wrap32 z <? 2147483648 then wrap32 z else wrap32 z - 4294967296.

Arguments wrap8 : simpl never.
Arguments wrap16 : simpl never.
Arguments wrap32 : simpl never.
Arguments signed32 : simpl never.

(** ** Faults: the ways the C++ can stop instead of returning *)

Inductive assert_site : Type :=
  | A_tev_wakeup_unreachable      (* tev_wakeup: assert(false) *)
  | A_cache_one_entry_per_source  (* check_pktid_already_seen: assert(!ret) *)
  | A_do_events_timer_subscription (* do_events: assert(false) on missing evtsub_wakeup *)
  | A_send_ack_len                (* send_ack_noblock: assert(!h->len) *)
  | A_copy_packet                 (* copy_packet: assert(!pkt) *)
  | A_prepare_pkt                 (* prepare_for_sending: assert(pkt == nullptr) *)
  | A_prepare_args                (* prepare_for_sending: len/data consistency *)
  | A_reduce_packet               (* reduce_packet_to_its_header: assert(pkt) *)
  | A_receive.                    (* receive: assert(false) *)

(** The arrays the code indexes. *)
Inductive array_site : Type :=
  | Arr_cache_pktids    (* RFLink::cache_pktids[PKTID_CACHE_SIZE] *)
  | Arr_send_schedule   (* what Task::send_schedule_ptr points to *)
  | Arr_tskhead.        (* RFLink::tskhead[DEFAULT_MAX_TASK_COUNT] *)

Inductive fault : Type :=
  | AssertFailed (a : assert_site)
  | NullDeref
  | OutOfBounds (a : array_site).

Inductive result (A : Type) : Type :=
  | Ok (a : A)
  | Err (f : fault).
Arguments Ok {A} a.
Arguments Err {A} f.

Definition rbind {A B : Type} (c : result A) (k : A -> result B) : result B :=
  match c with
  | Ok a => k a
  | Err f => Err f
  end.

Notation "x <- c ;; k" := (rbind c (fun x => k))
  (at level 100, c at next level, right associativity).
Notation "'let*' p := c 'in' k" := (rbind c (fun x => match x with p => k end))
  (at level 100, p pattern, c at next level, right associativity).

Definition assert (b : bool) (a : assert_site) : result unit :=
  if b then Ok tt else Err (AssertFailed a).

(** ** Constants of rflink.h *)

Definition DEFAULT_MAX_TASK_COUNT : Z := 15.
Definition PKTID_CACHE_SIZE : Z := 10.

Definition DEFAULT_RECEIVE_DATA_AVAIL_DELAY : Z := 900.
Definition DEFAULT_RECEIVE_PURGE_DELAY : Z := 1000.
Definition DEFAULT_RECEIVE_TIMEOUT_DELAY : Z := 0.
Definition DEFAULT_SEND_PURGE_DELAY : Z := 1000.
Definition CACHE_PKTID_DISCARD_DELAY : Z := 176400000.
Definition MIN_DEVICE_RESET_DELAY : Z := 1000.

Definition ERR_OK : Z := 0.
Definition ERR_DEVICE_NOT_REGISTERED : Z := 1.
Definition ERR_SEND_FUNC_NOT_REGISTERED : Z := 2.
Definition ERR_RECEIVE_FUNC_NOT_REGISTERED : Z := 3.
Definition ERR_SEND_DATA_LEN_ABOVE_LIMIT : Z := 4.
Definition ERR_SEND_IO : Z := 5.
Definition ERR_SEND_BAD_ARGUMENTS : Z := 6.
Definition ERR_SEND_NO_ACK_RCVD : Z := 7.
Definition ERR_TASK_CREATED_OK : Z := 8.
Definition ERR_UNABLE_TO_CREATE_TASK : Z := 9.
Definition ERR_UNKNOWN_TASKID : Z := 10.
Definition ERR_UNDEFINED : Z := 11.
Definition ERR_TASK_UNDERWAY : Z := 12.
Definition ERR_TIMEOUT : Z := 13.

Definition ADDR_BROADCAST : Z := 255.

Definition FLAG_NONE : Z := 0.
Definition FLAG_SIN : Z := 1.
Definition FLAG_ACK : Z := 2.

Definition ST_NOTHING : Z := 0.
Definition ST_SEND : Z := 1.
Definition ST_SEND_DONE : Z := 2.
Definition ST_RECEIVE : Z := 3.
Definition ST_RECEIVE_DATA_AVAILABLE : Z := 4.
Definition ST_RECEIVE_DATA_RETRIEVED : Z := 5.
Definition ST_RECEIVE_TIMEDOUT : Z := 6.
Definition ST_FINISHED : Z := 7.

(** sizeof(Header): 1 + 1 + 1 + 2 + 1 bytes, no padding on the 8-bit target. *)
Definition sizeof_Header : Z := 6.

(** ** Retransmission schedules (rflink.cpp) *)

Definition snd_sched : list Z := [0; 200; 550; 900].
Definition snd_sched_len : Z := Z.of_nat (length snd_sched).

Definition snd_expack_sched : list Z := [0; 100; 450; 800; 900].
Definition snd_expack_sched_len : Z := Z.of_nat (length snd_expack_sched).

Definition snd_repack_sched : list Z := [0].
Definition snd_repack_sched_len : Z := Z.of_nat (length snd_repack_sched).

(** ** Flags byte *)

Definition to_flags (seq opt : Z) : Z :=
  wrap8 (Z.lor (Z.shiftl (Z.land seq 15) 4) (Z.land opt 15)).

(** [from_flags flags] is the pair (seq, opt) the C++ writes through its two
    out-pointers. *)
Definition from_flags (flags : Z) : Z * Z :=
  (Z.shiftr flags 4, Z.land flags 15).

Arguments to_flags : simpl never.
Arguments from_flags : simpl never.

(** ** Header, Packet, PktKeeper *)

Record Header : Type := mkHeader {
  dst : Z;
  src : Z;
  flags : Z;
  pktid : Z;
  len : Z
}.

(** A [Packet] is the header followed by the payload bytes that sit after it in
    the same allocation. *)
Record Packet : Type := mkPacket {
  header : Header;
  data : list Z
}.

(** [PktKeeper] owns one nullable [Packet*]. *)
Record PktKeeper : Type := mkPktKeeper {
  pkt : option Packet
}.

Definition set_header_flags (f : Z) (h : Header) : Header :=
  mkHeader (dst h) (src h) f (pktid h) (len h).
Definition set_header_len (n : Z) (h : Header) : Header :=
  mkHeader (dst h) (src h) (flags h) (pktid h) n.

(** [get_header_ptr]: a null packet gives a null header pointer. *)
Definition get_header_ptr (pk : PktKeeper) : option Header :=
  match pkt pk with
  | None => None
  | Some p => Some (header p)
  end.

(** Dereferencing what [get_header_ptr] returned. *)
Definition deref_header (pk : PktKeeper) : result Header :=
  match get_header_ptr pk with
  | None => Err NullDeref
  | Some h => Ok h
  end.

Definition get_flags (pk : PktKeeper) : Z :=
  match pkt pk with
  | None => 255
  | Some p => flags (header p)
  end.

Definition set_flags (arg_flags : Z) (pk : PktKeeper) : PktKeeper :=
  match pkt pk with
  | None => pk
  | Some p => mkPktKeeper (Some (mkPacket (set_header_flags arg_flags (header p)) (data p)))
  end.

Definition get_pkt_ptr_ro (pk : PktKeeper) : option Packet := pkt pk.

Definition get_pkt_len (pk : PktKeeper) : Z :=
  match pkt pk with
  | None => 0
  | Some p => wrap8 (sizeof_Header + len (header p))
  end.

Definition get_data_len (pk : PktKeeper) : Z :=
  match pkt pk with
  | None => 255
  | Some p => len (header p)
  end.

Definition release_data (pk : PktKeeper) : PktKeeper := mkPktKeeper None.

(** [copy_packet]: this keeper must be empty; it receives the first
    [get_pkt_len] bytes of the other one, that is its header and as much
    payload as the length byte announces. [get_pkt_len] is a byte: for a
    length byte above 249 it wraps below the size of a header, and the code
    then allocates and copies fewer bytes than a header holds. A packet of
    the model always has its header, so the model renders the copy for length
    bytes up to 249 only; the statements about copies carry that bound. *)
Definition copy_packet (this other : PktKeeper) : result PktKeeper :=
  _ <- assert (bool_decide (pkt this = None)) A_copy_packet ;;
  match get_pkt_ptr_ro other with
  | None => Err NullDeref
  | Some p =>
      Ok (mkPktKeeper
            (Some (mkPacket (header p)
                            (take (Z.to_nat (get_pkt_len other - sizeof_Header)) (data p)))))
  end.

Definition reduce_packet_to_its_header (pk : PktKeeper) : result PktKeeper :=
  match pkt pk with
  | None => Err (AssertFailed A_reduce_packet)
  | Some p => Ok (mkPktKeeper (Some (mkPacket (set_header_len 0 (header p)) [])))
  end.

(** [check_rcvd_pkt_is_ok], with [link->get_max_payload_len()] passed in. *)
Definition check_rcvd_pkt_is_ok (pk : PktKeeper) (max_payload_len nb_bytes : Z) : bool :=
  match pkt pk with
  | None => false
  | Some p =>
      if len (header p) >? max_payload_len then false
      else get_pkt_len pk =? nb_bytes
  end.

(** [prepare_for_sending]; [data = None] is the null pointer. *)
Definition prepare_for_sending (pk : PktKeeper) (max_payload_len : Z)
    (h : Header) (d : option (list Z)) : result PktKeeper :=
  _ <- assert (bool_decide (pkt pk = None)) A_prepare_pkt ;;
  _ <- assert (((len h =? 0) && bool_decide (d = None))
               || ((1 <=? len h) && negb (bool_decide (d = None)))) A_prepare_args ;;
  let h' := if len h >? max_payload_len then set_header_len max_payload_len h else h in
  let payload :=
    if len h' =? 0 then []
    else match d with
         | Some bytes => take (Z.to_nat (len h')) bytes
         | None => []
         end in
  Ok (mkPktKeeper (Some (mkPacket h' payload))).

(** [copy_data]: the number of bytes handed to the caller and the bytes. *)
Definition copy_data (pk : PktKeeper) (buf_len : Z) : option (Z * list Z) :=
  match pkt pk with
  | None => None
  | Some p =>
      let rec_len := if len (header p) >? buf_len then buf_len else len (header p) in
      Some (rec_len, take (Z.to_nat rec_len) (data p))
  end.

(** ** The packet-id cache *)

Record cache_pktid_t : Type := mkCache {
  used : bool;
  csrc : Z;
  mtime : Z;
  last_pktid_seen : Z
}.

(** The locals of [check_pktid_already_seen] that live across loop turns. *)
Record scan_t : Type := mkScan {
  src_found : bool;
  unused_entry_idx : Z;
  oldest_entry_idx : Z;
  biggest_elapsed_found : Z;
  ret : bool
}.

Definition scan_init : scan_t := mkScan false (-1) (-1) 0 false.

(** One turn of the loop on entry number [i]: the entry as the turn leaves it
    and the locals. *)
Definition cache_visit (asrc apktid tref i : Z) (current : cache_pktid_t) (st : scan_t)
    : result (cache_pktid_t * scan_t) :=
  let elapsed := wrap32 (tref - mtime current) in
  let current :=
    if used current && (CACHE_PKTID_DISCARD_DELAY <=? elapsed)
    then mkCache false (csrc current) (mtime current) (last_pktid_seen current)
    else current in
  if negb (used current) then
    Ok (current,
        if unused_entry_idx st <? 0
        then mkScan (src_found st) i (oldest_entry_idx st) (biggest_elapsed_found st) (ret st)
        else st)
  else if csrc current =? asrc then
    _ <- assert (negb (ret st)) A_cache_one_entry_per_source ;;
    if last_pktid_seen current =? apktid
    then Ok (mkCache (used current) (csrc current) tref (last_pktid_seen current),
             mkScan true (unused_entry_idx st) (oldest_entry_idx st)
                    (biggest_elapsed_found st) true)
    else Ok (mkCache (used current) (csrc current) tref apktid,
             mkScan true (unused_entry_idx st) (oldest_entry_idx st)
                    (biggest_elapsed_found st) (ret st))
  else if elapsed >? biggest_elapsed_found st then
    Ok (current, mkScan (src_found st) (unused_entry_idx st) i elapsed (ret st))
  else Ok (current, st).

(** The [for] loop, from entry number [i] on; [entries] are the entries not yet
    visited. *)
Fixpoint cache_scan (asrc apktid tref i : Z) (entries : list cache_pktid_t) (st : scan_t)
    : result (list cache_pktid_t * scan_t) :=
  match entries with
  | [] => Ok ([], st)
  | current :: rest =>
      let* (current', st') := cache_visit asrc apktid tref i current st in
      let* (rest', st'') := cache_scan asrc apktid tref (i + 1) rest st' in
      Ok (current' :: rest', st'')
  end.

(** [check_pktid_already_seen(src, pktid)] on the table [cache], at time
    [tref = get_current_time()]. The table after the call and the answer. *)
Definition check_pktid_already_seen (cache : list cache_pktid_t) (asrc apktid tref : Z)
    : result (list cache_pktid_t * bool) :=
  let* (cache', st) := cache_scan asrc apktid tref 0 cache scan_init in
  if src_found st then Ok (cache', ret st)
  else
    let idx := if unused_entry_idx st <? 0 then oldest_entry_idx st else unused_entry_idx st in
    if (idx <? 0) || (Z.of_nat (length cache') <=? idx) then Err (OutOfBounds Arr_cache_pktids)
    else Ok (<[Z.to_nat idx := mkCache true asrc tref apktid]> cache', ret st).
(** ** Tasks *)

(** [class Task]. The [next] pointer is the order of the pool list; a schedule
    pointer is the array it points to. *)
Record Task : Type := mkTask {
  taskid : Z;
  status : Z;
  pktkeeper : PktKeeper;
  mtime_ref : Z;
  mtime_wakeup : Z;
  last_retcode : Z;
  nb_send_schedules : Z;
  send_schedule_ptr : list Z;
  send_schedule_pos : Z;
  evtsub_wakeup : bool;
  evtsub_pktrcvd : bool;
  is_an_ack : bool;
  need_ack : bool;
  has_received_ack : bool;
  unattended : bool;
  rcv_from_1sender : bool;
  addr_rcv_from_1sender : Z;
  nbsend : Z
}.

Definition set_taskid (v : Z) (x : Task) : Task :=
  match x with
  | mkTask _ a1 a2 a3 a4 a5 a6 a7 a8 a9 a10 a11 a12 a13 a14 a15 a16 a17 =>
      mkTask v a1 a2 a3 a4 a5 a6 a7 a8 a9 a10 a11 a12 a13 a14 a15 a16 a17
  end.
Definition set_status (v : Z) (x : Task) : Task :=
  match x with
  | mkTask a0 _ a2 a3 a4 a5 a6 a7 a8 a9 a10 a11 a12 a13 a14 a15 a16 a17 =>
      mkTask a0 v a2 a3 a4 a5 a6 a7 a8 a9 a10 a11 a12 a13 a14 a15 a16 a17
  end.
Definition set_pktkeeper (v : PktKeeper) (x : Task) : Task :=
  match x with
  | mkTask a0 a1 _ a3 a4 a5 a6 a7 a8 a9 a10 a11 a12 a13 a14 a15 a16 a17 =>
      mkTask a0 a1 v a3 a4 a5 a6 a7 a8 a9 a10 a11 a12 a13 a14 a15 a16 a17
  end.
Definition set_mtime_ref (v : Z) (x : Task) : Task :=
  match x with
  | mkTask a0 a1 a2 _ a4 a5 a6 a7 a8 a9 a10 a11 a12 a13 a14 a15 a16 a17 =>
      mkTask a0 a1 a2 v a4 a5 a6 a7 a8 a9 a10 a11 a12 a13 a14 a15 a16 a17
  end.
Definition set_mtime_wakeup (v : Z) (x : Task) : Task :=
  match x with
  | mkTask a0 a1 a2 a3 _ a5 a6 a7 a8 a9 a10 a11 a12 a13 a14 a15 a16 a17 =>
      mkTask a0 a1 a2 a3 v a5 a6 a7 a8 a9 a10 a11 a12 a13 a14 a15 a16 a17
  end.
Definition set_last_retcode (v : Z) (x : Task) : Task :=
  match x with
  | mkTask a0 a1 a2 a3 a4 _ a6 a7 a8 a9 a10 a11 a12 a13 a14 a15 a16 a17 =>
      mkTask a0 a1 a2 a3 a4 v a6 a7 a8 a9 a10 a11 a12 a13 a14 a15 a16 a17
  end.
Definition set_nb_send_schedules (v : Z) (x : Task) : Task :=
  match x with
  | mkTask a0 a1 a2 a3 a4 a5 _ a7 a8 a9 a10 a11 a12 a13 a14 a15 a16 a17 =>
      mkTask a0 a1 a2 a3 a4 a5 v a7 a8 a9 a10 a11 a12 a13 a14 a15 a16 a17
  end.
Definition set_send_schedule_ptr (v : list Z) (x : Task) : Task :=
  match x with
  | mkTask a0 a1 a2 a3 a4 a5 a6 _ a8 a9 a10 a11 a12 a13 a14 a15 a16 a17 =>
      mkTask a0 a1 a2 a3 a4 a5 a6 v a8 a9 a10 a11 a12 a13 a14 a15 a16 a17
  end.
Definition set_send_schedule_pos (v : Z) (x : Task) : Task :=
  match x with
  | mkTask a0 a1 a2 a3 a4 a5 a6 a7 _ a9 a10 a11 a12 a13 a14 a15 a16 a17 =>
      mkTask a0 a1 a2 a3 a4 a5 a6 a7 v a9 a10 a11 a12 a13 a14 a15 a16 a17
  end.
Definition set_evtsub_wakeup (v : bool) (x : Task) : Task :=
  match x with
  | mkTask a0 a1 a2 a3 a4 a5 a6 a7 a8 _ a10 a11 a12 a13 a14 a15 a16 a17 =>
      mkTask a0 a1 a2 a3 a4 a5 a6 a7 a8 v a10 a11 a12 a13 a14 a15 a16 a17
  end.
Definition set_evtsub_pktrcvd (v : bool) (x : Task) : Task :=
  match x with
  | mkTask a0 a1 a2 a3 a4 a5 a6 a7 a8 a9 _ a11 a12 a13 a14 a15 a16 a17 =>
      mkTask a0 a1 a2 a3 a4 a5 a6 a7 a8 a9 v a11 a12 a13 a14 a15 a16 a17
  end.
Definition set_is_an_ack (v : bool) (x : Task) : Task :=
  match x with
  | mkTask a0 a1 a2 a3 a4 a5 a6 a7 a8 a9 a10 _ a12 a13 a14 a15 a16 a17 =>
      mkTask a0 a1 a2 a3 a4 a5 a6 a7 a8 a9 a10 v a12 a13 a14 a15 a16 a17
  end.
Definition set_need_ack (v : bool) (x : Task) : Task :=
  match x with
  | mkTask a0 a1 a2 a3 a4 a5 a6 a7 a8 a9 a10 a11 _ a13 a14 a15 a16 a17 =>
      mkTask a0 a1 a2 a3 a4 a5 a6 a7 a8 a9 a10 a11 v a13 a14 a15 a16 a17
  end.
Definition set_has_received_ack (v : bool) (x : Task) : Task :=
  match x with
  | mkTask a0 a1 a2 a3 a4 a5 a6 a7 a8 a9 a10 a11 a12 _ a14 a15 a16 a17 =>
      mkTask a0 a1 a2 a3 a4 a5 a6 a7 a8 a9 a10 a11 a12 v a14 a15 a16 a17
  end.
Definition set_unattended (v : bool) (x : Task) : Task :=
  match x with
  | mkTask a0 a1 a2 a3 a4 a5 a6 a7 a8 a9 a10 a11 a12 a13 _ a15 a16 a17 =>
      mkTask a0 a1 a2 a3 a4 a5 a6 a7 a8 a9 a10 a11 a12 a13 v a15 a16 a17
  end.
Definition set_nbsend (v : Z) (x : Task) : Task :=
  match x with
  | mkTask a0 a1 a2 a3 a4 a5 a6 a7 a8 a9 a10 a11 a12 a13 a14 a15 a16 _ =>
      mkTask a0 a1 a2 a3 a4 a5 a6 a7 a8 a9 a10 a11 a12 a13 a14 a15 a16 v
  end.

(** ** The engine *)

(** [struct RFLinkFunctions]: a callback is registered ([true]) or null; what a
    registered callback does comes from the environment. *)
Record RFLinkFunctions : Type := mkFuncs {
  deviceInit : bool;
  deviceSend : bool;
  deviceReceive : bool;
  deviceSetOpt : bool;
  setInterrupt : bool;
  resetInterrupt : bool
}.

(** Calls into the radio driver and the platform, in the order they are made. *)
Inductive dev_call : Type :=
  | DeviceInit (reset_only : bool)
  | DeviceSend (p : option Packet) (n : Z)
  | DeviceReceive (buf_len : Z)
  | SetInterrupt
  | ResetInterrupt
  | Delay (ms : Z)
  | SleepCpu.

(** [class RFLink]. With ENFORCE_MAX_TASK_COUNT_AT_COMPILE_TIME defined, as it
    is in rflink.h, the constructor forces [pre_allocate = 1] and the pool is
    the array [tskhead], chained in index order; the branches of the code for
    [!pre_allocate] are compiled away and are not modelled. Two fields are not
    members of the class: [interrupted] is the file-level flag the interrupt
    handler sets, and [dev_log] records the calls made to the driver, newest
    last. *)
Record RFLink : Type := mkRFLink {
  max_payload_len : Z;
  interrupt_is_attached : bool;
  device_addr_has_been_defined : bool;
  auto_sleep : bool;
  device_addr : Z;
  last_pktid : Z;
  last_taskid : Z;
  receive_data_avail_delay : Z;
  receive_purge_delay : Z;
  send_purge_delay : Z;
  last_device_reset : Z;
  recpkt : option PktKeeper;
  task_count : Z;
  max_task_count : Z;
  cache_pktids : list cache_pktid_t;
  tskhead : list Task;
  funcs : RFLinkFunctions;
  interrupted : bool;
  dev_log : list dev_call
}.

Definition set_max_payload_len (v : Z) (x : RFLink) : RFLink :=
  match x with
  | mkRFLink _ a1 a2 a3 a4 a5 a6 a7 a8 a9 a10 a11 a12 a13 a14 a15 a16 a17 a18 =>
      mkRFLink v a1 a2 a3 a4 a5 a6 a7 a8 a9 a10 a11 a12 a13 a14 a15 a16 a17 a18
  end.
Definition set_interrupt_is_attached (v : bool) (x : RFLink) : RFLink :=
  match x with
  | mkRFLink a0 _ a2 a3 a4 a5 a6 a7 a8 a9 a10 a11 a12 a13 a14 a15 a16 a17 a18 =>
      mkRFLink a0 v a2 a3 a4 a5 a6 a7 a8 a9 a10 a11 a12 a13 a14 a15 a16 a17 a18
  end.
Definition set_device_addr_has_been_defined (v : bool) (x : RFLink) : RFLink :=
  match x with
  | mkRFLink a0 a1 _ a3 a4 a5 a6 a7 a8 a9 a10 a11 a12 a13 a14 a15 a16 a17 a18 =>
      mkRFLink a0 a1 v a3 a4 a5 a6 a7 a8 a9 a10 a11 a12 a13 a14 a15 a16 a17 a18
  end.
Definition set_auto_sleep (v : bool) (x : RFLink) : RFLink :=
  match x with
  | mkRFLink a0 a1 a2 _ a4 a5 a6 a7 a8 a9 a10 a11 a12 a13 a14 a15 a16 a17 a18 =>
      mkRFLink a0 a1 a2 v a4 a5 a6 a7 a8 a9 a10 a11 a12 a13 a14 a15 a16 a17 a18
  end.
Definition set_device_addr (v : Z) (x : RFLink) : RFLink :=
  match x with
  | mkRFLink a0 a1 a2 a3 _ a5 a6 a7 a8 a9 a10 a11 a12 a13 a14 a15 a16 a17 a18 =>
      mkRFLink a0 a1 a2 a3 v a5 a6 a7 a8 a9 a10 a11 a12 a13 a14 a15 a16 a17 a18
  end.
Definition set_last_pktid (v : Z) (x : RFLink) : RFLink :=
  match x with
  | mkRFLink a0 a1 a2 a3 a4 _ a6 a7 a8 a9 a10 a11 a12 a13 a14 a15 a16 a17 a18 =>
      mkRFLink a0 a1 a2 a3 a4 v a6 a7 a8 a9 a10 a11 a12 a13 a14 a15 a16 a17 a18
  end.
Definition set_last_taskid (v : Z) (x : RFLink) : RFLink :=
  match x with
  | mkRFLink a0 a1 a2 a3 a4 a5 _ a7 a8 a9 a10 a11 a12 a13 a14 a15 a16 a17 a18 =>
      mkRFLink a0 a1 a2 a3 a4 a5 v a7 a8 a9 a10 a11 a12 a13 a14 a15 a16 a17 a18
  end.
Definition set_last_device_reset (v : Z) (x : RFLink) : RFLink :=
  match x with
  | mkRFLink a0 a1 a2 a3 a4 a5 a6 a7 a8 a9 _ a11 a12 a13 a14 a15 a16 a17 a18 =>
      mkRFLink a0 a1 a2 a3 a4 a5 a6 a7 a8 a9 v a11 a12 a13 a14 a15 a16 a17 a18
  end.
Definition set_recpkt (v : option PktKeeper) (x : RFLink) : RFLink :=
  match x with
  | mkRFLink a0 a1 a2 a3 a4 a5 a6 a7 a8 a9 a10 _ a12 a13 a14 a15 a16 a17 a18 =>
      mkRFLink a0 a1 a2 a3 a4 a5 a6 a7 a8 a9 a10 v a12 a13 a14 a15 a16 a17 a18
  end.
Definition set_task_count (v : Z) (x : RFLink) : RFLink :=
  match x with
  | mkRFLink a0 a1 a2 a3 a4 a5 a6 a7 a8 a9 a10 a11 _ a13 a14 a15 a16 a17 a18 =>
      mkRFLink a0 a1 a2 a3 a4 a5 a6 a7 a8 a9 a10 a11 v a13 a14 a15 a16 a17 a18
  end.
Definition set_cache_pktids (v : list cache_pktid_t) (x : RFLink) : RFLink :=
  match x with
  | mkRFLink a0 a1 a2 a3 a4 a5 a6 a7 a8 a9 a10 a11 a12 a13 _ a15 a16 a17 a18 =>
      mkRFLink a0 a1 a2 a3 a4 a5 a6 a7 a8 a9 a10 a11 a12 a13 v a15 a16 a17 a18
  end.
Definition set_tskhead (v : list Task) (x : RFLink) : RFLink :=
  match x with
  | mkRFLink a0 a1 a2 a3 a4 a5 a6 a7 a8 a9 a10 a11 a12 a13 a14 _ a16 a17 a18 =>
      mkRFLink a0 a1 a2 a3 a4 a5 a6 a7 a8 a9 a10 a11 a12 a13 a14 v a16 a17 a18
  end.
Definition set_funcs (v : RFLinkFunctions) (x : RFLink) : RFLink :=
  match x with
  | mkRFLink a0 a1 a2 a3 a4 a5 a6 a7 a8 a9 a10 a11 a12 a13 a14 a15 _ a17 a18 =>
      mkRFLink a0 a1 a2 a3 a4 a5 a6 a7 a8 a9 a10 a11 a12 a13 a14 a15 v a17 a18
  end.
Definition set_interrupted (v : bool) (x : RFLink) : RFLink :=
  match x with
  | mkRFLink a0 a1 a2 a3 a4 a5 a6 a7 a8 a9 a10 a11 a12 a13 a14 a15 a16 _ a18 =>
      mkRFLink a0 a1 a2 a3 a4 a5 a6 a7 a8 a9 a10 a11 a12 a13 a14 a15 a16 v a18
  end.
Definition set_dev_log (v : list dev_call) (x : RFLink) : RFLink :=
  match x with
  | mkRFLink a0 a1 a2 a3 a4 a5 a6 a7 a8 a9 a10 a11 a12 a13 a14 a15 a16 a17 _ =>
      mkRFLink a0 a1 a2 a3 a4 a5 a6 a7 a8 a9 a10 a11 a12 a13 a14 a15 a16 a17 v
  end.

(** The environment of one call of [do_events]: the instant [get_current_time]
    reports during the call (taken as one instant for the whole call), whether
    the radio pulled its data-ready line since the flag was last read (the
    handler then runs if it is attached), what [deviceReceive] leaves in the
    receive buffer and returns, and what [deviceSend] returns for a given
    frame. The handler [interrupt_func] runs whenever the line is pulled
    while the interrupt is attached, also during a call or between two calls.
    The only reader of its flag is the test at the start of [do_events], so
    all its runs since the flag was last lowered are gathered in [irq] of the
    call that makes that test; the value of the flag in between is not
    rendered. *)
Record tick_t : Type := mkTick {
  now : Z;
  irq : bool;
  rx_pkt : Packet;
  rx_nb : Z;
  send_rc : option Packet -> Z -> Z
}.

Definition log (c : dev_call) (l : RFLink) : RFLink :=
  set_dev_log (dev_log l ++ [c]) l.

(** A [Task*] into the pool is the index of the slot; [None] is [nullptr]. *)
Definition get_task (l : RFLink) (i : nat) : result Task :=
  match tskhead l !! i with
  | Some t => Ok t
  | None => Err NullDeref
  end.

Definition put_task (i : nat) (t : Task) (l : RFLink) : RFLink :=
  set_tskhead (<[i := t]> (tskhead l)) l.

Definition task_initialize (tsk : Task) : Task :=
  set_last_retcode ERR_UNDEFINED
    (set_evtsub_pktrcvd false
      (set_evtsub_wakeup false
        (set_status ST_NOTHING
          (set_taskid 0 tsk)))).

Definition task_destroy (l : RFLink) (i : nat) : result RFLink :=
  tsk <- get_task l i ;;
  let tsk := task_initialize (set_pktkeeper (release_data (pktkeeper tsk)) tsk) in
  let l := put_task i tsk l in
  Ok (set_task_count (wrap8 (task_count l - 1)) l).

(** [task_create(status)] at time [tnow]: the engine afterwards and the slot of
    the new task, or [None] for [nullptr]. *)
Definition task_create (l : RFLink) (st tnow : Z) : RFLink * option nat :=
  if task_count l >=? max_task_count l then (l, None)
  else
    match list_find (fun t => status t = ST_NOTHING) (tskhead l) with
    | None => (l, None)
    | Some (i, tsk) =>
        let tsk := task_initialize tsk in
        let l := set_last_taskid (wrap16 (last_taskid l + 1)) l in
        let tsk := set_taskid (last_taskid l) tsk in
        let tsk := set_status st tsk in
        let tsk := set_mtime_ref tnow tsk in
        let tsk := set_is_an_ack false tsk in
        let tsk := set_need_ack false tsk in
        let tsk := set_has_received_ack false tsk in
        let tsk := set_unattended false tsk in
        let tsk := set_nbsend 0 tsk in
        let l := put_task i tsk l in
        (set_task_count (wrap8 (task_count l + 1)) l, Some i)
    end.

Definition get_max_payload_len (l : RFLink) : Z := max_payload_len l.

Definition get_pkt_max_size (l : RFLink) : Z := wrap8 (sizeof_Header + max_payload_len l).

(** [new PktKeeper(get_pkt_max_size())]: the allocation is taken to succeed; its
    bytes are indeterminate until [deviceReceive] writes them, which always
    happens before they are read, so any content stands for them. *)
Definition blank_packet : Packet := mkPacket (mkHeader 0 0 0 0 0) [].

Definition initialize_recpkt_if_necessary (l : RFLink) : RFLink :=
  match recpkt l with
  | None => set_recpkt (Some (mkPktKeeper (Some blank_packet))) l
  | Some _ => l
  end.

(** Calling through a callback pointer: a null one is a fault. *)
Definition call (registered : bool) : result unit :=
  if registered then Ok tt else Err NullDeref.

Definition interrupts_on (l : RFLink) : result RFLink :=
  if negb (interrupt_is_attached l) then
    _ <- call (setInterrupt (funcs l)) ;;
    Ok (log SetInterrupt (set_interrupt_is_attached true l))
  else Ok l.

Definition interrupts_off (l : RFLink) : result RFLink :=
  if interrupt_is_attached l then
    _ <- call (resetInterrupt (funcs l)) ;;
    Ok (log ResetInterrupt (set_interrupt_is_attached false l))
  else Ok l.

(** Reading [ptr[pos]] in a schedule array. *)
Definition sched_at (ptr : list Z) (pos : Z) : result Z :=
  if pos <? 0 then Err (OutOfBounds Arr_send_schedule)
  else match ptr !! Z.to_nat pos with
       | Some v => Ok v
       | None => Err (OutOfBounds Arr_send_schedule)
       end.

(** [send_ack_noblock(&taskid, h)]: the engine, the return code, and the task id
    written through the pointer when a task was created. *)
Definition send_ack_noblock (l : RFLink) (tnow : Z) (h : Header)
    : result (RFLink * Z * option Z) :=
  _ <- assert (len h =? 0) A_send_ack_len ;;
  if negb (deviceInit (funcs l)) then Ok (l, ERR_DEVICE_NOT_REGISTERED, None)
  else if negb (deviceSend (funcs l)) then Ok (l, ERR_SEND_FUNC_NOT_REGISTERED, None)
  else
    match task_create l ST_SEND tnow with
    | (l, None) => Ok (l, ERR_UNABLE_TO_CREATE_TASK, None)
    | (l, Some i) =>
        tsk <- get_task l i ;;
        let tsk := set_evtsub_wakeup true tsk in
        let tsk := set_send_schedule_ptr snd_repack_sched tsk in
        let tsk := set_nb_send_schedules snd_repack_sched_len tsk in
        let tsk := set_send_schedule_pos 0 tsk in
        off <- sched_at (send_schedule_ptr tsk) (send_schedule_pos tsk) ;;
        let tsk := set_mtime_wakeup (wrap32 (mtime_ref tsk + off)) tsk in
        let tsk := set_is_an_ack true tsk in
        let tsk := set_unattended true tsk in
        pk <- prepare_for_sending (pktkeeper tsk) (get_max_payload_len l) h None ;;
        let tsk := set_pktkeeper pk tsk in
        Ok (put_task i tsk l, ERR_TASK_CREATED_OK, Some (taskid tsk))
    end.

(** [send_noblock(&taskid, dst, data, len, ack)]. *)
Definition send_noblock (l : RFLink) (tnow : Z) (adst : Z) (d : option (list Z))
    (alen : Z) (ack : bool) : result (RFLink * Z * option Z) :=
  if negb (deviceInit (funcs l)) then Ok (l, ERR_DEVICE_NOT_REGISTERED, None)
  else if negb (deviceSend (funcs l)) then Ok (l, ERR_SEND_FUNC_NOT_REGISTERED, None)
  else if alen >? max_payload_len l then Ok (l, ERR_SEND_DATA_LEN_ABOVE_LIMIT, None)
  else if (alen =? 0) && negb (bool_decide (d = None)) then Ok (l, ERR_SEND_BAD_ARGUMENTS, None)
  else
    match task_create l ST_SEND tnow with
    | (l, None) => Ok (l, ERR_UNABLE_TO_CREATE_TASK, None)
    | (l, Some i) =>
        tsk <- get_task l i ;;
        let tsk := set_evtsub_wakeup true tsk in
        let tsk := set_nb_send_schedules
                     (if ack then snd_expack_sched_len else snd_sched_len) tsk in
        let tsk := set_send_schedule_ptr
                     (if ack then snd_expack_sched else snd_sched) tsk in
        let tsk := set_send_schedule_pos 0 tsk in
        off <- sched_at (send_schedule_ptr tsk) (send_schedule_pos tsk) ;;
        let tsk := set_mtime_wakeup (wrap32 (mtime_ref tsk + off)) tsk in
        let tsk := if ack then set_evtsub_pktrcvd true (set_need_ack true tsk) else tsk in
        let l := set_last_pktid (wrap16 (last_pktid l + 1)) l in
        let h := mkHeader adst (device_addr l)
                          (to_flags 0 (if ack then FLAG_SIN else FLAG_NONE))
                          (last_pktid l) alen in
        pk <- prepare_for_sending (pktkeeper tsk) (get_max_payload_len l) h d ;;
        let tsk := set_pktkeeper pk tsk in
        Ok (put_task i tsk l, ERR_TASK_CREATED_OK, Some (taskid tsk))
    end.

Definition get_task_by_taskid (l : RFLink) (id : Z) : option nat :=
  match list_find (fun t => taskid t = id) (tskhead l) with
  | Some (i, _) => Some i
  | None => None
  end.

Definition task_get_status (l : RFLink) (id : Z) : Z :=
  match get_task_by_taskid l id with
  | None => ST_NOTHING
  | Some i =>
      match tskhead l !! i with
      | Some tsk => status tsk
      | None => ST_NOTHING
      end
  end.

(** [send_get_final_status(taskid, &nbsend)]: the engine, the return code, and
    the transmit count written through [nbsend] when the task is done. *)
Definition send_get_final_status (l : RFLink) (tnow : Z) (id : Z)
    : result (RFLink * Z * option Z) :=
  match get_task_by_taskid l id with
  | None => Ok (l, ERR_UNKNOWN_TASKID, None)
  | Some i =>
      tsk <- get_task l i ;;
      if negb (status tsk =? ST_SEND_DONE) then Ok (l, ERR_TASK_UNDERWAY, None)
      else
        let r :=
          if need_ack tsk && has_received_ack tsk then ERR_OK
          else if need_ack tsk then ERR_SEND_NO_ACK_RCVD
          else last_retcode tsk in
        let tsk' := set_mtime_wakeup tnow (set_evtsub_wakeup true tsk) in
        Ok (put_task i tsk' l, r, Some (nbsend tsk))
  end.

(** [send_ack(tsk)]. The return code of [send_ack_noblock] is dropped. *)
Definition send_ack (l : RFLink) (tnow : Z) (i : nat) : result RFLink :=
  tsk <- get_task l i ;;
  let '(seq, opt) := from_flags (get_flags (pktkeeper tsk)) in
  if negb (Z.land opt FLAG_SIN =? 0) then
    h <- deref_header (pktkeeper tsk) ;;
    let ack_h := mkHeader (src h) (device_addr l) (to_flags seq FLAG_ACK) (pktid h) 0 in
    let* (l', _, _) := send_ack_noblock l tnow ack_h in
    Ok l'
  else Ok l.

Definition data_retrieved_post (l : RFLink) (tsk : Task) : result Task :=
  pk <- reduce_packet_to_its_header (pktkeeper tsk) ;;
  let tsk := set_pktkeeper pk tsk in
  let tsk := set_evtsub_wakeup true tsk in
  Ok (set_mtime_wakeup (wrap32 (mtime_ref tsk + receive_purge_delay l)) tsk).

(** ** Task events *)

(** [tev_received(tsk, pk, pktid_already_seen, &pkt_consumed)] on the task in
    slot [i]: the engine, the returned status and the final [*pkt_consumed]
    (which is [false] on entry). *)
Definition tev_received (l : RFLink) (tnow : Z) (i : nat) (pk : PktKeeper)
    (pktid_already_seen : bool) : result (RFLink * Z * bool) :=
  tsk <- get_task l i ;;
  hbackup <- deref_header pk ;;
  let '(seq, opt) := from_flags (get_flags pk) in
  if negb (Z.land opt FLAG_ACK =? 0) then
    if (status tsk =? ST_SEND) || (status tsk =? ST_SEND_DONE) then
      if need_ack tsk && negb (has_received_ack tsk) then
        th <- deref_header (pktkeeper tsk) ;;
        ph <- deref_header pk ;;
        if pktid th =? pktid ph then
          let tsk1 := set_has_received_ack true tsk in
          let rt := if status tsk =? ST_SEND then ST_SEND_DONE else status tsk in
          let tsk2 :=
            if status tsk =? ST_SEND
            then set_mtime_wakeup (wrap32 (tnow + send_purge_delay l)) tsk1
            else tsk1 in
          pk' <- reduce_packet_to_its_header (pktkeeper tsk2) ;;
          Ok (put_task i (set_pktkeeper pk' tsk2) l, rt, true)
        else Ok (l, status tsk, false)
      else Ok (l, status tsk, false)
    else Ok (l, status tsk, false)
  else if (status tsk =? ST_RECEIVE) && negb pktid_already_seen then
    pk' <- copy_packet (pktkeeper tsk) pk ;;
    let tsk := set_pktkeeper pk' tsk in
    let tsk := set_last_retcode ERR_OK tsk in
    let tsk := set_evtsub_wakeup true tsk in
    let tsk := set_mtime_ref tnow tsk in
    let tsk := set_mtime_wakeup (wrap32 (mtime_ref tsk + receive_data_avail_delay l)) tsk in
    Ok (put_task i tsk l, ST_RECEIVE_DATA_AVAILABLE, true)
  else if (status tsk =? ST_RECEIVE_DATA_AVAILABLE)
          || (status tsk =? ST_RECEIVE_DATA_RETRIEVED) then
    th <- deref_header (pktkeeper tsk) ;;
    if (pktid th =? pktid hbackup) && (src th =? src hbackup) then
      if status tsk =? ST_RECEIVE_DATA_RETRIEVED then
        l' <- send_ack l tnow i ;;
        Ok (l', status tsk, true)
      else Ok (l, status tsk, true)
    else Ok (l, status tsk, false)
  else Ok (l, status tsk, false).

(** [tev_wakeup(tsk)] on the task in slot [i]; [rc] is what [deviceSend]
    answers. The engine (with the task as the call leaves it) and the returned
    status. *)
Definition tev_wakeup (l : RFLink) (tnow : Z) (rc : option Packet -> Z -> Z) (i : nat)
    : result (RFLink * Z) :=
  tsk <- get_task l i ;;
  if status tsk =? ST_SEND then
    let* (l, tsk) :=
      if negb (need_ack tsk) || (send_schedule_pos tsk <? nb_send_schedules tsk - 1) then
        let tsk := set_nbsend (wrap8 (nbsend tsk + 1)) tsk in
        _ <- call (deviceSend (funcs l)) ;;
        let frame := get_pkt_ptr_ro (pktkeeper tsk) in
        let n := get_pkt_len (pktkeeper tsk) in
        let l := log (DeviceSend frame n) l in
        let tsk := set_last_retcode (wrap8 (rc frame n)) tsk in
        let '(seq, opts) := from_flags (get_flags (pktkeeper tsk)) in
        let seq := if negb (is_an_ack tsk) then wrap8 (seq + 1) else seq in
        Ok (l, set_pktkeeper
                 (set_flags (to_flags seq (get_flags (pktkeeper tsk))) (pktkeeper tsk)) tsk)
      else Ok (l, tsk) in
    let tsk := set_send_schedule_pos (wrap8 (send_schedule_pos tsk + 1)) tsk in
    if send_schedule_pos tsk <? nb_send_schedules tsk then
      off <- sched_at (send_schedule_ptr tsk) (send_schedule_pos tsk) ;;
      let tsk := set_mtime_wakeup (wrap32 (mtime_ref tsk + off)) tsk in
      Ok (put_task i tsk l, status tsk)
    else
      let tsk :=
        if unattended tsk then set_mtime_wakeup tnow tsk
        else set_mtime_wakeup (wrap32 (tnow + send_purge_delay l)) tsk in
      Ok (put_task i tsk l, ST_SEND_DONE)
  else if status tsk =? ST_SEND_DONE then Ok (l, ST_FINISHED)
  else if (status tsk =? ST_RECEIVE_DATA_RETRIEVED) || (status tsk =? ST_RECEIVE_TIMEDOUT)
  then Ok (l, ST_FINISHED)
  else if status tsk =? ST_RECEIVE_DATA_AVAILABLE then
    tsk' <- data_retrieved_post l tsk ;;
    Ok (put_task i tsk' l, ST_RECEIVE_TIMEDOUT)
  else if status tsk =? ST_RECEIVE then
    let tsk := set_evtsub_wakeup true tsk in
    let tsk := set_mtime_wakeup (wrap32 (mtime_ref tsk + DEFAULT_RECEIVE_TIMEOUT_DELAY)) tsk in
    Ok (put_task i tsk l, ST_RECEIVE_TIMEDOUT)
  else Err (AssertFailed A_tev_wakeup_unreachable).

(** ** The event pump *)

(** The locals of [do_events] that the task loop updates. *)
Record loop_t : Type := mkLoop {
  lk : RFLink;
  got_a_pkt : bool;
  device_needs_reset : bool
}.

(** The body of the task loop of [do_events] for the task in slot [i]. *)
Definition do_events_task (tk : tick_t) (pktid_already_seen : bool) (i : nat) (st : loop_t)
    : result loop_t :=
  let l := lk st in
  tsk <- get_task l i ;;
  let new_status := status tsk in
  let* (l, new_status, got) :=
    if evtsub_pktrcvd tsk && got_a_pkt st then
      match recpkt l with
      | None => Err NullDeref
      | Some pk =>
          let* (l', ns, pkt_consumed) := tev_received l (now tk) i pk pktid_already_seen in
          Ok (l', ns, if pkt_consumed then false else got_a_pkt st)
      end
    else Ok (l, new_status, got_a_pkt st) in
  tsk <- get_task l i ;;
  let* (l, new_status) :=
    if evtsub_wakeup tsk && (new_status =? status tsk) then
      let elapsed := signed32 (now tk - mtime_wakeup tsk) in
      if elapsed >=? 0 then tev_wakeup l (now tk) (send_rc tk) i
      else Ok (l, new_status)
    else Ok (l, new_status) in
  tsk <- get_task l i ;;
  _ <- assert (negb (negb (new_status =? ST_RECEIVE)
                     && negb (new_status =? ST_NOTHING)
                     && negb (new_status =? ST_FINISHED)
                     && negb (evtsub_wakeup tsk))) A_do_events_timer_subscription ;;
  if new_status =? ST_FINISHED then
    let reset :=
      if (status tsk =? ST_SEND_DONE) && need_ack tsk && negb (has_received_ack tsk)
      then true else device_needs_reset st in
    l' <- task_destroy l i ;;
    Ok (mkLoop l' got reset)
  else
    Ok (mkLoop (put_task i (set_status new_status tsk) l) got (device_needs_reset st)).

(** The task loop over the slots [idxs], in order. *)
Fixpoint do_events_loop (tk : tick_t) (pktid_already_seen : bool) (idxs : list nat)
    (st : loop_t) : result loop_t :=
  match idxs with
  | [] => Ok st
  | i :: rest =>
      st' <- do_events_task tk pktid_already_seen i st ;;
      do_events_loop tk pktid_already_seen rest st'
  end.

(** The three counters of the sleep test, as (pktrcvd, wakeup, non_nothing). *)
Fixpoint sleep_counts (tasks : list Task) (c : Z * Z * Z) : Z * Z * Z :=
  match tasks with
  | [] => c
  | tsk :: rest =>
      let '(cr, cw, cn) := c in
      let cr := if evtsub_pktrcvd tsk then wrap8 (cr + 1) else cr in
      let '(cw, cn) :=
        if evtsub_wakeup tsk then (wrap8 (cw + 1), cn)
        else if negb (status tsk =? ST_NOTHING) then (cw, wrap8 (cn + 1))
        else (cw, cn) in
      sleep_counts rest (cr, cw, cn)
  end.

Definition is_eligible_for_sleep (l : RFLink) : bool :=
  let '(cr, cw, cn) := sleep_counts (tskhead l) (0, 0, 0) in
  (cr =? 1) && (cw =? 0) && (cn =? 1).

(** The drain of the radio when the interrupt flag is up: the engine and
    [got_a_pkt]. *)
Definition do_events_drain (l : RFLink) (tk : tick_t) (i_want_to_receive : bool)
    : result (RFLink * bool) :=
  l <- interrupts_off l ;;
  let* (l, got) :=
    if i_want_to_receive then
      let l := initialize_recpkt_if_necessary l in
      match recpkt l with
      | None => Err NullDeref
      | Some pk =>
          let l := log (DeviceReceive (get_pkt_max_size l)) l in
          let pk' := match pkt pk with
                     | None => pk
                     | Some _ => mkPktKeeper (Some (rx_pkt tk))
                     end in
          let l := set_recpkt (Some pk') l in
          Ok (l, check_rcvd_pkt_is_ok pk' (get_max_payload_len l) (wrap8 (rx_nb tk)))
      end
    else Ok (l, false) in
  let l := set_interrupted false l in
  l <- interrupts_on l ;;
  Ok (l, got).

(** The consultation of the packet-id cache, once per drained frame: the
    engine and [pktid_already_seen]. *)
Definition do_events_seen (l : RFLink) (tref : Z) (got : bool) : result (RFLink * bool) :=
  if got then
    match recpkt l with
    | None => Err NullDeref
    | Some pk =>
        h <- deref_header pk ;;
        let* (c, seen) := check_pktid_already_seen (cache_pktids l) (src h) (pktid h) tref in
        Ok (set_cache_pktids c l, seen)
    end
  else Ok (l, false).

(** The end of [do_events], after the task loop: the reset of the device when a
    send went unacknowledged, and the sleep. [sleep_cpu] parks the processor
    until an interrupt wakes it: the call is recorded and the code after it
    goes on, so that a call of [do_events] that returns here may have slept
    in between. *)
Definition do_events_finish (tk : tick_t) (st : loop_t) : RFLink :=
  let l := lk st in
  let l :=
    if device_needs_reset st then
      if wrap32 (now tk - last_device_reset l) >=? MIN_DEVICE_RESET_DELAY then
        log (Delay 1) (log (DeviceInit true) (set_last_device_reset (now tk) l))
      else l
    else l in
  if is_eligible_for_sleep l && auto_sleep l
  then log SleepCpu (log (DeviceInit true) l)
  else l.

(** [do_events()] from the task loop on. *)
Definition do_events_tasks (l : RFLink) (tk : tick_t) (got seen : bool) : result RFLink :=
  st <- do_events_loop tk seen (seq 0 (length (tskhead l))) (mkLoop l got false) ;;
  Ok (do_events_finish tk st).

(** The beginning of [do_events]: the interrupt is armed when a task listens
    and the driver can receive, and the radio is drained when the flag is up.
    The engine and [got_a_pkt]. The flag is up if it was left up or if the
    handler ran since, which [irq] tells. *)
Definition do_events_receive (l : RFLink) (tk : tick_t) : result (RFLink * bool) :=
  let i_want_to_receive :=
    existsb evtsub_pktrcvd (tskhead l) && deviceReceive (funcs l) in
  l <- (if i_want_to_receive then interrupts_on l else Ok l) ;;
  let l := set_interrupted (interrupted l || (irq tk && interrupt_is_attached l)) l in
  if interrupted l then do_events_drain l tk i_want_to_receive else Ok (l, false).

(** [do_events()] in the environment [tk]. *)
Definition do_events (l : RFLink) (tk : tick_t) : result RFLink :=
  if negb (deviceInit (funcs l)) then Ok l
  else
    let* (l, got) := do_events_receive l tk in
    let* (l, seen) := do_events_seen l (now tk) got in
    do_events_tasks l tk got seen.

(** ** Construction and registration *)

(** A default-constructed [Task]: its [PktKeeper] holds no packet, the other
    members are indeterminate until [task_initialize] and [task_create] write
    them; zero stands for them. *)
Definition blank_task : Task :=
  mkTask 0 0 (mkPktKeeper None) 0 0 0 0 [] 0 false false false false false false false 0 0.

Definition blank_cache_entry : cache_pktid_t := mkCache false 0 0 0.

(** [RFLink(maxtask)]. The pool is [Task tskhead[DEFAULT_MAX_TASK_COUNT]]; the
    constructor chains and initialises the first [max_task_count = maxtask]
    slots, which is a write outside the array above 15 slots. With
    [maxtask = 0] the constructor returns, but it has written no slot, while
    every walk of the pool starts at [tskhead[0]]: the code then reads a
    [Task] that was never initialised. No engine of the model stands for that
    object: [RFLink_new] gives none for it, and the statements about
    constructed engines are about 1 to 15 slots. *)
Definition RFLink_new (maxtask : Z) : result RFLink :=
  if (maxtask <? 1) || (maxtask >? DEFAULT_MAX_TASK_COUNT) then Err (OutOfBounds Arr_tskhead)
  else
    Ok (mkRFLink 0 false false false 0 0 0
          DEFAULT_RECEIVE_DATA_AVAIL_DELAY DEFAULT_RECEIVE_PURGE_DELAY
          DEFAULT_SEND_PURGE_DELAY 0 None 0 maxtask
          (replicate (Z.to_nat PKTID_CACHE_SIZE) blank_cache_entry)
          (replicate (Z.to_nat maxtask) (task_initialize blank_task))
          (mkFuncs false false false false false false) false []).

(** [register_funcs(arg_funcs)]; [max_data_len] is the byte [deviceInit] writes. *)
Definition register_funcs (l : RFLink) (arg_funcs : RFLinkFunctions) (max_data_len : Z)
    : RFLink :=
  let l := set_funcs arg_funcs l in
  if negb (deviceInit (funcs l)) then l
  else
    let l := log (DeviceInit false) l in
    let l := set_max_payload_len (wrap8 (max_data_len - sizeof_Header)) l in
    initialize_recpkt_if_necessary l.

(** ** Receiving *)

Record RXConfig : Type := mkRXConfig {
  def_sender : bool;
  def_timeout : bool;
  def_rxcallback : bool;
  sender : Z;
  timeout : Z
}.

(** [receive_noblock(&taskid, cfg)]; [cfg = None] is the null pointer. *)
Definition receive_noblock (l : RFLink) (tnow : Z) (cfg : option RXConfig)
    : result (RFLink * Z * option Z) :=
  if negb (deviceInit (funcs l)) then Ok (l, ERR_DEVICE_NOT_REGISTERED, None)
  else if negb (deviceReceive (funcs l)) then Ok (l, ERR_RECEIVE_FUNC_NOT_REGISTERED, None)
  else
    match task_create l ST_RECEIVE tnow with
    | (l, None) => Ok (l, ERR_UNABLE_TO_CREATE_TASK, None)
    | (l, Some i) =>
        tsk <- get_task l i ;;
        let tsk := set_evtsub_pktrcvd true tsk in
        let tsk :=
          match cfg with
          | Some c =>
              if def_timeout c
              then set_mtime_wakeup (wrap32 (mtime_ref tsk + timeout c))
                     (set_evtsub_wakeup true tsk)
              else tsk
          | None => tsk
          end in
        Ok (put_task i tsk l, ERR_TASK_CREATED_OK, Some (taskid tsk))
    end.

(** What [data_retrieve] hands to the caller: the bytes copied into [buf] with
    their count (when the task holds a packet), and the sender's address (when
    asked for). *)
Record retrieved_t : Type := mkRetrieved {
  rec_data : option (Z * list Z);
  rec_sender : option Z
}.

(** [data_retrieve(tsk, buf, buf_len, &rec_len, sender)]; [tsk = None] is the
    null pointer and [want_sender] says whether [sender] is non-null. *)
Definition data_retrieve (l : RFLink) (tnow : Z) (tsk : option nat) (buf_len : Z)
    (want_sender : bool) : result (RFLink * Z * retrieved_t) :=
  match tsk with
  | None => Ok (l, ST_NOTHING, mkRetrieved None None)
  | Some i =>
      t <- get_task l i ;;
      if negb (status t =? ST_RECEIVE_DATA_AVAILABLE)
      then Ok (l, status t, mkRetrieved None None)
      else
        let got := copy_data (pktkeeper t) buf_len in
        snd <- (if want_sender
                then h <- deref_header (pktkeeper t) ;; Ok (Some (src h))
                else Ok None) ;;
        t <- data_retrieved_post l t ;;
        let t := set_status ST_RECEIVE_DATA_RETRIEVED t in
        let l := put_task i t l in
        l <- send_ack l tnow i ;;
        Ok (l, status t, mkRetrieved got snd)
  end.

(** The loop [while (task_get_status(taskid) == st) do_events();], fed with the
    environments of the successive calls: the engine when the loop exits and
    the environments left, or [None] when they run out first. *)
Fixpoint wait_while (st : Z) (l : RFLink) (id : Z) (ticks : list tick_t)
    : result (option (RFLink * list tick_t)) :=
  if negb (task_get_status l id =? st) then Ok (Some (l, ticks))
  else
    match ticks with
    | [] => Ok None
    | tk :: rest =>
        l' <- do_events l tk ;;
        wait_while st l' id rest
    end.

(** The end of [receive], from [get_task_by_taskid] on: retrieval at time
    [tnow], one more [do_events] in [tk], and the mapping of the task's status
    to the return code. *)
Definition receive_finish (l : RFLink) (tnow : Z) (id : Z) (buf_len : Z)
    (want_sender : bool) (tk : tick_t) : result (RFLink * Z * retrieved_t) :=
  let tsk := get_task_by_taskid l id in
  let* (l, r, out) := data_retrieve l tnow tsk buf_len want_sender in
  l <- do_events l tk ;;
  if (r =? ST_RECEIVE_DATA_AVAILABLE) || (r =? ST_RECEIVE) then Err (AssertFailed A_receive)
  else if r =? ST_NOTHING then Ok (l, ERR_TIMEOUT, out)
  else if r =? ST_RECEIVE_DATA_RETRIEVED then Ok (l, ERR_OK, out)
  else if r =? ST_RECEIVE_TIMEDOUT then Ok (l, ERR_TIMEOUT, out)
  else Err (AssertFailed A_receive).

(** [receive(buf, buf_len, &rec_len, sender, cfg)]: [tcreate] and [tretr] are
    the instants of task creation and of retrieval, [ticks] the environments
    of the calls of [do_events], in order. [None] when [ticks] runs out before
    the call returns. *)
Definition receive (l : RFLink) (tcreate tretr : Z) (ticks : list tick_t) (buf_len : Z)
    (want_sender : bool) (cfg : option RXConfig)
    : result (option (RFLink * Z * retrieved_t)) :=
  let* (l, r, oid) := receive_noblock l tcreate cfg in
  match ticks with
  | [] => Ok None
  | tk0 :: ticks =>
      l <- do_events l tk0 ;;
      match oid with
      | None => Ok (Some (l, r, mkRetrieved None None))
      | Some id =>
          if negb (r =? ERR_TASK_CREATED_OK) then Ok (Some (l, r, mkRetrieved None None))
          else
            w <- wait_while ST_RECEIVE l id ticks ;;
            match w with
            | None | Some (_, []) => Ok None
            | Some (l, tk :: _) =>
                x <- receive_finish l tretr id buf_len want_sender tk ;;
                Ok (Some x)
            end
      end
  end.

(** [send(dst, data, len, ack, &nbsend)]: [tcreate] and [tfinal] are the
    instants of task creation and of the final status query. *)
Definition send (l : RFLink) (tcreate tfinal : Z) (ticks : list tick_t) (adst : Z)
    (d : option (list Z)) (alen : Z) (ack : bool)
    : result (option (RFLink * Z * option Z)) :=
  let d := if alen =? 0 then None else d in
  let* (l, r, oid) := send_noblock l tcreate adst d alen ack in
  match oid with
  | None => Ok (Some (l, r, None))
  | Some id =>
      if negb (r =? ERR_TASK_CREATED_OK) then Ok (Some (l, r, None))
      else
        w <- wait_while ST_SEND l id ticks ;;
        match w with
        | None => Ok None
        | Some (l, _) =>
            x <- send_get_final_status l tfinal id ;;
            Ok (Some x)
        end
  end.

(** ** Options *)

Inductive opt_t : Type := OPT_ADDRESS | OPT_SNIF_MODE | OPT_EMISSION_POWER.

(** [set_opt_byte(opt, value)], that is [set_opt] on one byte. *)
Definition set_opt_byte (l : RFLink) (opt : opt_t) (value : Z) : RFLink :=
  if negb (deviceSetOpt (funcs l)) then l
  else
    match opt with
    | OPT_ADDRESS => set_device_addr (wrap8 value) (set_device_addr_has_been_defined true l)
    | _ => l
    end.

(** ** Concrete engines and environments used to exercise the model *)

Definition all_funcs : RFLinkFunctions := mkFuncs true true true true true true.

(** An engine as [cc1101_attach] and [set_opt_byte(OPT_ADDRESS, addr)] leave it;
    61 is the data length of the CC1101 packet. *)
Definition boot (addr : Z) : result RFLink :=
  l <- RFLink_new DEFAULT_MAX_TASK_COUNT ;;
  Ok (set_opt_byte (register_funcs l all_funcs 61) OPT_ADDRESS addr).

(** A call of [do_events] at time [t] with no interrupt pending and a driver
    that sends without error. *)
Definition quiet_tick (t : Z) : tick_t := mkTick t false blank_packet 0 (fun _ _ => ERR_OK).

(** A call of [do_events] at time [t] with the frame [p] waiting in the radio. *)
Definition rx_tick (t : Z) (p : Packet) : tick_t :=
  mkTick t true p (sizeof_Header + len (header p)) (fun _ _ => ERR_OK).

Definition run_ticks (l : RFLink) (ticks : list tick_t) : result RFLink :=
  foldl (fun r tk => l <- r ;; do_events l tk) (Ok l) ticks.

Definition or_blank (r : result RFLink) : RFLink :=
  match r with
  | Ok l => l
  | Err _ => mkRFLink 0 false false false 0 0 0 0 0 0 0 None 0 0 [] []
               (mkFuncs false false false false false false) false []
  end.

Definition ex_booted : RFLink := Eval vm_compute in or_blank (boot 11).

(** Station 0x0B has sent "hi\0" to 0x5E asking for an acknowledgement, and the
    first transmission is out. *)
Definition ex_sender : RFLink :=
  Eval vm_compute in
    or_blank (l <- boot 11 ;;
              let* (l, _, _) := send_noblock l 0 94 (Some [104; 105; 0]) 3 true in
              do_events l (quiet_tick 0)).

Definition ex_sender_task : Task :=
  Eval vm_compute in default blank_task (tskhead ex_sender !! 0%nat).

Definition ex_sender_packet : Packet :=
  Eval vm_compute in default blank_packet (pkt (pktkeeper ex_sender_task)).

(** An acknowledgement of packet 1 addressed to 0x0B, but coming from 0x77, a
    station the packet was not sent to. *)
Definition stranger_ack : Packet := mkPacket (mkHeader 11 119 FLAG_ACK 1 0) [].




(** Packet 7 of station 0x0B for station 0x5E, "hi\0", acknowledgement
    requested; [seq] is the retransmission counter in the high nibble. *)
Definition hi_frame (seq : Z) : Packet :=
  mkPacket (mkHeader 94 11 (to_flags seq FLAG_SIN) 7 3) [104; 105; 0].


(** Station 0x5E holds packet 7 of station 0x0B, retrieved by the application. *)
Definition ex_receiver_retrieved : RFLink :=
  Eval vm_compute in
    or_blank (l <- boot 94 ;;
              let* (l, _, _) := receive_noblock l 0 None in
              l <- run_ticks l [quiet_tick 1; rx_tick 2 (hi_frame 0)] ;;
              let* (l, _, _) := data_retrieve l 4 (get_task_by_taskid l 1) 10 true in
              run_ticks l [quiet_tick 5; quiet_tick 6]).

Definition ex_receiver_task : Task :=
  Eval vm_compute in default blank_task (tskhead ex_receiver_retrieved !! 0%nat).



(** The table of a fresh engine. *)
Definition ex_cache_blank : list cache_pktid_t :=
  replicate (Z.to_nat PKTID_CACHE_SIZE) blank_cache_entry.

(** Packet [apktid] observed from each source of [srcs] in turn, the k-th one at
    time [t0 + k * dt]. *)
Fixpoint observe_all (c : list cache_pktid_t) (srcs : list Z) (apktid t0 dt : Z)
    : result (list cache_pktid_t) :=
  match srcs with
  | [] => Ok c
  | s :: rest =>
      let* (c', _) := check_pktid_already_seen c s apktid t0 in
      observe_all c' rest apktid (t0 + dt) dt
  end.

Definition or_empty (r : result (list cache_pktid_t)) : list cache_pktid_t :=
  match r with
  | Ok c => c
  | Err _ => []
  end.

(** Ten sources observed within the same millisecond: the table is full and
    every entry carries the time 1000. *)
Definition ex_cache_full_same_instant : list cache_pktid_t :=
  Eval vm_compute in
    or_empty (observe_all ex_cache_blank [1; 2; 3; 4; 5; 6; 7; 8; 9; 10] 1 1000 0).

(** Ten sources observed one millisecond apart, from time 1000 on. *)
Definition ex_cache_full_spread : list cache_pktid_t :=
  Eval vm_compute in
    or_empty (observe_all ex_cache_blank [1; 2; 3; 4; 5; 6; 7; 8; 9; 10] 1 1000 1).

(** A fresh engine, before any callback is registered. *)
Definition ex_new : RFLink := Eval vm_compute in or_blank (RFLink_new DEFAULT_MAX_TASK_COUNT).

(** The acknowledgement of packet 1 that station 0x5E returns to 0x0B. *)
Definition good_ack : Packet := mkPacket (mkHeader 11 94 FLAG_ACK 1 0) [].

(** Station 0x0B after that acknowledgement came in, at time 120. *)
Definition ex_sender_acked : RFLink :=
  Eval vm_compute in or_blank (do_events ex_sender (rx_tick 120 good_ack)).

Definition ex_sender_acked_task : Task :=
  Eval vm_compute in default blank_task (tskhead ex_sender_acked !! 0%nat).

(** A frame whose header announces 3 bytes of payload while 8 bytes in all
    came out of the radio. *)
Definition short_tick (t : Z) : tick_t :=
  mkTick t true (hi_frame 0) 8 (fun _ _ => ERR_OK).

(** ** Predicates on the packet-id cache *)

(** At most one in-use entry per source address. *)
Definition cache_inv (c : list cache_pktid_t) : Prop :=
  forall (i j : nat) (e1 e2 : cache_pktid_t),
    c !! i = Some e1 -> c !! j = Some e2 ->
    used e1 = true -> used e2 = true -> csrc e1 = csrc e2 -> i = j.

(** The tables the engine can hold: the constructor marks every entry free, and
    the only writer afterwards is [check_pktid_already_seen]. *)
Inductive cache_reachable : list cache_pktid_t -> Prop :=
  | cache_reachable_init (c : list cache_pktid_t) :
      Forall (fun e => used e = false) c -> cache_reachable c
  | cache_reachable_step (c c' : list cache_pktid_t) (asrc apktid tref : Z) (r : bool) :
      cache_reachable c ->
      check_pktid_already_seen c asrc apktid tref = Ok (c', r) ->
      cache_reachable c'.

(** What one loop turn may do to an entry as far as sources go: free it, or
    keep it in use for the same source. *)
Definition entry_shrinks (e e' : cache_pktid_t) : Prop :=
  used e' = true -> used e = true /\ csrc e' = csrc e.

(** ** Tasks as the code leaves them *)

(** The task [task_create] writes into the slot it claims. *)
Definition created_task (l : RFLink) (st tnow : Z) (t0 : Task) : Task :=
  set_nbsend 0
    (set_unattended false
      (set_has_received_ack false
        (set_need_ack false
          (set_is_an_ack false
            (set_mtime_ref tnow
              (set_status st
                (set_taskid (wrap16 (last_taskid l + 1)) (task_initialize t0)))))))).

(** The task as an acknowledgement leaves it: flagged, deadline pushed by the
    purge delay, packet reduced to its header. *)
Definition acked_task (l : RFLink) (tnow : Z) (tsk : Task) (tp : Packet) : Task :=
  set_pktkeeper (mkPktKeeper (Some (mkPacket (set_header_len 0 (header tp)) [])))
    (set_mtime_wakeup (wrap32 (tnow + send_purge_delay l))
      (set_has_received_ack true tsk)).



(** No task in use carries the id: it was never issued, or its task was
    destroyed and the slot reset. *)
Definition no_live_task (l : RFLink) (id : Z) : Prop :=
  forall t, t ∈ tskhead l -> taskid t = id -> status t = ST_NOTHING.

(** ** Well-formed engines *)

(** What a task must satisfy in each status for the code to run on it without
    fault: a free slot holds no packet and no subscription; a sending task
    holds its frame and a cursor inside its schedule; a task past RECEIVE is
    subscribed to the timer. The first clause of the ST_SEND_DONE case records
    how the task got there: an acknowledgement came, or the schedule ran out. *)
Definition task_wf (fs : RFLinkFunctions) (t : Task) : Prop :=
  (status t = ST_NOTHING /\ evtsub_wakeup t = false /\ evtsub_pktrcvd t = false
     /\ pkt (pktkeeper t) = None)
  \/ (status t = ST_SEND /\ evtsub_wakeup t = true /\ pkt (pktkeeper t) <> None
     /\ deviceSend fs = true
     /\ nb_send_schedules t = Z.of_nat (length (send_schedule_ptr t))
     /\ 0 <= send_schedule_pos t < nb_send_schedules t
     /\ nb_send_schedules t <= 255)
  \/ (status t = ST_SEND_DONE /\ evtsub_wakeup t = true /\ pkt (pktkeeper t) <> None
     /\ (has_received_ack t = true \/ send_schedule_pos t = nb_send_schedules t))
  \/ (status t = ST_RECEIVE /\ pkt (pktkeeper t) = None)
  \/ ((status t = ST_RECEIVE_DATA_AVAILABLE \/ status t = ST_RECEIVE_DATA_RETRIEVED)
     /\ evtsub_wakeup t = true /\ pkt (pktkeeper t) <> None)
  \/ (status t = ST_RECEIVE_TIMEDOUT /\ evtsub_wakeup t = true).

Definition pool_wf (fs : RFLinkFunctions) (ts : list Task) : Prop :=
  forall (j : nat) (t : Task), ts !! j = Some t -> task_wf fs t.

(** The pool while the task in slot [i] is between an event and the commit of
    its new status. *)
Definition pool_wf_except (fs : RFLinkFunctions) (i : nat) (ts : list Task) : Prop :=
  forall (j : nat) (t : Task), j <> i -> ts !! j = Some t -> task_wf fs t.

(** The callbacks are registered consistently: who can receive can arm the
    interrupt, and who can arm it can disarm it. *)
Definition funcs_ok (fs : RFLinkFunctions) : Prop :=
  (deviceReceive fs = true -> setInterrupt fs = true)
  /\ (setInterrupt fs = true -> resetInterrupt fs = true).

Definition engine_wf (l : RFLink) : Prop :=
  pool_wf (funcs l) (tskhead l)
  /\ funcs_ok (funcs l)
  /\ (interrupt_is_attached l = true -> setInterrupt (funcs l) = true)
  /\ (interrupted l = true -> setInterrupt (funcs l) = true)
  /\ cache_inv (cache_pktids l).

(** The invariant of the event pump: outside RECEIVE, NOTHING and FINISHED a
    task is subscribed to the timer. *)
Definition timer_ok (t : Task) : Prop :=
  status t <> ST_RECEIVE -> status t <> ST_NOTHING -> status t <> ST_FINISHED ->
  evtsub_wakeup t = true.

Definition timer_inv (l : RFLink) : Prop :=
  forall t, t ∈ tskhead l -> timer_ok t.

(** What a call that may create a task leaves of the pool: the subscription
    invariant, the size, and every slot that was in use. *)
Definition pool_kept (l l' : RFLink) : Prop :=
  timer_inv l' /\ length (tskhead l') = length (tskhead l) /\
  forall i t, tskhead l !! i = Some t -> status t <> ST_NOTHING -> tskhead l' !! i = Some t.

(** What an event leaves of the pool while the task in slot [i] awaits the
    commit of the status [r]. *)
Definition event_kept (l : RFLink) (i : nat) (l' : RFLink) (r : Z) : Prop :=
  timer_inv l' /\ length (tskhead l') = length (tskhead l) /\
  exists t', tskhead l' !! i = Some t' /\ timer_ok (set_status r t').

(** The members of the engine that the task loop never writes: all but the
    pool, the two task counters and the log of driver calls. *)
Definition frame (l : RFLink) : RFLink :=
  set_tskhead [] (set_task_count 0 (set_last_taskid 0 (set_dev_log [] l))).

(** The members that play no part in what happens to tasks and cache on a
    call where no valid frame was drained. *)
Definition core (l : RFLink) : RFLink :=
  set_recpkt None (set_interrupt_is_attached false (set_interrupted false (set_dev_log [] l))).

(** The validation the drain applies to what the radio delivered. *)
Definition frame_valid (l : RFLink) (tk : tick_t) : bool :=
  check_rcvd_pkt_is_ok (mkPktKeeper (Some (rx_pkt tk))) (get_max_payload_len l)
    (wrap8 (rx_nb tk)).

(** Outcome predicate: the call returns a value that satisfies [P], or stops
    on a fault that satisfies [F]. *)
Definition post {A : Type} (F : fault -> Prop) (P : A -> Prop) (r : result A) : Prop :=
  match r with
  | Ok a => P a
  | Err f => F f
  end.

Definition no_fault (f : fault) : Prop := False.

(** What the task loop maintains, from the state [st0] it starts in on the
    engine [l0]. *)
Definition loop_wf (l0 : RFLink) (st0 st : loop_t) : Prop :=
  frame (lk st) = frame l0 /\
  length (tskhead (lk st)) = length (tskhead l0) /\
  pool_wf (funcs l0) (tskhead (lk st)) /\
  (got_a_pkt st = true -> got_a_pkt st0 = true).

(** Not the assertion by which [do_events] checks the timer subscription. *)
Definition timer_assert_holds (f : fault) : Prop :=
  f <> AssertFailed A_do_events_timer_subscription.

(** The one fault of [do_events] on a well-formed engine. *)
Definition cache_overrun (f : fault) : Prop := f = OutOfBounds Arr_cache_pktids.

(** ** The operations of the engine, as the application performs them *)

Inductive engine_op : Type :=
  | Op_send_noblock (tnow adst : Z) (d : option (list Z)) (alen : Z) (ack : bool)
  | Op_receive_noblock (tnow : Z) (cfg : option RXConfig)
  | Op_do_events (tk : tick_t)
  | Op_data_retrieve (tnow id buf_len : Z) (want_sender : bool)
  | Op_send_get_final_status (tnow id : Z)
  | Op_set_opt_byte (opt : opt_t) (value : Z).

Definition run_op (l : RFLink) (op : engine_op) : result RFLink :=
  match op with
  | Op_send_noblock tnow adst d alen ack =>
      let* (l', _, _) := send_noblock l tnow adst d alen ack in Ok l'
  | Op_receive_noblock tnow cfg =>
      let* (l', _, _) := receive_noblock l tnow cfg in Ok l'
  | Op_do_events tk => do_events l tk
  | Op_data_retrieve tnow id buf_len want_sender =>
      let* (l', _, _) :=
        data_retrieve l tnow (get_task_by_taskid l id) buf_len want_sender in Ok l'
  | Op_send_get_final_status tnow id =>
      let* (l', _, _) := send_get_final_status l tnow id in Ok l'
  | Op_set_opt_byte opt value => Ok (set_opt_byte l opt value)
  end.

(** The engines an application can get: constructed with 1 to 15 task slots
    (the sizes for which [RFLink_new] gives an engine), callbacks registered
    consistently, then any sequence of operations that return. *)
Inductive engine_reachable : RFLink -> Prop :=
  | reachable_boot (maxtask max_data_len : Z) (fs : RFLinkFunctions) (l0 : RFLink) :
      RFLink_new maxtask = Ok l0 -> funcs_ok fs ->
      engine_reachable (register_funcs l0 fs max_data_len)
  | reachable_step (l l' : RFLink) (op : engine_op) :
      engine_reachable l -> run_op l op = Ok l' -> engine_reachable l'.

(** The faults an operation can stop on from a reachable engine: the cache
    overrun inside [do_events], and the argument assertion of
    [prepare_for_sending] when [send_noblock] is given a length without a
    payload. *)
Definition op_fault (f : fault) : Prop :=
  f = OutOfBounds Arr_cache_pktids \/ f = AssertFailed A_prepare_args.

(** Two outcomes that agree up to the members [core] erases: the same fault,
    or engines with the same core and the same returned value. *)
Definition same_outcome {A : Type} (r1 r2 : result (RFLink * A)) : Prop :=
  match r1, r2 with
  | Ok (l1, a1), Ok (l2, a2) => core l1 = core l2 /\ a1 = a2
  | Err f1, Err f2 => f1 = f2
  | _, _ => False
  end.

Definition loop_outcome (st : loop_t) : RFLink * (bool * bool) :=
  (lk st, (got_a_pkt st, device_needs_reset st)).

Definition with_unit (l : RFLink) : RFLink * unit := (l, tt).

(** The environment [tk] with the radio silent. *)
Definition silent (tk : tick_t) : tick_t :=
  mkTick (now tk) false (rx_pkt tk) (rx_nb tk) (send_rc tk).

(** ** The observation of a source, in the words of its description *)

(** Age of an entry at time [tref], in the modular arithmetic of the clock. *)
Definition age (tref : Z) (e : cache_pktid_t) : Z := wrap32 (tref - mtime e).

(** In use and younger than the discard delay. *)
Definition live (tref : Z) (e : cache_pktid_t) : bool :=
  used e && negb (CACHE_PKTID_DISCARD_DELAY <=? age tref e).

(** The sweep: an entry in use that reached the discard delay is freed. *)
Definition sweep (tref : Z) (e : cache_pktid_t) : cache_pktid_t :=
  if live tref e then e else mkCache false (csrc e) (mtime e) (last_pktid_seen e).


(** A sequence of operations, each on the engine the previous one returned. *)
Fixpoint run_ops (l : RFLink) (ops : list engine_op) : result RFLink :=
  match ops with
  | [] => Ok l
  | op :: rest => l' <- run_op l op ;; run_ops l' rest
  end.

(** Station 0x5E, booted, with a receive task waiting and the interrupt armed. *)
Definition ex_listening : RFLink :=
  Eval vm_compute in
    or_blank (run_ops (register_funcs ex_new all_funcs 61)
                [Op_set_opt_byte OPT_ADDRESS 94; Op_receive_noblock 0 None;
                 Op_do_events (quiet_tick 1)]).

(** ** Waiting (rflink.cpp, delay_ms) *)

(** [(signed)x] for an [unsigned long] x: [signed] is [int], 16 bits wide. *)
Definition signed16 (z : Z) : Z :=
  if wrap16 z <? 32768 then wrap16 z else wrap16 z - 65536.

Arguments signed16 : simpl never.

(** The loop of [delay_ms(d)], entered at time [t0]: each turn reads the clock
    for the test ([fst]) and, when the test holds, calls [do_events] in the
    environment of that call ([snd]). [None] when the turns run out before
    the loop exits. *)
Fixpoint delay_ms_loop (l : RFLink) (d t0 : Z) (turns : list (Z * tick_t))
    : result (option RFLink) :=
  match turns with
  | [] => Ok None
  | (t, tk) :: rest =>
      if signed16 (wrap32 (t - t0)) <? d then
        l' <- do_events l tk ;;
        delay_ms_loop l' d t0 rest
      else Ok (Some l)
  end.

Definition delay_ms (l : RFLink) (d t0 : Z) (turns : list (Z * tick_t))
    : result (option RFLink) :=
  if d <=? 0 then Ok (Some l) else delay_ms_loop l d t0 turns.

(** ** More tasks as the code leaves them *)

(** The task a RECEIVE task becomes when it takes the frame [p] at time
    [tnow]: the copy has the header and as much payload as [get_pkt_len]
    counts, which is the announced payload for a length byte up to 249. *)
Definition delivered_task (l : RFLink) (tnow : Z) (p : Packet) (tsk : Task) : Task :=
  set_mtime_wakeup (wrap32 (tnow + receive_data_avail_delay l))
    (set_mtime_ref tnow
      (set_evtsub_wakeup true
        (set_last_retcode ERR_OK
          (set_pktkeeper
             (mkPktKeeper
                (Some (mkPacket (header p)
                         (take (Z.to_nat (wrap8 (sizeof_Header + len (header p))
                                          - sizeof_Header)) (data p)))))
             tsk)))).

(** The slot [task_destroy] leaves. *)
Definition destroyed_task (tsk : Task) : Task :=
  task_initialize (set_pktkeeper (mkPktKeeper None) tsk).

(** The task the application's retrieval leaves. *)
Definition retrieved_task (l : RFLink) (tp : Packet) (tsk : Task) : Task :=
  set_status ST_RECEIVE_DATA_RETRIEVED
    (set_mtime_wakeup (wrap32 (mtime_ref tsk + receive_purge_delay l))
      (set_evtsub_wakeup true
        (set_pktkeeper (mkPktKeeper (Some (mkPacket (set_header_len 0 (header tp)) [])))
           tsk))).

(** Station 0x5E after packet 7 of station 0x0B came in: the payload waits for
    the application. *)
Definition ex_available : RFLink :=
  Eval vm_compute in
    or_blank (run_ops ex_listening [Op_do_events (rx_tick 2 (hi_frame 0))]).

Definition ex_available_task : Task :=
  Eval vm_compute in default blank_task (tskhead ex_available !! 0%nat).

(** The task a timed-out wait leaves: subscribed to the timer, due at once. *)
Definition timedout_task (tsk : Task) : Task :=
  set_status ST_RECEIVE_TIMEDOUT
    (set_mtime_wakeup (wrap32 (mtime_ref tsk + DEFAULT_RECEIVE_TIMEOUT_DELAY))
      (set_evtsub_wakeup true tsk)).

(** The task whose payload was not retrieved in time: the packet is reduced to
    its header and the task will be purged. *)
Definition expired_task (l : RFLink) (tp : Packet) (tsk : Task) : Task :=
  set_status ST_RECEIVE_TIMEDOUT
    (set_mtime_wakeup (wrap32 (mtime_ref tsk + receive_purge_delay l))
      (set_evtsub_wakeup true
        (set_pktkeeper (mkPktKeeper (Some (mkPacket (set_header_len 0 (header tp)) [])))
           tsk))).

(** The task [receive_noblock] sets up in the free slot that held [t0]. *)
Definition receive_task (l : RFLink) (tnow : Z) (cfg : option RXConfig) (t0 : Task) : Task :=
  let tsk := set_evtsub_pktrcvd true (created_task l ST_RECEIVE tnow t0) in
  match cfg with
  | Some c =>
      if def_timeout c
      then set_mtime_wakeup (wrap32 (tnow + timeout c)) (set_evtsub_wakeup true tsk)
      else tsk
  | None => tsk
  end.

(** ** Counting tasks *)

Fixpoint count_if {A : Type} (P : A -> bool) (xs : list A) : nat :=
  match xs with
  | [] => 0
  | x :: rest => (if P x then 1 else 0) + count_if P rest
  end.

(** A slot in use. *)
Definition live_task (t : Task) : bool := negb (status t =? ST_NOTHING).

(** The pool holds one wait for a frame without timeout and nothing else. *)
Definition only_waiting (l : RFLink) : Prop :=
  exists (k : nat) (t : Task),
    tskhead l !! k = Some t /\ status t = ST_RECEIVE /\
    evtsub_pktrcvd t = true /\ evtsub_wakeup t = false /\
    forall (j : nat) (t' : Task), j <> k -> tskhead l !! j = Some t' -> status t' = ST_NOTHING.

(** The driver calls the end of [do_events] makes. *)
Definition finish_calls (tk : tick_t) (st : loop_t) : list dev_call :=
  (if device_needs_reset st
      && (wrap32 (now tk - last_device_reset (lk st)) >=? MIN_DEVICE_RESET_DELAY)
   then [DeviceInit true; Delay 1] else [])
  ++ (if is_eligible_for_sleep (lk st) && auto_sleep (lk st)
      then [DeviceInit true; SleepCpu] else []).

(** Some task listens and the driver can receive: [i_want_to_receive] at the
    start of [do_events]. *)
Definition wants_to_receive (l : RFLink) : bool :=
  existsb evtsub_pktrcvd (tskhead l) && deviceReceive (funcs l).

(** The faults of the two operations that can stop, each with the operation it
    comes from: the overrun of the cache in [do_events], the assertion of
    [prepare_for_sending] in [send_noblock]. *)
Definition op_fault_of (op : engine_op) (f : fault) : Prop :=
  match op with
  | Op_do_events _ => f = OutOfBounds Arr_cache_pktids
  | Op_send_noblock _ _ _ _ _ => f = AssertFailed A_prepare_args
  | _ => False
  end.

(** ** What the engine does to its pool of tasks *)

(** The length byte of the packet a task (or a keeper) holds is within the
    limit [m] of the link. *)
Definition keeper_ok (m : Z) (pk : PktKeeper) : Prop :=
  forall p, pkt pk = Some p -> 0 <= len (header p) <= m.

Definition pkt_ok (m : Z) (t : Task) : Prop := keeper_ok m (pktkeeper t).

Definition is_send (c : dev_call) : bool :=
  match c with
  | DeviceSend _ _ => true
  | _ => false
  end.

(** The transmission of the frame the task [t] holds. *)
Definition send_of (t : Task) : dev_call :=
  DeviceSend (get_pkt_ptr_ro (pktkeeper t)) (get_pkt_len (pktkeeper t)).

(** The receive buffer, once allocated, holds a packet. *)
Definition recpkt_ok (l : RFLink) : Prop :=
  forall pk, recpkt l = Some pk -> pkt pk <> None.

(** The writes of the engine to the pool, one at a time. A task is touched in
    its slot (its id stays, a slot in use stays in use, and what is sent
    meanwhile is the frame it held); a task in use is destroyed; or the pool is
    not written at all. [P] tells the slots whose task may be touched or
    destroyed; [B] is the assumption under which a touched task keeps its
    packet within the limit of the link (the frames the radio delivers carry
    a length byte that is one). *)
Inductive pool_step (B : Prop) (P : nat -> Prop) (l l' : RFLink) : Prop :=
  | step_touch (i : nat) (t t' : Task) (calls : list dev_call) :
      P i ->
      frame l' = frame l ->
      tskhead l !! i = Some t ->
      tskhead l' = <[i := t']> (tskhead l) ->
      task_count l' = task_count l ->
      last_taskid l' = last_taskid l ->
      dev_log l' = dev_log l ++ calls ->
      taskid t' = taskid t ->
      (status t' = ST_NOTHING <-> status t = ST_NOTHING) ->
      (B -> pkt_ok (max_payload_len l) t -> pkt_ok (max_payload_len l) t') ->
      Forall (fun c => c = send_of t) calls ->
      pool_step B P l l'
  | step_destroy (i : nat) (t : Task) :
      P i ->
      frame l' = frame l ->
      tskhead l !! i = Some t ->
      status t <> ST_NOTHING ->
      tskhead l' = <[i := destroyed_task t]> (tskhead l) ->
      task_count l' = wrap8 (task_count l - 1) ->
      last_taskid l' = last_taskid l ->
      dev_log l' = dev_log l ->
      pool_step B P l l'
  | step_env (calls : list dev_call) :
      max_task_count l' = max_task_count l ->
      max_payload_len l' = max_payload_len l ->
      tskhead l' = tskhead l ->
      task_count l' = task_count l ->
      last_taskid l' = last_taskid l ->
      dev_log l' = dev_log l ++ calls ->
      Forall (fun c => is_send c = false) calls ->
      funcs l' = funcs l ->
      (recpkt_ok l -> recpkt_ok l') ->
      pool_step B P l l'.

(** The creation of a task: a free slot is claimed for it and it gets the next
    task id. *)
Inductive pool_spawn (l l' : RFLink) : Prop :=
  | spawn_intro (j : nat) (t0 tnew : Task) :
      frame l' = frame l ->
      tskhead l !! j = Some t0 ->
      status t0 = ST_NOTHING ->
      tskhead l' = <[j := tnew]> (tskhead l) ->
      task_count l < max_task_count l ->
      task_count l' = wrap8 (task_count l + 1) ->
      last_taskid l' = wrap16 (last_taskid l + 1) ->
      dev_log l' = dev_log l ->
      taskid tnew = wrap16 (last_taskid l + 1) ->
      status tnew <> ST_NOTHING ->
      (0 <= max_payload_len l -> pkt_ok (max_payload_len l) t0 ->
       pkt_ok (max_payload_len l) tnew) ->
      pool_spawn l l'.

(** Sequences of writes with at most [n] creations of a task. *)
Inductive pool_steps (B : Prop) (P : nat -> Prop) : nat -> RFLink -> RFLink -> Prop :=
  | steps_nil (n : nat) (l : RFLink) : pool_steps B P n l l
  | steps_cons (n : nat) (l l1 l2 : RFLink) :
      pool_step B P l l1 -> pool_steps B P n l1 l2 -> pool_steps B P n l l2
  | steps_spawn (n : nat) (l l1 l2 : RFLink) :
      pool_spawn l l1 -> pool_steps B P n l1 l2 -> pool_steps B P (S n) l l2.

(** The status an event returns for a slot agrees with the task in it on
    whether the slot is in use. *)
Definition returns_for (l : RFLink) (i : nat) (r : Z) : Prop :=
  exists t, tskhead l !! i = Some t /\ (r = ST_NOTHING <-> status t = ST_NOTHING).

(** The length byte of the frame the radio delivers is the value of a byte:
    it is not negative. *)
Definition tick_ok (tk : tick_t) : Prop := 0 <= len (header (rx_pkt tk)).

(** Any fault: for statements about what a call leaves when it returns. *)
Definition any_fault (f : fault) : Prop := True.

(** The operations whose incoming frame, if any, carries a length byte that
    is one. *)
Definition op_ok (op : engine_op) : Prop :=
  match op with
  | Op_do_events tk => tick_ok tk
  | _ => True
  end.

(** The creations of tasks a frame in hand can still cause in a call of
    [do_events]: one acknowledgement, when the frame is taken. *)
Definition spawn_budget (got : bool) : nat := if got then 1 else 0.

(** A station that sends two bytes to station 0x5E without asking for an
    acknowledgement, and pumps events once: the frame went out. *)
Definition ex_sent_ops : list engine_op :=
  [Op_send_noblock 0 94 (Some [72; 105]) 2 false; Op_do_events (quiet_tick 0)].

Definition ex_sent : RFLink :=
  Eval vm_compute in or_blank (run_ops (register_funcs ex_new all_funcs 61) ex_sent_ops).

Definition ex_sent_task : Task :=
  Eval vm_compute in default blank_task (tskhead ex_sent !! 0%nat).

(** ** Invariants of the pool *)

(** The counter of tasks tells the number of slots in use, and the pool has
    one slot per task the engine may hold. *)
Definition count_inv (l : RFLink) : Prop :=
  task_count l = Z.of_nat (count_if live_task (tskhead l)) /\
  Z.of_nat (length (tskhead l)) = max_task_count l /\
  max_task_count l <= DEFAULT_MAX_TASK_COUNT.

(** The ids of the tasks while at most [n] of them were created: a free slot
    carries id 0, a task in use carries an id that was issued, and no two
    tasks in use carry the same id. *)
Definition ids_inv (n : Z) (l : RFLink) : Prop :=
  0 <= last_taskid l <= n /\
  (forall i t, tskhead l !! i = Some t -> status t = ST_NOTHING -> taskid t = 0) /\
  (forall i t, tskhead l !! i = Some t -> status t <> ST_NOTHING ->
               1 <= taskid t <= last_taskid l) /\
  (forall i j ti tj,
     tskhead l !! i = Some ti -> tskhead l !! j = Some tj ->
     status ti <> ST_NOTHING -> status tj <> ST_NOTHING ->
     taskid ti = taskid tj -> i = j).

(** A call of the driver that transmits stays within [m] bytes of payload,
    and its byte count is the header plus the length byte of the frame. *)
Definition send_fits (m : Z) (c : dev_call) : Prop :=
  match c with
  | DeviceSend p n =>
      0 <= n <= sizeof_Header + m /\
      forall pk, p = Some pk -> n = sizeof_Header + len (header pk)
  | _ => True
  end.

(** Every task holds a packet within the limit of the link, and so did every
    transmission so far. *)
Definition fits_inv (l : RFLink) : Prop :=
  0 <= max_payload_len l /\ sizeof_Header + max_payload_len l <= 255 /\
  (forall i t, tskhead l !! i = Some t -> pkt_ok (max_payload_len l) t) /\
  Forall (send_fits (max_payload_len l)) (dev_log l).

(** ** A send without acknowledgement, from its creation to its end *)

(** The clock shows at least 900 ms, the last entry of the schedule, and less
    than 2^31 ms after [tcreate]. *)
Definition late (tcreate : Z) (tk : tick_t) : bool :=
  (900 <=? wrap32 (now tk - tcreate)) && (wrap32 (now tk - tcreate) <? 2147483648).

(** The task [send_noblock] created at [tcreate] without acknowledgement,
    after [p] entries of its schedule: it has transmitted [p] times and waits
    for entry [p]. *)
Definition sending (id tcreate p : Z) (t : Task) : Prop :=
  taskid t = id /\ status t = ST_SEND /\ need_ack t = false /\
  evtsub_wakeup t = true /\ evtsub_pktrcvd t = false /\
  send_schedule_ptr t = snd_sched /\ nb_send_schedules t = snd_sched_len /\
  send_schedule_pos t = p /\ nbsend t = p /\ mtime_ref t = tcreate /\
  0 <= p /\
  exists off, snd_sched !! Z.to_nat p = Some off /\ mtime_wakeup t = wrap32 (tcreate + off).

(** The same task after the last entry. *)
Definition sent_done (id : Z) (t : Task) : Prop :=
  taskid t = id /\ status t = ST_SEND_DONE /\ need_ack t = false /\
  evtsub_wakeup t = true /\ nbsend t = snd_sched_len.

Definition sent_to (id tcreate p : Z) (t : Task) : Prop :=
  if p <? snd_sched_len then sending id tcreate p t else sent_done id t.

(** What one call of [do_events] in [tk] makes of the task at entry [p]: it
    is left waiting or it went through the entry, and it went through when
    the clock is late enough for every entry. *)
Definition pumped (id tcreate p : Z) (tk : tick_t) (t : Task) : Prop :=
  (sending id tcreate p t \/ sent_to id tcreate (p + 1) t) /\
  (late tcreate tk = true -> sent_to id tcreate (p + 1) t).

(** ** A wait for a frame with a timeout, from its creation to its end *)

(** The deadline [deadline] has passed at the instant of [tk], in the signed
    arithmetic of the task loop. *)
Definition due (deadline : Z) (tk : tick_t) : bool :=
  signed32 (now tk - deadline) >=? 0.

(** The task [receive_noblock] created at [tcreate] with the timeout of [c],
    still waiting. *)
Definition waiting (id tcreate : Z) (c : RXConfig) (t : Task) : Prop :=
  taskid t = id /\ status t = ST_RECEIVE /\
  evtsub_pktrcvd t = true /\ evtsub_wakeup t = true /\
  pkt (pktkeeper t) = None /\
  mtime_wakeup t = wrap32 (tcreate + timeout c).

(** The same task when the wait is over: a frame is there for the
    application, or the time is out. *)
Definition answered (id : Z) (t : Task) : Prop :=
  taskid t = id /\
  ((status t = ST_RECEIVE_DATA_AVAILABLE /\ pkt (pktkeeper t) <> None)
   \/ status t = ST_RECEIVE_TIMEDOUT).

(** The calls of [do_events] at hand include one where the deadline has
    passed, and one more after it. *)
Definition due_then_more (deadline : Z) (ticks : list tick_t) : Prop :=
  exists pre tl tkf post, ticks = pre ++ tl :: tkf :: post /\ due deadline tl = true.

(** ** A send with acknowledgement, from its creation to its end *)

(** The task [send_noblock] created at [tcreate] with [ack], after [p]
    entries of its schedule and no acknowledgement yet. *)
Definition sending_ack (id tcreate p : Z) (t : Task) : Prop :=
  taskid t = id /\ status t = ST_SEND /\ need_ack t = true /\
  has_received_ack t = false /\
  evtsub_wakeup t = true /\ evtsub_pktrcvd t = true /\
  send_schedule_ptr t = snd_expack_sched /\ nb_send_schedules t = snd_expack_sched_len /\
  send_schedule_pos t = p /\ nbsend t = p /\ mtime_ref t = tcreate /\
  0 <= p /\
  exists off, snd_expack_sched !! Z.to_nat p = Some off /\
              mtime_wakeup t = wrap32 (tcreate + off).

(** The same task when it is over: the acknowledgement came, or the
    schedule ran out after four transmissions. *)
Definition done_ack (id : Z) (t : Task) : Prop :=
  taskid t = id /\ status t = ST_SEND_DONE /\ need_ack t = true /\
  evtsub_wakeup t = true /\ 0 <= nbsend t <= 4 /\
  (has_received_ack t = false -> nbsend t = 4).

Definition sent_to_ack (id tcreate p : Z) (t : Task) : Prop :=
  if p <? snd_expack_sched_len then sending_ack id tcreate p t else done_ack id t.

(** What one call of [do_events] in [tk] makes of the task at entry [p]: it
    is at that entry or further, and further when the clock is late enough
    for every entry. *)
Definition pumped_ack (id tcreate p : Z) (tk : tick_t) (t : Task) : Prop :=
  exists q, p <= q /\ (late tcreate tk = true -> p + 1 <= q) /\ sent_to_ack id tcreate q t.

(** ** A frame from one station to another *)

(** The frame [send_noblock(dst, data, len, ack)] builds on the engine [l]. *)
Definition sent_packet (l : RFLink) (adst : Z) (d : list Z) (alen : Z) (ack : bool) : Packet :=
  mkPacket
    (mkHeader adst (device_addr l) (to_flags 0 (if ack then FLAG_SIN else FLAG_NONE))
       (wrap16 (last_pktid l + 1)) alen)
    (take (Z.to_nat alen) d).

(** ** A wait for a frame without timeout *)

(** The task [receive_noblock] created without a timeout, still waiting. *)
Definition listening (id : Z) (t : Task) : Prop :=
  taskid t = id /\ status t = ST_RECEIVE /\ evtsub_wakeup t = false.

(** ** A duplicate the packet-id cache has forgotten *)

(** The acknowledgement of a packet 9 that station 0x5E had sent to station
    0x0B. *)
Definition ack_of_9 : Packet := mkPacket (mkHeader 94 11 (to_flags 0 FLAG_ACK) 9 0) [].

(** Station 0x5E waits twice: the first wait (task 1, slot 0) times out, the
    second (task 2, slot 1) takes packet 7 of station 0x0B, and the
    application retrieves it. The acknowledgement (task 3) goes out from slot
    0 and leaves it free for a new wait (task 4). An acknowledgement of
    station 0x0B then comes in, with another packet-id, and after it the
    retransmission of packet 7. The result is what the two retrievals hand
    over, the status of tasks 2 and 4 when the retransmission has been
    handled, and the id of the last task. *)
Definition ex_forgotten_duplicate : result (retrieved_t * retrieved_t * Z * Z * Z) :=
  l <- boot 94 ;;
  let* (l, _, _) := receive_noblock l 0 (Some (mkRXConfig false true false 0 5)) in
  let* (l, _, _) := receive_noblock l 0 None in
  l <- run_ticks l [quiet_tick 10; rx_tick 20 (hi_frame 0)] ;;
  let* (l, _, out1) := data_retrieve l 30 (get_task_by_taskid l 2) 10 true in
  l <- run_ticks l [quiet_tick 31; quiet_tick 32] ;;
  let* (l, _, ob) := receive_noblock l 40 None in
  l <- run_ticks l [rx_tick 50 ack_of_9; rx_tick 60 (hi_frame 1)] ;;
  let sa := task_get_status l 2 in
  let sb := task_get_status l 4 in
  let* (l, _, out2) := data_retrieve l 70 (get_task_by_taskid l 4) 10 true in
  Ok (out1, out2, sa, sb, default 0 ob).




(** * Proofs *)

Lemma rbind_Ok {A B : Type} (c : result A) (k : A -> result B) (b : B) :
  rbind c k = Ok b -> exists a, c = Ok a /\ k a = Ok b.
Proof. destruct c as [a|f]; simpl; [eauto | discriminate]. Qed.

Ltac inv_ok :=
  repeat match goal with
  | H : rbind _ _ = Ok _ |- _ =>
      let a := fresh "a" in let Ha := fresh "Ha" in
      apply rbind_Ok in H; destruct H as [a [Ha H]]
  | H : Ok _ = Ok _ |- _ => inversion H; subst; clear H
  | H : Err _ = Ok _ |- _ => discriminate H
  | H : assert _ _ = Ok _ |- _ => unfold assert in H
  end.

Lemma cache_visit_shrinks asrc apktid tref i e st e' st' :
  cache_visit asrc apktid tref i e st = Ok (e', st') ->
  entry_shrinks e e' /\
  (src_found st' = false ->
     src_found st = false /\ (used e' = true -> csrc e' <> asrc)).
Proof.
  unfold cache_visit, entry_shrinks.
  destruct e as [u s m p]; simpl.
  destruct u; simpl.
  - destruct (CACHE_PKTID_DISCARD_DELAY <=? wrap32 (tref - m)); simpl.
    + destruct (unused_entry_idx st <? 0); intros H; inv_ok; simpl;
        (split; [intros; discriminate | intros; split; [done | intros; discriminate]]).
    + destruct (s =? asrc) eqn:Es.
      * destruct (ret st); simpl; [discriminate|].
        destruct (p =? apktid); intros H; inv_ok; simpl;
          (split; [done | intros; discriminate]).
      * apply Z.eqb_neq in Es.
        destruct (wrap32 (tref - m) >? biggest_elapsed_found st);
          intros H; inv_ok; simpl; (split; [done | done]).
  - destruct (unused_entry_idx st <? 0); intros H; inv_ok; simpl;
      (split; [intros; discriminate | intros; split; [done | intros; discriminate]]).
Qed.

Lemma cache_scan_shrinks asrc apktid tref entries :
  forall i st out st',
    cache_scan asrc apktid tref i entries st = Ok (out, st') ->
    Forall2 entry_shrinks entries out /\
    (src_found st' = false ->
       src_found st = false /\
       Forall (fun e' => used e' = true -> csrc e' <> asrc) out).
Proof.
  induction entries as [|e rest IH]; intros i st out st' H; simpl in H.
  - inv_ok. split; [constructor | intros; split; [done | constructor]].
  - inv_ok. destruct a as [e1 st1]. inv_ok. destruct a as [rest1 st2]. inv_ok.
    apply cache_visit_shrinks in Ha. destruct Ha as [Hs Hf].
    apply IH in Ha0. destruct Ha0 as [Hs' Hf'].
    split; [by constructor|].
    intros Hnf. destruct (Hf' Hnf) as [Hst1 Hall].
    destruct (Hf Hst1) as [Hst He1].
    split; [done | by constructor].
Qed.

Lemma cache_inv_shrinks c c' :
  Forall2 entry_shrinks c c' -> cache_inv c -> cache_inv c'.
Proof.
  intros HF Hinv i j e1 e2 Hi Hj Hu1 Hu2 Hs.
  destruct (Forall2_lookup_r _ _ _ _ _ HF Hi) as [d1 [Hd1 Hsh1]].
  destruct (Forall2_lookup_r _ _ _ _ _ HF Hj) as [d2 [Hd2 Hsh2]].
  destruct (Hsh1 Hu1) as [? ?]. destruct (Hsh2 Hu2) as [? ?].
  apply (Hinv i j d1 d2); congruence.
Qed.

Lemma cache_inv_install c idx asrc tref apktid :
  cache_inv c ->
  Forall (fun e' => used e' = true -> csrc e' <> asrc) c ->
  cache_inv (<[idx := mkCache true asrc tref apktid]> c).
Proof.
  intros Hinv Hno i j e1 e2 Hi Hj Hu1 Hu2 Hs.
  destruct (decide (i = idx)) as [->|Hni]; destruct (decide (j = idx)) as [->|Hnj]; try done.
  - rewrite list_lookup_insert_ne in Hj by done.
    apply list_lookup_insert_Some in Hi. destruct Hi as [[_ [<- _]]|[? _]]; [|done].
    simpl in Hs. rewrite Forall_lookup in Hno. specialize (Hno j e2 Hj Hu2). congruence.
  - rewrite list_lookup_insert_ne in Hi by done.
    apply list_lookup_insert_Some in Hj. destruct Hj as [[_ [<- _]]|[? _]]; [|done].
    simpl in Hs. rewrite Forall_lookup in Hno. specialize (Hno i e1 Hi Hu1). congruence.
  - rewrite list_lookup_insert_ne in Hi by done.
    rewrite list_lookup_insert_ne in Hj by done.
    by apply (Hinv i j e1 e2).
Qed.

Lemma check_pktid_already_seen_inv c asrc apktid tref c' r :
  cache_inv c ->
  check_pktid_already_seen c asrc apktid tref = Ok (c', r) ->
  cache_inv c'.
Proof.
  intros Hinv H. unfold check_pktid_already_seen in H.
  inv_ok. destruct a as [c1 st]. 
  apply cache_scan_shrinks in Ha. destruct Ha as [Hsh Hnf].
  pose proof (cache_inv_shrinks _ _ Hsh Hinv) as Hinv1.
  destruct (src_found st) eqn:Esf.
  - inv_ok. done.
  - destruct (_ || _); [discriminate|]. inv_ok.
    apply cache_inv_install; [done|]. by apply Hnf.
Qed.

Lemma cache_inv_all_free c : Forall (fun e => used e = false) c -> cache_inv c.
Proof.
  intros HF i j e1 e2 Hi _ Hu1 _ _. rewrite Forall_lookup in HF.
  specialize (HF i e1 Hi). simpl in HF. congruence.
Qed.

Lemma cache_reachable_inv c : cache_reachable c -> cache_inv c.
Proof.
  induction 1 as [c HF | c c' asrc apktid tref r _ IH Hstep].
  - by apply cache_inv_all_free.
  - by apply (check_pktid_already_seen_inv c asrc apktid tref c' r).
Qed.

(** ** The scan of the cache does not assert on a table with one entry per source *)

Lemma cache_inv_cons e rest :
  cache_inv (e :: rest) ->
  cache_inv rest /\
  (used e = true -> Forall (fun e2 => used e2 = true -> csrc e2 <> csrc e) rest).
Proof.
  intros Hinv. split.
  - intros i j e1 e2 Hi Hj Hu1 Hu2 Hs.
    assert (S i = S j) by (by apply (Hinv (S i) (S j) e1 e2)). lia.
  - intros Hu. apply Forall_lookup. intros k e2 Hk Hu2 Hs.
    assert (S k = 0%nat) by (by apply (Hinv (S k) 0%nat e2 e)). lia.
Qed.

Lemma cache_scan_total asrc apktid tref entries :
  forall i st,
    cache_inv entries ->
    (ret st = true -> src_found st = true) ->
    (src_found st = true -> Forall (fun e => used e = true -> csrc e <> asrc) entries) ->
    exists out st', cache_scan asrc apktid tref i entries st = Ok (out, st').
Proof.
  induction entries as [|e rest IH]; intros i st Hinv Hret Hfound; simpl.
  - by eexists _, _.
  - apply cache_inv_cons in Hinv. destruct Hinv as [Hinv Hothers].
    assert (Hv : exists e1 st1,
               cache_visit asrc apktid tref i e st = Ok (e1, st1) /\
               (ret st1 = true -> src_found st1 = true) /\
               (src_found st1 = true ->
                  Forall (fun e => used e = true -> csrc e <> asrc) rest)).
    { assert (Hrest : src_found st = true ->
                Forall (fun e => used e = true -> csrc e <> asrc) rest).
      { intros Hf. specialize (Hfound Hf). by inversion Hfound. }
      unfold cache_visit. destruct e as [u s m p]. simpl in *.
      destruct u; simpl.
      - destruct (CACHE_PKTID_DISCARD_DELAY <=? wrap32 (tref - m)); simpl.
        + destruct (unused_entry_idx st <? 0); eexists _, _; (split; [reflexivity|]); done.
        + destruct (s =? asrc) eqn:Es.
          * apply Z.eqb_eq in Es. subst s.
            assert (Hnf : src_found st = false).
            { destruct (src_found st) eqn:Ef; [|done].
              specialize (Hfound eq_refl). inversion Hfound as [|? ? Hh _]; subst.
              by specialize (Hh eq_refl). }
            assert (Hnr : ret st = false).
            { destruct (ret st); [|done]. specialize (Hret eq_refl). congruence. }
            rewrite Hnr. simpl.
            destruct (p =? apktid); eexists _, _; (split; [reflexivity|]); simpl;
              (split; [done|]); intros _; by apply Hothers.
          * destruct (wrap32 (tref - m) >? biggest_elapsed_found st);
              eexists _, _; (split; [reflexivity|]); done.
      - destruct (unused_entry_idx st <? 0); eexists _, _; (split; [reflexivity|]); done. }
    destruct Hv as (e1 & st1 & -> & Hret1 & Hfound1). simpl.
    destruct (IH (i + 1) st1 Hinv Hret1 Hfound1) as (out & st' & ->). simpl.
    by eexists _, _.
Qed.

Lemma check_pktid_already_seen_post c asrc apktid tref :
  cache_inv c ->
  post cache_overrun (fun '(c', _) => cache_inv c')
    (check_pktid_already_seen c asrc apktid tref).
Proof.
  intros Hinv.
  destruct (check_pktid_already_seen c asrc apktid tref) as [[c' r]|f] eqn:E; simpl.
  - by apply (check_pktid_already_seen_inv c asrc apktid tref c' r).
  - unfold check_pktid_already_seen in E.
    destruct (cache_scan_total asrc apktid tref c 0 scan_init Hinv) as (out & st & Hs);
      [done | done |].
    rewrite Hs in E. simpl in E.
    destruct (src_found st); [discriminate|].
    destruct (_ || _); [|discriminate]. by inversion E.
Qed.

(** ** Task creation *)

Lemma task_create_None l st tnow l' :
  task_create l st tnow = (l', None) -> l' = l.
Proof.
  unfold task_create. destruct (task_count l >=? max_task_count l); [congruence|].
  destruct (list_find _ _) as [[i t]|]; [discriminate | congruence].
Qed.

Lemma task_create_Some l st tnow l' i :
  task_create l st tnow = (l', Some i) ->
  exists t0, tskhead l !! i = Some t0 /\ status t0 = ST_NOTHING /\
    (forall j t, (j < i)%nat -> tskhead l !! j = Some t -> status t <> ST_NOTHING) /\
    task_count l < max_task_count l /\
    l' = set_task_count (wrap8 (task_count l + 1))
           (put_task i (created_task l st tnow t0)
              (set_last_taskid (wrap16 (last_taskid l + 1)) l)).
Proof.
  unfold task_create. destruct (task_count l >=? max_task_count l) eqn:Ec; [discriminate|].
  destruct (list_find _ _) as [[k t]|] eqn:Ef; [|discriminate].
  intros H. inversion H; subst; clear H.
  apply list_find_Some in Ef. destruct Ef as [Hk [Hs Hlt]].
  rewrite Z.geb_leb in Ec. apply Z.leb_gt in Ec.
  exists t. split; [done|]. split; [done|].
  split; [intros j y Hj Hy; by apply (Hlt j y)|]. split; [lia | by destruct l].
Qed.

Lemma get_task_put_task l i t t0 :
  tskhead l !! i = Some t0 -> get_task (put_task i t l) i = Ok t.
Proof.
  intros H. unfold get_task, put_task. destruct l; simpl in *.
  rewrite list_lookup_insert_eq; [done|]. by apply lookup_lt_Some in H.
Qed.

(** ** Task lookup *)

Lemma get_task_by_taskid_Some l id i :
  get_task_by_taskid l id = Some i ->
  exists t, tskhead l !! i = Some t /\ taskid t = id /\
    forall j t', (j < i)%nat -> tskhead l !! j = Some t' -> taskid t' <> id.
Proof.
  unfold get_task_by_taskid.
  destruct (list_find _ _) as [[k t]|] eqn:Ef; [|discriminate].
  intros H. inversion H; subst. apply list_find_Some in Ef.
  destruct Ef as (Hk & Hid & Hlt). exists t. repeat split; try done.
  intros j t' Hj Ht'. by apply (Hlt j t').
Qed.

Lemma get_task_by_taskid_None l id :
  get_task_by_taskid l id = None ->
  forall t, t ∈ tskhead l -> taskid t <> id.
Proof.
  unfold get_task_by_taskid.
  destruct (list_find _ _) as [[k t]|] eqn:Ef; [discriminate|].
  intros _ t Ht. apply list_find_None in Ef. rewrite Forall_forall in Ef. by apply Ef.
Qed.

(** ** Outcomes *)

Lemma post_bind {A B : Type} (F : fault -> Prop) (Q : A -> Prop) (P : B -> Prop)
    (c : result A) (k : A -> result B) :
  post F Q c -> (forall a, Q a -> post F P (k a)) -> post F P (rbind c k).
Proof. destruct c as [a|f]; simpl; [intros HQ Hk; by apply Hk | by intros]. Qed.

Lemma post_mono {A : Type} (F G : fault -> Prop) (P Q : A -> Prop) (c : result A) :
  post F P c -> (forall f, F f -> G f) -> (forall a, P a -> Q a) -> post G Q c.
Proof. destruct c; simpl; intros H HF HP; [by apply HP | by apply HF]. Qed.

Lemma post_Ok {A : Type} (F : fault -> Prop) (P : A -> Prop) (c : result A) (a : A) :
  post F P c -> c = Ok a -> P a.
Proof. intros H ->. exact H. Qed.

(** ** Frame and pool lemmas *)

Lemma get_task_lookup l i t : tskhead l !! i = Some t -> get_task l i = Ok t.
Proof. intros H. unfold get_task. by rewrite H. Qed.

Lemma frame_put_task i t l : frame (put_task i t l) = frame l.
Proof. by destruct l. Qed.

Lemma frame_log c l : frame (log c l) = frame l.
Proof. by destruct l. Qed.

Lemma frame_set_task_count v l : frame (set_task_count v l) = frame l.
Proof. by destruct l. Qed.

Lemma frame_set_last_taskid v l : frame (set_last_taskid v l) = frame l.
Proof. by destruct l. Qed.

Lemma frame_funcs l l' : frame l' = frame l -> funcs l' = funcs l.
Proof. destruct l, l'. simpl. intros H. by inversion H. Qed.

Lemma frame_recpkt l l' : frame l' = frame l -> recpkt l' = recpkt l.
Proof. destruct l, l'. simpl. intros H. by inversion H. Qed.

Lemma tskhead_put_task i t l : tskhead (put_task i t l) = <[i := t]> (tskhead l).
Proof. by destruct l. Qed.

Lemma tskhead_log c l : tskhead (log c l) = tskhead l.
Proof. by destruct l. Qed.

Lemma pool_wf_except_weaken fs i ts : pool_wf fs ts -> pool_wf_except fs i ts.
Proof. intros H j t _ Hj. by apply (H j t). Qed.

Lemma pool_wf_insert fs i t ts :
  pool_wf_except fs i ts -> task_wf fs t -> pool_wf fs (<[i := t]> ts).
Proof.
  intros Hex Ht j t' Hj. destruct (decide (j = i)) as [->|Hne].
  - apply list_lookup_insert_Some in Hj. destruct Hj as [(_ & <- & _) | (? & _)]; done.
  - rewrite list_lookup_insert_ne in Hj by done. by apply (Hex j t').
Qed.

Lemma pool_wf_except_insert fs i t ts :
  pool_wf_except fs i ts -> pool_wf_except fs i (<[i := t]> ts).
Proof.
  intros Hex j t' Hne Hj. rewrite list_lookup_insert_ne in Hj by done. by apply (Hex j t').
Qed.

Lemma pool_wf_except_insert_other fs i j t ts :
  pool_wf_except fs i ts -> task_wf fs t -> pool_wf_except fs i (<[j := t]> ts).
Proof.
  intros Hex Ht k t' Hne Hk. destruct (decide (k = j)) as [->|Hkj].
  - apply list_lookup_insert_Some in Hk. destruct Hk as [(_ & <- & _) | (? & _)]; done.
  - rewrite list_lookup_insert_ne in Hk by done. by apply (Hex k t').
Qed.

Lemma task_wf_set_status_same fs t : task_wf fs (set_status (status t) t) <-> task_wf fs t.
Proof. by destruct t. Qed.

Lemma task_wf_timer_ok fs t : task_wf fs t -> timer_ok t.
Proof.
  unfold task_wf, timer_ok.
  intros [H|[H|[H|[H|[H|H]]]]] H1 H2 H3; try tauto.
Qed.

(** ** Well-formedness through task creation *)

Lemma created_task_fields l st tnow t0 :
  status (created_task l st tnow t0) = st /\
  evtsub_wakeup (created_task l st tnow t0) = false /\
  evtsub_pktrcvd (created_task l st tnow t0) = false /\
  pktkeeper (created_task l st tnow t0) = pktkeeper t0 /\
  mtime_ref (created_task l st tnow t0) = tnow /\
  need_ack (created_task l st tnow t0) = false /\
  has_received_ack (created_task l st tnow t0) = false.
Proof. by destruct t0. Qed.

Lemma free_slot_no_packet fs t : task_wf fs t -> status t = ST_NOTHING -> pkt (pktkeeper t) = None.
Proof.
  intros [H|[H|[H|[H|[H|H]]]]] Hs; try (destruct H as [H _]; try destruct H as [H|H];
    rewrite Hs in H; discriminate). tauto.
Qed.

Lemma send_ack_noblock_wf l tnow h :
  pool_wf (funcs l) (tskhead l) ->
  len h = 0 ->
  post no_fault
    (fun '(l', _, _) =>
       frame l' = frame l /\
       (l' = l \/
        exists j t0 tnew,
          tskhead l !! j = Some t0 /\ status t0 = ST_NOTHING /\
          tskhead l' = <[j := tnew]> (tskhead l) /\ task_wf (funcs l) tnew))
    (send_ack_noblock l tnow h).
Proof.
  intros Hwf Hlen. unfold send_ack_noblock. rewrite Hlen. simpl.
  destruct (deviceInit (funcs l)); simpl; [|by split; [|left]].
  destruct (deviceSend (funcs l)) eqn:Hsend; simpl; [|by split; [|left]].
  destruct (task_create l ST_SEND tnow) as [l1 [j|]] eqn:Ec.
  - apply task_create_Some in Ec. destruct Ec as (t0 & Ht0 & Hs0 & _ & _ & ->).
    pose proof (free_slot_no_packet _ _ (Hwf j t0 Ht0) Hs0) as Hnull.
    pose proof (lookup_lt_Some _ _ _ Ht0) as Hlt.
    destruct l as [l1 l2 l3 l4 l5 l6 l7 l8 l9 l10 l11 l12 l13 l14 l15 lts lf l18 llog].
    destruct t0 as [tid tst [tpk] tref twk trc tnb tptr tpos tew ter tia tna tha tun t1 t2 tns].
    unfold get_task, put_task, prepare_for_sending, get_max_payload_len. simpl in *. subst.
    rewrite list_lookup_insert_eq by done. simpl.
    rewrite Hlen. simpl. split; [reflexivity|]. right.
    eexists j, _, _. split; [exact Ht0|]. split; [reflexivity|].
    split; [by rewrite list_insert_insert_eq|].
    right. left. simpl. repeat split; try done. 
  - apply task_create_None in Ec. subst l1. simpl. split; [done | by left].
Qed.

Lemma send_ack_wf l tnow i tsk :
  pool_wf (funcs l) (tskhead l) ->
  tskhead l !! i = Some tsk ->
  pkt (pktkeeper tsk) <> None ->
  status tsk <> ST_NOTHING ->
  post no_fault
    (fun l' =>
       frame l' = frame l /\ length (tskhead l') = length (tskhead l) /\
       pool_wf (funcs l) (tskhead l') /\ tskhead l' !! i = Some tsk)
    (send_ack l tnow i).
Proof.
  intros Hwf Hi Hp Hst. unfold send_ack. rewrite (get_task_lookup _ _ _ Hi). simpl.
  destruct (negb _); simpl; [|done].
  unfold deref_header, get_header_ptr.
  destruct (pkt (pktkeeper tsk)) as [tp|] eqn:Etp; [|done]. simpl.
  match goal with |- context [send_ack_noblock l tnow ?h] =>
    pose proof (send_ack_noblock_wf l tnow h Hwf eq_refl) as Hs;
    destruct (send_ack_noblock l tnow h) as [[[l' r] oid]|f]; simpl in *; [|done]
  end.
  destruct Hs as [Hfr [-> | (j & t0 & tnew & Hj & Hs0 & Hts & Hnew)]]; [done|].
  rewrite Hts. split; [done|]. split; [by rewrite length_insert|].
  assert (Hji : j <> i) by (intros ->; rewrite Hi in Hj; congruence).
  split.
  - apply pool_wf_insert; [by apply pool_wf_except_weaken | done].
  - by rewrite list_lookup_insert_ne.
Qed.

(** ** Well-formedness through the task events *)

Lemma tev_received_wf l tnow i t pk p seen :
  pool_wf (funcs l) (tskhead l) ->
  tskhead l !! i = Some t ->
  pkt pk = Some p ->
  post no_fault
    (fun '(l', r, _) =>
       frame l' = frame l /\ length (tskhead l') = length (tskhead l) /\
       pool_wf_except (funcs l) i (tskhead l') /\
       exists t', tskhead l' !! i = Some t' /\ task_wf (funcs l) (set_status r t'))
    (tev_received l tnow i pk seen).
Proof.
  intros Hwf Hi Hpk.
  pose proof (Hwf i t Hi) as Ht.
  pose proof (lookup_lt_Some _ _ _ Hi) as Hlt.
  assert (Hsame : post no_fault
            (fun '(l', r, _) =>
               frame l' = frame l /\ length (tskhead l') = length (tskhead l) /\
               pool_wf_except (funcs l) i (tskhead l') /\
               exists t', tskhead l' !! i = Some t' /\ task_wf (funcs l) (set_status r t'))
            (Ok (l, status t, false))).
  { simpl. split; [done|]. split; [done|]. split; [by apply pool_wf_except_weaken|].
    exists t. split; [done|]. by apply task_wf_set_status_same. }
  unfold tev_received. rewrite (get_task_lookup _ _ _ Hi). simpl.
  unfold deref_header at 1. unfold get_header_ptr. rewrite Hpk. simpl.
  destruct (negb _).
  - (* an acknowledgement *)
    destruct ((status t =? ST_SEND) || (status t =? ST_SEND_DONE)) eqn:Es; [|exact Hsame].
    destruct (need_ack t && negb (has_received_ack t)) eqn:En; [|exact Hsame].
    assert (Hp : pkt (pktkeeper t) <> None /\ evtsub_wakeup t = true).
    { destruct Ht as [H|[H|[H|[H|[H|H]]]]];
        try (destruct H as [H _]; try destruct H as [H|H]; rewrite H in Es; discriminate);
        tauto. }
    destruct Hp as [Hp Hew].
    unfold deref_header, get_header_ptr. rewrite Hpk.
    destruct (pkt (pktkeeper t)) as [tp|] eqn:Etp; [|done]. simpl.
    destruct (pktid (header tp) =? pktid (header p)); [|exact Hsame].
    destruct t as [tid tst [tpk] tref twk trc tnb tptr tpos tew ter tia tna tha tun t1 t2 tns].
    simpl in *. subst.
    destruct (tst =? ST_SEND) eqn:E1; simpl.
    + rewrite frame_put_task, tskhead_put_task, length_insert.
      split; [done|]. split; [done|].
      split; [by apply pool_wf_except_insert, pool_wf_except_weaken|].
      eexists. split; [by apply list_lookup_insert_eq|].
      right. right. left. simpl. repeat split; try done. by left.
    + rewrite frame_put_task, tskhead_put_task, length_insert.
      split; [done|]. split; [done|].
      split; [by apply pool_wf_except_insert, pool_wf_except_weaken|].
      eexists. split; [by apply list_lookup_insert_eq|].
      simpl in Es. apply Z.eqb_eq in Es. subst tst.
      right. right. left. simpl. repeat split; try done. by left.
  - destruct ((status t =? ST_RECEIVE) && negb seen) eqn:Er.
    + (* first delivery *)
      apply andb_prop in Er. destruct Er as [Er _]. apply Z.eqb_eq in Er.
      assert (Hnull : pkt (pktkeeper t) = None).
      { destruct Ht as [H|[H|[H|[H|[H|H]]]]];
          try (destruct H as [H _]; try destruct H as [H|H]; rewrite H in Er; discriminate);
          tauto. }
      unfold copy_packet, get_pkt_ptr_ro. rewrite Hnull, Hpk. simpl.
      rewrite frame_put_task, tskhead_put_task, length_insert.
      split; [done|]. split; [done|].
      split; [by apply pool_wf_except_insert, pool_wf_except_weaken|].
      eexists. split; [by apply list_lookup_insert_eq|].
      destruct t. simpl. right. right. right. right. left. simpl.
      repeat split; try done. by left.
    + destruct ((status t =? ST_RECEIVE_DATA_AVAILABLE)
                || (status t =? ST_RECEIVE_DATA_RETRIEVED)) eqn:Ea; [|exact Hsame].
      assert (Hp : pkt (pktkeeper t) <> None).
      { destruct Ht as [H|[H|[H|[H|[H|H]]]]];
          try (destruct H as [H _]; try destruct H as [H|H]; rewrite H in Ea; discriminate);
          tauto. }
      unfold deref_header, get_header_ptr.
      destruct (pkt (pktkeeper t)) as [tp|] eqn:Etp; [|done]. simpl.
      destruct ((pktid (header tp) =? pktid (header p)) && (src (header tp) =? src (header p)));
        [|exact Hsame].
      destruct (status t =? ST_RECEIVE_DATA_RETRIEVED) eqn:E5.
      * apply Z.eqb_eq in E5.
        assert (Hs : post no_fault
                  (fun l' => frame l' = frame l /\ length (tskhead l') = length (tskhead l) /\
                             pool_wf (funcs l) (tskhead l') /\ tskhead l' !! i = Some t)
                  (send_ack l tnow i)).
        { apply send_ack_wf; try done; [by rewrite Etp | by rewrite E5]. }
        destruct (send_ack l tnow i) as [l'|f]; simpl in *; [|done].
        destruct Hs as (Hfr & Hlen & Hwf' & Hi').
        split; [done|]. split; [done|]. split; [by apply pool_wf_except_weaken|].
        exists t. split; [done|]. by apply task_wf_set_status_same.
      * simpl. split; [done|]. split; [done|]. split; [by apply pool_wf_except_weaken|].
        exists t. split; [done|]. by apply task_wf_set_status_same.
Qed.

Lemma tev_wakeup_wf l tnow rc i t :
  pool_wf_except (funcs l) i (tskhead l) ->
  tskhead l !! i = Some t ->
  task_wf (funcs l) t ->
  evtsub_wakeup t = true ->
  post no_fault
    (fun '(l', r) =>
       frame l' = frame l /\ length (tskhead l') = length (tskhead l) /\
       pool_wf_except (funcs l) i (tskhead l') /\
       exists t', tskhead l' !! i = Some t' /\ status t' = status t /\
                  (r = ST_FINISHED \/ task_wf (funcs l) (set_status r t')))
    (tev_wakeup l tnow rc i).
Proof.
  intros Hex Hi Ht Hew.
  pose proof (lookup_lt_Some _ _ _ Hi) as Hlt.
  unfold tev_wakeup. rewrite (get_task_lookup _ _ _ Hi). simpl.
  destruct t as [tid tst [tpk] tref twk trc tnb tptr tpos tew ter tia tna tha tun t1 t2 tns].
  destruct l as [l1 l2 l3 l4 l5 l6 l7 l8 l9 l10 l11 l12 l13 l14 l15 lts lf l18 llog].
  unfold put_task, log, data_retrieved_post, reduce_packet_to_its_header. simpl in *. subst tew.
  destruct Ht as [H|[H|[H|[H|[H|H]]]]]; simpl in H.
  - destruct H as (_ & H & _). discriminate.
  - destruct H as (-> & _ & Hp & Hsend & Hnb & Hpos & Hmax). simpl.
    rewrite Hsend. simpl.
    assert (Hw : wrap8 (tpos + 1) = tpos + 1) by (unfold wrap8; apply Z.mod_small; lia).
    assert (Hfin : forall tk' : Task,
              pkt (pktkeeper tk') <> None -> evtsub_wakeup tk' = true ->
              send_schedule_pos tk' = tpos + 1 -> nb_send_schedules tk' = tnb ->
              send_schedule_ptr tk' = tptr -> status tk' = ST_SEND ->
              forall lg,
              post no_fault
                (fun '(l', r) =>
                   frame l' = frame (mkRFLink l1 l2 l3 l4 l5 l6 l7 l8 l9 l10 l11 l12 l13 l14 l15 lts lf l18 llog) /\
                   length (tskhead l') = length lts /\
                   pool_wf_except lf i (tskhead l') /\
                   exists t', tskhead l' !! i = Some t' /\ status t' = ST_SEND /\
                     (r = ST_FINISHED \/ task_wf lf (set_status r t')))
                (if send_schedule_pos tk' <? nb_send_schedules tk'
                 then off <- sched_at (send_schedule_ptr tk') (send_schedule_pos tk') ;;
                      Ok (mkRFLink l1 l2 l3 l4 l5 l6 l7 l8 l9 l10 l11 l12 l13 l14 l15
                            (<[i := set_mtime_wakeup (wrap32 (mtime_ref tk' + off)) tk']> lts)
                            lf l18 lg, status tk')
                 else Ok (mkRFLink l1 l2 l3 l4 l5 l6 l7 l8 l9 l10 l11 l12 l13 l14 l15
                            (<[i := if unattended tk'
                                    then set_mtime_wakeup tnow tk'
                                    else set_mtime_wakeup (wrap32 (tnow + l10)) tk']> lts)
                            lf l18 lg, ST_SEND_DONE))).
    { intros tk' Hp' Hew' Hpos' Hnb' Hptr' Hst' lg. rewrite Hpos', Hnb', Hptr'.
      destruct (tpos + 1 <? tnb) eqn:Elt.
      - apply Z.ltb_lt in Elt. unfold sched_at.
        assert (Hn : (tpos + 1 <? 0) = false) by lia. rewrite Hn.
        destruct (tptr !! Z.to_nat (tpos + 1)) as [off|] eqn:Eoff.
        + simpl. rewrite length_insert. split; [done|]. split; [done|].
          split; [by apply pool_wf_except_insert|].
          eexists. split; [by apply list_lookup_insert_eq|].
          destruct tk'. simpl in *. subst. split; [done|]. right.
          right. left. simpl. repeat split; try done; lia.
        + apply lookup_ge_None in Eoff. lia.
      - apply Z.ltb_ge in Elt. simpl. rewrite length_insert. split; [done|]. split; [done|].
        split; [by apply pool_wf_except_insert|].
        eexists. split; [by apply list_lookup_insert_eq|].
        destruct tk' as [? ? ? ? ? ? ? ? ? ? ? ? ? ? un ? ? ?]. simpl in *. subst.
        destruct un; simpl; (split; [done|]); right;
          right; right; left; simpl; repeat split; try done; right; lia. }
    destruct (negb tna || (tpos <? tnb - 1)); simpl; rewrite Hw.
    + destruct tpk as [tp|]; [|done]. simpl.
      apply (Hfin (mkTask tid ST_SEND _ tref twk _ tnb tptr (tpos + 1) true ter tia tna tha
                     tun t1 t2 _)); done.
    + apply (Hfin (mkTask tid ST_SEND _ tref twk _ tnb tptr (tpos + 1) true ter tia tna tha
                     tun t1 t2 _)); done.
  - destruct H as (-> & _). simpl. split; [done|]. split; [done|]. split; [done|].
    eexists. split; [exact Hi|]. split; [done|]. by left.
  - destruct H as (-> & ->). simpl. rewrite length_insert.
    split; [done|]. split; [done|]. split; [by apply pool_wf_except_insert|].
    eexists. split; [by apply list_lookup_insert_eq|]. split; [done|].
    right. simpl. right. right. right. right. right. done.
  - destruct H as ([-> | ->] & _ & Hp); simpl.
    + destruct tpk as [tp|]; [|done]. simpl. rewrite length_insert.
      split; [done|]. split; [done|]. split; [by apply pool_wf_except_insert|].
      eexists. split; [by apply list_lookup_insert_eq|]. split; [done|].
      right. simpl. right. right. right. right. right. done.
    + split; [done|]. split; [done|]. split; [done|].
      eexists. split; [exact Hi|]. split; [done|]. by left.
  - destruct H as (-> & _). simpl. split; [done|]. split; [done|]. split; [done|].
    eexists. split; [exact Hi|]. split; [done|]. by left.
Qed.

Lemma task_wf_set_status_timer fs r t :
  task_wf fs (set_status r t) ->
  r <> ST_RECEIVE -> r <> ST_NOTHING -> evtsub_wakeup t = true.
Proof.
  destruct t. unfold task_wf. simpl.
  intros [H|[H|[H|[H|[H|H]]]]] H1 H2; tauto.
Qed.

Lemma task_wf_destroyed fs t :
  task_wf fs (task_initialize (set_pktkeeper (release_data (pktkeeper t)) t)).
Proof. destruct t. left. done. Qed.

(** ** Well-formedness through the event pump *)

Lemma do_events_task_wf tk seen i st :
  pool_wf (funcs (lk st)) (tskhead (lk st)) ->
  (i < length (tskhead (lk st)))%nat ->
  (got_a_pkt st = true -> exists pk p, recpkt (lk st) = Some pk /\ pkt pk = Some p) ->
  post no_fault (loop_wf (lk st) st) (do_events_task tk seen i st).
Proof.
  intros Hwf Hlt Hgot. destruct st as [l got rst]. simpl in *.
  destruct (lookup_lt_is_Some_2 _ _ Hlt) as [t Hi].
  unfold do_events_task. simpl. rewrite (get_task_lookup _ _ _ Hi). simpl.
  eapply (post_bind _
    (fun '(l1, r1, g1) =>
       frame l1 = frame l /\ length (tskhead l1) = length (tskhead l) /\
       pool_wf_except (funcs l) i (tskhead l1) /\
       (exists t', tskhead l1 !! i = Some t' /\ task_wf (funcs l) (set_status r1 t')) /\
       (g1 = true -> got = true))).
  { destruct (evtsub_pktrcvd t && got) eqn:E.
    - apply andb_prop in E. destruct E as [_ ->].
      destruct (Hgot eq_refl) as (pk & p & Hr & Hp). rewrite Hr.
      pose proof (tev_received_wf l (now tk) i t pk p seen Hwf Hi Hp) as H.
      destruct (tev_received l (now tk) i pk seen) as [[[l1 r1] c]|f]; simpl in *; [|done].
      destruct H as (H1 & H2 & H3 & H4). repeat (split; [done|]). done.
    - simpl. split; [done|]. split; [done|]. split; [by apply pool_wf_except_weaken|].
      split; [|done]. exists t. split; [done|]. apply task_wf_set_status_same. by apply (Hwf i t). }
  intros [[l1 r1] g1] (Hfr1 & Hlen1 & Hex1 & (t1 & Hi1 & Hwf1) & Hg1).
  rewrite (get_task_lookup _ _ _ Hi1). simpl.
  eapply (post_bind _
    (fun '(l2, r2) =>
       frame l2 = frame l /\ length (tskhead l2) = length (tskhead l) /\
       pool_wf_except (funcs l) i (tskhead l2) /\
       exists t', tskhead l2 !! i = Some t' /\
                  (r2 = ST_FINISHED \/ task_wf (funcs l) (set_status r2 t')))).
  { destruct (evtsub_wakeup t1 && (r1 =? status t1)) eqn:E.
    - apply andb_prop in E. destruct E as [Hew Er]. apply Z.eqb_eq in Er. subst r1.
      apply (proj1 (task_wf_set_status_same _ _)) in Hwf1.
      destruct (signed32 (now tk - mtime_wakeup t1) >=? 0).
      + pose proof (frame_funcs _ _ Hfr1) as Hf.
        assert (Hex1' : pool_wf_except (funcs l1) i (tskhead l1)) by (by rewrite Hf).
        assert (Hwf1' : task_wf (funcs l1) t1) by (by rewrite Hf).
        pose proof (tev_wakeup_wf l1 (now tk) (send_rc tk) i t1 Hex1' Hi1 Hwf1' Hew) as H.
        destruct (tev_wakeup l1 (now tk) (send_rc tk) i) as [[l2 r2]|f]; simpl in *; [|done].
        destruct H as (H1 & H2 & H3 & t2 & H4 & _ & H5). rewrite Hf in *.
        split; [congruence|]. split; [congruence|]. split; [done|]. by exists t2.
      + simpl. split; [done|]. split; [done|]. split; [done|]. exists t1. split; [done|].
        right. by apply task_wf_set_status_same.
    - simpl. split; [done|]. split; [done|]. split; [done|]. exists t1. split; [done|]. by right. }
  intros [l2 r2] (Hfr2 & Hlen2 & Hex2 & t2 & Hi2 & Hr2).
  rewrite (get_task_lookup _ _ _ Hi2). simpl.
  assert (Ha : negb (negb (r2 =? ST_RECEIVE) && negb (r2 =? ST_NOTHING)
                     && negb (r2 =? ST_FINISHED) && negb (evtsub_wakeup t2)) = true).
  { destruct (r2 =? ST_RECEIVE) eqn:E1; [done|].
    destruct (r2 =? ST_NOTHING) eqn:E2; [done|].
    destruct (r2 =? ST_FINISHED) eqn:E3; [done|]. simpl.
    apply Z.eqb_neq in E1, E2, E3. destruct Hr2 as [?|Hr2]; [done|].
    by rewrite (task_wf_set_status_timer _ _ _ Hr2 E1 E2). }
  rewrite Ha. simpl.
  destruct (r2 =? ST_FINISHED) eqn:E3.
  - unfold task_destroy. rewrite (get_task_lookup _ _ _ Hi2). simpl.
    unfold loop_wf. simpl. destruct l2. simpl in *.
    rewrite length_insert. split; [done|]. split; [done|]. split; [|done].
    apply pool_wf_insert; [done|]. apply task_wf_destroyed.
  - apply Z.eqb_neq in E3. destruct Hr2 as [?|Hr2]; [done|].
    unfold loop_wf. simpl. rewrite frame_put_task, tskhead_put_task, length_insert.
    split; [done|]. split; [done|]. split; [|done].
    by apply pool_wf_insert.
Qed.

Lemma do_events_loop_wf tk seen idxs :
  forall st,
  pool_wf (funcs (lk st)) (tskhead (lk st)) ->
  Forall (fun i => (i < length (tskhead (lk st)))%nat) idxs ->
  (got_a_pkt st = true -> exists pk p, recpkt (lk st) = Some pk /\ pkt pk = Some p) ->
  post no_fault (loop_wf (lk st) st) (do_events_loop tk seen idxs st).
Proof.
  induction idxs as [|i rest IH]; intros st Hwf Hidx Hgot; simpl.
  - unfold loop_wf. done.
  - inversion Hidx as [|? ? Hi Hrest]; subst.
    eapply post_bind; [by apply do_events_task_wf|].
    intros st1 (Hfr & Hlen & Hwf1 & Hg). simpl.
    pose proof (frame_funcs _ _ Hfr) as Hf. pose proof (frame_recpkt _ _ Hfr) as Hrp.
    eapply post_mono; [apply IH| done |].
    + by rewrite Hf.
    + by rewrite Hlen.
    + intros Hg1. rewrite Hrp. by apply Hgot, Hg.
    + intros st2 (Hfr2 & Hlen2 & Hwf2 & Hg2). unfold loop_wf.
      rewrite Hf in Hwf2. split; [congruence|]. split; [congruence|]. split; [done|]. tauto.
Qed.

Lemma engine_wf_frame l l' :
  engine_wf l -> frame l' = frame l -> pool_wf (funcs l) (tskhead l') -> engine_wf l'.
Proof.
  intros (Hp & Hf & Ha & Hi & Hc) Hfr Hp'.
  destruct l, l'. simpl in *. inversion Hfr; subst. done.
Qed.

Lemma engine_wf_core l l' :
  engine_wf l -> core l' = core l ->
  (interrupt_is_attached l' = true -> setInterrupt (funcs l) = true) ->
  (interrupted l' = true -> setInterrupt (funcs l) = true) ->
  engine_wf l'.
Proof.
  intros (Hp & Hf & Ha & Hi & Hc) Hco Ha' Hi'.
  destruct l, l'. simpl in *. inversion Hco; subst. done.
Qed.

Lemma core_log c l : core (log c l) = core l.
Proof. by destruct l. Qed.

Lemma interrupts_on_wf l :
  (interrupt_is_attached l = false -> setInterrupt (funcs l) = true) ->
  post no_fault
    (fun l' => core l' = core l /\ recpkt l' = recpkt l /\ interrupted l' = interrupted l /\
               interrupt_is_attached l' = true)
    (interrupts_on l).
Proof.
  intros H. unfold interrupts_on.
  destruct (interrupt_is_attached l) eqn:Ea; simpl; [done|].
  rewrite H by done. simpl. by destruct l.
Qed.

Lemma interrupts_off_wf l :
  (interrupt_is_attached l = true -> resetInterrupt (funcs l) = true) ->
  post no_fault
    (fun l' => core l' = core l /\ recpkt l' = recpkt l /\ interrupted l' = interrupted l /\
               interrupt_is_attached l' = false)
    (interrupts_off l).
Proof.
  intros H. unfold interrupts_off.
  destruct (interrupt_is_attached l) eqn:Ea; simpl; [|done].
  rewrite H by done. simpl. by destruct l.
Qed.

Lemma check_rcvd_pkt_is_ok_nonnull pk m n :
  check_rcvd_pkt_is_ok pk m n = true -> exists p, pkt pk = Some p.
Proof. unfold check_rcvd_pkt_is_ok. destruct (pkt pk) as [p|]; [by exists p | done]. Qed.

Lemma do_events_drain_wf l tk want :
  funcs_ok (funcs l) ->
  setInterrupt (funcs l) = true ->
  post no_fault
    (fun '(l', got) =>
       core l' = core l /\ interrupted l' = false /\
       (got = true -> frame_valid l tk = true /\
                      exists pk p, recpkt l' = Some pk /\ pkt pk = Some p))
    (do_events_drain l tk want).
Proof.
  intros [_ Hfo] Hset. unfold do_events_drain.
  eapply post_bind; [apply interrupts_off_wf; auto|].
  intros l1 (Hc1 & Hr1 & Hi1 & Ha1). simpl.
  assert (Hf1 : funcs l1 = funcs l /\ max_payload_len l1 = max_payload_len l).
  { destruct l, l1. simpl in *. by inversion Hc1. }
  destruct Hf1 as [Hf1 Hm1].
  destruct want.
  - unfold initialize_recpkt_if_necessary.
    destruct (recpkt l1) as [pk|] eqn:Er; simpl.
    + rewrite Er. simpl.
      eapply post_bind.
      { apply interrupts_on_wf. intros _. destruct l1. simpl in *. congruence. }
      intros l2 (Hc2 & Hr2 & Hi2 & Ha2). simpl.
      split; [destruct l, l1, l2; simpl in *; inversion Hc1; inversion Hc2; by subst|].
      split; [destruct l1; simpl in *; congruence|].
      intros Hg. unfold frame_valid.
      destruct (pkt pk) as [p0|] eqn:Ep.
      * split; [destruct l, l1; simpl in *; inversion Hc1; by subst|].
        eexists _, _. split; [destruct l1; simpl in *; by rewrite Hr2|]. done.
      * unfold check_rcvd_pkt_is_ok in Hg. destruct l1; simpl in *. by rewrite Ep in Hg.
    + assert (Hrr : recpkt (set_recpkt (Some (mkPktKeeper (Some blank_packet))) l1)
                    = Some (mkPktKeeper (Some blank_packet))) by (by destruct l1).
      rewrite Hrr. simpl.
      eapply post_bind.
      { apply interrupts_on_wf. intros _. destruct l1. simpl in *. congruence. }
      intros l2 (Hc2 & Hr2 & Hi2 & Ha2). simpl.
      split; [destruct l, l1, l2; simpl in *; inversion Hc1; inversion Hc2; by subst|].
      split; [destruct l1; simpl in *; congruence|].
      intros Hg. split; [unfold frame_valid; destruct l, l1; simpl in *; inversion Hc1; by subst|].
      eexists _, _. split; [destruct l1; simpl in *; by rewrite Hr2|]. done.
  - simpl. eapply post_bind.
    { apply interrupts_on_wf. intros _. destruct l1. simpl in *. congruence. }
    intros l2 (Hc2 & Hr2 & Hi2 & Ha2). simpl.
    split; [destruct l, l1, l2; simpl in *; inversion Hc1; inversion Hc2; by subst|].
    split; [destruct l1; simpl in *; congruence|]. done.
Qed.

Lemma do_events_seen_wf l tref got :
  engine_wf l ->
  (got = true -> exists pk p, recpkt l = Some pk /\ pkt pk = Some p) ->
  post cache_overrun
    (fun '(l', _) =>
       engine_wf l' /\ recpkt l' = recpkt l /\ tskhead l' = tskhead l /\
       (got = false -> l' = l))
    (do_events_seen l tref got).
Proof.
  intros Hwf Hgot. unfold do_events_seen. destruct got; simpl; [|done].
  destruct (Hgot eq_refl) as (pk & p & Hr & Hp). rewrite Hr.
  unfold deref_header, get_header_ptr. rewrite Hp. simpl.
  destruct Hwf as (Hpl & Hf & Ha & Hi & Hc).
  eapply post_bind; [by apply check_pktid_already_seen_post|].
  intros [c seen] Hc'. simpl. destruct l. simpl in *. done.
Qed.

Lemma engine_wf_finish tk st :
  engine_wf (lk st) ->
  engine_wf (do_events_finish tk st)
  /\ cache_pktids (do_events_finish tk st) = cache_pktids (lk st)
  /\ tskhead (do_events_finish tk st) = tskhead (lk st).
Proof.
  intros Hwf. unfold do_events_finish.
  assert (Hlog : forall c l, engine_wf l ->
            engine_wf (log c l) /\ cache_pktids (log c l) = cache_pktids l
            /\ tskhead (log c l) = tskhead l) by (intros c [] ?; done).
  assert (Hrst : forall v l, engine_wf l ->
            engine_wf (set_last_device_reset v l)
            /\ cache_pktids (set_last_device_reset v l) = cache_pktids l
            /\ tskhead (set_last_device_reset v l) = tskhead l) by (intros v [] ?; done).
  set (l1 := if device_needs_reset st then _ else _).
  assert (H1 : engine_wf l1 /\ cache_pktids l1 = cache_pktids (lk st)
               /\ tskhead l1 = tskhead (lk st)).
  { subst l1. destruct (device_needs_reset st); [|done].
    destruct (_ >=? _); [|done].
    destruct (Hrst (now tk) _ Hwf) as (Ha & Hb & Hc).
    destruct (Hlog (DeviceInit true) _ Ha) as (Ha2 & Hb2 & Hc2).
    destruct (Hlog (Delay 1) _ Ha2) as (Ha3 & Hb3 & Hc3).
    split; [done|]. split; congruence. }
  destruct H1 as (Ha & Hb & Hc).
  destruct (_ && _); [|done].
  destruct (Hlog (DeviceInit true) _ Ha) as (Ha2 & Hb2 & Hc2).
  destruct (Hlog SleepCpu _ Ha2) as (Ha3 & Hb3 & Hc3).
  split; [done|]. split; congruence.
Qed.

Lemma do_events_tasks_wf l tk got seen :
  engine_wf l ->
  (got = true -> exists pk p, recpkt l = Some pk /\ pkt pk = Some p) ->
  post no_fault (fun l' => engine_wf l' /\ cache_pktids l' = cache_pktids l)
    (do_events_tasks l tk got seen).
Proof.
  intros Hwf Hgot. unfold do_events_tasks.
  eapply post_bind.
  { apply (do_events_loop_wf tk seen _ (mkLoop l got false)); simpl.
    - by destruct Hwf.
    - apply Forall_forall. intros i Hi. apply elem_of_seq in Hi. lia.
    - done. }
  intros st (Hfr & Hlen & Hpl & _). simpl in *.
  assert (Hwf1 : engine_wf (lk st)) by (by apply (engine_wf_frame l)).
  destruct (engine_wf_finish tk st Hwf1) as (Ha & Hb & _).
  split; [done|]. rewrite Hb. destruct l, (lk st). simpl in *. by inversion Hfr.
Qed.

Lemma do_events_receive_wf l tk :
  engine_wf l ->
  post no_fault
    (fun '(l2, got) =>
       engine_wf l2 /\ core l2 = core l /\
       (got = true -> frame_valid l tk = true /\
                      exists pk p, recpkt l2 = Some pk /\ pkt pk = Some p))
    (do_events_receive l tk).
Proof.
  intros Hwf. unfold do_events_receive.
  pose proof Hwf as (Hpl & [Hf1 Hf2] & Ha & Hi & Hc).
  set (want := existsb evtsub_pktrcvd (tskhead l) && deviceReceive (funcs l)).
  eapply (post_bind _ (fun l1 => engine_wf l1 /\ core l1 = core l
                                 /\ interrupted l1 = interrupted l)).
  { destruct want eqn:Ew.
    - apply andb_prop in Ew. destruct Ew as [_ Hr].
      eapply post_mono; [apply interrupts_on_wf; auto | done |].
      intros l1 (Hc1 & Hr1 & Hi1 & Ha1). split; [|done].
      apply (engine_wf_core l); try done; auto.
    - done. }
  intros l1 (Hwf1 & Hc1 & Hi1). simpl.
  assert (Hfs : funcs l1 = funcs l /\ max_payload_len l1 = max_payload_len l)
    by (destruct l, l1; simpl in *; by inversion Hc1).
  destruct Hfs as [Hfs Hmx].
  pose proof Hwf1 as (Hpl1 & _ & Ha1 & Hi1' & _).
  set (flag := interrupted l1 || (irq tk && interrupt_is_attached l1)).
  assert (Hflag : flag = true -> setInterrupt (funcs l1) = true).
  { subst flag. intros Hfl. apply orb_prop in Hfl. destruct Hfl as [Hfl|Hfl]; [auto|].
    apply andb_prop in Hfl. destruct Hfl as [_ Hfl]. auto. }
  assert (Hlb : engine_wf (set_interrupted flag l1)).
  { apply (engine_wf_core l1); try done; destruct l1; simpl in *; auto. }
  assert (Hib : interrupted (set_interrupted flag l1) = flag) by (by destruct l1).
  assert (Hcb : core (set_interrupted flag l1) = core l) by (rewrite <- Hc1; by destruct l1).
  rewrite Hib.
  destruct flag eqn:Efl.
  - eapply post_mono; [apply do_events_drain_wf | done |].
    + destruct l1; simpl in *. rewrite Hfs. done.
    + destruct l1; simpl in *. by apply Hflag.
    + intros [l2 got] (Hc2 & Hi2 & Hg).
      split; [|split; [congruence|]].
      * apply (engine_wf_core _ _ Hlb Hc2); [|by rewrite Hi2].
        intros _. destruct l1; simpl in *. by apply Hflag.
      * intros Hgt. destruct (Hg Hgt) as [Hv Hr]. split; [|done].
        unfold frame_valid, get_max_payload_len in *. rewrite <- Hmx, <- Hv.
        by destruct l1.
  - simpl. done.
Qed.

(** On a well-formed engine [do_events] returns a well-formed engine; the one
    fault it can stop on is the write outside the packet-id cache. *)
Lemma do_events_wf l tk :
  engine_wf l -> post cache_overrun engine_wf (do_events l tk).
Proof.
  intros Hwf. unfold do_events.
  destruct (negb (deviceInit (funcs l))); [done|].
  eapply post_bind.
  { eapply post_mono; [by apply do_events_receive_wf | done | intros a Ha; exact Ha]. }
  intros [l2 got] (Hwf2 & _ & Hg2). simpl.
  assert (Hg : got = true -> exists pk p, recpkt l2 = Some pk /\ pkt pk = Some p)
    by (intros Hgt; by apply Hg2).
  eapply post_bind; [by apply do_events_seen_wf|].
  intros [l3 seen] (Hwf3 & Hr3 & _ & _). simpl.
  eapply post_mono; [apply do_events_tasks_wf; try done | done | by intros ? [? ?]].
  rewrite Hr3. done.
Qed.

(** ** Well-formedness through the entry points *)

Lemma engine_wf_new_task l i t0 tnew v1 v2 v3 :
  engine_wf l ->
  tskhead l !! i = Some t0 ->
  task_wf (funcs l) tnew ->
  engine_wf (set_last_pktid v3 (put_task i tnew (set_task_count v1 (set_last_taskid v2 l)))).
Proof.
  intros (Hp & Hf & Ha & Hi & Hc) Ht0 Hnew. destruct l. unfold engine_wf. simpl in *.
  split; [|done]. apply pool_wf_insert; [by apply pool_wf_except_weaken | done].
Qed.

Lemma send_noblock_wf l tnow adst d alen ack :
  engine_wf l ->
  post (fun f => f = AssertFailed A_prepare_args) (fun '(l', _, _) => engine_wf l')
    (send_noblock l tnow adst d alen ack).
Proof.
  intros Hwf. unfold send_noblock.
  destruct (negb (deviceInit (funcs l))); [done|].
  destruct (deviceSend (funcs l)) eqn:Hsend; simpl; [|done].
  destruct (alen >? max_payload_len l); [done|].
  destruct ((alen =? 0) && _); [done|].
  destruct (task_create l ST_SEND tnow) as [l1 [j|]] eqn:Ec.
  - apply task_create_Some in Ec. destruct Ec as (t0 & Ht0 & Hs0 & _ & _ & ->).
    pose proof Hwf as (Hpl & _).
    pose proof (free_slot_no_packet _ _ (Hpl j t0 Ht0) Hs0) as Hnull.
    pose proof (lookup_lt_Some _ _ _ Ht0) as Hlt.
    pose proof (engine_wf_new_task l j t0) as Hnew.
    destruct l as [l1 l2 l3 l4 l5 l6 l7 l8 l9 l10 l11 l12 l13 l14 l15 lts lf l18 llog].
    destruct t0 as [tid tst [tpk] tref twk trc tnb tptr tpos tew ter tia tna tha tun t1 t2 tns].
    unfold get_task, put_task, prepare_for_sending, get_max_payload_len, sched_at.
    simpl in *. subst.
    rewrite list_lookup_insert_eq by done. simpl.
    destruct ack; simpl;
      (destruct ((alen =? 0) && bool_decide (d = None) || (1 <=? alen) && negb (bool_decide (d = None)));
       simpl; [|done]);
      rewrite list_insert_insert_eq;
      (apply Hnew; [exact Hwf | exact Ht0 |]);
      right; left; simpl; repeat split; try done.
  - apply task_create_None in Ec. by subst.
Qed.

Lemma receive_noblock_wf l tnow cfg :
  engine_wf l ->
  post no_fault (fun '(l', _, _) => engine_wf l') (receive_noblock l tnow cfg).
Proof.
  intros Hwf. unfold receive_noblock.
  destruct (negb (deviceInit (funcs l))); [done|].
  destruct (negb (deviceReceive (funcs l))); [done|].
  destruct (task_create l ST_RECEIVE tnow) as [l1 [j|]] eqn:Ec.
  - apply task_create_Some in Ec. destruct Ec as (t0 & Ht0 & Hs0 & _ & _ & ->).
    pose proof Hwf as (Hpl & _).
    pose proof (free_slot_no_packet _ _ (Hpl j t0 Ht0) Hs0) as Hnull.
    pose proof (lookup_lt_Some _ _ _ Ht0) as Hlt.
    pose proof (engine_wf_new_task l j t0) as Hnew.
    destruct l as [l1 l2 l3 l4 l5 l6 l7 l8 l9 l10 l11 l12 l13 l14 l15 lts lf l18 llog].
    destruct t0 as [tid tst [tpk] tref twk trc tnb tptr tpos tew ter tia tna tha tun t1 t2 tns].
    unfold get_task, put_task. simpl in *. subst.
    rewrite list_lookup_insert_eq by done. simpl.
    rewrite list_insert_insert_eq.
    apply Hnew; [exact Hwf | exact Ht0 |].
    destruct cfg as [[c1 [|] c3 c4 c5]|]; simpl; right; right; right; left; done.
  - apply task_create_None in Ec. by subst.
Qed.

Lemma engine_wf_put_task l i t :
  engine_wf l -> task_wf (funcs l) t -> engine_wf (put_task i t l).
Proof.
  intros (Hp & Hf & Ha & Hi & Hc) Ht. destruct l. unfold engine_wf. simpl in *.
  split; [|done]. apply pool_wf_insert; [by apply pool_wf_except_weaken | done].
Qed.

Lemma data_retrieve_wf l tnow tsk buf_len want_sender :
  engine_wf l ->
  (forall i, tsk = Some i -> is_Some (tskhead l !! i)) ->
  post no_fault (fun '(l', _, _) => engine_wf l') (data_retrieve l tnow tsk buf_len want_sender).
Proof.
  intros Hwf Hin. unfold data_retrieve. destruct tsk as [i|]; [|done].
  destruct (Hin i eq_refl) as [t Hi].
  rewrite (get_task_lookup _ _ _ Hi). simpl.
  destruct (negb (status t =? ST_RECEIVE_DATA_AVAILABLE)) eqn:Es; [done|].
  apply negb_false_iff, Z.eqb_eq in Es.
  pose proof Hwf as (Hpl & _).
  assert (Hp : pkt (pktkeeper t) <> None /\ evtsub_wakeup t = true).
  { destruct (Hpl i t Hi) as [H|[H|[H|[H|[H|H]]]]];
      try (destruct H as [H _]; try destruct H as [H|H]; rewrite H in Es; discriminate);
      tauto. }
  destruct Hp as [Hp Hew].
  destruct t as [tid tst [tpk] tref twk trc tnb tptr tpos tew ter tia tna tha tun t1 t2 tns].
  simpl in *. subst. destruct tpk as [tp|]; [|done].
  unfold deref_header, get_header_ptr, data_retrieved_post, reduce_packet_to_its_header.
  simpl.
  set (t' := mkTask tid ST_RECEIVE_DATA_RETRIEVED _ tref _ trc tnb tptr tpos true ter tia tna
               tha tun t1 t2 tns).
  assert (Hwf' : engine_wf (put_task i t' l)).
  { apply engine_wf_put_task; [done|]. right. right. right. right. left.
    subst t'. simpl. split; [by right|]. done. }
  assert (Hi' : tskhead (put_task i t' l) !! i = Some t').
  { rewrite tskhead_put_task. apply list_lookup_insert_eq. by apply lookup_lt_Some in Hi. }
  assert (Hs : post no_fault (fun '(l', _, _) => engine_wf l')
            (l0 <- send_ack (put_task i t' l) tnow i ;;
             Ok (l0, ST_RECEIVE_DATA_RETRIEVED,
                 mkRetrieved (copy_data (mkPktKeeper (Some tp)) buf_len)
                   (if want_sender then Some (src (header tp)) else None)))).
  { eapply post_bind.
    - apply (send_ack_wf _ tnow i t'); [by destruct Hwf' | done | done | done].
    - intros l' (Hfr & _ & Hpl' & _). simpl. by apply (engine_wf_frame (put_task i t' l)). }
  destruct want_sender; simpl; exact Hs.
Qed.

Lemma send_get_final_status_wf l tnow id :
  engine_wf l ->
  post no_fault (fun '(l', _, _) => engine_wf l') (send_get_final_status l tnow id).
Proof.
  intros Hwf. unfold send_get_final_status.
  destruct (get_task_by_taskid l id) as [i|] eqn:Ei; [|done].
  destruct (get_task_by_taskid_Some _ _ _ Ei) as (t & Hi & _).
  rewrite (get_task_lookup _ _ _ Hi). simpl.
  destruct (negb (status t =? ST_SEND_DONE)) eqn:Es; [done|].
  apply negb_false_iff, Z.eqb_eq in Es. simpl.
  apply engine_wf_put_task; [done|].
  pose proof Hwf as (Hpl & _).
  destruct (Hpl i t Hi) as [H|[H|[H|[H|[H|H]]]]];
    try (destruct H as [H _]; try destruct H as [H|H]; rewrite H in Es; discriminate).
  destruct t. simpl in *. right. right. left. simpl. tauto.
Qed.

Lemma set_opt_byte_wf l opt value : engine_wf l -> engine_wf (set_opt_byte l opt value).
Proof.
  intros Hwf. unfold set_opt_byte. destruct (negb _); [done|].
  destruct opt; try done. by destruct l.
Qed.

Lemma engine_wf_boot maxtask max_data_len fs l0 :
  RFLink_new maxtask = Ok l0 -> funcs_ok fs ->
  engine_wf (register_funcs l0 fs max_data_len).
Proof.
  unfold RFLink_new. destruct (_ || _); [discriminate|].
  intros H Hfs. inversion H; subst; clear H.
  assert (Hpool : forall fs', pool_wf fs' (replicate (Z.to_nat maxtask) (task_initialize blank_task))).
  { intros fs' j t Hj. apply lookup_replicate in Hj. destruct Hj as [-> _]. by left. }
  assert (Hcache : cache_inv (replicate (Z.to_nat PKTID_CACHE_SIZE) blank_cache_entry)).
  { apply cache_inv_all_free. apply Forall_forall. intros e He.
    apply elem_of_replicate in He. by destruct He as [-> _]. }
  unfold register_funcs. simpl.
  destruct (negb (deviceInit fs)); unfold engine_wf; simpl; repeat split; try done;
    try apply Hpool; try apply Hfs.
Qed.

(** Every operation keeps the engine well-formed. *)
Lemma run_op_wf l op : engine_wf l -> post op_fault engine_wf (run_op l op).
Proof.
  intros Hwf. destruct op as [tnow adst d alen ack|tnow cfg|tk|tnow id buf_len ws|tnow id|opt v];
    simpl.
  - eapply post_bind.
    + eapply post_mono; [by apply send_noblock_wf | by right | intros a Ha; exact Ha].
    + by intros [[l' r] oid] H.
  - eapply post_bind.
    + eapply post_mono; [by apply receive_noblock_wf | done | intros a Ha; exact Ha].
    + by intros [[l' r] oid] H.
  - eapply post_mono; [by apply do_events_wf | by left | done].
  - eapply post_bind.
    + eapply post_mono; [apply data_retrieve_wf; [done|] | done | intros a Ha; exact Ha].
      intros i Hi. destruct (get_task_by_taskid_Some _ _ _ Hi) as (t & Ht & _). by exists t.
    + by intros [[l' r] out] H.
  - eapply post_bind.
    + eapply post_mono; [by apply send_get_final_status_wf | done | intros a Ha; exact Ha].
    + by intros [[l' r] oid] H.
  - by apply set_opt_byte_wf.
Qed.

Lemma engine_reachable_wf l : engine_reachable l -> engine_wf l.
Proof.
  induction 1 as [maxtask mdl fs l0 Hnew Hfs | l l' op _ IH Hop].
  - by apply (engine_wf_boot maxtask).
  - pose proof (run_op_wf l op IH) as H. by rewrite Hop in H.
Qed.

Lemma engine_wf_timer_inv l : engine_wf l -> timer_inv l.
Proof.
  intros (Hpl & _) t Ht. apply list_elem_of_lookup in Ht. destruct Ht as [i Hi].
  by apply (task_wf_timer_ok (funcs l)), (Hpl i).
Qed.

(** ** What the task loop does not depend on *)

Ltac split_ifs :=
  repeat (simpl;
          match goal with
          | |- context [if ?b then _ else _] => destruct b eqn:?
          | |- context [match ?x with Some _ => _ | None => _ end] => destruct x eqn:?
          end).

Lemma tev_wakeup_core l l2 tnow rc i :
  core l = core l2 ->
  same_outcome (tev_wakeup l tnow rc i) (tev_wakeup l2 tnow rc i).
Proof.
  intros Hc.
  destruct l as [a1 a2 a3 a4 a5 a6 a7 a8 a9 a10 a11 a12 a13 a14 a15 lts lf a18 alog].
  destruct l2 as [b1 b2 b3 b4 b5 b6 b7 b8 b9 b10 b11 b12 b13 b14 b15 lts2 lf2 b18 blog].
  simpl in Hc. inversion Hc; subst. clear Hc.
  unfold tev_wakeup, get_task, put_task, log, data_retrieved_post,
    reduce_packet_to_its_header, call, sched_at. simpl.
  destruct (lts2 !! i) as [t|]; [|done]. simpl.
  destruct t as [tid tst [tpk] tref twk trc tnb tptr tpos tew ter tia tna tha tun t1 t2 tns].
  simpl. split_ifs; simpl; try done.
Qed.

Lemma core_tskhead l l2 : core l = core l2 -> tskhead l = tskhead l2.
Proof. destruct l, l2. simpl. intros H. by inversion H. Qed.

Lemma core_cache l l2 : core l = core l2 -> cache_pktids l = cache_pktids l2.
Proof. destruct l, l2. simpl. intros H. by inversion H. Qed.

Lemma core_put_task i t l l2 : core l = core l2 -> core (put_task i t l) = core (put_task i t l2).
Proof. destruct l, l2. simpl. intros H. by inversion H. Qed.

Lemma core_set_task_count v l l2 :
  core l = core l2 -> core (set_task_count v l) = core (set_task_count v l2).
Proof. destruct l, l2. simpl. intros H. by inversion H. Qed.

Lemma core_task_count l l2 : core l = core l2 -> task_count l = task_count l2.
Proof. destruct l, l2. simpl. intros H. by inversion H. Qed.

Lemma do_events_task_core tk tk' seen seen' i l l2 rst :
  now tk = now tk' -> send_rc tk = send_rc tk' ->
  core l = core l2 ->
  same_outcome
    (st <- do_events_task tk seen i (mkLoop l false rst) ;; Ok (loop_outcome st))
    (st <- do_events_task tk' seen' i (mkLoop l2 false rst) ;; Ok (loop_outcome st)).
Proof.
  intros Hnow Hrc Hc.
  destruct l as [a1 a2 a3 a4 a5 a6 a7 a8 a9 a10 a11 a12 a13 a14 a15 lts lf a18 alog].
  destruct l2 as [b1 b2 b3 b4 b5 b6 b7 b8 b9 b10 b11 b12 b13 b14 b15 lts2 lf2 b18 blog].
  simpl in Hc. inversion Hc; subst. clear Hc.
  unfold do_events_task. simpl. rewrite <- Hnow, <- Hrc.
  unfold get_task at 1 4. simpl.
  destruct (lts2 !! i) as [t|]; [|done]. simpl.
  rewrite andb_false_r. simpl.
  unfold get_task at 1 3. simpl.
  destruct (lts2 !! i) as [t'|]; [|done]. simpl.
  unfold tev_wakeup, task_destroy, get_task, put_task, log, data_retrieved_post,
    reduce_packet_to_its_header, call, sched_at, loop_outcome, assert. simpl.
  destruct (lts2 !! i) as [t''|]; simpl.
  - destruct t'' as [tid tst [tpk] tref twk trc tnb tptr tpos tew ter tia tna tha tun t1 t2 tns].
    simpl. split_ifs; simpl; try done.
  - split_ifs; simpl; try done.
Qed.

Lemma do_events_task_no_pkt tk seen i l rst st :
  do_events_task tk seen i (mkLoop l false rst) = Ok st -> got_a_pkt st = false.
Proof.
  unfold do_events_task. simpl.
  destruct (get_task l i) as [t|]; simpl; [|discriminate].
  rewrite andb_false_r. simpl.
  destruct (get_task l i) as [t'|]; simpl; [|discriminate].
  match goal with
  | |- context [rbind ?c _] => destruct c as [[l' r]|]; simpl; [|discriminate]
  end.
  destruct (get_task l' i) as [t''|]; simpl; [|discriminate].
  destruct (assert _ _); simpl; [|discriminate].
  destruct (r =? ST_FINISHED).
  - destruct (task_destroy l' i); simpl; [|discriminate]. intros H. by inversion H.
  - intros H. by inversion H.
Qed.

Lemma do_events_loop_core tk tk' seen seen' idxs :
  now tk = now tk' -> send_rc tk = send_rc tk' ->
  forall l l2 rst,
    core l = core l2 ->
    same_outcome
      (st <- do_events_loop tk seen idxs (mkLoop l false rst) ;; Ok (loop_outcome st))
      (st <- do_events_loop tk' seen' idxs (mkLoop l2 false rst) ;; Ok (loop_outcome st)).
Proof.
  intros Hnow Hrc. induction idxs as [|i rest IH]; intros l l2 rst Hc; simpl.
  - done.
  - pose proof (do_events_task_core tk tk' seen seen' i l l2 rst Hnow Hrc Hc) as Ht.
    destruct (do_events_task tk seen i (mkLoop l false rst)) as [st1|f1] eqn:E1,
             (do_events_task tk' seen' i (mkLoop l2 false rst)) as [st2|f2] eqn:E2;
      simpl in *; try done.
    apply do_events_task_no_pkt in E1, E2.
    destruct st1 as [la g1 r1], st2 as [lb g2 r2]. unfold loop_outcome in Ht.
    simpl in *. subst g1 g2. destruct Ht as [Hab Heq]. inversion Heq; subst.
    by apply IH.
Qed.

Lemma sleep_counts_core l l2 : core l = core l2 -> is_eligible_for_sleep l = is_eligible_for_sleep l2.
Proof. intros Hc. unfold is_eligible_for_sleep. by rewrite (core_tskhead _ _ Hc). Qed.

Lemma do_events_tasks_core tk tk' seen seen' l l2 :
  now tk = now tk' -> send_rc tk = send_rc tk' ->
  core l = core l2 ->
  same_outcome
    (l' <- do_events_tasks l tk false seen ;; Ok (with_unit l'))
    (l' <- do_events_tasks l2 tk' false seen' ;; Ok (with_unit l')).
Proof.
  intros Hnow Hrc Hc. unfold do_events_tasks.
  pose proof (do_events_loop_core tk tk' seen seen' (seq 0 (length (tskhead l2))) Hnow Hrc
                l l2 false Hc) as Hl.
  rewrite (core_tskhead _ _ Hc).
  destruct (do_events_loop tk seen _ (mkLoop l false false)) as [st1|f1],
           (do_events_loop tk' seen' _ (mkLoop l2 false false)) as [st2|f2];
    simpl in *; try done.
  destruct st1 as [la g1 r1], st2 as [lb g2 r2]. unfold loop_outcome in Hl. simpl in Hl.
  destruct Hl as [Hab Heq]. inversion Heq; subst. split; [|done].
  unfold do_events_finish. simpl. rewrite <- Hnow.
  destruct la as [a1 a2 a3 a4 a5 a6 a7 a8 a9 a10 a11 a12 a13 a14 a15 lts lf a18 alog].
  destruct lb as [b1 b2 b3 b4 b5 b6 b7 b8 b9 b10 b11 b12 b13 b14 b15 lts2 lf2 b18 blog].
  simpl in Hab. inversion Hab; subst. clear Hab.
  unfold is_eligible_for_sleep, log. simpl.
  split_ifs; simpl; try done; try congruence.
Qed.

(** ** The timer subscription through every transition *)

Lemma timer_inv_lookup l :
  timer_inv l <-> (forall j t, tskhead l !! j = Some t -> timer_ok t).
Proof.
  unfold timer_inv. split.
  - intros H j t Hj. apply H. apply list_elem_of_lookup. by exists j.
  - intros H t Ht. apply list_elem_of_lookup in Ht. destruct Ht as [j Hj]. by apply (H j).
Qed.

Lemma timer_inv_tskhead l l' : tskhead l' = tskhead l -> timer_inv l -> timer_inv l'.
Proof. unfold timer_inv. by intros ->. Qed.

Lemma timer_inv_put_task i t l : timer_inv l -> timer_ok t -> timer_inv (put_task i t l).
Proof.
  rewrite !timer_inv_lookup. intros H Ht j t' Hj. rewrite tskhead_put_task in Hj.
  destruct (decide (j = i)) as [->|Hne].
  - apply list_lookup_insert_Some in Hj. destruct Hj as [(_ & <- & _) | (? & _)]; done.
  - rewrite list_lookup_insert_ne in Hj by done. by apply (H j).
Qed.

Lemma timer_ok_subscribed t : evtsub_wakeup t = true -> timer_ok t.
Proof. by intros H _ _ _. Qed.

Lemma timer_ok_set_status r t :
  timer_ok (set_status r t) <->
  (r <> ST_RECEIVE -> r <> ST_NOTHING -> r <> ST_FINISHED -> evtsub_wakeup t = true).
Proof. by destruct t. Qed.

Lemma pool_kept_refl l : timer_inv l -> pool_kept l l.
Proof. by intros H. Qed.

Lemma pool_kept_insert l l' i t0 tnew :
  timer_inv l -> tskhead l !! i = Some t0 -> status t0 = ST_NOTHING -> timer_ok tnew ->
  tskhead l' = <[i := tnew]> (tskhead l) ->
  pool_kept l l'.
Proof.
  intros Hinv Hi Hs Hnew Hts. split; [|split].
  - apply timer_inv_lookup. rewrite Hts. intros j t' Hj.
    destruct (decide (j = i)) as [->|Hne].
    + apply list_lookup_insert_Some in Hj. destruct Hj as [(_ & <- & _) | (? & _)]; done.
    + rewrite list_lookup_insert_ne in Hj by done.
      by apply (proj1 (timer_inv_lookup l) Hinv j).
  - rewrite Hts. by rewrite length_insert.
  - intros j t Hj Hst. rewrite Hts. rewrite list_lookup_insert_ne; [done|].
    intros ->. rewrite Hi in Hj. congruence.
Qed.

Lemma send_ack_noblock_timer l tnow h :
  timer_inv l ->
  post timer_assert_holds (fun '(l', _, _) => pool_kept l l') (send_ack_noblock l tnow h).
Proof.
  intros Hinv. unfold send_ack_noblock.
  destruct (assert (len h =? 0) A_send_ack_len) eqn:Ea; simpl;
    [|unfold assert in Ea; destruct (len h =? 0); [discriminate | by inversion Ea]].
  destruct (negb (deviceInit (funcs l))); [by apply pool_kept_refl|].
  destruct (negb (deviceSend (funcs l))); [by apply pool_kept_refl|].
  destruct (task_create l ST_SEND tnow) as [l1 [j|]] eqn:Ec.
  - apply task_create_Some in Ec. destruct Ec as (t0 & Ht0 & Hs0 & _ & _ & ->).
    pose proof (lookup_lt_Some _ _ _ Ht0) as Hlt.
    destruct l as [l1 l2 l3 l4 l5 l6 l7 l8 l9 l10 l11 l12 l13 l14 l15 lts lf l18 llog].
    destruct t0 as [tid tst [tpk] tref twk trc tnb tptr tpos tew ter tia tna tha tun t1 t2 tns].
    unfold get_task, put_task, prepare_for_sending, get_max_payload_len, assert. simpl in *.
    subst. rewrite list_lookup_insert_eq by done. simpl.
    destruct (bool_decide _); simpl; [|done].
    destruct (_ || _); simpl; [|done].
    rewrite list_insert_insert_eq.
    eapply (pool_kept_insert _ _ j); [exact Hinv | exact Ht0 | done | | reflexivity].
    by apply timer_ok_subscribed.
  - apply task_create_None in Ec. subst l1. by apply pool_kept_refl.
Qed.

Lemma send_ack_timer l tnow i :
  timer_inv l ->
  post timer_assert_holds (pool_kept l) (send_ack l tnow i).
Proof.
  intros Hinv. unfold send_ack.
  destruct (get_task l i) as [tsk|f] eqn:Eg; simpl;
    [|unfold get_task in Eg; destruct (tskhead l !! i); by inversion Eg].
  destruct (negb _); simpl; [|by apply pool_kept_refl].
  unfold deref_header. destruct (get_header_ptr (pktkeeper tsk)) as [hd|]; simpl; [|done].
  match goal with |- context [send_ack_noblock l tnow ?h] =>
    pose proof (send_ack_noblock_timer l tnow h Hinv) as Hs;
    destruct (send_ack_noblock l tnow h) as [[[l' r] oid]|f]; simpl in *; done
  end.
Qed.

Lemma get_task_Ok l i t : get_task l i = Ok t -> tskhead l !! i = Some t.
Proof. unfold get_task. destruct (tskhead l !! i); intros H; by inversion H. Qed.

Lemma get_task_fault l i f : get_task l i = Err f -> f = NullDeref.
Proof. unfold get_task. destruct (tskhead l !! i); intros H; by inversion H. Qed.

Lemma tev_received_timer l tnow i pk seen :
  timer_inv l ->
  post timer_assert_holds (fun '(l', r, _) => event_kept l i l' r)
    (tev_received l tnow i pk seen).
Proof.
  intros Hinv. unfold tev_received.
  destruct (get_task l i) as [t|f] eqn:Eg; simpl; [|by rewrite (get_task_fault _ _ _ Eg)].
  apply get_task_Ok in Eg. rename Eg into Hi.
  pose proof (proj1 (timer_inv_lookup l) Hinv i t Hi) as Ht.
  pose proof (lookup_lt_Some _ _ _ Hi) as Hlt.
  assert (Hsame : event_kept l i l (status t)).
  { split; [done|]. split; [done|]. exists t. split; [done|]. by destruct t. }
  assert (Hput : forall t' r, timer_ok t' -> timer_ok (set_status r t') ->
            event_kept l i (put_task i t' l) r).
  { intros t' r Ht' Hr. split; [|split].
    - by apply timer_inv_put_task.
    - by rewrite tskhead_put_task, length_insert.
    - exists t'. split; [|done]. rewrite tskhead_put_task. by apply list_lookup_insert_eq. }
  unfold deref_header at 1. destruct (get_header_ptr pk) as [hbackup|] eqn:Ehp; simpl; [|done].
  destruct (negb _).
  - (* an acknowledgement *)
    destruct ((status t =? ST_SEND) || (status t =? ST_SEND_DONE)) eqn:Es; [|exact Hsame].
    destruct (need_ack t && negb (has_received_ack t)); [|exact Hsame].
    unfold deref_header. destruct (get_header_ptr (pktkeeper t)) as [th|]; simpl; [|done].
    rewrite Ehp. simpl.
    destruct (pktid th =? pktid hbackup); [|exact Hsame].
    assert (Hew : evtsub_wakeup t = true).
    { apply Ht; intros Heq; rewrite Heq in Es; discriminate. }
    destruct t as [tid tst [tpk] tref twk trc tnb tptr tpos tew ter tia tna tha tun t1 t2 tns].
    unfold reduce_packet_to_its_header. simpl in *. subst tew.
    destruct (tst =? ST_SEND); simpl; (destruct tpk as [tp|]; simpl; [|done]);
      apply Hput; by apply timer_ok_subscribed.
  - destruct ((status t =? ST_RECEIVE) && negb seen).
    + unfold copy_packet, assert.
      destruct (bool_decide _); simpl; [|done].
      destruct (get_pkt_ptr_ro pk); simpl; [|done].
      destruct t. simpl. apply Hput; by apply timer_ok_subscribed.
    + destruct ((status t =? ST_RECEIVE_DATA_AVAILABLE)
                || (status t =? ST_RECEIVE_DATA_RETRIEVED)) eqn:Ea; [|exact Hsame].
      unfold deref_header. destruct (get_header_ptr (pktkeeper t)) as [th|]; simpl; [|done].
      destruct (_ && _); [|exact Hsame].
      destruct (status t =? ST_RECEIVE_DATA_RETRIEVED) eqn:E5; [|exact Hsame].
      apply Z.eqb_eq in E5.
      pose proof (send_ack_timer l tnow i Hinv) as Hs.
      destruct (send_ack l tnow i) as [l'|f]; simpl in *; [|done].
      destruct Hs as (Hinv' & Hlen & Hkeep).
      split; [done|]. split; [done|]. exists t. split; [|by destruct t].
      apply Hkeep; [done|]. rewrite E5. discriminate.
Qed.

Lemma tev_wakeup_timer l tnow rc i t :
  timer_inv l ->
  tskhead l !! i = Some t ->
  evtsub_wakeup t = true ->
  post timer_assert_holds (fun '(l', r) => event_kept l i l' r) (tev_wakeup l tnow rc i).
Proof.
  intros Hinv Hi Hew.
  pose proof (lookup_lt_Some _ _ _ Hi) as Hlt.
  assert (Hsame : forall r, event_kept l i l r).
  { intros r. split; [done|]. split; [done|]. exists t. split; [done|].
    destruct t. simpl in *. by apply timer_ok_subscribed. }
  assert (Hput : forall t' r lg, evtsub_wakeup t' = true ->
            event_kept l i (put_task i t' (set_dev_log lg l)) r).
  { intros t' r lg Hew'. split; [|split].
    - apply timer_inv_put_task; [|by apply timer_ok_subscribed].
      apply (timer_inv_tskhead l); [by destruct l | done].
    - rewrite tskhead_put_task, length_insert. by destruct l.
    - exists t'. split.
      + rewrite tskhead_put_task. apply list_lookup_insert_eq. by destruct l.
      + destruct t'. simpl in *. by apply timer_ok_subscribed. }
  assert (Hput0 : forall t' r, evtsub_wakeup t' = true -> event_kept l i (put_task i t' l) r).
  { intros t' r Hew'. specialize (Hput t' r (dev_log l) Hew'). by destruct l. }
  unfold tev_wakeup. rewrite (get_task_lookup _ _ _ Hi). simpl.
  destruct t as [tid tst [tpk] tref twk trc tnb tptr tpos tew ter tia tna tha tun t1 t2 tns].
  simpl in *. subst tew.
  unfold data_retrieved_post, reduce_packet_to_its_header, call, sched_at. simpl.
  destruct (tst =? ST_SEND).
  - destruct (negb tna || (tpos <? tnb - 1)); simpl.
    + destruct (deviceSend (funcs l)); simpl; [|done].
      destruct (_ <? tnb); simpl.
      * destruct (_ <? 0); simpl; [done|]. destruct (tptr !! _); simpl; [|done].
        destruct tpk as [tp|]; simpl;
          match goal with |- event_kept _ _ (put_task _ ?t' (log ?c _)) _ =>
            apply (Hput t' _ (dev_log l ++ [c])); reflexivity
          end.
      * destruct tpk as [tp|]; destruct tun; simpl;
          match goal with |- event_kept _ _ (put_task _ ?t' (log ?c _)) _ =>
            apply (Hput t' _ (dev_log l ++ [c])); reflexivity
          end.
    + destruct (_ <? tnb); simpl.
      * destruct (_ <? 0); simpl; [done|]. destruct (tptr !! _); simpl; [|done].
        by apply Hput0.
      * destruct tun; by apply Hput0.
  - destruct (tst =? ST_SEND_DONE); [apply Hsame|].
    destruct (_ || _); [apply Hsame|].
    destruct (tst =? ST_RECEIVE_DATA_AVAILABLE).
    + destruct tpk as [tp|]; simpl; [|done]. by apply Hput0.
    + destruct (tst =? ST_RECEIVE); [by apply Hput0 | done].
Qed.

Lemma do_events_task_timer tk seen i st :
  timer_inv (lk st) ->
  post timer_assert_holds
    (fun st' => timer_inv (lk st') /\ length (tskhead (lk st')) = length (tskhead (lk st)))
    (do_events_task tk seen i st).
Proof.
  intros Hinv. destruct st as [l got rst]. simpl in *. unfold do_events_task. simpl.
  destruct (get_task l i) as [t|f] eqn:Eg; simpl; [|by rewrite (get_task_fault _ _ _ Eg)].
  apply get_task_Ok in Eg. rename Eg into Hi.
  eapply (post_bind _ (fun '(l1, r1, _) => event_kept l i l1 r1)).
  { destruct (evtsub_pktrcvd t && got).
    - destruct (recpkt l) as [pk|]; [|done].
      pose proof (tev_received_timer l (now tk) i pk seen Hinv) as H.
      destruct (tev_received l (now tk) i pk seen) as [[[l1 r1] c]|f]; simpl in *; done.
    - simpl. split; [done|]. split; [done|]. exists t. split; [done|].
      destruct t. simpl. by apply (proj1 (timer_inv_lookup l) Hinv i _ Hi). }
  intros [[l1 r1] g1] (Hinv1 & Hlen1 & t1 & Hi1 & Hr1).
  rewrite (get_task_lookup _ _ _ Hi1). simpl.
  eapply (post_bind _ (fun '(l2, r2) => event_kept l i l2 r2)).
  { destruct (evtsub_wakeup t1 && (r1 =? status t1)) eqn:E.
    - apply andb_prop in E. destruct E as [Hew _].
      destruct (signed32 (now tk - mtime_wakeup t1) >=? 0).
      + pose proof (tev_wakeup_timer l1 (now tk) (send_rc tk) i t1 Hinv1 Hi1 Hew) as H.
        destruct (tev_wakeup l1 (now tk) (send_rc tk) i) as [[l2 r2]|f]; simpl in *; [|done].
        destruct H as (H1 & H2 & H3). split; [done|]. split; [congruence | done].
      + simpl. split; [done|]. split; [done|]. by exists t1.
    - simpl. split; [done|]. split; [done|]. by exists t1. }
  intros [l2 r2] (Hinv2 & Hlen2 & t2 & Hi2 & Hr2).
  rewrite (get_task_lookup _ _ _ Hi2). simpl.
  assert (Ha : negb (negb (r2 =? ST_RECEIVE) && negb (r2 =? ST_NOTHING)
                     && negb (r2 =? ST_FINISHED) && negb (evtsub_wakeup t2)) = true).
  { destruct (r2 =? ST_RECEIVE) eqn:E1; [done|].
    destruct (r2 =? ST_NOTHING) eqn:E2; [done|].
    destruct (r2 =? ST_FINISHED) eqn:E3; [done|]. simpl.
    apply Z.eqb_neq in E1, E2, E3.
    by rewrite (proj1 (timer_ok_set_status r2 t2) Hr2 E1 E2 E3). }
  rewrite Ha. simpl.
  destruct (r2 =? ST_FINISHED).
  - unfold task_destroy. rewrite (get_task_lookup _ _ _ Hi2). simpl. split.
    + apply (timer_inv_tskhead (put_task i (task_initialize
               (set_pktkeeper (release_data (pktkeeper t2)) t2)) l2)); [by destruct l2|].
      apply timer_inv_put_task; [done|]. destruct t2. by intros _ H _.
    + destruct l2. simpl in *. by rewrite length_insert.
  - simpl. split; [by apply timer_inv_put_task|].
    rewrite tskhead_put_task, length_insert. done.
Qed.

Lemma do_events_loop_timer tk seen idxs :
  forall st,
  timer_inv (lk st) ->
  post timer_assert_holds (fun st' => timer_inv (lk st')) (do_events_loop tk seen idxs st).
Proof.
  induction idxs as [|i rest IH]; intros st Hinv; simpl; [done|].
  eapply post_bind; [by apply do_events_task_timer|].
  intros st1 [Hinv1 _]. by apply IH.
Qed.

Lemma timer_inv_finish tk st : timer_inv (lk st) -> timer_inv (do_events_finish tk st).
Proof.
  intros Hinv. unfold do_events_finish.
  assert (Hlog : forall c l, timer_inv l -> timer_inv (log c l))
    by (intros c l; apply timer_inv_tskhead; by destruct l).
  assert (Hrst : forall v l, timer_inv l -> timer_inv (set_last_device_reset v l))
    by (intros v l; apply timer_inv_tskhead; by destruct l).
  set (l1 := if device_needs_reset st then _ else _).
  assert (H1 : timer_inv l1).
  { subst l1. destruct (device_needs_reset st); [|done]. destruct (_ >=? _); [|done].
    by apply Hlog, Hlog, Hrst. }
  destruct (_ && _); [|done]. by apply Hlog, Hlog.
Qed.

Lemma interrupts_on_tskhead l :
  post timer_assert_holds (fun l' => tskhead l' = tskhead l) (interrupts_on l).
Proof.
  unfold interrupts_on, call. destruct (negb _); simpl; [|done].
  destruct (setInterrupt (funcs l)); simpl; [by destruct l | done].
Qed.

Lemma interrupts_off_tskhead l :
  post timer_assert_holds (fun l' => tskhead l' = tskhead l) (interrupts_off l).
Proof.
  unfold interrupts_off, call. destruct (interrupt_is_attached l); simpl; [|done].
  destruct (resetInterrupt (funcs l)); simpl; [by destruct l | done].
Qed.

Lemma do_events_receive_tskhead l tk :
  post timer_assert_holds (fun '(l', _) => tskhead l' = tskhead l) (do_events_receive l tk).
Proof.
  unfold do_events_receive.
  eapply (post_bind _ (fun l1 => tskhead l1 = tskhead l)).
  { destruct (_ && _); [apply interrupts_on_tskhead | done]. }
  intros l1 H1. simpl.
  match goal with |- context [set_interrupted ?b l1] =>
    assert (H2 : tskhead (set_interrupted b l1) = tskhead l) by (rewrite <- H1; by destruct l1);
    generalize dependent (set_interrupted b l1)
  end.
  intros l2 H2. destruct (interrupted l2); [|done].
  unfold do_events_drain.
  eapply post_bind; [apply interrupts_off_tskhead|].
  intros l3 H3. simpl.
  eapply (post_bind _ (fun '(l4, _) => tskhead l4 = tskhead l)).
  { destruct (existsb _ _ && _); [|simpl; congruence].
    unfold initialize_recpkt_if_necessary.
    destruct (recpkt l3) as [pk|] eqn:Er; simpl.
    - rewrite Er. simpl. rewrite <- H2, <- H3. by destruct l3.
    - assert (Hr : recpkt (set_recpkt (Some (mkPktKeeper (Some blank_packet))) l3)
                   = Some (mkPktKeeper (Some blank_packet))) by (by destruct l3).
      rewrite Hr. simpl. rewrite <- H2, <- H3. by destruct l3. }
  intros [l4 g] H4. simpl.
  eapply post_bind.
  { match goal with |- context [interrupts_on ?x] => apply (interrupts_on_tskhead x) end. }
  intros l5 H5. simpl. rewrite H5, <- H4. by destruct l4.
Qed.

Lemma do_events_seen_tskhead l tref got :
  post timer_assert_holds (fun '(l', _) => tskhead l' = tskhead l) (do_events_seen l tref got).
Proof.
  unfold do_events_seen. destruct got; [|done].
  destruct (recpkt l) as [pk|]; [|done].
  unfold deref_header. destruct (get_header_ptr pk) as [h|]; simpl; [|done].
  destruct (check_pktid_already_seen _ _ _ _) as [[c s]|f] eqn:E; simpl; [by destruct l|].
  unfold check_pktid_already_seen in E.
  destruct (cache_scan _ _ _ _ _ _) as [[c' st]|f'] eqn:Es; simpl in E.
  - destruct (src_found st); [discriminate|]. destruct (_ || _); [|discriminate].
    inversion E. done.
  - inversion E; subst. clear E. revert Es. generalize 0 scan_init.
    induction (cache_pktids l) as [|e rest IH]; intros i st Es; simpl in Es; [discriminate|].
    destruct (cache_visit _ _ _ _ _ _) as [[e1 st1]|f1] eqn:Ev; simpl in Es.
    + destruct (cache_scan _ _ _ _ rest st1) as [[r1 st2]|f2] eqn:Er; simpl in Es;
        [discriminate|]. inversion Es; subst. by apply (IH (i + 1) st1).
    + inversion Es; subst. unfold cache_visit, assert in Ev.
      repeat match type of Ev with
             | context [if ?b then _ else _] => destruct b; simpl in Ev
             end; try discriminate; by inversion Ev.
Qed.

Lemma do_events_timer l tk :
  timer_inv l -> post timer_assert_holds timer_inv (do_events l tk).
Proof.
  intros Hinv. unfold do_events. destruct (negb _); [done|].
  eapply post_bind; [apply do_events_receive_tskhead|].
  intros [l2 got] H2. simpl.
  eapply post_bind; [apply do_events_seen_tskhead|].
  intros [l3 seen] H3. simpl. unfold do_events_tasks.
  eapply post_bind.
  { apply do_events_loop_timer. simpl. apply (timer_inv_tskhead l); [congruence | done]. }
  intros st Hst. simpl. by apply timer_inv_finish.
Qed.

Lemma send_noblock_timer l tnow adst d alen ack :
  timer_inv l ->
  post timer_assert_holds (fun '(l', _, _) => timer_inv l')
    (send_noblock l tnow adst d alen ack).
Proof.
  intros Hinv. unfold send_noblock.
  destruct (negb (deviceInit (funcs l))); [done|].
  destruct (negb (deviceSend (funcs l))); [done|].
  destruct (alen >? max_payload_len l); [done|].
  destruct ((alen =? 0) && _); [done|].
  destruct (task_create l ST_SEND tnow) as [l1 [j|]] eqn:Ec.
  - apply task_create_Some in Ec. destruct Ec as (t0 & Ht0 & Hs0 & _ & _ & ->).
    pose proof (lookup_lt_Some _ _ _ Ht0) as Hlt.
    destruct l as [l1 l2 l3 l4 l5 l6 l7 l8 l9 l10 l11 l12 l13 l14 l15 lts lf l18 llog].
    destruct t0 as [tid tst [tpk] tref twk trc tnb tptr tpos tew ter tia tna tha tun t1 t2 tns].
    unfold get_task, put_task, prepare_for_sending, get_max_payload_len, sched_at, assert.
    simpl in *. subst. rewrite list_lookup_insert_eq by done. simpl.
    destruct ack; simpl; (destruct (bool_decide _); simpl; [|done]);
      (destruct (_ || _); simpl; [|done]);
      rewrite list_insert_insert_eq;
      (eapply (pool_kept_insert _ _ j); [exact Hinv | exact Ht0 | done | | reflexivity]);
      by apply timer_ok_subscribed.
  - apply task_create_None in Ec. by subst.
Qed.

Lemma receive_noblock_timer l tnow cfg :
  timer_inv l ->
  post timer_assert_holds (fun '(l', _, _) => timer_inv l') (receive_noblock l tnow cfg).
Proof.
  intros Hinv. unfold receive_noblock.
  destruct (negb (deviceInit (funcs l))); [done|].
  destruct (negb (deviceReceive (funcs l))); [done|].
  destruct (task_create l ST_RECEIVE tnow) as [l1 [j|]] eqn:Ec.
  - apply task_create_Some in Ec. destruct Ec as (t0 & Ht0 & Hs0 & _ & _ & ->).
    pose proof (lookup_lt_Some _ _ _ Ht0) as Hlt.
    destruct l as [l1 l2 l3 l4 l5 l6 l7 l8 l9 l10 l11 l12 l13 l14 l15 lts lf l18 llog].
    destruct t0 as [tid tst [tpk] tref twk trc tnb tptr tpos tew ter tia tna tha tun t1 t2 tns].
    unfold get_task, put_task. simpl in *. subst.
    rewrite list_lookup_insert_eq by done. simpl. rewrite list_insert_insert_eq.
    eapply (pool_kept_insert _ _ j); [exact Hinv | exact Ht0 | done | | reflexivity].
    destruct cfg as [[c1 [|] c3 c4 c5]|]; simpl; by intros H.
  - apply task_create_None in Ec. by subst.
Qed.

Lemma data_retrieve_timer l tnow tsk buf_len want_sender :
  timer_inv l ->
  post timer_assert_holds (fun '(l', _, _) => timer_inv l')
    (data_retrieve l tnow tsk buf_len want_sender).
Proof.
  intros Hinv. unfold data_retrieve. destruct tsk as [i|]; [|done].
  destruct (get_task l i) as [t|f] eqn:Eg; simpl; [|by rewrite (get_task_fault _ _ _ Eg)].
  destruct (negb _); [done|].
  eapply (post_bind _ (fun _ => True)).
  { destruct want_sender; [|done]. unfold deref_header.
    destruct (get_header_ptr (pktkeeper t)); simpl; done. }
  intros snd _. unfold data_retrieved_post, reduce_packet_to_its_header.
  destruct (pkt (pktkeeper t)) as [tp|]; simpl; [|done].
  eapply post_bind.
  { apply send_ack_timer. apply timer_inv_put_task; [done|].
    destruct t. by apply timer_ok_subscribed. }
  by intros l' [H _].
Qed.

Lemma send_get_final_status_timer l tnow id :
  timer_inv l ->
  post timer_assert_holds (fun '(l', _, _) => timer_inv l') (send_get_final_status l tnow id).
Proof.
  intros Hinv. unfold send_get_final_status.
  destruct (get_task_by_taskid l id) as [i|]; [|done].
  destruct (get_task l i) as [t|f] eqn:Eg; simpl; [|by rewrite (get_task_fault _ _ _ Eg)].
  destruct (negb _); [done|]. simpl.
  apply timer_inv_put_task; [done|]. destruct t. by apply timer_ok_subscribed.
Qed.

Lemma set_opt_byte_tskhead l opt value : tskhead (set_opt_byte l opt value) = tskhead l.
Proof. unfold set_opt_byte. destruct (negb _); [done|]. destruct opt; by destruct l. Qed.

Lemma register_funcs_tskhead l fs m : tskhead (register_funcs l fs m) = tskhead l.
Proof.
  unfold register_funcs, initialize_recpkt_if_necessary.
  destruct l. simpl. destruct (negb _); simpl; [done|].
  match goal with |- context [match ?x with Some _ => _ | None => _ end] => by destruct x end.
Qed.

Lemma timer_inv_new maxtask l0 : RFLink_new maxtask = Ok l0 -> timer_inv l0.
Proof.
  unfold RFLink_new. destruct (_ || _); [discriminate|].
  intros H. inversion H; subst; clear H. intros t Ht. simpl in Ht.
  apply elem_of_replicate in Ht. destruct Ht as [-> _]. by intros _ H _.
Qed.

(** ** Frame delivery to a SEND task (C1) *)

Lemma flag_test_low_nibble (f b : Z) :
  0 <= b < 16 -> Z.land (Z.land f 15) b = Z.land f b.
Proof.
  intros Hb. rewrite <- Z.land_assoc. f_equal.
  assert (H : b = 0 \/ b = 1 \/ b = 2 \/ b = 3 \/ b = 4 \/ b = 5 \/ b = 6 \/ b = 7 \/
              b = 8 \/ b = 9 \/ b = 10 \/ b = 11 \/ b = 12 \/ b = 13 \/ b = 14 \/ b = 15)
    by lia.
  repeat (destruct H as [-> | H]; [reflexivity|]). by subst.
Qed.

(** C1, as amended. A frame that carries the ACK flag, offered to a SEND task
    that asked for an acknowledgement and has none yet, is matched on the
    packet-id alone: when the ids are equal the task is flagged as
    acknowledged, its packet is reduced to the header, its deadline becomes
    now plus the purge delay, the frame is consumed and the new status is
    SEND_DONE; when they differ nothing changes and the frame is left for the
    other tasks. The source address of the frame is not compared. *)
Theorem tev_received_ack_matches_pktid
    (l : RFLink) (tnow : Z) (i : nat) (tsk : Task) (tp p : Packet) (seen : bool) :
  tskhead l !! i = Some tsk ->
  status tsk = ST_SEND ->
  need_ack tsk = true ->
  has_received_ack tsk = false ->
  pkt (pktkeeper tsk) = Some tp ->
  Z.land (flags (header p)) FLAG_ACK <> 0 ->
  tev_received l tnow i (mkPktKeeper (Some p)) seen =
    if pktid (header tp) =? pktid (header p)
    then Ok (put_task i (acked_task l tnow tsk tp) l, ST_SEND_DONE, true)
    else Ok (l, ST_SEND, false).
Proof.
  intros Hi Hst Hna Hha Hp Hack.
  unfold tev_received, get_task. rewrite Hi. simpl.
  rewrite flag_test_low_nibble by (unfold FLAG_ACK; lia).
  apply Z.eqb_neq in Hack. unfold get_flags. simpl. rewrite Hack. simpl.
  destruct tsk as [tid tst [tpk] tref twk trc tnb tptr tpos tew ter tia tna tha tun t1 t2 tns].
  simpl in *. subst. simpl.
  destruct (pktid (header tp) =? pktid (header p)); reflexivity.
Qed.

(** C1, counterexample. The task in slot 0 sent packet 1 to 0x5E; an
    acknowledgement of packet 1 whose source is 0x77 closes it all the same:
    the frame is consumed and the task goes to SEND_DONE, although the frame's
    source is not the address the packet was sent to. *)
Lemma tev_received_ack_from_stranger :
  (status ex_sender_task, need_ack ex_sender_task, has_received_ack ex_sender_task,
   dst (header ex_sender_packet), pktid (header ex_sender_packet))
    = (ST_SEND, true, false, 94, 1)
  /\ src (header stranger_ack) <> dst (header ex_sender_packet)
  /\ pktid (header stranger_ack) = pktid (header ex_sender_packet)
  /\ (let* (_, r, consumed) :=
        tev_received ex_sender 120 0 (mkPktKeeper (Some stranger_ack)) false in
      Ok (r, consumed)) = Ok (ST_SEND_DONE, true).
Proof. repeat split; vm_compute; congruence. Qed.

Lemma tev_received_ack_matches_pktid_witness :
  tev_received ex_sender 120 0 (mkPktKeeper (Some stranger_ack)) false =
    Ok (put_task 0 (acked_task ex_sender 120 ex_sender_task ex_sender_packet) ex_sender,
        ST_SEND_DONE, true).
Proof.
  apply (tev_received_ack_matches_pktid ex_sender 120 0 ex_sender_task ex_sender_packet
           stranger_ack false); try reflexivity.
  vm_compute. discriminate.
Defined.

(** ** Duplicates of a delivered frame (C2) *)






(** ** The packet-id cache: observation (C3) and its invariant (C8) *)

Lemma observe_all_reachable srcs :
  forall c apktid t0 dt c',
    cache_reachable c -> observe_all c srcs apktid t0 dt = Ok c' -> cache_reachable c'.
Proof.
  induction srcs as [|s rest IH]; intros c apktid t0 dt c' Hr H; simpl in H.
  - inversion H. by subst.
  - destruct (check_pktid_already_seen c s apktid t0) as [[c1 r]|f] eqn:E; simpl in H;
      [|discriminate].
    apply (IH c1 apktid (t0 + dt) dt c'); [|done].
    by apply (cache_reachable_step c c1 s apktid t0 r).
Qed.

Lemma ex_cache_blank_reachable : cache_reachable ex_cache_blank.
Proof.
  apply cache_reachable_init. apply Forall_forall. intros e He.
  apply elem_of_replicate in He. by destruct He as [-> _].
Qed.

(** C3, the input on which the code departs from the claim. Ten sources were
    observed within one millisecond, so the table is full and every entry has
    age 0 when an eleventh source is observed in that same millisecond. The
    search for the oldest entry starts from a greatest age of 0 and compares
    strictly, so no entry is chosen: the index stays -1 and the installation
    writes before the first element of the table, where the claim has the
    pair installed in the slot with the greatest age. One millisecond later
    the same observation does what the claim says: slot 0 is evicted. *)
Theorem observe_full_table_same_instant :
  cache_reachable ex_cache_full_same_instant
  /\ length ex_cache_full_same_instant = 10%nat
  /\ Forall (fun e => used e = true /\ mtime e = 1000 /\ csrc e <> 11)
       ex_cache_full_same_instant
  /\ check_pktid_already_seen ex_cache_full_same_instant 11 1 1000
     = Err (OutOfBounds Arr_cache_pktids)
  /\ check_pktid_already_seen ex_cache_full_same_instant 11 1 1001
     = Ok (<[0%nat := mkCache true 11 1001 1]> ex_cache_full_same_instant, false).
Proof.
  split.
  { apply (observe_all_reachable [1; 2; 3; 4; 5; 6; 7; 8; 9; 10] ex_cache_blank 1 1000 0);
      [apply ex_cache_blank_reachable | vm_compute; reflexivity]. }
  split; [reflexivity|].
  split; [repeat constructor; discriminate|].
  split; vm_compute; reflexivity.
Qed.

(** Scenario S6 with the sources one millisecond apart: the eleventh source
    takes the slot of the first one, which is the oldest, and the first
    source is then seen as new again. *)
Lemma observe_eleven_sources_spread :
  check_pktid_already_seen ex_cache_full_spread 11 1 1010
    = Ok (<[0%nat := mkCache true 11 1010 1]> ex_cache_full_spread, false)
  /\ (let* (c, _) := check_pktid_already_seen ex_cache_full_spread 11 1 1010 in
      let* (_, seen) := check_pktid_already_seen c 1 1 1011 in Ok seen) = Ok false.
Proof. split; vm_compute; reflexivity. Qed.

(** C8. In every table the engine can hold, at most one entry in use carries a
    given source address, and every observation that returns leaves a table
    with that property. *)
Theorem cache_one_entry_per_source (c : list cache_pktid_t) :
  cache_reachable c ->
  cache_inv c /\
  forall asrc apktid tref c' r,
    check_pktid_already_seen c asrc apktid tref = Ok (c', r) -> cache_inv c'.
Proof.
  intros Hr. pose proof (cache_reachable_inv c Hr) as Hinv. split; [done|].
  intros asrc apktid tref c' r H.
  by apply (check_pktid_already_seen_inv c asrc apktid tref c' r).
Qed.

Lemma cache_one_entry_per_source_witness :
  cache_inv ex_cache_full_spread /\
  cache_inv (<[0%nat := mkCache true 11 1010 1]> ex_cache_full_spread).
Proof.
  assert (Hr : cache_reachable ex_cache_full_spread).
  { apply (observe_all_reachable [1; 2; 3; 4; 5; 6; 7; 8; 9; 10] ex_cache_blank 1 1000 1);
      [apply ex_cache_blank_reachable | vm_compute; reflexivity]. }
  destruct (cache_one_entry_per_source ex_cache_full_spread Hr) as [H1 H2].
  split; [exact H1|].
  apply (H2 11 1 1010 _ false). vm_compute. reflexivity.
Defined.

(** ** What an observation does outside the overrun *)

Lemma sweep_unused tref e : used e = false -> sweep tref e = e.
Proof. destruct e as [u s m p]. simpl. intros ->. reflexivity. Qed.






Lemma sweep_all_live tref entries :
  Forall (fun e => live tref e = true) entries -> sweep tref <$> entries = entries.
Proof.
  induction 1 as [|e rest He _ IH]; simpl; [done|].
  unfold sweep at 1. rewrite He. by f_equal.
Qed.



(** ** Rejection of bad arguments by [send_noblock] (C4) *)

Lemma prepare_for_sending_null_payload pk m h :
  len h <> 0 ->
  prepare_for_sending pk m h None = Err (AssertFailed A_prepare_pkt)
  \/ prepare_for_sending pk m h None = Err (AssertFailed A_prepare_args).
Proof.
  intros Hne. unfold prepare_for_sending.
  destruct (bool_decide _); simpl; [|by left].
  apply Z.eqb_neq in Hne. rewrite Hne. simpl. rewrite andb_false_r. simpl. by right.
Qed.

(** C4, as amended. With the init and send callbacks registered, a length above
    the maximum payload is answered ERR_SEND_DATA_LEN_ABOVE_LIMIT and a zero
    length with a non-null payload ERR_SEND_BAD_ARGUMENTS, the engine being
    left as it was; a non-zero length with a null payload is never answered
    ERR_SEND_BAD_ARGUMENTS: either the pool is full and the answer is
    ERR_UNABLE_TO_CREATE_TASK, or a task is claimed and an assertion of
    [prepare_for_sending] stops the program. *)
Theorem send_noblock_rejects
    (l : RFLink) (tnow adst : Z) (d : option (list Z)) (alen : Z) (ack : bool) :
  deviceInit (funcs l) = true ->
  deviceSend (funcs l) = true ->
  (alen > max_payload_len l ->
     send_noblock l tnow adst d alen ack = Ok (l, ERR_SEND_DATA_LEN_ABOVE_LIMIT, None)) /\
  (alen <= max_payload_len l -> alen = 0 -> d <> None ->
     send_noblock l tnow adst d alen ack = Ok (l, ERR_SEND_BAD_ARGUMENTS, None)) /\
  (alen <= max_payload_len l -> alen <> 0 -> d = None ->
     send_noblock l tnow adst d alen ack = Ok (l, ERR_UNABLE_TO_CREATE_TASK, None)
     \/ (exists i, snd (task_create l ST_SEND tnow) = Some i) /\
        (send_noblock l tnow adst d alen ack = Err (AssertFailed A_prepare_pkt)
         \/ send_noblock l tnow adst d alen ack = Err (AssertFailed A_prepare_args))).
Proof.
  intros Hinit Hsend. unfold send_noblock. rewrite Hinit, Hsend. simpl.
  split; [|split].
  - intros Hgt. apply Z.gtb_gt in Hgt. by rewrite Hgt.
  - intros Hle -> Hd. assert (Hn : (0 >? max_payload_len l) = false) by lia.
    rewrite Hn. simpl. destruct d; [reflexivity | done].
  - intros Hle Hne ->. assert (Hn : (alen >? max_payload_len l) = false) by lia.
    rewrite Hn. apply Z.eqb_neq in Hne. rewrite Hne. simpl.
    destruct (task_create l ST_SEND tnow) as [l1 [i|]] eqn:Ec.
    + right. split; [by exists i|].
      apply task_create_Some in Ec. destruct Ec as (t0 & Ht0 & _ & _ & _ & ->).
      apply lookup_lt_Some in Ht0.
      destruct l, t0. unfold get_task, put_task. simpl in *.
      rewrite list_lookup_insert_eq by done. simpl.
      unfold sched_at.
      destruct ack; simpl;
        match goal with
        | |- context [prepare_for_sending ?pk ?m ?h None] =>
            destruct (prepare_for_sending_null_payload pk m h) as [Hp|Hp];
              [simpl; by apply Z.eqb_neq | rewrite Hp; simpl; by left
              | rewrite Hp; simpl; by right]
        end.
    + left. apply task_create_None in Ec. by subst.
Qed.

Lemma send_noblock_rejects_witness :
  send_noblock ex_booted 0 94 (Some [1]) 56 true
    = Ok (ex_booted, ERR_SEND_DATA_LEN_ABOVE_LIMIT, None)
  /\ send_noblock ex_booted 0 94 (Some [1]) 0 true
    = Ok (ex_booted, ERR_SEND_BAD_ARGUMENTS, None).
Proof.
  destruct (send_noblock_rejects ex_booted 0 94 (Some [1]) 56 true eq_refl eq_refl)
    as [H1 _].
  destruct (send_noblock_rejects ex_booted 0 94 (Some [1]) 0 true eq_refl eq_refl)
    as [_ [H2 _]].
  split.
  - apply H1. vm_compute. reflexivity.
  - apply H2; [vm_compute; discriminate | reflexivity | discriminate].
Defined.

(** C4, counterexample. Three bytes announced with a null payload on a ready
    engine: no ERR_SEND_BAD_ARGUMENTS comes back; a slot of the pool is
    claimed and the assertion of [prepare_for_sending] fails. And with no
    driver registered a length above the limit is answered
    ERR_DEVICE_NOT_REGISTERED. *)
Lemma send_noblock_null_payload_aborts :
  send_noblock ex_booted 0 94 None 3 true = Err (AssertFailed A_prepare_args)
  /\ snd (task_create ex_booted ST_SEND 0) = Some 0%nat
  /\ (l <- RFLink_new 15 ;; let* (_, r, _) := send_noblock l 0 94 (Some [1]) 200 true in Ok r)
       = Ok ERR_DEVICE_NOT_REGISTERED.
Proof. repeat split; vm_compute; reflexivity. Qed.

(** ** Retransmission schedules (C5) *)

(** The schedule [send_noblock] hands to the task it creates. *)
Lemma send_noblock_schedule l tnow adst d alen ack l' id :
  send_noblock l tnow adst d alen ack = Ok (l', ERR_TASK_CREATED_OK, Some id) ->
  exists i tsk,
    tskhead l' !! i = Some tsk /\ taskid tsk = id /\ status tsk = ST_SEND /\
    need_ack tsk = ack /\ evtsub_wakeup tsk = true /\
    send_schedule_ptr tsk = (if ack then snd_expack_sched else snd_sched) /\
    nb_send_schedules tsk = Z.of_nat (length (send_schedule_ptr tsk)) /\
    send_schedule_pos tsk = 0 /\
    mtime_ref tsk = tnow /\ mtime_wakeup tsk = wrap32 (tnow + 0).
Proof.
  unfold send_noblock.
  destruct (negb (deviceInit (funcs l))); [intros H; inversion H|].
  destruct (negb (deviceSend (funcs l))); [intros H; inversion H|].
  destruct (alen >? max_payload_len l); [intros H; inversion H|].
  destruct ((alen =? 0) && _); [intros H; inversion H|].
  destruct (task_create l ST_SEND tnow) as [l1 [i|]] eqn:Ec; [|intros H; inversion H].
  apply task_create_Some in Ec. destruct Ec as (t0 & Ht0 & _ & _ & _ & ->).
  apply lookup_lt_Some in Ht0.
  destruct l, t0. unfold get_task, put_task. simpl in *.
  rewrite list_lookup_insert_eq by done. simpl.
  unfold sched_at. intros H.
  destruct ack; simpl in H; inv_ok;
    (exists i; eexists; split;
     [simpl; rewrite list_lookup_insert_eq; [reflexivity | by rewrite length_insert]
     | simpl; repeat split]).
Qed.

(** C5. The three schedules are the named constants; a SEND task that carries
    the schedule [send_noblock] gave it and is woken at entry [pos] hands its
    frame to the driver at every entry when no acknowledgement is expected,
    and at every entry but the last one when one is; the cursor advances by
    one, the next deadline is the reference time plus the next entry (an
    offset from the reference time, not from the previous deadline), and the
    task leaves SEND for SEND_DONE after the last entry. *)
Theorem schedule_transmissions
    (l : RFLink) (tnow : Z) (rc : option Packet -> Z -> Z) (i : nat) (tsk : Task) :
  tskhead l !! i = Some tsk ->
  status tsk = ST_SEND ->
  deviceSend (funcs l) = true ->
  send_schedule_ptr tsk = (if need_ack tsk then snd_expack_sched else snd_sched) ->
  nb_send_schedules tsk = Z.of_nat (length (send_schedule_ptr tsk)) ->
  0 <= send_schedule_pos tsk < nb_send_schedules tsk ->
  snd_sched = [0; 200; 550; 900] /\
  snd_expack_sched = [0; 100; 450; 800; 900] /\
  snd_repack_sched = [0] /\
  exists l' r tsk',
    tev_wakeup l tnow rc i = Ok (l', r) /\
    tskhead l' !! i = Some tsk' /\
    dev_log l' = dev_log l ++
      (if need_ack tsk && (send_schedule_pos tsk =? nb_send_schedules tsk - 1)
       then []
       else [DeviceSend (pkt (pktkeeper tsk)) (get_pkt_len (pktkeeper tsk))]) /\
    nbsend tsk' =
      (if need_ack tsk && (send_schedule_pos tsk =? nb_send_schedules tsk - 1)
       then nbsend tsk
       else wrap8 (nbsend tsk + 1)) /\
    mtime_ref tsk' = mtime_ref tsk /\
    send_schedule_pos tsk' = send_schedule_pos tsk + 1 /\
    (send_schedule_pos tsk + 1 < nb_send_schedules tsk ->
       r = ST_SEND /\
       exists off, send_schedule_ptr tsk !! Z.to_nat (send_schedule_pos tsk + 1) = Some off /\
                   mtime_wakeup tsk' = wrap32 (mtime_ref tsk + off)) /\
    (send_schedule_pos tsk + 1 = nb_send_schedules tsk -> r = ST_SEND_DONE).
Proof.
  intros Hi Hst Hsend Hptr Hnb Hpos.
  do 3 (split; [reflexivity|]).
  assert (Hlt : (i < length (tskhead l))%nat) by (by apply lookup_lt_Some in Hi).
  destruct tsk as [tid tst tpk tref twk trc tnb tptr tpos tew ter tia tna tha tun t1 t2 tns].
  destruct l as [l1 l2 l3 l4 l5 l6 l7 l8 l9 l10 l11 l12 l13 l14 l15 lts lf l18 llog].
  unfold tev_wakeup, get_task, put_task, log. simpl in *. rewrite Hi. subst tst. simpl.
  rewrite Hsend. simpl.
  assert (Hcases : tna = true /\ tnb = 5 /\ (tpos = 0 \/ tpos = 1 \/ tpos = 2 \/ tpos = 3 \/ tpos = 4)
                   \/ tna = false /\ tnb = 4 /\ (tpos = 0 \/ tpos = 1 \/ tpos = 2 \/ tpos = 3)).
  { destruct tna; subst tptr; simpl in Hnb; [left | right]; (split; [done|]); split; lia. }
  destruct Hcases as [(-> & -> & Hp) | (-> & -> & Hp)]; subst tptr;
    repeat (destruct Hp as [-> | Hp]); try subst tpos; simpl;
    (eexists; eexists; eexists; split; [reflexivity|];
     simpl; rewrite list_lookup_insert_eq by done;
     split; [reflexivity|]; simpl;
     repeat split; try reflexivity; try (intros; lia);
     try (rewrite ?app_nil_r; reflexivity);
     try (eexists; split; reflexivity);
     try (destruct tun; reflexivity)).
Qed.

Lemma schedule_transmissions_witness :
  exists l' r tsk',
    tev_wakeup ex_sender 100 (fun _ _ => ERR_OK) 0 = Ok (l', r) /\
    tskhead l' !! 0%nat = Some tsk' /\
    dev_log l' = dev_log ex_sender ++
      [DeviceSend (pkt (pktkeeper ex_sender_task)) (get_pkt_len (pktkeeper ex_sender_task))] /\
    send_schedule_pos tsk' = 2 /\ r = ST_SEND /\
    mtime_wakeup tsk' = wrap32 (mtime_ref ex_sender_task + 450).
Proof.
  destruct (schedule_transmissions ex_sender 100 (fun _ _ => ERR_OK) 0 ex_sender_task
              eq_refl eq_refl eq_refl eq_refl eq_refl ltac:(vm_compute; split; congruence))
    as (_ & _ & _ & l' & r & tsk' & H1 & H2 & H3 & _ & _ & H6 & H7 & _).
  exists l', r, tsk'. split; [exact H1|]. split; [exact H2|]. split; [exact H3|].
  split; [exact H6|].
  destruct (H7 ltac:(vm_compute; reflexivity)) as [Hr (off & Hoff & Hwk)].
  split; [exact Hr|].
  vm_compute in Hoff. inversion Hoff; subst off. exact Hwk.
Defined.

(** ** Final status of a send (C6) *)

(** C6. For the task a task-id designates, once it is in SEND_DONE,
    [send_get_final_status] answers ERR_OK when an acknowledgement was
    requested and received, ERR_SEND_NO_ACK_RCVD when it was requested and
    not received, and the driver's last return code when none was requested;
    so among the sends that asked for an acknowledgement the answer is ERR_OK
    exactly when it came and ERR_SEND_NO_ACK_RCVD exactly when it did not, and
    in a well-formed engine the latter task is one whose schedule ran out.
    The transmit count is reported and the task is set to expire at once. *)
Theorem send_get_final_status_done
    (l : RFLink) (tnow id : Z) (i : nat) (tsk : Task) :
  get_task_by_taskid l id = Some i ->
  tskhead l !! i = Some tsk ->
  status tsk = ST_SEND_DONE ->
  exists r,
    send_get_final_status l tnow id =
      Ok (put_task i (set_mtime_wakeup tnow (set_evtsub_wakeup true tsk)) l,
          r, Some (nbsend tsk)) /\
    (need_ack tsk = true -> has_received_ack tsk = true -> r = ERR_OK) /\
    (need_ack tsk = true -> has_received_ack tsk = false -> r = ERR_SEND_NO_ACK_RCVD) /\
    (need_ack tsk = false -> r = last_retcode tsk) /\
    (need_ack tsk = true -> (r = ERR_OK <-> has_received_ack tsk = true)) /\
    (need_ack tsk = true -> (r = ERR_SEND_NO_ACK_RCVD <-> has_received_ack tsk = false)) /\
    (engine_wf l -> has_received_ack tsk = false ->
       send_schedule_pos tsk = nb_send_schedules tsk).
Proof.
  intros Hid Hi Hst. unfold send_get_final_status, get_task. rewrite Hid, Hi. simpl.
  rewrite Hst. simpl. eexists. split; [reflexivity|].
  assert (Hran : engine_wf l -> has_received_ack tsk = false ->
                 send_schedule_pos tsk = nb_send_schedules tsk).
  { intros (Hpl & _) Hna.
    destruct (Hpl i tsk Hi) as [H|[H|[H|[H|[H|H]]]]];
      try (destruct H as [H _]; try destruct H as [H|H]; rewrite H in Hst; discriminate).
    destruct H as (_ & _ & _ & [H|H]); congruence. }
  destruct (need_ack tsk), (has_received_ack tsk); simpl;
    repeat split; intros; try done; by apply Hran.
Qed.

Lemma send_get_final_status_done_witness :
  exists r,
    send_get_final_status ex_sender_acked 130 1 =
      Ok (put_task 0 (set_mtime_wakeup 130 (set_evtsub_wakeup true ex_sender_acked_task))
            ex_sender_acked, r, Some 1)
    /\ r = ERR_OK.
Proof.
  destruct (send_get_final_status_done ex_sender_acked 130 1 0 ex_sender_acked_task
              eq_refl eq_refl eq_refl) as (r & H1 & H2 & _).
  exists r. split; [exact H1|]. apply H2; reflexivity.
Defined.

(** ** The timer subscription invariant (C9) *)

Lemma run_ops_reachable ops :
  forall l l', engine_reachable l -> run_ops l ops = Ok l' -> engine_reachable l'.
Proof.
  induction ops as [|op rest IH]; intros l l' Hr H; simpl in H.
  - inversion H. by subst.
  - destruct (run_op l op) as [l1|f] eqn:E; simpl in H; [|discriminate].
    apply (IH l1 l'); [|done]. by apply (reachable_step l l1 op).
Qed.

Lemma all_funcs_ok : funcs_ok all_funcs.
Proof. by split. Qed.

Lemma ex_listening_reachable : engine_reachable ex_listening.
Proof.
  apply (run_ops_reachable
           [Op_set_opt_byte OPT_ADDRESS 94; Op_receive_noblock 0 None;
            Op_do_events (quiet_tick 1)]
           (register_funcs ex_new all_funcs 61)).
  - apply (reachable_boot DEFAULT_MAX_TASK_COUNT 61 all_funcs ex_new);
      [reflexivity | apply all_funcs_ok].
  - vm_compute. reflexivity.
Qed.

Lemma run_op_timer l op :
  timer_inv l -> post timer_assert_holds timer_inv (run_op l op).
Proof.
  intros Hinv.
  destruct op as [tnow adst d alen ack|tnow cfg|tk|tnow id buf_len ws|tnow id|opt v]; simpl.
  - eapply post_bind; [by apply send_noblock_timer|]. by intros [[l' r] oid] H.
  - eapply post_bind; [by apply receive_noblock_timer|]. by intros [[l' r] oid] H.
  - by apply do_events_timer.
  - eapply post_bind; [by apply data_retrieve_timer|]. by intros [[l' r] out] H.
  - eapply post_bind; [by apply send_get_final_status_timer|]. by intros [[l' r] oid] H.
  - apply (timer_inv_tskhead l); [apply set_opt_byte_tskhead | done].
Qed.

Lemma timer_inv_boot maxtask l0 fs m :
  RFLink_new maxtask = Ok l0 -> timer_inv (register_funcs l0 fs m).
Proof.
  intros Hnew. apply (timer_inv_tskhead l0); [apply register_funcs_tskhead|].
  by apply (timer_inv_new maxtask).
Qed.

(** The invariant holds in every engine an application can reach. *)
Lemma engine_reachable_timer_inv l : engine_reachable l -> timer_inv l.
Proof.
  induction 1 as [maxtask mdl fs l0 Hnew Hfs | l l' op _ IH Hop].
  - by apply (timer_inv_boot maxtask).
  - pose proof (run_op_timer l op IH) as H. by rewrite Hop in H.
Qed.

(** C9. A task whose status is not RECEIVE, NOTHING or FINISHED is subscribed
    to the timer: this holds in the engine the constructor builds, and every
    operation of the engine (task creation by the send and receive entry
    points, a call of [do_events] with its frame and timer deliveries, data
    retrieval, the final status query, the setting of an option) that starts
    from an engine where it holds returns an engine where it holds, and does
    not stop on the assertion by which [do_events] checks it for each task. *)
Theorem timer_subscription_invariant (l : RFLink) (op : engine_op) :
  timer_inv l ->
  post timer_assert_holds timer_inv (run_op l op) /\
  (forall maxtask l0 fs m,
     RFLink_new maxtask = Ok l0 -> timer_inv (register_funcs l0 fs m)).
Proof.
  intros Hinv. split.
  - by apply run_op_timer.
  - intros maxtask l0 fs m. apply timer_inv_boot.
Qed.

Lemma timer_subscription_invariant_witness :
  post timer_assert_holds timer_inv (run_op ex_listening (Op_do_events (rx_tick 2 (hi_frame 0))))
  /\ (forall maxtask l0 fs m,
        RFLink_new maxtask = Ok l0 -> timer_inv (register_funcs l0 fs m)).
Proof.
  apply (timer_subscription_invariant ex_listening (Op_do_events (rx_tick 2 (hi_frame 0)))).
  apply engine_reachable_timer_inv, ex_listening_reachable.
Defined.

(** ** Validation of received frames (C7) *)

Lemma check_rcvd_pkt_is_ok_iff pk m nb :
  m + sizeof_Header <= 255 ->
  (forall p, pkt pk = Some p -> 0 <= len (header p)) ->
  check_rcvd_pkt_is_ok pk m nb = true <->
  exists p, pkt pk = Some p /\ len (header p) <= m /\ sizeof_Header + len (header p) = nb.
Proof.
  intros Hm Hlen. unfold check_rcvd_pkt_is_ok, get_pkt_len, sizeof_Header in *.
  destruct (pkt pk) as [p|]; [|split; [done | by intros (p & ? & _)]].
  specialize (Hlen p eq_refl).
  destruct (len (header p) >? m) eqn:E.
  - split; [done|]. intros (p' & Hp' & Hle & _). inversion Hp'; subst. lia.
  - assert (Hw : wrap8 (6 + len (header p)) = 6 + len (header p))
      by (unfold wrap8; apply Z.mod_small; lia).
    rewrite Hw. split.
    + intros Heq. apply Z.eqb_eq in Heq. exists p. split; [done|]. split; lia.
    + intros (p' & Hp' & _ & Heq). inversion Hp'; subst. by apply Z.eqb_eq.
Qed.

Lemma do_events_receive_silent l tk l2 got :
  interrupted l = false -> irq tk = false ->
  do_events_receive l tk = Ok (l2, got) -> got = false.
Proof.
  intros Hi Hq. unfold do_events_receive, interrupts_on, call. rewrite Hq.
  destruct l as [a1 a2 a3 a4 a5 a6 a7 a8 a9 a10 a11 a12 a13 a14 a15 lts lf a18 alog].
  simpl in *. subst a18.
  destruct (existsb evtsub_pktrcvd lts && deviceReceive lf); simpl.
  - destruct a2; simpl; [intros H; by inversion H|].
    destruct (setInterrupt lf); simpl; [|discriminate]. intros H; by inversion H.
  - intros H; by inversion H.
Qed.

Lemma do_events_invalid_frame l tk :
  engine_wf l ->
  frame_valid l tk = false ->
  exists l' lq,
    do_events l tk = Ok l' /\
    cache_pktids l' = cache_pktids l /\
    do_events (set_interrupted false l) (silent tk) = Ok lq /\
    core l' = core lq.
Proof.
  intros Hwf Hinv.
  assert (Hq : engine_wf (set_interrupted false l)).
  { destruct Hwf as (? & ? & ? & ? & ?). destruct l. unfold engine_wf in *. simpl in *.
    split; [done|]. split; [done|]. split; [done|]. split; [intros; discriminate | done]. }
  assert (Hcq : core (set_interrupted false l) = core l) by (by destruct l).
  unfold do_events.
  assert (Hfq : funcs (set_interrupted false l) = funcs l) by (by destruct l).
  rewrite Hfq.
  destruct (negb (deviceInit (funcs l))).
  { exists l, (set_interrupted false l). by rewrite Hcq. }
  (* the call with the frame *)
  pose proof (do_events_receive_wf l tk Hwf) as H1.
  destruct (do_events_receive l tk) as [[l2 got]|f]; simpl in H1; [|done].
  destruct H1 as (Hwf2 & Hc2 & Hg2).
  assert (got = false) as ->.
  { destruct got; [|done]. destruct (Hg2 eq_refl) as [Hv _]. congruence. }
  simpl.
  (* the silent call *)
  pose proof (do_events_receive_wf (set_interrupted false l) (silent tk) Hq) as H2.
  destruct (do_events_receive (set_interrupted false l) (silent tk)) as [[l2q gq]|f] eqn:Eq;
    simpl in H2; [|done].
  destruct H2 as (Hwf2q & Hc2q & _).
  assert (gq = false) as ->.
  { eapply do_events_receive_silent; [| |exact Eq]; [by destruct l | done]. }
  simpl.
  pose proof (do_events_tasks_wf l2 tk false false Hwf2 ltac:(done)) as H3.
  pose proof (do_events_tasks_core tk (silent tk) false false l2 l2q eq_refl eq_refl
                ltac:(congruence)) as H4.
  destruct (do_events_tasks l2 tk false false) as [l'|f]; simpl in H3; [|done].
  destruct (do_events_tasks l2q (silent tk) false false) as [lq|f]; simpl in H4; [|done].
  destruct H3 as [_ Hcache]. destruct H4 as [Hcore _].
  exists l', lq. split; [done|]. split; [|done].
  rewrite Hcache. by apply core_cache.
Qed.

Lemma register_funcs_max_payload l fs max_data_len :
  deviceInit fs = true -> sizeof_Header <= max_data_len <= 255 ->
  max_payload_len (register_funcs l fs max_data_len) = max_data_len - sizeof_Header.
Proof.
  intros Hinit Hm. unfold register_funcs, initialize_recpkt_if_necessary, sizeof_Header in *.
  destruct l. simpl. rewrite Hinit. simpl.
  assert (Hw : wrap8 (max_data_len - 6) = max_data_len - 6)
    by (unfold wrap8; apply Z.mod_small; lia).
  match goal with |- context [match ?x with Some _ => _ | None => _ end] =>
    destruct x; simpl; exact Hw
  end.
Qed.

(** The drain of a frame that passes validation: [got_a_pkt] is set and the
    frame is in the receive buffer. *)
Lemma do_events_receive_valid l tk :
  engine_wf l -> recpkt_ok l -> wants_to_receive l = true ->
  interrupted l = true \/ irq tk = true ->
  frame_valid l tk = true ->
  exists l2,
    do_events_receive l tk = Ok (l2, true) /\
    recpkt l2 = Some (mkPktKeeper (Some (rx_pkt tk))).
Proof.
  intros (_ & [Hf1 Hf2] & _) Hok Hw Hup Hval.
  unfold wants_to_receive in Hw. apply andb_prop in Hw. destruct Hw as [Hex Hrecv].
  specialize (Hf1 Hrecv). specialize (Hf2 Hf1).
  unfold do_events_receive, do_events_drain, interrupts_on, interrupts_off, call,
    initialize_recpkt_if_necessary, frame_valid, get_max_payload_len, log in *.
  rewrite Hex, Hrecv.
  destruct l as [a1 a2 a3 a4 a5 a6 a7 a8 a9 a10 a11 a12 a13 a14 a15 lts lf a18 alog].
  unfold recpkt_ok in Hok. simpl in *. rewrite ?Hf1, ?Hf2.
  assert (Hpk : forall pk, a12 = Some pk -> exists p, pkt pk = Some p).
  { intros pk Hpk. specialize (Hok pk Hpk). destruct (pkt pk) as [p|]; [by exists p | done]. }
  assert (Hflag : forall b, a18 || (irq tk && (a2 || b)) = true \/ (a2 = false /\ b = false)).
  { intros b. destruct Hup as [-> | ->]; [by left|].
    destruct a2; [left; by rewrite orb_true_r|]. destruct b; [left; by rewrite orb_true_r|].
    by right. }
  destruct a2; simpl.
  - assert (Hfl : a18 || irq tk && true = true).
    { destruct Hup as [-> | ->]; [done | by rewrite orb_true_r]. }
    rewrite Hfl. simpl. rewrite ?Hf1, ?Hf2. simpl.
    destruct a12 as [pk|]; simpl;
      [destruct (Hpk pk eq_refl) as [p Hp]; rewrite Hp; simpl|];
      rewrite ?Hf1; simpl; rewrite Hval; eexists; split; reflexivity.
  - rewrite ?Hf1. simpl.
    assert (Hfl : a18 || irq tk && true = true).
    { destruct Hup as [-> | ->]; [done | by rewrite orb_true_r]. }
    rewrite Hfl. simpl. rewrite ?Hf1, ?Hf2. simpl.
    destruct a12 as [pk|]; simpl;
      [destruct (Hpk pk eq_refl) as [p Hp]; rewrite Hp; simpl|];
      rewrite ?Hf1; simpl; rewrite Hval; eexists; split; reflexivity.
Qed.

(** A call of [do_events] that drains a valid frame: the packet-id cache is
    consulted about it, and the task loop runs with the frame in hand. *)
Lemma do_events_valid_frame l tk :
  engine_wf l -> recpkt_ok l -> deviceInit (funcs l) = true ->
  wants_to_receive l = true ->
  interrupted l = true \/ irq tk = true ->
  frame_valid l tk = true ->
  exists l2,
    do_events_receive l tk = Ok (l2, true) /\
    recpkt l2 = Some (mkPktKeeper (Some (rx_pkt tk))) /\
    forall c seen,
      check_pktid_already_seen (cache_pktids l) (src (header (rx_pkt tk)))
        (pktid (header (rx_pkt tk))) (now tk) = Ok (c, seen) ->
      exists l',
        do_events l tk = Ok l' /\ cache_pktids l' = c /\
        do_events_tasks (set_cache_pktids c l2) tk true seen = Ok l'.
Proof.
  intros Hwf Hok Hinit Hw Hup Hval.
  destruct (do_events_receive_valid l tk Hwf Hok Hw Hup Hval) as (l2 & Hrecv & Hbuf).
  exists l2. split; [done|]. split; [done|].
  intros c seen Hchk.
  pose proof (do_events_receive_wf l tk Hwf) as H1. rewrite Hrecv in H1. simpl in H1.
  destruct H1 as (Hwf2 & Hc2 & _).
  assert (Hg : true = true -> exists pk p, recpkt l2 = Some pk /\ pkt pk = Some p).
  { intros _. by exists (mkPktKeeper (Some (rx_pkt tk))), (rx_pkt tk). }
  pose proof (do_events_seen_wf l2 (now tk) true Hwf2 Hg) as H2.
  assert (Hseen : do_events_seen l2 (now tk) true = Ok (set_cache_pktids c l2, seen)).
  { unfold do_events_seen. rewrite Hbuf. simpl.
    rewrite (core_cache _ _ Hc2), Hchk. reflexivity. }
  rewrite Hseen in H2. simpl in H2. destruct H2 as (Hwf3 & Hr3 & _ & _).
  pose proof (do_events_tasks_wf (set_cache_pktids c l2) tk true seen Hwf3
                ltac:(intros _; rewrite Hr3; by apply Hg)) as H3.
  unfold do_events. rewrite Hinit. cbn [negb]. rewrite Hrecv. cbn [rbind].
  rewrite Hseen. cbn [rbind].
  destruct (do_events_tasks (set_cache_pktids c l2) tk true seen) as [l'|f];
    simpl in H3; [|done].
  exists l'. split; [done|]. split; [|done].
  destruct H3 as [_ Hc3]. rewrite Hc3. by destruct l2.
Qed.

(** C7. With a maximum frame size that fits the byte the driver reports it in,
    a drained frame passes validation exactly when the buffer is non-null, the
    length in its header is at most the maximum payload, and 6 plus that
    length is the number of bytes received. On a well-formed engine a call of
    [do_events] whose frame fails validation returns, leaves the packet-id
    cache as it was, and leaves the tasks and every member of the engine but
    the receive buffer, the interrupt flags and the log of driver calls as the
    same call with the radio silent leaves them. A frame that passes
    validation, drained because the interrupt came and a task listens, is
    accepted: [got_a_pkt] is set with the frame in the receive buffer, the
    packet-id cache is consulted about its source and packet-id and comes out
    of the call as that consultation leaves it, and the task loop runs with
    the frame in hand. *)
Theorem invalid_frames_are_dropped (l : RFLink) (tk : tick_t) :
  engine_wf l ->
  max_payload_len l + sizeof_Header <= 255 ->
  (forall pk nb,
     (forall p, pkt pk = Some p -> 0 <= len (header p)) ->
     check_rcvd_pkt_is_ok pk (get_max_payload_len l) nb = true <->
     exists p, pkt pk = Some p /\ len (header p) <= max_payload_len l
               /\ sizeof_Header + len (header p) = nb) /\
  (frame_valid l tk = false ->
   exists l' lq,
     do_events l tk = Ok l' /\
     cache_pktids l' = cache_pktids l /\
     do_events (set_interrupted false l) (silent tk) = Ok lq /\
     core l' = core lq) /\
  (frame_valid l tk = true ->
   recpkt_ok l -> deviceInit (funcs l) = true -> wants_to_receive l = true ->
   interrupted l = true \/ irq tk = true ->
   exists l2,
     do_events_receive l tk = Ok (l2, true) /\
     recpkt l2 = Some (mkPktKeeper (Some (rx_pkt tk))) /\
     forall c seen,
       check_pktid_already_seen (cache_pktids l) (src (header (rx_pkt tk)))
         (pktid (header (rx_pkt tk))) (now tk) = Ok (c, seen) ->
       exists l',
         do_events l tk = Ok l' /\ cache_pktids l' = c /\
         do_events_tasks (set_cache_pktids c l2) tk true seen = Ok l').
Proof.
  intros Hwf Hmax. split; [|split].
  - intros pk nb Hlen. by apply check_rcvd_pkt_is_ok_iff.
  - by apply do_events_invalid_frame.
  - intros Hval Hok Hinit Hw Hup. by apply do_events_valid_frame.
Qed.

Lemma invalid_frames_are_dropped_witness :
  (frame_valid ex_listening (short_tick 2) = false /\
   exists l' lq,
     do_events ex_listening (short_tick 2) = Ok l' /\
     cache_pktids l' = cache_pktids ex_listening /\
     do_events (set_interrupted false ex_listening) (silent (short_tick 2)) = Ok lq /\
     core l' = core lq) /\
  (frame_valid ex_listening (rx_tick 2 (hi_frame 0)) = true /\
   exists l2 l',
     do_events_receive ex_listening (rx_tick 2 (hi_frame 0)) = Ok (l2, true) /\
     recpkt l2 = Some (mkPktKeeper (Some (hi_frame 0))) /\
     do_events ex_listening (rx_tick 2 (hi_frame 0)) = Ok l' /\
     cache_pktids l' = <[0%nat := mkCache true 11 2 7]> (cache_pktids ex_listening)).
Proof.
  split.
  - split; [reflexivity|].
    destruct (invalid_frames_are_dropped ex_listening (short_tick 2)
                (engine_reachable_wf _ ex_listening_reachable)
                ltac:(vm_compute; discriminate)) as (_ & H & _).
    apply H. reflexivity.
  - split; [reflexivity|].
    destruct (invalid_frames_are_dropped ex_listening (rx_tick 2 (hi_frame 0))
                (engine_reachable_wf _ ex_listening_reachable)
                ltac:(vm_compute; discriminate)) as (_ & _ & H).
    destruct (H eq_refl ltac:(intros pk Hpk; inversion Hpk; discriminate) eq_refl eq_refl
                ltac:(by right)) as (l2 & Hr & Hb & Hc).
    assert (Hchk : check_pktid_already_seen (cache_pktids ex_listening)
                     (src (header (rx_pkt (rx_tick 2 (hi_frame 0)))))
                     (pktid (header (rx_pkt (rx_tick 2 (hi_frame 0)))))
                     (now (rx_tick 2 (hi_frame 0)))
                   = Ok (<[0%nat := mkCache true 11 2 7]> (cache_pktids ex_listening), false))
      by (vm_compute; reflexivity).
    destruct (Hc _ _ Hchk) as (l' & Hd & Hcache & _).
    exists l2, l'. exact (conj Hr (conj Hb (conj Hd Hcache))).
Defined.

(** ** Unknown task ids (C10) *)

(** C10. For a task-id that designates no task in use, [task_get_status]
    answers ST_NOTHING, and the end of the blocking [receive] (retrieval, one
    more [do_events], mapping of the status) answers ERR_TIMEOUT and hands no
    data over; it stops short of that only if [do_events] itself does. *)
Theorem unknown_taskid_is_nothing_then_timeout
    (l : RFLink) (id : Z) (tnow buf_len : Z) (want_sender : bool) (tk : tick_t) :
  no_live_task l id ->
  task_get_status l id = ST_NOTHING /\
  match receive_finish l tnow id buf_len want_sender tk with
  | Ok (l', r, out) =>
      r = ERR_TIMEOUT /\ out = mkRetrieved None None /\ do_events l tk = Ok l'
  | Err f => do_events l tk = Err f
  end.
Proof.
  intros Hno.
  assert (Hst : forall i t, get_task_by_taskid l id = Some i -> tskhead l !! i = Some t ->
                  status t = ST_NOTHING).
  { intros i t Hi Ht. apply get_task_by_taskid_Some in Hi.
    destruct Hi as (t' & Ht' & Hid & _). rewrite Ht in Ht'. inversion Ht'; subst t'.
    apply Hno; [|done]. apply list_elem_of_lookup. by exists i. }
  split.
  - unfold task_get_status. destruct (get_task_by_taskid l id) as [i|] eqn:Ei; [|done].
    destruct (tskhead l !! i) as [t|] eqn:Et; [|done]. by apply (Hst i t).
  - unfold receive_finish, data_retrieve.
    destruct (get_task_by_taskid l id) as [i|] eqn:Ei.
    + destruct (get_task_by_taskid_Some _ _ _ Ei) as (t & Ht & _).
      unfold get_task. rewrite Ht. simpl. rewrite (Hst i t eq_refl Ht). simpl.
      destruct (do_events l tk); simpl; done.
    + simpl. destruct (do_events l tk); simpl; done.
Qed.

Lemma no_live_task_check l id :
  forallb (fun t => negb (taskid t =? id) || (status t =? ST_NOTHING)) (tskhead l) = true ->
  no_live_task l id.
Proof.
  intros H t Ht Hid. rewrite forallb_forall in H.
  apply list_elem_of_In in Ht. specialize (H t Ht).
  apply Z.eqb_eq in Hid. rewrite Hid in H. simpl in H. by apply Z.eqb_eq.
Qed.

Lemma unknown_taskid_is_nothing_then_timeout_witness :
  task_get_status ex_listening 42 = ST_NOTHING /\
  match receive_finish ex_listening 5 42 10 true (quiet_tick 6) with
  | Ok (l', r, out) =>
      r = ERR_TIMEOUT /\ out = mkRetrieved None None
      /\ do_events ex_listening (quiet_tick 6) = Ok l'
  | Err f => do_events ex_listening (quiet_tick 6) = Err f
  end.
Proof.
  apply (unknown_taskid_is_nothing_then_timeout ex_listening 42 5 10 true (quiet_tick 6)).
  apply no_live_task_check. reflexivity.
Defined.
(** ** The flags byte: sequence number and options *)

Lemma forallb_range (P : Z -> bool) (n : nat) :
  forallb P (map Z.of_nat (seq 0 n)) = true ->
  forall z, 0 <= z < Z.of_nat n -> P z = true.
Proof.
  intros H z Hz. rewrite forallb_forall in H. apply H.
  apply in_map_iff. exists (Z.to_nat z). split; [lia|].
  apply in_seq. lia.
Qed.

Lemma land_15_mod (z : Z) : Z.land z 15 = z mod 16.
Proof. change 15 with (Z.ones 4). rewrite Z.land_ones by lia. reflexivity. Qed.

Lemma from_to_flags_nibbles (a b : Z) :
  0 <= a < 16 -> 0 <= b < 16 ->
  from_flags (wrap8 (Z.lor (Z.shiftl a 4) b)) = (a, b).
Proof.
  intros Ha Hb.
  pose (Q := fun a b : Z =>
                bool_decide (from_flags (wrap8 (Z.lor (Z.shiftl a 4) b)) = (a, b))).
  pose (P := fun a : Z => forallb (Q a) (map Z.of_nat (seq 0 16))).
  assert (H : P a = true).
  { apply (forallb_range P 16); [vm_compute; reflexivity | lia]. }
  apply (forallb_range (Q a) 16 H) in Hb.
  by apply bool_decide_eq_true in Hb.
Qed.

Lemma to_from_flags_byte (f : Z) :
  0 <= f < 256 -> to_flags (fst (from_flags f)) (snd (from_flags f)) = f.
Proof.
  intros Hf.
  pose (P := fun f : Z =>
                bool_decide (to_flags (fst (from_flags f)) (snd (from_flags f)) = f)).
  assert (H : P f = true).
  { apply (forallb_range P 256); [vm_compute; reflexivity | lia]. }
  by apply bool_decide_eq_true in H.
Qed.

Lemma from_to_flags (seq opt : Z) :
  from_flags (to_flags seq opt) = (seq mod 16, opt mod 16).
Proof.
  unfold to_flags. rewrite !land_15_mod.
  apply from_to_flags_nibbles; apply Z.mod_pos_bound; lia.
Qed.

(** X1. The flags byte packs a 4-bit sequence number above 4 option bits, and
    the two conversions are inverse of each other: decoding [to_flags seq opt]
    gives back [seq] and [opt] reduced to their low 4 bits (whatever the
    arguments), the encoding is a byte, and re-encoding what a byte decodes to
    gives back the byte. *)
Theorem flags_round_trip (seq opt f : Z) :
  from_flags (to_flags seq opt) = (seq mod 16, opt mod 16)
  /\ 0 <= to_flags seq opt < 256
  /\ to_flags (fst (from_flags (wrap8 f))) (snd (from_flags (wrap8 f))) = wrap8 f
  /\ 0 <= fst (from_flags (wrap8 f)) < 16
  /\ 0 <= snd (from_flags (wrap8 f)) < 16.
Proof.
  assert (Hf : 0 <= wrap8 f < 256) by (unfold wrap8; apply Z.mod_pos_bound; lia).
  split; [apply from_to_flags|].
  split; [unfold to_flags, wrap8; apply Z.mod_pos_bound; lia|].
  split; [by apply to_from_flags_byte|].
  pose proof (to_from_flags_byte _ Hf) as Hr.
  pose proof (from_to_flags (fst (from_flags (wrap8 f))) (snd (from_flags (wrap8 f)))) as Hd.
  rewrite Hr in Hd. destruct (from_flags (wrap8 f)) as [s o]. simpl in *.
  inversion Hd as [[Hs Ho]].
  split; [rewrite Hs at 1 2 | rewrite Ho at 1 2]; apply Z.mod_pos_bound; lia.
Qed.
(** ** The sequence number a transmission leaves in the frame *)

Lemma mod16_wrap8 (z : Z) : wrap8 z mod 16 = z mod 16.
Proof.
  unfold wrap8. change 256 with (16 * 16).
  rewrite Z.rem_mul_r by lia.
  rewrite (Z.mul_comm 16 ((z / 16) mod 16)), Z.mod_add by lia.
  apply Z.mod_mod. lia.
Qed.

(** X2. Each transmission of a frame by [tev_wakeup] rewrites the flags byte
    of the packet the task keeps: the option bits (SIN, ACK) are left as they
    are, and the sequence number in the high 4 bits is incremented modulo 16
    for a data frame and left alone for an acknowledgement. The rest of the
    packet is untouched. *)
Theorem tev_wakeup_sequence_number
    (l : RFLink) (tnow : Z) (rc : option Packet -> Z -> Z) (i : nat) (tsk : Task)
    (tp : Packet) :
  tskhead l !! i = Some tsk ->
  status tsk = ST_SEND ->
  deviceSend (funcs l) = true ->
  pkt (pktkeeper tsk) = Some tp ->
  need_ack tsk = false \/ send_schedule_pos tsk < nb_send_schedules tsk - 1 ->
  nb_send_schedules tsk = Z.of_nat (length (send_schedule_ptr tsk)) ->
  0 <= send_schedule_pos tsk < nb_send_schedules tsk ->
  nb_send_schedules tsk <= 255 ->
  exists l' r tsk' f',
    tev_wakeup l tnow rc i = Ok (l', r) /\
    tskhead l' !! i = Some tsk' /\
    pkt (pktkeeper tsk') = Some (mkPacket (set_header_flags f' (header tp)) (data tp)) /\
    fst (from_flags f') =
      (if is_an_ack tsk then fst (from_flags (flags (header tp)))
       else fst (from_flags (flags (header tp))) + 1) mod 16 /\
    snd (from_flags f') = flags (header tp) mod 16.
Proof.
  intros Hi Hst Hsend Hp Htx Hnb Hpos Hmax.
  unfold tev_wakeup, get_task. rewrite Hi. simpl.
  destruct l as [mpl ia dahbd asl da lp lt rdad rpd spd ldr rp tc mtc cache pool fs intr dl].
  destruct tsk as [tid tst tpk tref twk trc tnb tptr tpos tew ter tia tna thr tun t1s ta1 tns].
  destruct tpk as [tpkt]. simpl in *. subst tst tpkt. simpl.
  assert (Hc : negb tna || (tpos <? tnb - 1) = true).
  { destruct Htx as [-> | H]; [done|].
    apply orb_true_iff. right. apply Z.ltb_lt. lia. }
  rewrite Hc. unfold call. rewrite Hsend. simpl.
  unfold get_flags, set_flags. simpl.
  change (fst (from_flags (flags (header tp)))) with (Z.shiftr (flags (header tp)) 4).
  set (s0 := Z.shiftr (flags (header tp)) 4).
  set (seq' := if negb tia then wrap8 (s0 + 1) else s0).
  set (f' := to_flags seq' (flags (header tp))).
  assert (Hf1 : fst (from_flags f') = (if tia then s0 else s0 + 1) mod 16).
  { unfold f'. rewrite from_to_flags. simpl. unfold seq'.
    destruct tia; simpl; [done|]. apply mod16_wrap8. }
  assert (Hf2 : snd (from_flags f') = flags (header tp) mod 16).
  { unfold f'. rewrite from_to_flags. done. }
  assert (Hw : wrap8 (tpos + 1) = tpos + 1).
  { unfold wrap8. apply Z.mod_small. lia. }
  rewrite Hw.
  destruct (tpos + 1 <? tnb) eqn:Elt.
  - apply Z.ltb_lt in Elt.
    unfold sched_at.
    assert (Hneg : (tpos + 1 <? 0) = false) by (apply Z.ltb_ge; lia).
    rewrite Hneg.
    destruct (tptr !! Z.to_nat (tpos + 1)) as [off|] eqn:Eoff.
    + simpl. eexists _, _, _, f'. split; [reflexivity|]. simpl.
      rewrite list_lookup_insert_eq by (by apply lookup_lt_Some in Hi).
      split; [reflexivity|]. simpl.
      split; [reflexivity|]. split; [exact Hf1 | exact Hf2].
    + apply lookup_ge_None in Eoff. lia.
  - destruct tun; simpl; eexists _, _, _, f'; (split; [reflexivity|]); simpl;
      rewrite list_lookup_insert_eq by (by apply lookup_lt_Some in Hi);
      (split; [reflexivity|]); simpl;
      (split; [reflexivity|]); (split; [exact Hf1 | exact Hf2]).
Qed.

Lemma tev_wakeup_sequence_number_witness :
  exists l' r tsk' f',
    tev_wakeup ex_sender 100 (fun _ _ => ERR_OK) 0 = Ok (l', r) /\
    tskhead l' !! 0%nat = Some tsk' /\
    pkt (pktkeeper tsk')
      = Some (mkPacket (set_header_flags f' (header ex_sender_packet))
                       (data ex_sender_packet)) /\
    fst (from_flags f') =
      (if is_an_ack ex_sender_task then fst (from_flags (flags (header ex_sender_packet)))
       else fst (from_flags (flags (header ex_sender_packet))) + 1) mod 16 /\
    snd (from_flags f') = flags (header ex_sender_packet) mod 16.
Proof.
  apply (tev_wakeup_sequence_number ex_sender 100 (fun _ _ => ERR_OK) 0 ex_sender_task
           ex_sender_packet); try reflexivity.
  - right. vm_compute. reflexivity.
  - vm_compute. split; [discriminate | reflexivity].
  - vm_compute. discriminate.
Defined.
(** ** From the sender's buffer to the receiver's: the payload *)

(** X3. A payload survives the trip through the packet keepers. For a header
    that announces [len h] bytes within the limit of the link and a buffer
    [d] of that many bytes, [prepare_for_sending] builds a packet of
    [sizeof(Header) + len h] bytes that passes the validation of received
    frames; [copy_packet] into an empty keeper gives a packet with the same
    header; and [copy_data] hands out the first [min (len h) buf_len] bytes of
    [d], never more than the caller's buffer holds. A keeper that already
    holds a packet makes [copy_packet] stop on its assertion. *)
Theorem payload_round_trip (m : Z) (h : Header) (d : list Z) (buf_len : Z) :
  0 < len h <= m ->
  m + sizeof_Header <= 255 ->
  Z.of_nat (length d) = len h ->
  0 <= buf_len ->
  exists pk pk',
    prepare_for_sending (mkPktKeeper None) m h (Some d) = Ok pk /\
    get_pkt_len pk = sizeof_Header + len h /\
    check_rcvd_pkt_is_ok pk m (get_pkt_len pk) = true /\
    copy_packet (mkPktKeeper None) pk = Ok pk' /\
    get_header_ptr pk' = Some h /\
    copy_data pk' buf_len
      = Some (Z.min (len h) buf_len, take (Z.to_nat (Z.min (len h) buf_len)) d) /\
    Z.of_nat (length (take (Z.to_nat (Z.min (len h) buf_len)) d)) <= buf_len /\
    copy_packet pk pk' = Err (AssertFailed A_copy_packet).
Proof.
  intros Hlen Hm Hd Hbuf.
  assert (Hw : wrap8 (sizeof_Header + len h) = sizeof_Header + len h).
  { unfold wrap8, sizeof_Header in *. apply Z.mod_small. lia. }
  assert (Htake : take (Z.to_nat (len h)) d = d).
  { apply take_ge. lia. }
  unfold prepare_for_sending. simpl.
  assert (E0 : (len h =? 0) = false) by (apply Z.eqb_neq; lia).
  assert (E1 : (1 <=? len h) = true) by (apply Z.leb_le; lia).
  assert (E2 : (len h >? m) = false) by (rewrite Z.gtb_ltb; apply Z.ltb_ge; lia).
  rewrite E0, E1, E2. simpl. rewrite E0, Htake.
  eexists _, _. split; [reflexivity|].
  unfold get_pkt_len, check_rcvd_pkt_is_ok, copy_packet, get_pkt_ptr_ro, get_pkt_len,
    get_header_ptr, copy_data. simpl.
  rewrite Hw, E2, Z.eqb_refl.
  split; [reflexivity|]. split; [reflexivity|].
  split; [reflexivity|]. split; [reflexivity|].
  replace (sizeof_Header + len h - sizeof_Header) with (len h) by lia.
  rewrite Htake.
  split.
  - simpl. destruct (len h >? buf_len) eqn:Eb.
    + apply Z.gtb_lt in Eb. rewrite Z.min_r by lia. reflexivity.
    + rewrite Z.gtb_ltb in Eb. apply Z.ltb_ge in Eb. rewrite Z.min_l by lia. reflexivity.
  - split; [|reflexivity].
    rewrite length_take. lia.
Qed.

Lemma payload_round_trip_witness :
  exists pk pk',
    prepare_for_sending (mkPktKeeper None) 55 (mkHeader 94 11 16 1 3) (Some [104; 105; 0])
      = Ok pk /\
    get_pkt_len pk = sizeof_Header + 3 /\
    check_rcvd_pkt_is_ok pk 55 (get_pkt_len pk) = true /\
    copy_packet (mkPktKeeper None) pk = Ok pk' /\
    get_header_ptr pk' = Some (mkHeader 94 11 16 1 3) /\
    copy_data pk' 2 = Some (Z.min 3 2, take (Z.to_nat (Z.min 3 2)) [104; 105; 0]) /\
    Z.of_nat (length (take (Z.to_nat (Z.min 3 2)) [104; 105; 0])) <= 2 /\
    copy_packet pk pk' = Err (AssertFailed A_copy_packet).
Proof.
  apply (payload_round_trip 55 (mkHeader 94 11 16 1 3) [104; 105; 0] 2);
    simpl; unfold sizeof_Header; lia.
Defined.
(** ** Delivery of a frame to the application *)

Lemma ex_available_reachable : engine_reachable ex_available.
Proof.
  apply (run_ops_reachable [Op_do_events (rx_tick 2 (hi_frame 0))] ex_listening);
    [apply ex_listening_reachable | reflexivity].
Qed.

(** X4. A task waiting in ST_RECEIVE takes a data frame exactly when the
    packet-id cache has not seen it, for a frame whose six bytes of header and
    announced payload together fit the byte that counts them (a length byte of
    at most 249, as [check_rcvd_pkt_is_ok] grants on a link whose driver
    announced 6 to 255 bytes): it then keeps a copy of the frame (header and
    announced payload), becomes RECEIVE_DATA_AVAILABLE and will wake up
    [receive_data_avail_delay] later; a frame already seen is left to the other
    tasks and the engine is unchanged. The sender's address plays no part. *)
Theorem tev_received_delivery
    (l : RFLink) (tnow : Z) (i : nat) (tsk : Task) (p : Packet) (seen : bool) :
  tskhead l !! i = Some tsk ->
  status tsk = ST_RECEIVE ->
  pkt (pktkeeper tsk) = None ->
  Z.land (flags (header p)) FLAG_ACK = 0 ->
  0 <= len (header p) ->
  sizeof_Header + len (header p) <= 255 ->
  tev_received l tnow i (mkPktKeeper (Some p)) seen =
    (if seen then Ok (l, ST_RECEIVE, false)
     else Ok (put_task i (delivered_task l tnow p tsk) l, ST_RECEIVE_DATA_AVAILABLE, true)) /\
  pkt (pktkeeper (delivered_task l tnow p tsk))
    = Some (mkPacket (header p) (take (Z.to_nat (len (header p))) (data p))).
Proof.
  intros Hi Hst Hp Hack Hlen0 Hlen.
  split; [|destruct tsk; unfold delivered_task; simpl;
           unfold wrap8; rewrite Z.mod_small by (unfold sizeof_Header in *; lia);
           do 4 f_equal; unfold sizeof_Header; lia].
  unfold tev_received, get_task. rewrite Hi. simpl.
  unfold deref_header, get_header_ptr, get_flags. simpl.
  change (from_flags (flags (header p))) with
    (Z.shiftr (flags (header p)) 4, Z.land (flags (header p)) 15).
  cbv beta iota.
  rewrite flag_test_low_nibble by (unfold FLAG_ACK; lia). rewrite Hack. simpl.
  rewrite Hst. simpl.
  destruct seen; simpl; [reflexivity|].
  unfold copy_packet. rewrite Hp. simpl.
  unfold delivered_task, get_pkt_len. simpl.
  destruct tsk as [tid tst tpk tref twk trc tnb tptr tpos tew ter tia tna thr tun t1s ta1 tns].
  reflexivity.
Qed.

Lemma tev_received_delivery_witness :
  tev_received ex_listening 2 0 (mkPktKeeper (Some (hi_frame 0))) false =
    Ok (put_task 0 (delivered_task ex_listening 2 (hi_frame 0)
                      (default blank_task (tskhead ex_listening !! 0%nat))) ex_listening,
        ST_RECEIVE_DATA_AVAILABLE, true).
Proof.
  apply (tev_received_delivery ex_listening 2 0
           (default blank_task (tskhead ex_listening !! 0%nat)) (hi_frame 0) false);
    try reflexivity; vm_compute; discriminate.
Defined.

(** X5. The application gets the payload once. On a task in
    RECEIVE_DATA_AVAILABLE, [data_retrieve] returns RECEIVE_DATA_RETRIEVED and
    hands out what [copy_data] gives (at most [buf_len] bytes) and, if asked,
    the sender's address; the task keeps only the header of the frame, with a
    length of zero, and will wake up [receive_purge_delay] after the frame
    came. A second retrieval on the same task returns the same status, hands
    out nothing and changes nothing. *)
Theorem data_retrieve_delivers_once
    (l : RFLink) (tnow : Z) (i : nat) (tsk : Task) (tp : Packet) (buf_len : Z)
    (want_sender : bool) :
  engine_wf l ->
  tskhead l !! i = Some tsk ->
  status tsk = ST_RECEIVE_DATA_AVAILABLE ->
  pkt (pktkeeper tsk) = Some tp ->
  exists l',
    data_retrieve l tnow (Some i) buf_len want_sender
      = Ok (l', ST_RECEIVE_DATA_RETRIEVED,
            mkRetrieved (copy_data (pktkeeper tsk) buf_len)
              (if want_sender then Some (src (header tp)) else None)) /\
    tskhead l' !! i = Some (retrieved_task l tp tsk) /\
    forall tnow2 buf_len2 want_sender2,
      data_retrieve l' tnow2 (Some i) buf_len2 want_sender2
        = Ok (l', ST_RECEIVE_DATA_RETRIEVED, mkRetrieved None None).
Proof.
  intros Hwf Hi Hst Hp.
  unfold data_retrieve. rewrite (get_task_lookup _ _ _ Hi). simpl.
  rewrite Hst. simpl.
  unfold deref_header, get_header_ptr, data_retrieved_post, reduce_packet_to_its_header.
  rewrite Hp. simpl.
  set (t' := set_status ST_RECEIVE_DATA_RETRIEVED _).
  assert (Et : t' = retrieved_task l tp tsk).
  { subst t'. clear. by destruct tsk. }
  clearbody t'. subst t'.
  assert (Hst' : status (retrieved_task l tp tsk) = ST_RECEIVE_DATA_RETRIEVED)
    by (by destruct tsk).
  assert (Hp' : pkt (pktkeeper (retrieved_task l tp tsk)) <> None) by (by destruct tsk).
  assert (Hew' : evtsub_wakeup (retrieved_task l tp tsk) = true) by (by destruct tsk).
  assert (Hi' : tskhead (put_task i (retrieved_task l tp tsk) l) !! i
                = Some (retrieved_task l tp tsk)).
  { rewrite tskhead_put_task. apply list_lookup_insert_eq. by apply lookup_lt_Some in Hi. }
  assert (Hwf' : engine_wf (put_task i (retrieved_task l tp tsk) l)).
  { apply engine_wf_put_task; [done|]. right. right. right. right. left.
    split; [by right|]. done. }
  pose proof (send_ack_wf _ tnow i _ (proj1 Hwf') Hi' Hp') as Hs.
  rewrite Hst' in Hs. specialize (Hs ltac:(discriminate)).
  destruct (send_ack (put_task i (retrieved_task l tp tsk) l) tnow i) as [l'|f];
    simpl in Hs; [|done].
  destruct Hs as (_ & _ & _ & Hl').
  exists l'.
  split.
  - destruct want_sender; simpl; rewrite Hst'; reflexivity.
  - split; [exact Hl'|].
    intros tnow2 buf_len2 want_sender2.
    rewrite (get_task_lookup _ _ _ Hl'). simpl. rewrite Hst'. reflexivity.
Qed.

Lemma data_retrieve_delivers_once_witness :
  exists l',
    data_retrieve ex_available 4 (Some 0%nat) 2 true
      = Ok (l', ST_RECEIVE_DATA_RETRIEVED,
            mkRetrieved (copy_data (pktkeeper ex_available_task) 2)
              (if true then Some (src (header (hi_frame 0))) else None)) /\
    tskhead l' !! 0%nat = Some (retrieved_task ex_available (hi_frame 0) ex_available_task) /\
    forall tnow2 buf_len2 want_sender2,
      data_retrieve l' tnow2 (Some 0%nat) buf_len2 want_sender2
        = Ok (l', ST_RECEIVE_DATA_RETRIEVED, mkRetrieved None None).
Proof.
  apply (data_retrieve_delivers_once ex_available 4 0 ex_available_task (hi_frame 0) 2 true
           (engine_reachable_wf _ ex_available_reachable)); reflexivity.
Defined.
(** ** The end of a task *)

Lemma put_task_same l i t : tskhead l !! i = Some t -> put_task i t l = l.
Proof.
  intros H. unfold put_task. rewrite list_insert_id by done. by destruct l.
Qed.

Lemma task_count_put_task i t l : task_count (put_task i t l) = task_count l.
Proof. by destruct l. Qed.

Lemma set_status_same t : set_status (status t) t = t.
Proof. by destruct t. Qed.

(** X6. A task that is over (SEND_DONE, RECEIVE_DATA_RETRIEVED or
    RECEIVE_TIMEDOUT) is left exactly as it is by the task loop until its
    deadline, and at the first call of [do_events] from the deadline on its
    slot is given back: status ST_NOTHING, task id 0, no subscription, packet
    released, and the count of tasks goes down by one. The device is marked
    for a reset exactly when the task was a send that asked for an
    acknowledgement and never got it. *)
Theorem finished_task_is_reclaimed
    (tk : tick_t) (seen : bool) (i : nat) (st : loop_t) (tsk : Task) :
  tskhead (lk st) !! i = Some tsk ->
  status tsk = ST_SEND_DONE \/ status tsk = ST_RECEIVE_DATA_RETRIEVED
    \/ status tsk = ST_RECEIVE_TIMEDOUT ->
  evtsub_wakeup tsk = true ->
  evtsub_pktrcvd tsk = false \/ got_a_pkt st = false ->
  (signed32 (now tk - mtime_wakeup tsk) < 0 ->
     do_events_task tk seen i st = Ok st) /\
  (0 <= signed32 (now tk - mtime_wakeup tsk) ->
     do_events_task tk seen i st
       = Ok (mkLoop (set_task_count (wrap8 (task_count (lk st) - 1))
                       (put_task i (destroyed_task tsk) (lk st)))
               (got_a_pkt st)
               (if (status tsk =? ST_SEND_DONE) && need_ack tsk
                   && negb (has_received_ack tsk)
                then true else device_needs_reset st))) /\
  status (destroyed_task tsk) = ST_NOTHING /\
  taskid (destroyed_task tsk) = 0 /\
  evtsub_wakeup (destroyed_task tsk) = false /\
  evtsub_pktrcvd (destroyed_task tsk) = false /\
  pkt (pktkeeper (destroyed_task tsk)) = None.
Proof.
  intros Hi Hst Hew Hrx.
  assert (Hnorx : evtsub_pktrcvd tsk && got_a_pkt st = false).
  { destruct Hrx as [-> | ->]; [done | by rewrite andb_false_r]. }
  split; [|split].
  - intros Hearly.
    unfold do_events_task, get_task. rewrite Hi. simpl. rewrite Hnorx. simpl.
    rewrite Hi. simpl. rewrite Hew, Z.eqb_refl. simpl.
    assert (E : (signed32 (now tk - mtime_wakeup tsk) >=? 0) = false).
    { rewrite Z.geb_leb. apply Z.leb_gt. lia. }
    rewrite E. simpl. rewrite Hi. simpl. rewrite Hew. simpl.
    rewrite !andb_false_r. simpl.
    assert (Ef : (status tsk =? ST_FINISHED) = false).
    { apply Z.eqb_neq. destruct Hst as [-> | [-> | ->]]; discriminate. }
    rewrite Ef. rewrite set_status_same, put_task_same by done.
    by destruct st.
  - intros Hdue.
    unfold do_events_task, get_task. rewrite Hi. simpl. rewrite Hnorx. simpl.
    rewrite Hi. simpl. rewrite Hew, Z.eqb_refl. simpl.
    assert (E : (signed32 (now tk - mtime_wakeup tsk) >=? 0) = true).
    { rewrite Z.geb_leb. apply Z.leb_le. lia. }
    rewrite E. unfold tev_wakeup, get_task. rewrite Hi. simpl.
    destruct Hst as [Hs | [Hs | Hs]]; rewrite Hs; simpl; rewrite Hi; simpl;
      rewrite ?Hew; simpl; unfold task_destroy, get_task; rewrite Hi; simpl;
      rewrite ?Hs, task_count_put_task; reflexivity.
  - by destruct tsk.
Qed.

Lemma finished_task_is_reclaimed_witness :
  (signed32 (now (quiet_tick 1100) - mtime_wakeup ex_receiver_task) < 0 ->
     do_events_task (quiet_tick 1100) false 0 (mkLoop ex_receiver_retrieved false false)
       = Ok (mkLoop ex_receiver_retrieved false false)) /\
  (0 <= signed32 (now (quiet_tick 1100) - mtime_wakeup ex_receiver_task) ->
     do_events_task (quiet_tick 1100) false 0 (mkLoop ex_receiver_retrieved false false)
       = Ok (mkLoop (set_task_count (wrap8 (task_count ex_receiver_retrieved - 1))
                       (put_task 0 (destroyed_task ex_receiver_task) ex_receiver_retrieved))
               false
               (if (status ex_receiver_task =? ST_SEND_DONE) && need_ack ex_receiver_task
                   && negb (has_received_ack ex_receiver_task)
                then true else false))) /\
  status (destroyed_task ex_receiver_task) = ST_NOTHING /\
  taskid (destroyed_task ex_receiver_task) = 0 /\
  evtsub_wakeup (destroyed_task ex_receiver_task) = false /\
  evtsub_pktrcvd (destroyed_task ex_receiver_task) = false /\
  pkt (pktkeeper (destroyed_task ex_receiver_task)) = None.
Proof.
  apply (finished_task_is_reclaimed (quiet_tick 1100) false 0
           (mkLoop ex_receiver_retrieved false false) ex_receiver_task).
  - reflexivity.
  - right. left. reflexivity.
  - reflexivity.
  - right. reflexivity.
Defined.
(** ** Waiting for a frame *)

(** X7. How a wait ends without delivery. With no frame handed to it, a task
    in ST_RECEIVE is left as it is for as long as it has no timer or its timer
    is not due (a wait without timeout never ends by itself); when its timer
    is due it becomes RECEIVE_TIMEDOUT. A task whose payload the application
    did not retrieve before the deadline becomes RECEIVE_TIMEDOUT as well and
    loses the payload: only the header is kept, and a later [data_retrieve]
    returns RECEIVE_TIMEDOUT and hands out nothing. *)
Theorem receive_task_times_out
    (tk : tick_t) (seen : bool) (i : nat) (l : RFLink) (rst : bool) (tsk : Task) :
  tskhead l !! i = Some tsk ->
  (status tsk = ST_RECEIVE ->
     (evtsub_wakeup tsk = false \/ signed32 (now tk - mtime_wakeup tsk) < 0 ->
        do_events_task tk seen i (mkLoop l false rst) = Ok (mkLoop l false rst)) /\
     (evtsub_wakeup tsk = true -> 0 <= signed32 (now tk - mtime_wakeup tsk) ->
        do_events_task tk seen i (mkLoop l false rst)
          = Ok (mkLoop (put_task i (timedout_task tsk) l) false rst))) /\
  (status tsk = ST_RECEIVE_DATA_AVAILABLE ->
   evtsub_wakeup tsk = true -> 0 <= signed32 (now tk - mtime_wakeup tsk) ->
   forall tp, pkt (pktkeeper tsk) = Some tp ->
     do_events_task tk seen i (mkLoop l false rst)
       = Ok (mkLoop (put_task i (expired_task l tp tsk) l) false rst) /\
     forall tnow buf_len want_sender,
       data_retrieve (put_task i (expired_task l tp tsk) l) tnow (Some i) buf_len want_sender
         = Ok (put_task i (expired_task l tp tsk) l, ST_RECEIVE_TIMEDOUT,
               mkRetrieved None None)).
Proof.
  intros Hi. split.
  - intros Hst. split.
    + intros Hidle.
      unfold do_events_task, get_task. simpl. rewrite Hi. simpl.
      rewrite andb_false_r. simpl. rewrite Hi. simpl. rewrite Z.eqb_refl, andb_true_r.
      assert (E : (if evtsub_wakeup tsk
                   then if signed32 (now tk - mtime_wakeup tsk) >=? 0
                        then tev_wakeup l (now tk) (send_rc tk) i
                        else Ok (l, status tsk)
                   else Ok (l, status tsk)) = Ok (l, status tsk)).
      { destruct Hidle as [-> | Hneg]; [done|].
        destruct (evtsub_wakeup tsk); [|done].
        assert (E : (signed32 (now tk - mtime_wakeup tsk) >=? 0) = false).
        { rewrite Z.geb_leb. apply Z.leb_gt. lia. }
        by rewrite E. }
      rewrite E. simpl. rewrite Hi. simpl. rewrite Hst. simpl.
      rewrite <- Hst, set_status_same, put_task_same by done. reflexivity.
    + intros Hew Hdue.
      unfold do_events_task, get_task. simpl. rewrite Hi. simpl.
      rewrite andb_false_r. simpl. rewrite Hi. simpl. rewrite Z.eqb_refl, Hew. simpl.
      assert (E : (signed32 (now tk - mtime_wakeup tsk) >=? 0) = true).
      { rewrite Z.geb_leb. apply Z.leb_le. lia. }
      rewrite E. unfold tev_wakeup, get_task. rewrite Hi. simpl. rewrite Hst. simpl.
      rewrite tskhead_put_task, list_lookup_insert_eq by (by apply lookup_lt_Some in Hi).
      simpl. destruct l, tsk. simpl in *. unfold put_task. simpl.
      rewrite list_insert_insert_eq. reflexivity.
  - intros Hst Hew Hdue tp Hp.
    assert (Hlt : (i < length (tskhead l))%nat) by (by apply lookup_lt_Some in Hi).
    split.
    + unfold do_events_task, get_task. simpl. rewrite Hi. simpl.
      rewrite andb_false_r. simpl. rewrite Hi. simpl. rewrite Z.eqb_refl, Hew. simpl.
      assert (E : (signed32 (now tk - mtime_wakeup tsk) >=? 0) = true).
      { rewrite Z.geb_leb. apply Z.leb_le. lia. }
      rewrite E. unfold tev_wakeup, get_task. rewrite Hi. simpl. rewrite Hst. simpl.
      unfold data_retrieved_post, reduce_packet_to_its_header. rewrite Hp. simpl.
      rewrite tskhead_put_task, list_lookup_insert_eq by done. simpl.
      destruct l, tsk. simpl in *. unfold put_task. simpl.
      rewrite list_insert_insert_eq. reflexivity.
    + intros tnow buf_len want_sender.
      unfold data_retrieve, get_task. rewrite tskhead_put_task.
      rewrite list_lookup_insert_eq by done. simpl.
      by destruct tsk.
Qed.

Lemma receive_task_times_out_witness :
  (status ex_available_task = ST_RECEIVE ->
     (evtsub_wakeup ex_available_task = false
      \/ signed32 (now (quiet_tick 902) - mtime_wakeup ex_available_task) < 0 ->
        do_events_task (quiet_tick 902) false 0 (mkLoop ex_available false false)
          = Ok (mkLoop ex_available false false)) /\
     (evtsub_wakeup ex_available_task = true ->
      0 <= signed32 (now (quiet_tick 902) - mtime_wakeup ex_available_task) ->
        do_events_task (quiet_tick 902) false 0 (mkLoop ex_available false false)
          = Ok (mkLoop (put_task 0 (timedout_task ex_available_task) ex_available)
                  false false))) /\
  (status ex_available_task = ST_RECEIVE_DATA_AVAILABLE ->
   evtsub_wakeup ex_available_task = true ->
   0 <= signed32 (now (quiet_tick 902) - mtime_wakeup ex_available_task) ->
   forall tp, pkt (pktkeeper ex_available_task) = Some tp ->
     do_events_task (quiet_tick 902) false 0 (mkLoop ex_available false false)
       = Ok (mkLoop (put_task 0 (expired_task ex_available tp ex_available_task)
                       ex_available) false false) /\
     forall tnow buf_len want_sender,
       data_retrieve (put_task 0 (expired_task ex_available tp ex_available_task)
                        ex_available) tnow (Some 0%nat) buf_len want_sender
         = Ok (put_task 0 (expired_task ex_available tp ex_available_task) ex_available,
               ST_RECEIVE_TIMEDOUT, mkRetrieved None None)).
Proof.
  apply (receive_task_times_out (quiet_tick 902) false 0 ex_available false
           ex_available_task).
  reflexivity.
Defined.
(** ** The entry points before and after registration *)

(** X8. The callback checks of the entry points. Without a registered
    [deviceInit] the engine is inert: [send_noblock], [receive_noblock] and
    the blocking [send] and [receive] return ERR_DEVICE_NOT_REGISTERED,
    [do_events] returns at once, and none of them changes the engine; a fresh
    engine is in that state. With [deviceInit] but no [deviceSend],
    [send_noblock] returns ERR_SEND_FUNC_NOT_REGISTERED, and with no
    [deviceReceive], [receive_noblock] returns
    ERR_RECEIVE_FUNC_NOT_REGISTERED, whatever the other arguments. *)
Theorem entry_points_check_callbacks (l : RFLink) :
  (deviceInit (funcs l) = false ->
     (forall tnow adst d alen ack,
        send_noblock l tnow adst d alen ack = Ok (l, ERR_DEVICE_NOT_REGISTERED, None)) /\
     (forall tnow cfg,
        receive_noblock l tnow cfg = Ok (l, ERR_DEVICE_NOT_REGISTERED, None)) /\
     (forall tk, do_events l tk = Ok l) /\
     (forall tcreate tfinal ticks adst d alen ack,
        send l tcreate tfinal ticks adst d alen ack
          = Ok (Some (l, ERR_DEVICE_NOT_REGISTERED, None))) /\
     (forall tcreate tretr tk ticks buf_len want_sender cfg,
        receive l tcreate tretr (tk :: ticks) buf_len want_sender cfg
          = Ok (Some (l, ERR_DEVICE_NOT_REGISTERED, mkRetrieved None None)))) /\
  (deviceInit (funcs l) = true -> deviceSend (funcs l) = false ->
     forall tnow adst d alen ack,
       send_noblock l tnow adst d alen ack = Ok (l, ERR_SEND_FUNC_NOT_REGISTERED, None)) /\
  (deviceInit (funcs l) = true -> deviceReceive (funcs l) = false ->
     forall tnow cfg,
       receive_noblock l tnow cfg = Ok (l, ERR_RECEIVE_FUNC_NOT_REGISTERED, None)) /\
  (forall maxtask l0, RFLink_new maxtask = Ok l0 -> deviceInit (funcs l0) = false).
Proof.
  split; [|split; [|split]].
  - intros Hinit.
    assert (Hs : forall tnow adst d alen ack,
               send_noblock l tnow adst d alen ack = Ok (l, ERR_DEVICE_NOT_REGISTERED, None)).
    { intros. unfold send_noblock. by rewrite Hinit. }
    assert (Hr : forall tnow cfg,
               receive_noblock l tnow cfg = Ok (l, ERR_DEVICE_NOT_REGISTERED, None)).
    { intros. unfold receive_noblock. by rewrite Hinit. }
    assert (Hd : forall tk, do_events l tk = Ok l).
    { intros. unfold do_events. by rewrite Hinit. }
    split; [exact Hs|]. split; [exact Hr|]. split; [exact Hd|]. split.
    + intros. unfold send. rewrite Hs. reflexivity.
    + intros. unfold receive. rewrite Hr. simpl. rewrite Hd. reflexivity.
  - intros Hinit Hsend tnow adst d alen ack. unfold send_noblock.
    by rewrite Hinit, Hsend.
  - intros Hinit Hrecv tnow cfg. unfold receive_noblock. by rewrite Hinit, Hrecv.
  - intros maxtask l0. unfold RFLink_new.
    destruct (_ || _); [discriminate|]. intros H. inversion H. reflexivity.
Qed.

Lemma entry_points_check_callbacks_witness :
  (forall tnow adst d alen ack,
     send_noblock ex_new tnow adst d alen ack = Ok (ex_new, ERR_DEVICE_NOT_REGISTERED, None)) /\
  (forall tnow cfg,
     receive_noblock ex_new tnow cfg = Ok (ex_new, ERR_DEVICE_NOT_REGISTERED, None)) /\
  (forall tk, do_events ex_new tk = Ok ex_new) /\
  (forall tcreate tfinal ticks adst d alen ack,
     send ex_new tcreate tfinal ticks adst d alen ack
       = Ok (Some (ex_new, ERR_DEVICE_NOT_REGISTERED, None))) /\
  (forall tcreate tretr tk ticks buf_len want_sender cfg,
     receive ex_new tcreate tretr (tk :: ticks) buf_len want_sender cfg
       = Ok (Some (ex_new, ERR_DEVICE_NOT_REGISTERED, mkRetrieved None None))).
Proof.
  apply (proj1 (entry_points_check_callbacks ex_new)). reflexivity.
Defined.

Lemma get_task_created l st tnow l1 i t0 :
  task_create l st tnow = (l1, Some i) ->
  tskhead l !! i = Some t0 ->
  get_task l1 i = Ok (created_task l st tnow t0).
Proof.
  intros Hc Hi. destruct (task_create_Some _ _ _ _ _ Hc) as (t0' & Hi' & _ & _ & _ & ->).
  rewrite Hi in Hi'. inversion Hi'; subst t0'.
  unfold get_task. destruct l. simpl in *.
  rewrite list_lookup_insert_eq by (by apply lookup_lt_Some in Hi). reflexivity.
Qed.

(** X9. [receive_noblock] with the callbacks registered. When [task_create]
    finds no slot the answer is ERR_UNABLE_TO_CREATE_TASK and nothing changes.
    Otherwise the first free slot becomes a task in ST_RECEIVE, subscribed to
    incoming frames, with the next task id, which is the id handed back; it is
    subscribed to the timer, due [timeout] after the call, exactly when the
    configuration asks for a timeout. The [sender] and [rxcallback] members of
    the configuration are never read: the call does the same whatever they
    hold. *)
Theorem receive_noblock_creates (l : RFLink) (tnow : Z) (cfg : option RXConfig) :
  deviceInit (funcs l) = true ->
  deviceReceive (funcs l) = true ->
  match task_create l ST_RECEIVE tnow with
  | (_, None) => receive_noblock l tnow cfg = Ok (l, ERR_UNABLE_TO_CREATE_TASK, None)
  | (l1, Some i) =>
      exists t0,
        tskhead l !! i = Some t0 /\ status t0 = ST_NOTHING /\
        receive_noblock l tnow cfg
          = Ok (put_task i (receive_task l tnow cfg t0) l1, ERR_TASK_CREATED_OK,
                Some (wrap16 (last_taskid l + 1))) /\
        status (receive_task l tnow cfg t0) = ST_RECEIVE /\
        taskid (receive_task l tnow cfg t0) = wrap16 (last_taskid l + 1) /\
        evtsub_pktrcvd (receive_task l tnow cfg t0) = true /\
        evtsub_wakeup (receive_task l tnow cfg t0)
          = match cfg with Some c => def_timeout c | None => false end /\
        (forall c, cfg = Some c -> def_timeout c = true ->
           mtime_wakeup (receive_task l tnow cfg t0) = wrap32 (tnow + timeout c))
  end /\
  (forall c c',
     def_timeout c = def_timeout c' -> timeout c = timeout c' ->
     receive_noblock l tnow (Some c) = receive_noblock l tnow (Some c')).
Proof.
  intros Hinit Hrecv.
  split; [|by intros [? ? ? ? ?] [? ? ? ? ?]; simpl; intros -> ->].
  destruct (task_create l ST_RECEIVE tnow) as [l1 [i|]] eqn:Ec.
  - destruct (task_create_Some _ _ _ _ _ Ec) as (t0 & Hi & Hs0 & _ & _ & _).
    exists t0. split; [done|]. split; [done|].
    unfold receive_noblock. rewrite Hinit, Hrecv, Ec. simpl.
    rewrite (get_task_created _ _ _ _ _ _ Ec Hi). simpl.
    unfold receive_task.
    destruct t0 as [tid tst tpk tref twk trc tnb tptr tpos tew ter tia tna thr tun t1s ta1 tns].
    destruct cfg as [[ds dto drx snd to]|]; simpl; [destruct dto; simpl|];
      (split; [reflexivity|]); (split; [reflexivity|]); (split; [reflexivity|]);
      (split; [reflexivity|]); (split; [reflexivity|]); intros c Hc; inversion Hc; subst;
      simpl; try discriminate; reflexivity.
  - unfold receive_noblock. rewrite Hinit, Hrecv, Ec. simpl.
    by rewrite (task_create_None _ _ _ _ Ec).
Qed.

Lemma receive_noblock_creates_witness :
  match task_create ex_booted ST_RECEIVE 0 with
  | (_, None) =>
      receive_noblock ex_booted 0 (Some (mkRXConfig false true false 0 500))
        = Ok (ex_booted, ERR_UNABLE_TO_CREATE_TASK, None)
  | (l1, Some i) =>
      exists t0,
        tskhead ex_booted !! i = Some t0 /\ status t0 = ST_NOTHING /\
        receive_noblock ex_booted 0 (Some (mkRXConfig false true false 0 500))
          = Ok (put_task i (receive_task ex_booted 0
                              (Some (mkRXConfig false true false 0 500)) t0) l1,
                ERR_TASK_CREATED_OK, Some (wrap16 (last_taskid ex_booted + 1))) /\
        status (receive_task ex_booted 0 (Some (mkRXConfig false true false 0 500)) t0)
          = ST_RECEIVE /\
        taskid (receive_task ex_booted 0 (Some (mkRXConfig false true false 0 500)) t0)
          = wrap16 (last_taskid ex_booted + 1) /\
        evtsub_pktrcvd (receive_task ex_booted 0
                          (Some (mkRXConfig false true false 0 500)) t0) = true /\
        evtsub_wakeup (receive_task ex_booted 0
                         (Some (mkRXConfig false true false 0 500)) t0) = true /\
        (forall c, Some (mkRXConfig false true false 0 500) = Some c ->
           def_timeout c = true ->
           mtime_wakeup (receive_task ex_booted 0
                           (Some (mkRXConfig false true false 0 500)) t0)
             = wrap32 (0 + timeout c))
  end.
Proof.
  apply (proj1 (receive_noblock_creates ex_booted 0
                  (Some (mkRXConfig false true false 0 500)) eq_refl eq_refl)).
Defined.
(** ** Going to sleep *)

Lemma count_if_le {A : Type} (P : A -> bool) (xs : list A) :
  (count_if P xs <= length xs)%nat.
Proof. induction xs as [|x xs IH]; simpl; [lia|]. destruct (P x); lia. Qed.

Lemma count_if_zero {A : Type} (P : A -> bool) (xs : list A) :
  count_if P xs = 0%nat <-> forall x, x ∈ xs -> P x = false.
Proof.
  induction xs as [|x xs IH]; simpl.
  - split; [|done]. intros _ y Hy. by apply elem_of_nil in Hy.
  - split.
    + intros H y Hy. destruct (P x) eqn:Ex; [lia|].
      apply elem_of_cons in Hy as [-> | Hy]; [done|]. apply IH; [lia | done].
    + intros H. rewrite (H x) by apply list_elem_of_here. simpl.
      apply IH. intros y Hy. apply H. by apply list_elem_of_further.
Qed.

Lemma count_if_one {A : Type} (P : A -> bool) (xs : list A) :
  count_if P xs = 1%nat <->
  exists (k : nat) (x : A), xs !! k = Some x /\ P x = true /\
    forall (j : nat) (y : A), j <> k -> xs !! j = Some y -> P y = false.
Proof.
  induction xs as [|x xs IH]; simpl.
  - split; [lia|]. intros (k & y & Hk & _). by rewrite lookup_nil in Hk.
  - split.
    + intros H. destruct (P x) eqn:Ex.
      * exists 0%nat, x. split; [done|]. split; [done|].
        intros [|j] y Hj Hy; [done|]. simpl in Hy.
        assert (H0 : count_if P xs = 0%nat) by lia.
        apply (proj1 (count_if_zero P xs) H0). by apply list_elem_of_lookup_2 in Hy.
      * destruct (proj1 IH ltac:(lia)) as (k & y & Hk & Hy & Hothers).
        exists (S k), y. split; [done|]. split; [done|].
        intros [|j] z Hj Hz; simpl in Hz.
        -- by inversion Hz; subst.
        -- apply (Hothers j); [lia | done].
    + intros (k & y & Hk & Hy & Hothers). destruct k as [|k]; simpl in Hk.
      * inversion Hk; subst y. rewrite Hy.
        assert (H0 : count_if P xs = 0%nat).
        { apply count_if_zero. intros z Hz. apply list_elem_of_lookup_1 in Hz as [j Hj].
          apply (Hothers (S j)); [lia | done]. }
        lia.
      * rewrite (Hothers 0%nat x) by done. simpl. apply IH.
        exists k, y. split; [done|]. split; [done|].
        intros j z Hj Hz. apply (Hothers (S j)); [lia | done].
Qed.

Lemma wrap8_small (z : Z) : 0 <= z < 256 -> wrap8 z = z.
Proof. intros. unfold wrap8. by apply Z.mod_small. Qed.

Lemma sleep_counts_spec (ts : list Task) :
  forall cr cw cn : Z,
    0 <= cr -> 0 <= cw -> 0 <= cn ->
    cr + Z.of_nat (length ts) <= 255 ->
    cw + Z.of_nat (length ts) <= 255 ->
    cn + Z.of_nat (length ts) <= 255 ->
    sleep_counts ts (cr, cw, cn)
      = (cr + Z.of_nat (count_if evtsub_pktrcvd ts),
         cw + Z.of_nat (count_if evtsub_wakeup ts),
         cn + Z.of_nat (count_if (fun t => negb (evtsub_wakeup t) && live_task t) ts)).
Proof.
  induction ts as [|t ts IH]; intros cr cw cn Hr Hw Hn Lr Lw Ln.
  - simpl. apply (f_equal2 pair); [apply (f_equal2 pair)|]; lia.
  - simpl length in *. cbn [sleep_counts count_if].
    unfold live_task at 1.
    destruct (evtsub_pktrcvd t), (evtsub_wakeup t), (negb (status t =? ST_NOTHING));
      cbn [negb andb]; rewrite ?wrap8_small by lia;
      rewrite IH by lia; (apply (f_equal2 pair); [apply (f_equal2 pair)|]); lia.
Qed.

Lemma is_eligible_for_sleep_counts (l : RFLink) :
  (length (tskhead l) <= 255)%nat ->
  is_eligible_for_sleep l = true <->
  count_if evtsub_pktrcvd (tskhead l) = 1%nat /\
  count_if evtsub_wakeup (tskhead l) = 0%nat /\
  count_if (fun t => negb (evtsub_wakeup t) && live_task t) (tskhead l) = 1%nat.
Proof.
  intros Hlen. unfold is_eligible_for_sleep.
  rewrite sleep_counts_spec by lia.
  rewrite !andb_true_iff, !Z.eqb_eq. lia.
Qed.

(** X10. When the engine sleeps. At the end of [do_events] the driver is
    called for a reset when a send went unacknowledged and the last reset is
    at least MIN_DEVICE_RESET_DELAY old, and the CPU is put to sleep exactly
    when auto-sleep is on and the sleep test holds. On a well-formed pool the
    sleep test holds exactly when one task waits for a frame without timeout
    and every other slot is free: no task with a deadline is ever slept
    on. *)
Theorem sleep_only_when_waiting (tk : tick_t) (st : loop_t) :
  engine_wf (lk st) ->
  (length (tskhead (lk st)) <= 255)%nat ->
  (is_eligible_for_sleep (lk st) = true <-> only_waiting (lk st)) /\
  dev_log (do_events_finish tk st) = dev_log (lk st) ++ finish_calls tk st /\
  tskhead (do_events_finish tk st) = tskhead (lk st).
Proof.
  intros Hwf Hlen. split; [|split].
  - rewrite is_eligible_for_sleep_counts by done.
    destruct Hwf as (Hpool & _).
    split.
    + intros (Hr & Hw & Hn).
      apply count_if_one in Hn as (k & t & Hk & Ht & Hothers).
      apply andb_true_iff in Ht as [Htw Htl].
      apply negb_true_iff in Htw.
      unfold live_task in Htl. apply negb_true_iff, Z.eqb_neq in Htl.
      assert (Hst : status t = ST_RECEIVE).
      { destruct (Hpool k t Hk) as [H|[H|[H|[H|[H|H]]]]]; try tauto;
          destruct H as (_ & H); try destruct H as (H & _); congruence. }
      assert (Hfree : forall j t', j <> k -> tskhead (lk st) !! j = Some t' ->
                                   status t' = ST_NOTHING).
      { intros j t' Hj Hj'. specialize (Hothers j t' Hj Hj').
        assert (Hw' : evtsub_wakeup t' = false).
        { apply (proj1 (count_if_zero _ _) Hw). by apply list_elem_of_lookup_2 in Hj'. }
        rewrite Hw' in Hothers. simpl in Hothers. unfold live_task in Hothers.
        by apply negb_false_iff, Z.eqb_eq in Hothers. }
      exists k, t. split; [done|]. split; [done|]. split; [|done].
      apply count_if_one in Hr as (k' & t' & Hk' & Ht' & _).
      destruct (decide (k' = k)) as [-> | Hne]; [congruence|].
      pose proof (Hfree k' t' Hne Hk') as Hs'.
      destruct (Hpool k' t' Hk') as [H|[H|[H|[H|[H|H]]]]];
        try (destruct H as (H & _); try destruct H as [H|H]; rewrite Hs' in H; discriminate).
      destruct H as (_ & _ & H & _). congruence.
    + intros (k & t & Hk & Hst & Hr & Hw & Hfree).
      assert (Hnosub : forall j t', j <> k -> tskhead (lk st) !! j = Some t' ->
                evtsub_wakeup t' = false /\ evtsub_pktrcvd t' = false).
      { intros j t' Hj Hj'. pose proof (Hfree j t' Hj Hj') as Hs'.
        destruct (Hpool j t' Hj') as [H|[H|[H|[H|[H|H]]]]];
          try (destruct H as (H & _); try destruct H as [H|H]; rewrite Hs' in H; discriminate).
        tauto. }
      split; [|split].
      * apply count_if_one. exists k, t. split; [done|]. split; [done|].
        intros j t' Hj Hj'. exact (proj2 (Hnosub j t' Hj Hj')).
      * apply count_if_zero. intros t' Ht'. apply list_elem_of_lookup_1 in Ht' as [j Hj'].
        destruct (decide (j = k)) as [-> | Hne]; [congruence|].
        exact (proj1 (Hnosub j t' Hne Hj')).
      * apply count_if_one. exists k, t. split; [done|]. split.
        { rewrite Hw. unfold live_task. by rewrite Hst. }
        intros j t' Hj Hj'. unfold live_task. rewrite (Hfree j t' Hj Hj').
        simpl. apply andb_false_r.
  - unfold do_events_finish, finish_calls. destruct st as [l g r]. simpl.
    assert (He : forall l', tskhead l' = tskhead l ->
              is_eligible_for_sleep l' = is_eligible_for_sleep l).
    { intros l' H. unfold is_eligible_for_sleep. by rewrite H. }
    destruct r; simpl.
    + destruct (wrap32 (now tk - last_device_reset l) >=? MIN_DEVICE_RESET_DELAY); simpl.
      * rewrite He by (by destruct l).
        assert (Ha : forall x, auto_sleep (log (Delay 1) (log (DeviceInit true)
                       (set_last_device_reset x l))) = auto_sleep l) by (by destruct l).
        rewrite Ha. destruct (is_eligible_for_sleep l && auto_sleep l); destruct l; simpl;
          rewrite <- ?app_assoc; reflexivity.
      * destruct (is_eligible_for_sleep l && auto_sleep l); destruct l; simpl;
          rewrite <- ?app_assoc, ?app_nil_r; reflexivity.
    + destruct (is_eligible_for_sleep l && auto_sleep l); destruct l; simpl;
        rewrite <- ?app_assoc, ?app_nil_r; reflexivity.
  - apply engine_wf_finish. exact Hwf.
Qed.

Lemma sleep_only_when_waiting_witness :
  (is_eligible_for_sleep ex_listening = true <-> only_waiting ex_listening) /\
  dev_log (do_events_finish (quiet_tick 2) (mkLoop ex_listening false false))
    = dev_log ex_listening ++ finish_calls (quiet_tick 2) (mkLoop ex_listening false false) /\
  tskhead (do_events_finish (quiet_tick 2) (mkLoop ex_listening false false))
    = tskhead ex_listening.
Proof.
  apply (sleep_only_when_waiting (quiet_tick 2) (mkLoop ex_listening false false)
           (engine_reachable_wf _ ex_listening_reachable)).
  vm_compute. lia.
Defined.
(** ** The interrupt of the radio *)

Lemma frame_irq l l' :
  frame l' = frame l ->
  interrupted l' = interrupted l /\ interrupt_is_attached l' = interrupt_is_attached l.
Proof. intros H. destruct l, l'. simpl in *. by inversion H. Qed.

Lemma core_funcs l l' : core l' = core l -> funcs l' = funcs l.
Proof. intros H. destruct l, l'. simpl in *. by inversion H. Qed.

Lemma do_events_finish_irq tk st :
  interrupted (do_events_finish tk st) = interrupted (lk st) /\
  interrupt_is_attached (do_events_finish tk st) = interrupt_is_attached (lk st).
Proof.
  unfold do_events_finish. destruct st as [l g r]. simpl.
  assert (He : forall l', tskhead l' = tskhead l ->
            is_eligible_for_sleep l' = is_eligible_for_sleep l).
  { intros l' H. unfold is_eligible_for_sleep. by rewrite H. }
  destruct r; [destruct (_ >=? _)|]; rewrite ?He by (by destruct l);
    match goal with |- context [if ?c then _ else _] => destruct c end;
    by destruct l.
Qed.

Lemma do_events_receive_irq l tk :
  engine_wf l ->
  post no_fault
    (fun '(l2, _) =>
       interrupted l2 = false /\
       (interrupt_is_attached l = true \/ wants_to_receive l = true ->
        interrupt_is_attached l2 = true))
    (do_events_receive l tk).
Proof.
  intros Hwf. unfold do_events_receive.
  pose proof Hwf as (Hpl & [Hf1 Hf2] & Ha & Hi & Hc).
  fold (wants_to_receive l).
  eapply (post_bind _ (fun l1 => core l1 = core l /\ interrupted l1 = interrupted l /\
                         (interrupt_is_attached l = true \/ wants_to_receive l = true ->
                          interrupt_is_attached l1 = true) /\
                         (wants_to_receive l = false -> l1 = l))).
  { destruct (wants_to_receive l) eqn:Ew.
    - unfold wants_to_receive in Ew. apply andb_prop in Ew. destruct Ew as [_ Hr].
      eapply post_mono; [apply interrupts_on_wf; auto | done |].
      intros l1 (Hc1 & Hr1 & Hi1 & Ha1). done.
    - simpl. split; [done|]. split; [done|].
      split; [|done]. intros [H|H]; [done | discriminate]. }
  intros l1 (Hc1 & Hi1 & Ha1 & Hsame). simpl.
  assert (Hfs : funcs l1 = funcs l) by (by apply core_funcs).
  set (flag := interrupted l1 || (irq tk && interrupt_is_attached l1)).
  assert (Hib : interrupted (set_interrupted flag l1) = flag) by (by destruct l1).
  assert (Hab : interrupt_is_attached (set_interrupted flag l1) = interrupt_is_attached l1)
    by (by destruct l1).
  assert (Hfb : funcs (set_interrupted flag l1) = funcs l) by (by destruct l1).
  rewrite Hib.
  destruct flag eqn:Efl.
  - assert (Hset : setInterrupt (funcs l) = true).
    { subst flag. apply orb_prop in Efl. destruct Efl as [Hfl|Hfl].
      - apply Hi. congruence.
      - apply andb_prop in Hfl. destruct Hfl as [_ Hfl].
        destruct (interrupt_is_attached l) eqn:Eia; [by apply Ha|].
        destruct (wants_to_receive l) eqn:Ew.
        + unfold wants_to_receive in Ew. apply andb_prop in Ew. destruct Ew as [_ Hr]. auto.
        + rewrite (Hsame eq_refl) in Hfl. congruence. }
    unfold do_events_drain.
    eapply post_bind.
    { apply interrupts_off_wf. intros _. rewrite Hfb. auto. }
    intros l2 (Hc2 & Hr2 & Hi2 & Ha2). simpl.
    assert (Hf2' : funcs l2 = funcs l).
    { rewrite (core_funcs _ _ Hc2). exact Hfb. }
    match goal with |- post _ _ (rbind ?c _) =>
      assert (Hmid : post no_fault
                (fun '(l3, _) => funcs l3 = funcs l /\ interrupt_is_attached l3 = false) c)
    end.
    { destruct (wants_to_receive l).
      - unfold initialize_recpkt_if_necessary.
        destruct (recpkt l2) as [pk|] eqn:Er; simpl.
        + rewrite Er. simpl. by destruct l2.
        + assert (Hrr : recpkt (set_recpkt (Some (mkPktKeeper (Some blank_packet))) l2)
                        = Some (mkPktKeeper (Some blank_packet))) by (by destruct l2).
          rewrite Hrr. simpl. by destruct l2.
      - simpl. done. }
    eapply post_bind; [exact Hmid|].
    intros [l3 got] (Hf3 & Ha3). simpl.
    eapply post_bind.
    { apply interrupts_on_wf. intros _. destruct l3. simpl in *. congruence. }
    intros l4 (_ & _ & Hi4 & Ha4). simpl.
    split; [|done]. rewrite Hi4. by destruct l3.
  - simpl. split; [done|]. by rewrite Hab.
Qed.

Lemma post_conj {A : Type} (F : fault -> Prop) (P Q : A -> Prop) (c : result A) :
  post F P c -> post (fun _ => True) Q c -> post F (fun a => P a /\ Q a) c.
Proof. destruct c; simpl; tauto. Qed.

Lemma post_any {A : Type} (F : fault -> Prop) (P : A -> Prop) (c : result A) :
  post F P c -> post (fun _ => True) P c.
Proof. destruct c; simpl; tauto. Qed.

Lemma do_events_seen_irq l tref got :
  post (fun _ => True)
    (fun '(l', _) =>
       interrupted l' = interrupted l /\ interrupt_is_attached l' = interrupt_is_attached l)
    (do_events_seen l tref got).
Proof.
  unfold do_events_seen. destruct got; [|done].
  destruct (recpkt l) as [pk|]; [|done].
  destruct (deref_header pk) as [h|]; [|done]. simpl.
  destruct (check_pktid_already_seen _ _ _ _) as [[c seen]|]; [|done]. simpl.
  by destruct l.
Qed.

Lemma do_events_tasks_irq l tk got seen :
  engine_wf l ->
  (got = true -> exists pk p, recpkt l = Some pk /\ pkt pk = Some p) ->
  post no_fault
    (fun l' =>
       interrupted l' = interrupted l /\ interrupt_is_attached l' = interrupt_is_attached l)
    (do_events_tasks l tk got seen).
Proof.
  intros Hwf Hgot. unfold do_events_tasks.
  eapply post_bind.
  { apply (do_events_loop_wf tk seen _ (mkLoop l got false)); simpl.
    - by destruct Hwf.
    - apply Forall_forall. intros i Hi. apply elem_of_seq in Hi. lia.
    - done. }
  intros st (Hfr & _). simpl in *.
  destruct (frame_irq _ _ Hfr) as [H1 H2].
  destruct (do_events_finish_irq tk st) as [H3 H4]. split; congruence.
Qed.

(** X11. The interrupt of the radio across a call of [do_events]. On a
    well-formed engine whose device is registered, when [do_events] returns
    the interrupt is armed if it was armed on entry or if a task listens and
    the driver can receive: the call never leaves the interrupt disarmed once
    it has been armed, so that a frame that comes in after the call raises the
    flag of the handler. *)
Theorem do_events_rearms_interrupt (l : RFLink) (tk : tick_t) :
  engine_wf l ->
  deviceInit (funcs l) = true ->
  post cache_overrun
    (fun l' =>
       interrupt_is_attached l = true \/ wants_to_receive l = true ->
       interrupt_is_attached l' = true)
    (do_events l tk).
Proof.
  intros Hwf Hinit. unfold do_events. rewrite Hinit. simpl.
  eapply post_bind.
  { eapply post_mono;
      [apply (post_conj _ _ _ _ (do_events_receive_wf l tk Hwf)
                (post_any _ _ _ (do_events_receive_irq l tk Hwf)))
      | done | intros a Ha; exact Ha]. }
  intros [l2 got] [(Hwf2 & _ & Hg2) (Hi2 & Ha2)]. simpl.
  assert (Hg : got = true -> exists pk p, recpkt l2 = Some pk /\ pkt pk = Some p)
    by (intros Hgt; by apply Hg2).
  eapply post_bind.
  { apply (post_conj _ _ _ _ (do_events_seen_wf l2 (now tk) got Hwf2 Hg)
             (do_events_seen_irq l2 (now tk) got)). }
  intros [l3 seen] [(Hwf3 & Hr3 & _ & _) (Hi3 & Ha3)]. simpl.
  eapply post_mono; [apply do_events_tasks_irq; try done | done |].
  - by rewrite Hr3.
  - intros l4 (Hi4 & Ha4) H. rewrite Ha4, Ha3. by apply Ha2.
Qed.

Lemma do_events_rearms_interrupt_witness :
  post cache_overrun
    (fun l' =>
       interrupt_is_attached ex_listening = true \/ wants_to_receive ex_listening = true ->
       interrupt_is_attached l' = true)
    (do_events ex_listening (rx_tick 2 (hi_frame 0))).
Proof.
  apply (do_events_rearms_interrupt ex_listening (rx_tick 2 (hi_frame 0))
           (engine_reachable_wf _ ex_listening_reachable)).
  reflexivity.
Defined.

(** ** Waiting with [delay_ms] *)

Lemma signed16_range (z : Z) : -32768 <= signed16 z <= 32767.
Proof.
  unfold signed16, wrap16.
  pose proof (Z.mod_pos_bound z 65536 ltac:(lia)).
  destruct (z mod 65536 <? 32768) eqn:E; [apply Z.ltb_lt in E | apply Z.ltb_ge in E]; lia.
Qed.

Lemma delay_ms_loop_never (turns : list (Z * tick_t)) :
  forall l d t0 l', 32767 < d -> delay_ms_loop l d t0 turns <> Ok (Some l').
Proof.
  induction turns as [|[t tk] rest IH]; intros l d t0 l' Hd; simpl; [discriminate|].
  pose proof (signed16_range (wrap32 (t - t0))).
  assert (E : (signed16 (wrap32 (t - t0)) <? d) = true) by (apply Z.ltb_lt; lia).
  rewrite E. destruct (do_events l tk) as [l1|f]; simpl; [by apply IH | discriminate].
Qed.

Lemma signed16_small (z : Z) : 0 <= z < 32768 -> signed16 z = z.
Proof.
  intros Hz. unfold signed16, wrap16. rewrite Z.mod_small by lia.
  assert (E : (z <? 32768) = true) by (apply Z.ltb_lt; lia). by rewrite E.
Qed.

(** X14. [delay_ms(d)] returns at once, without a call of [do_events], when
    [d] is not positive. For a positive [d] it calls [do_events] while the
    time elapsed since the call is below [d], and returns at the first test
    where the elapsed time has reached [d], as long as that time is below
    32768 ms. The test converts the elapsed time to a 16-bit [signed], which
    never exceeds 32767: a delay above 32767 ms never ends, whatever the clock
    and the radio do. *)
Theorem delay_ms_returns (l : RFLink) (d t0 : Z) (turns : list (Z * tick_t)) :
  (d <= 0 -> delay_ms l d t0 turns = Ok (Some l)) /\
  (forall t tk, 0 <= wrap32 (t - t0) < d -> d <= 32767 ->
     delay_ms l d t0 ((t, tk) :: turns)
       = (l' <- do_events l tk ;; delay_ms_loop l' d t0 turns)) /\
  (forall t tk, 0 < d <= wrap32 (t - t0) -> wrap32 (t - t0) < 32768 ->
     delay_ms l d t0 ((t, tk) :: turns) = Ok (Some l)) /\
  (32767 < d -> forall l', delay_ms l d t0 turns <> Ok (Some l')).
Proof.
  split; [|split; [|split]].
  - intros Hd. unfold delay_ms.
    assert (E : (d <=? 0) = true) by (apply Z.leb_le; lia). by rewrite E.
  - intros t tk Ht Hd. unfold delay_ms.
    assert (E : (d <=? 0) = false) by (apply Z.leb_gt; lia). rewrite E. simpl.
    rewrite signed16_small by lia.
    assert (E2 : (wrap32 (t - t0) <? d) = true) by (apply Z.ltb_lt; lia). by rewrite E2.
  - intros t tk Ht Hs. unfold delay_ms.
    assert (E : (d <=? 0) = false) by (apply Z.leb_gt; lia). rewrite E. simpl.
    rewrite signed16_small by lia.
    assert (E2 : (wrap32 (t - t0) <? d) = false) by (apply Z.ltb_ge; lia). by rewrite E2.
  - intros Hd l'. unfold delay_ms.
    assert (E : (d <=? 0) = false) by (apply Z.leb_gt; lia). rewrite E.
    by apply delay_ms_loop_never.
Qed.
(** ** The steps of the engine on its pool *)

Lemma pool_steps_one B P n l l' : pool_step B P l l' -> pool_steps B P n l l'.
Proof. intros H. eapply steps_cons; [exact H | apply steps_nil]. Qed.

Lemma pool_steps_one_spawn B P n l l' : pool_spawn l l' -> pool_steps B P (S n) l l'.
Proof. intros H. eapply steps_spawn; [exact H | apply steps_nil]. Qed.

Lemma pool_steps_weaken B P n m l l' :
  (n <= m)%nat -> pool_steps B P n l l' -> pool_steps B P m l l'.
Proof.
  intros Hnm H. revert m Hnm.
  induction H as [n l|n l l1 l2 Hs Hr IH|n l l1 l2 Hs Hr IH]; intros m Hnm.
  - apply steps_nil.
  - eapply steps_cons; [exact Hs | by apply IH].
  - destruct m as [|m]; [lia|]. eapply steps_spawn; [exact Hs | apply IH; lia].
Qed.

Lemma pool_steps_trans B P n1 n2 l1 l2 l3 :
  pool_steps B P n1 l1 l2 -> pool_steps B P n2 l2 l3 -> pool_steps B P (n1 + n2) l1 l3.
Proof.
  induction 1 as [n l|n l l1 l2 Hs Hr IH|n l l1 l2 Hs Hr IH]; intros H3.
  - eapply pool_steps_weaken; [|exact H3]. lia.
  - eapply steps_cons; [exact Hs | by apply IH].
  - simpl. eapply steps_spawn; [exact Hs | by apply IH].
Qed.

(** Composition within a budget. *)
Lemma pool_steps_then B P n1 n2 n l1 l2 l3 :
  pool_steps B P n1 l1 l2 -> pool_steps B P n2 l2 l3 -> (n1 + n2 <= n)%nat ->
  pool_steps B P n l1 l3.
Proof.
  intros H1 H2 Hn. eapply pool_steps_weaken; [exact Hn|]. by eapply pool_steps_trans.
Qed.

Lemma pool_steps_pre B P n l1 l2 l3 :
  pool_steps B P 0 l1 l2 -> pool_steps B P n l2 l3 -> pool_steps B P n l1 l3.
Proof. intros H1 H2. by apply (pool_steps_trans B P 0 n l1 l2 l3). Qed.

Lemma pool_steps_post B P n l1 l2 l3 :
  pool_steps B P n l1 l2 -> pool_steps B P 0 l2 l3 -> pool_steps B P n l1 l3.
Proof.
  intros H1 H2. eapply pool_steps_then; [exact H1 | exact H2 |]. by rewrite Nat.add_0_r.
Qed.

Lemma pool_step_mono (B : Prop) (P Q : nat -> Prop) l l' :
  (forall i, P i -> Q i) -> pool_step B P l l' -> pool_step B Q l l'.
Proof.
  intros HPQ [i t t' calls Hp|i t Hp|calls].
  - eapply step_touch; eauto.
  - eapply step_destroy; eauto.
  - eapply step_env; eauto.
Qed.

Lemma pool_steps_mono (B : Prop) (P Q : nat -> Prop) n l l' :
  (forall i, P i -> Q i) -> pool_steps B P n l l' -> pool_steps B Q n l l'.
Proof.
  intros HPQ. induction 1 as [n l|n l l1 l2 Hs Hr IH|n l l1 l2 Hs Hr IH].
  - apply steps_nil.
  - eapply steps_cons; [by eapply pool_step_mono | done].
  - eapply steps_spawn; [exact Hs | done].
Qed.

Lemma frame_max_payload_len l l' : frame l' = frame l -> max_payload_len l' = max_payload_len l.
Proof. intros H. destruct l, l'. simpl in *. by inversion H. Qed.

Lemma frame_max_task_count l l' : frame l' = frame l -> max_task_count l' = max_task_count l.
Proof. intros H. destruct l, l'. simpl in *. by inversion H. Qed.

Lemma pool_step_consts B P l l' :
  pool_step B P l l' ->
  max_task_count l' = max_task_count l /\ max_payload_len l' = max_payload_len l /\
  length (tskhead l') = length (tskhead l).
Proof.
  intros [i t t' calls Hp Hf Hi Ht|i t Hp Hf Hi Hs Ht|calls H1 H2 H3].
  - split; [by apply frame_max_task_count|]. split; [by apply frame_max_payload_len|].
    by rewrite Ht, length_insert.
  - split; [by apply frame_max_task_count|]. split; [by apply frame_max_payload_len|].
    by rewrite Ht, length_insert.
  - by rewrite H3.
Qed.

Lemma pool_spawn_consts l l' :
  pool_spawn l l' ->
  max_task_count l' = max_task_count l /\ max_payload_len l' = max_payload_len l /\
  length (tskhead l') = length (tskhead l).
Proof.
  intros [j t0 tnew Hf Hj Hs Ht].
  split; [by apply frame_max_task_count|]. split; [by apply frame_max_payload_len|].
  by rewrite Ht, length_insert.
Qed.

Lemma pool_steps_consts B P n l l' :
  pool_steps B P n l l' ->
  max_task_count l' = max_task_count l /\ max_payload_len l' = max_payload_len l /\
  length (tskhead l') = length (tskhead l).
Proof.
  induction 1 as [n l|n l l1 l2 Hs Hr IH|n l l1 l2 Hs Hr IH]; [done| |].
  - destruct (pool_step_consts _ _ _ _ Hs) as (H1 & H2 & H3).
    destruct IH as (H4 & H5 & H6). split; [congruence|]. split; congruence.
  - destruct (pool_spawn_consts _ _ Hs) as (H1 & H2 & H3).
    destruct IH as (H4 & H5 & H6). split; [congruence|]. split; congruence.
Qed.

(** The receive buffer keeps its packet. *)
Lemma pool_steps_recpkt_ok B P n l l' : pool_steps B P n l l' -> recpkt_ok l -> recpkt_ok l'.
Proof.
  induction 1 as [n l|n l l1 l2 Hs Hr IH|n l l1 l2 Hs Hr IH]; [done| |]; intros Hok;
    apply IH.
  - destruct Hs as [i t t' calls Hp Hf|i t Hp Hf|calls H1 H2 H3 H4 H5 H6 H7 H8 H9].
    + intros pk Hpk. apply Hok. by rewrite <- (frame_recpkt _ _ Hf).
    + intros pk Hpk. apply Hok. by rewrite <- (frame_recpkt _ _ Hf).
    + by apply H9.
  - destruct Hs as [j t0 tnew Hf].
    intros pk Hpk. apply Hok. by rewrite <- (frame_recpkt _ _ Hf).
Qed.

(** The callbacks are never written. *)
Lemma pool_steps_funcs B P n l l' : pool_steps B P n l l' -> funcs l' = funcs l.
Proof.
  induction 1 as [n l|n l l1 l2 Hs Hr IH|n l l1 l2 Hs Hr IH]; [done| |]; rewrite IH.
  - destruct Hs as [i t t' calls Hp Hf|i t Hp Hf|calls H1 H2 H3 H4 H5 H6 H7 H8];
      [by apply frame_funcs | by apply frame_funcs | done].
  - destruct Hs as [j t0 tnew Hf]. by apply frame_funcs.
Qed.

(** A task in use in a slot that is not written stays as it is. *)
Lemma pool_steps_keeps B (P : nat -> Prop) n l l' k t :
  pool_steps B P n l l' -> ~ P k ->
  tskhead l !! k = Some t -> status t <> ST_NOTHING ->
  tskhead l' !! k = Some t.
Proof.
  induction 1 as [n l|n l l1 l2 Hs Hr IH|n l l1 l2 Hs Hr IH]; [done| |];
    intros Hk Hl Hlive; (apply IH; [done| |done]).
  - destruct Hs as [i t1 t' calls Hp Hf Hi Ht|i t1 Hp Hf Hi Hs Ht|calls H1 H2 H3].
    + rewrite Ht. rewrite list_lookup_insert_ne; [done|]. by intros ->.
    + rewrite Ht. rewrite list_lookup_insert_ne; [done|]. by intros ->.
    + by rewrite H3.
  - destruct Hs as [j t0 tnew Hf Hj Hs Ht].
    rewrite Ht. rewrite list_lookup_insert_ne; [done|]. intros ->. congruence.
Qed.

Lemma last_taskid_put_task i t l : last_taskid (put_task i t l) = last_taskid l.
Proof. by destruct l. Qed.

Lemma dev_log_put_task i t l : dev_log (put_task i t l) = dev_log l.
Proof. by destruct l. Qed.

Lemma touch_put_task B (P : nat -> Prop) n l i t t' :
  P i ->
  tskhead l !! i = Some t ->
  taskid t' = taskid t ->
  (status t' = ST_NOTHING <-> status t = ST_NOTHING) ->
  (B -> pkt_ok (max_payload_len l) t -> pkt_ok (max_payload_len l) t') ->
  pool_steps B P n l (put_task i t' l).
Proof.
  intros Hp Hi Hid Hst Hpk. apply pool_steps_one.
  apply (step_touch B P l _ i t t' []); try done.
  - apply frame_put_task.
  - apply tskhead_put_task.
  - apply task_count_put_task.
  - apply last_taskid_put_task.
  - by rewrite dev_log_put_task, app_nil_r.
Qed.

Lemma touch_put_task_sent B (P : nat -> Prop) n l i t t' :
  P i ->
  tskhead l !! i = Some t ->
  taskid t' = taskid t ->
  (status t' = ST_NOTHING <-> status t = ST_NOTHING) ->
  (B -> pkt_ok (max_payload_len l) t -> pkt_ok (max_payload_len l) t') ->
  pool_steps B P n l (put_task i t' (log (send_of t) l)).
Proof.
  intros Hp Hi Hid Hst Hpk. apply pool_steps_one.
  apply (step_touch B P l _ i t t' [send_of t]); try done.
  - by rewrite frame_put_task, frame_log.
  - by rewrite tskhead_put_task, tskhead_log.
  - rewrite task_count_put_task. by destruct l.
  - rewrite last_taskid_put_task. by destruct l.
  - rewrite dev_log_put_task. by destruct l.
  - by apply Forall_singleton.
Qed.

Lemma returns_for_same l i t :
  tskhead l !! i = Some t -> returns_for l i (status t).
Proof. intros Hi. by exists t. Qed.

Lemma returns_for_put l i t' r :
  (i < length (tskhead l))%nat ->
  (r = ST_NOTHING <-> status t' = ST_NOTHING) ->
  returns_for (put_task i t' l) i r.
Proof.
  intros Hlt Hr. exists t'. split; [|done].
  rewrite tskhead_put_task. by apply list_lookup_insert_eq.
Qed.

Lemma spawn_created B (P : nat -> Prop) n l st tnow l1 j t0 tnew :
  task_create l st tnow = (l1, Some j) ->
  tskhead l !! j = Some t0 ->
  taskid tnew = wrap16 (last_taskid l + 1) ->
  status tnew <> ST_NOTHING ->
  (0 <= max_payload_len l -> pkt_ok (max_payload_len l) t0 ->
   pkt_ok (max_payload_len l) tnew) ->
  pool_steps B P (S n) l (put_task j tnew l1).
Proof.
  intros Hc Hj Hid Hst Hpk.
  destruct (task_create_Some _ _ _ _ _ Hc) as (t0' & Hj' & Hs0 & _ & Hcnt & ->).
  rewrite Hj in Hj'. inversion Hj'; subst t0'.
  apply pool_steps_one_spawn. apply (spawn_intro l _ j t0 tnew); try done.
  - by destruct l.
  - destruct l. simpl. apply list_insert_insert_eq.
  - by destruct l.
  - by destruct l.
  - by destruct l.
Qed.

Lemma frame_created l st tnow l1 j tnew :
  task_create l st tnow = (l1, Some j) -> frame (put_task j tnew l1) = frame l.
Proof.
  intros Hc. destruct (task_create_Some _ _ _ _ _ Hc) as (t0 & _ & _ & _ & _ & ->).
  by destruct l.
Qed.

Lemma send_ack_noblock_steps B P l tnow h :
  post any_fault (fun '(l', _, _) => pool_steps B P 1 l l' /\ frame l' = frame l)
    (send_ack_noblock l tnow h).
Proof.
  unfold send_ack_noblock.
  destruct (len h =? 0) eqn:El; simpl; [|done].
  apply Z.eqb_eq in El.
  destruct (negb (deviceInit (funcs l))); [simpl; split; [apply steps_nil | done]|].
  destruct (negb (deviceSend (funcs l))); [simpl; split; [apply steps_nil | done]|].
  destruct (task_create l ST_SEND tnow) as [l1 [j|]] eqn:Ec.
  - pose proof Ec as Ec'.
    apply task_create_Some in Ec'. destruct Ec' as (t0 & Ht0 & Hs0 & _ & _ & El1).
    rewrite (get_task_created _ _ _ _ _ _ Ec Ht0).
    destruct t0 as [tid tst [tpk] tref twk trc tnb tptr tpos tew ter tia tna tha tun t1 t2 tns].
    simpl. unfold sched_at, prepare_for_sending, assert. simpl.
    destruct (bool_decide _) eqn:Ep; simpl; [|done].
    destruct (_ || _); simpl; [|done].
    split.
    + eapply spawn_created; [exact Ec | exact Ht0 | reflexivity | discriminate |].
      intros Hm _ p Hp. simpl in Hp. inversion Hp; subst p. clear Hp. simpl.
      unfold get_max_payload_len. rewrite El.
      assert (E : (0 >? max_payload_len l1) = false).
      { rewrite Z.gtb_ltb. apply Z.ltb_ge.
        rewrite El1. destruct l. simpl in *. lia. }
      rewrite E. lia.
    + by eapply frame_created.
  - apply task_create_None in Ec. subst l1. simpl. split; [apply steps_nil | done].
Qed.

Lemma send_ack_steps B P l tnow i :
  post any_fault (fun l' => pool_steps B P 1 l l' /\ frame l' = frame l) (send_ack l tnow i).
Proof.
  unfold send_ack.
  destruct (get_task l i) as [tsk|f]; simpl; [|done].
  destruct (negb _); simpl; [|split; [apply steps_nil | done]].
  unfold deref_header. destruct (get_header_ptr (pktkeeper tsk)) as [hd|]; simpl; [|done].
  match goal with |- context [send_ack_noblock l tnow ?h] =>
    pose proof (send_ack_noblock_steps B P l tnow h) as Hs;
    destruct (send_ack_noblock l tnow h) as [[[l' r] oid]|f]; simpl in *; done
  end.
Qed.

Lemma send_ack_keeps l tnow i t :
  tskhead l !! i = Some t -> status t <> ST_NOTHING ->
  post any_fault (fun l' => tskhead l' !! i = Some t) (send_ack l tnow i).
Proof.
  intros Hi Hs.
  pose proof (send_ack_steps True (fun _ => False) l tnow i) as H.
  destruct (send_ack l tnow i) as [l'|]; [|done].
  destruct H as [H _]. simpl.
  eapply pool_steps_keeps; [exact H | intros [] | exact Hi | exact Hs].
Qed.

Lemma tev_received_steps B (P : nat -> Prop) l tnow i pk seen :
  P i ->
  (B -> keeper_ok (max_payload_len l) pk) ->
  post any_fault
    (fun '(l', r, c) =>
       pool_steps B P (spawn_budget c) l l' /\ frame l' = frame l /\ returns_for l' i r)
    (tev_received l tnow i pk seen).
Proof.
  intros HP Hpk. unfold tev_received.
  destruct (get_task l i) as [t|f] eqn:Eg; simpl; [|done].
  apply get_task_Ok in Eg. rename Eg into Hi.
  pose proof (lookup_lt_Some _ _ _ Hi) as Hlt.
  assert (Hsame : forall n, pool_steps B P n l l /\ frame l = frame l
                            /\ returns_for l i (status t)).
  { intros n. split; [apply steps_nil|]. split; [done|]. by apply returns_for_same. }
  assert (Hput : forall n t' r,
            taskid t' = taskid t -> status t' = status t ->
            (B -> pkt_ok (max_payload_len l) t -> pkt_ok (max_payload_len l) t') ->
            (r = ST_NOTHING <-> status t = ST_NOTHING) ->
            pool_steps B P n l (put_task i t' l) /\ frame (put_task i t' l) = frame l
            /\ returns_for (put_task i t' l) i r).
  { intros n t' r Hid Hst Hp Hr. split; [|split].
    - apply (touch_put_task B P n l i t t'); try done. by rewrite Hst.
    - apply frame_put_task.
    - apply returns_for_put; [done|]. by rewrite Hst. }
  unfold deref_header at 1. destruct (get_header_ptr pk) as [hbackup|] eqn:Ehp; simpl; [|done].
  destruct (negb _).
  - (* an acknowledgement *)
    destruct ((status t =? ST_SEND) || (status t =? ST_SEND_DONE)) eqn:Es; [|apply Hsame].
    destruct (need_ack t && negb (has_received_ack t)); [|apply Hsame].
    unfold deref_header. destruct (get_header_ptr (pktkeeper t)) as [th|]; simpl; [|done].
    rewrite Ehp. simpl.
    destruct (pktid th =? pktid hbackup); [|apply Hsame].
    destruct t as [tid tst [tpk] tref twk trc tnb tptr tpos tew ter tia tna tha tun t1 t2 tns].
    unfold reduce_packet_to_its_header. simpl in *.
    destruct tpk as [tp|]; [|by destruct (tst =? ST_SEND)].
    assert (Hlive : tst <> ST_NOTHING).
    { intros ->. vm_compute in Es. discriminate. }
    assert (Hred : forall m, B -> pkt_ok m
              (mkTask tid tst (mkPktKeeper (Some tp)) tref twk trc tnb tptr tpos tew ter tia
                 tna tha tun t1 t2 tns) ->
              keeper_ok m (mkPktKeeper (Some (mkPacket (set_header_len 0 (header tp)) [])))).
    { intros m _ Hok p Hp. inversion Hp; subst p. simpl.
      specialize (Hok tp eq_refl). lia. }
    destruct (tst =? ST_SEND) eqn:E1; simpl.
    + apply Hput; [done | done | exact (Hred _) |].
      split; intros Hx; [vm_compute in Hx; discriminate Hx | done].
    + apply Hput; [done | done | exact (Hred _) | done].
  - destruct ((status t =? ST_RECEIVE) && negb seen) eqn:Er.
    + apply andb_prop in Er. destruct Er as [Er _]. apply Z.eqb_eq in Er.
      unfold copy_packet, assert.
      destruct (bool_decide _); simpl; [|done].
      destruct (get_pkt_ptr_ro pk) as [p|] eqn:Ep; simpl; [|done].
      destruct t as [tid tst [tpk] tref twk trc tnb tptr tpos tew ter tia tna tha tun t1 t2 tns].
      simpl in *. subst tst.
      apply Hput; [done | done | |].
      * intros HB _ p' Hp'. inversion Hp'; subst p'. simpl.
        by apply (Hpk HB p).
      * split; intros Hx; vm_compute in Hx; discriminate Hx.
    + destruct ((status t =? ST_RECEIVE_DATA_AVAILABLE)
                || (status t =? ST_RECEIVE_DATA_RETRIEVED)) eqn:Ea; [|apply Hsame].
      unfold deref_header. destruct (get_header_ptr (pktkeeper t)) as [th|]; simpl; [|done].
      destruct ((pktid th =? pktid hbackup) && (src th =? src hbackup)); [|apply Hsame].
      destruct (status t =? ST_RECEIVE_DATA_RETRIEVED) eqn:E5; [|apply Hsame].
      apply Z.eqb_eq in E5.
      assert (Hlive : status t <> ST_NOTHING) by (rewrite E5; discriminate).
      pose proof (send_ack_steps B P l tnow i) as Hs.
      pose proof (send_ack_keeps l tnow i t Hi Hlive) as Hk.
      destruct (send_ack l tnow i) as [l'|f]; simpl in *; [|done].
      destruct Hs as [Hs Hf]. split; [done|]. split; [done|].
      by apply returns_for_same.
Qed.

Lemma tev_wakeup_steps B (P : nat -> Prop) l tnow rc i :
  P i ->
  post any_fault
    (fun '(l', r) => pool_steps B P 0 l l' /\ frame l' = frame l /\ returns_for l' i r)
    (tev_wakeup l tnow rc i).
Proof.
  intros HP. unfold tev_wakeup.
  destruct (get_task l i) as [t|f] eqn:Eg; simpl; [|done].
  apply get_task_Ok in Eg. rename Eg into Hi.
  pose proof (lookup_lt_Some _ _ _ Hi) as Hlt.
  assert (Hsame : forall r, status t <> ST_NOTHING -> r <> ST_NOTHING ->
            pool_steps B P 0 l l /\ frame l = frame l /\ returns_for l i r).
  { intros r H1 H2. split; [apply steps_nil|]. split; [done|]. exists t. split; [done|].
    split; intros; done. }
  assert (Hput : forall t' r,
            taskid t' = taskid t -> status t' = status t -> status t <> ST_NOTHING ->
            r <> ST_NOTHING ->
            (B -> pkt_ok (max_payload_len l) t -> pkt_ok (max_payload_len l) t') ->
            pool_steps B P 0 l (put_task i t' l) /\ frame (put_task i t' l) = frame l
            /\ returns_for (put_task i t' l) i r).
  { intros t' r Hid Hst Hl Hr Hp. split; [|split].
    - apply (touch_put_task B P 0 l i t t'); try done. by rewrite Hst.
    - apply frame_put_task.
    - apply returns_for_put; [done|]. rewrite Hst. split; intros; done. }
  assert (Hsent : forall t' r,
            taskid t' = taskid t -> status t' = status t -> status t <> ST_NOTHING ->
            r <> ST_NOTHING ->
            (B -> pkt_ok (max_payload_len l) t -> pkt_ok (max_payload_len l) t') ->
            pool_steps B P 0 l (put_task i t' (log (send_of t) l))
            /\ frame (put_task i t' (log (send_of t) l)) = frame l
            /\ returns_for (put_task i t' (log (send_of t) l)) i r).
  { intros t' r Hid Hst Hl Hr Hp. split; [|split].
    - apply (touch_put_task_sent B P 0 l i t t'); try done. by rewrite Hst.
    - by rewrite frame_put_task, frame_log.
    - apply returns_for_put; [by rewrite tskhead_log|]. rewrite Hst. split; intros; done. }
  destruct t as [tid tst [tpk] tref twk trc tnb tptr tpos tew ter tia tna tha tun t1 t2 tns].
  simpl in *.
  unfold data_retrieved_post, reduce_packet_to_its_header, call, sched_at. simpl.
  destruct (tst =? ST_SEND) eqn:E1.
  - apply Z.eqb_eq in E1. subst tst.
    assert (Hfl : forall m f, B ->
              pkt_ok m (mkTask tid ST_SEND (mkPktKeeper tpk) tref twk trc tnb tptr tpos tew ter
                          tia tna tha tun t1 t2 tns) ->
              keeper_ok m (set_flags f (mkPktKeeper tpk))).
    { intros m f _ Hok p Hp. destruct tpk as [tp|]; [|done].
      unfold set_flags in Hp. simpl in Hp. inversion Hp; subst p. simpl.
      by apply (Hok tp). }
    destruct (negb tna || (tpos <? tnb - 1)); simpl.
    + destruct (deviceSend (funcs l)); simpl; [|done].
      destruct (_ <? tnb); simpl.
      * destruct (_ <? 0); simpl; [done|]. destruct (tptr !! _); simpl; [|done].
        apply Hsent; try done. intros HB Hok. by apply Hfl.
      * destruct tun; simpl; (apply Hsent; try done; intros HB Hok; by apply Hfl).
    + destruct (_ <? tnb); simpl.
      * destruct (_ <? 0); simpl; [done|]. destruct (tptr !! _); simpl; [|done].
        by apply Hput.
      * destruct tun; by apply Hput.
  - destruct (tst =? ST_SEND_DONE) eqn:E2.
    { apply Z.eqb_eq in E2. subst tst. by apply Hsame. }
    destruct (_ || _) eqn:E3.
    { apply Hsame; [|done]. intros ->. discriminate. }
    destruct (tst =? ST_RECEIVE_DATA_AVAILABLE) eqn:E4.
    + apply Z.eqb_eq in E4. subst tst.
      destruct tpk as [tp|]; simpl; [|done]. apply Hput; try done.
      intros _ Hok p Hp. inversion Hp; subst p. simpl. specialize (Hok tp eq_refl). lia.
    + destruct (tst =? ST_RECEIVE) eqn:E5; [|done].
      apply Z.eqb_eq in E5. subst tst. by apply Hput.
Qed.

Lemma do_events_task_steps B (P : nat -> Prop) tk seen i st :
  P i ->
  (B -> got_a_pkt st = true ->
   forall pk, recpkt (lk st) = Some pk -> keeper_ok (max_payload_len (lk st)) pk) ->
  post any_fault
    (fun st' =>
       pool_steps B P (spawn_budget (got_a_pkt st) - spawn_budget (got_a_pkt st'))
         (lk st) (lk st') /\
       frame (lk st') = frame (lk st) /\
       (got_a_pkt st' = true -> got_a_pkt st = true))
    (do_events_task tk seen i st).
Proof.
  intros HP Hgot. destruct st as [l got rst]. simpl in *. unfold do_events_task. simpl.
  destruct (get_task l i) as [t|f] eqn:Eg; simpl; [|done].
  apply get_task_Ok in Eg. rename Eg into Hi.
  eapply (post_bind _
    (fun '(l1, r1, g1) =>
       pool_steps B P (spawn_budget got - spawn_budget g1) l l1 /\ frame l1 = frame l
       /\ returns_for l1 i r1 /\ (g1 = true -> got = true))).
  { destruct (evtsub_pktrcvd t && got) eqn:E.
    - apply andb_prop in E. destruct E as [_ ->].
      destruct (recpkt l) as [pk|] eqn:Er; [|done].
      assert (Hpk : B -> keeper_ok (max_payload_len l) pk).
      { intros HB. by apply Hgot. }
      pose proof (tev_received_steps B P l (now tk) i pk seen HP Hpk) as H.
      destruct (tev_received l (now tk) i pk seen) as [[[l1 r1] c]|f]; simpl in *; [|done].
      destruct H as (H1 & H2 & H3). split; [|done].
      by destruct c.
    - simpl. split; [apply steps_nil|]. split; [done|]. split; [|done].
      by apply returns_for_same. }
  intros [[l1 r1] g1] (Hs1 & Hf1 & (t1 & Hi1 & Hr1) & Hg1).
  rewrite (get_task_lookup _ _ _ Hi1). simpl.
  eapply (post_bind _
    (fun '(l2, r2) =>
       pool_steps B P (spawn_budget got - spawn_budget g1) l l2 /\ frame l2 = frame l
       /\ returns_for l2 i r2)).
  { destruct (evtsub_wakeup t1 && (r1 =? status t1)) eqn:E;
      [destruct (signed32 (now tk - mtime_wakeup t1) >=? 0)|].
    - pose proof (tev_wakeup_steps B P l1 (now tk) (send_rc tk) i HP) as H.
      destruct (tev_wakeup l1 (now tk) (send_rc tk) i) as [[l2 r2]|f]; simpl in *; [|done].
      destruct H as (H1 & H2 & H3).
      split; [eapply pool_steps_then; [exact Hs1 | exact H1 | lia]|].
      split; [congruence | done].
    - simpl. split; [done|]. split; [done|]. by exists t1.
    - simpl. split; [done|]. split; [done|]. by exists t1. }
  intros [l2 r2] (Hs2 & Hf2 & (t2 & Hi2 & Hr2)).
  rewrite (get_task_lookup _ _ _ Hi2). simpl.
  destruct (assert _ _); simpl; [|done].
  destruct (r2 =? ST_FINISHED) eqn:E3.
  - apply Z.eqb_eq in E3.
    assert (Hlive : status t2 <> ST_NOTHING).
    { intros Hn. apply Hr2 in Hn. rewrite Hn in E3. discriminate. }
    unfold task_destroy. rewrite (get_task_lookup _ _ _ Hi2). simpl.
    split; [|split; [|done]].
    + eapply pool_steps_then; [exact Hs2 | | apply Nat.eq_le_incl, Nat.add_0_r].
      apply pool_steps_one.
      apply (step_destroy B P l2 _ i t2); try done; by destruct l2.
    + rewrite <- Hf2. by destruct l2.
  - simpl. split; [|split; [|done]].
    + eapply pool_steps_then; [exact Hs2 | | apply Nat.eq_le_incl, Nat.add_0_r].
      apply (touch_put_task B P 0 l2 i t2); try done; by destruct t2.
    + by rewrite frame_put_task.
Qed.

Lemma do_events_loop_steps B (P : nat -> Prop) tk seen idxs :
  forall st,
    Forall P idxs ->
    (B -> got_a_pkt st = true ->
     forall pk, recpkt (lk st) = Some pk -> keeper_ok (max_payload_len (lk st)) pk) ->
    post any_fault
      (fun st' => pool_steps B P (spawn_budget (got_a_pkt st)) (lk st) (lk st')
                  /\ frame (lk st') = frame (lk st))
      (do_events_loop tk seen idxs st).
Proof.
  induction idxs as [|i idxs IH]; intros st HP Hgot; simpl.
  - split; [apply steps_nil | done].
  - apply Forall_cons in HP as [HPi HP].
    eapply post_bind; [by apply do_events_task_steps|].
    intros st1 (Hs1 & Hf1 & Hg1). simpl.
    eapply post_mono; [apply IH; [done|] | done |].
    + intros HB Hg pk Hr.
      rewrite (frame_max_payload_len _ _ Hf1).
      apply (Hgot HB (Hg1 Hg)). by rewrite <- (frame_recpkt _ _ Hf1).
    + intros st2 [Hs2 Hf2]. split; [|congruence].
      eapply pool_steps_then; [exact Hs1 | exact Hs2 |].
      destruct (got_a_pkt st), (got_a_pkt st1); simpl; try lia.
Qed.

Lemma env_one B P n l l' (calls : list dev_call) :
  (recpkt_ok l -> recpkt_ok l') ->
  funcs l' = funcs l ->
  max_task_count l' = max_task_count l ->
  max_payload_len l' = max_payload_len l ->
  tskhead l' = tskhead l ->
  task_count l' = task_count l ->
  last_taskid l' = last_taskid l ->
  dev_log l' = dev_log l ++ calls ->
  forallb (fun c => negb (is_send c)) calls = true ->
  pool_steps B P n l l'.
Proof.
  intros Hr H0 H1 H2 H3 H4 H5 H6 H7. apply pool_steps_one.
  apply (step_env B P l l' calls); try done.
  apply Forall_forall. intros c Hc. rewrite forallb_forall in H7.
  apply list_elem_of_In in Hc. specialize (H7 c Hc). by apply negb_true_iff in H7.
Qed.

Ltac recpkt_step :=
  first
    [ exact (fun H => H)
    | let Hok := fresh "Hok" in
      let pk0 := fresh "pk0" in
      let Hpk0 := fresh "Hpk0" in
      intros Hok pk0 Hpk0; unfold recpkt_ok in *; simpl in *;
      inversion Hpk0; subst; clear Hpk0;
      repeat match goal with
             | |- context [match pkt ?pk with Some _ => _ | None => _ end] =>
                 let E := fresh "E" in destruct (pkt pk) eqn:E
             end;
      first [ done | by eapply Hok ] ].

Ltac env_step :=
  match goal with
  | |- pool_steps _ _ ?n ?l ?l' =>
      first
        [ apply (env_one _ _ n l l' []);
          [recpkt_step | reflexivity.. | by rewrite app_nil_r | reflexivity]
        | eapply (env_one _ _ n l l');
          [recpkt_step | reflexivity.. | rewrite <- ?app_assoc; reflexivity | reflexivity] ]
  end.

Lemma interrupts_on_env B P l :
  post any_fault (fun l' => pool_steps B P 0 l l' /\ recpkt l' = recpkt l) (interrupts_on l).
Proof.
  unfold interrupts_on, call, log. destruct l. simpl.
  destruct (negb _); simpl; [|split; [apply steps_nil | done]].
  destruct (setInterrupt _); simpl; [|done]. split; [env_step | done].
Qed.

Lemma interrupts_off_env B P l :
  post any_fault (fun l' => pool_steps B P 0 l l' /\ recpkt l' = recpkt l) (interrupts_off l).
Proof.
  unfold interrupts_off, call, log. destruct l. simpl.
  match goal with |- context [if ?b then _ else _] => destruct b end; simpl;
    [|split; [apply steps_nil | done]].
  destruct (resetInterrupt _); simpl; [|done]. split; [env_step | done].
Qed.

Lemma check_rcvd_pkt_is_ok_keeper pk m nb :
  check_rcvd_pkt_is_ok pk m nb = true ->
  (forall p, pkt pk = Some p -> 0 <= len (header p)) ->
  keeper_ok m pk.
Proof.
  unfold check_rcvd_pkt_is_ok. intros H Hpos p Hp. rewrite Hp in H.
  destruct (len (header p) >? m) eqn:E; [discriminate|].
  rewrite Z.gtb_ltb in E. apply Z.ltb_ge in E. specialize (Hpos p Hp). lia.
Qed.

Lemma do_events_drain_env B P l tk want :
  (B -> tick_ok tk) ->
  post any_fault
    (fun '(l', got) =>
       pool_steps B P 0 l l' /\
       (B -> got = true ->
        forall pk, recpkt l' = Some pk -> keeper_ok (max_payload_len l') pk))
    (do_events_drain l tk want).
Proof.
  intros Htk. unfold do_events_drain.
  eapply post_bind; [apply (interrupts_off_env B P)|].
  intros l1 [Hs1 Hr1]. simpl.
  eapply (post_bind _
    (fun '(l2, got) =>
       pool_steps B P 0 l l2 /\
       (B -> got = true ->
        forall pk, recpkt l2 = Some pk -> keeper_ok (max_payload_len l2) pk))).
  { destruct want; [|simpl; split; [done | intros; discriminate]].
    unfold initialize_recpkt_if_necessary, get_pkt_max_size, get_max_payload_len, log.
    destruct (recpkt l1) as [pk|] eqn:Er.
    - rewrite Er. simpl.
      split.
      + eapply pool_steps_then; [exact Hs1 | | apply Nat.le_refl].
        destruct l1. simpl. env_step.
      + intros HB Hg pk' Hpk'.
        assert (Hpk2 : pk' = match pkt pk with
                             | Some _ => mkPktKeeper (Some (rx_pkt tk))
                             | None => pk
                             end).
        { destruct l1. simpl in *. congruence. }
        subst pk'.
        assert (Hm : forall x y, max_payload_len (set_recpkt x (set_dev_log y l1))
                                 = max_payload_len l1) by (by destruct l1).
        rewrite Hm in *.
        eapply check_rcvd_pkt_is_ok_keeper; [exact Hg|].
        intros p Hp. destruct (pkt pk) eqn:Epk; [|congruence].
        simpl in Hp. inversion Hp; subst p. exact (Htk HB).
    - assert (Hrr : recpkt (set_recpkt (Some (mkPktKeeper (Some blank_packet))) l1)
                    = Some (mkPktKeeper (Some blank_packet))) by (by destruct l1).
      rewrite Hrr. simpl.
      split.
      + eapply pool_steps_then; [exact Hs1 | | apply Nat.le_refl].
        destruct l1. simpl. env_step.
      + intros HB Hg pk' Hpk'.
        assert (Hpk2 : pk' = mkPktKeeper (Some (rx_pkt tk))).
        { destruct l1. simpl in *. congruence. }
        subst pk'.
        assert (Hm : forall x y w, max_payload_len (set_recpkt x (set_dev_log y
                                     (set_recpkt w l1)))
                                   = max_payload_len l1) by (by destruct l1).
        rewrite Hm in *.
        eapply check_rcvd_pkt_is_ok_keeper; [exact Hg|].
        intros p Hp. simpl in Hp. inversion Hp; subst p. exact (Htk HB). }
  intros [l2 got] [Hs2 Hk2]. simpl.
  eapply post_bind; [apply (interrupts_on_env B P)|].
  intros l3 [Hs3 Hr3]. simpl. split.
  - eapply pool_steps_then; [exact Hs2 | | apply Nat.le_refl].
    eapply pool_steps_pre; [| exact Hs3].
    destruct l2. simpl. env_step.
  - intros HB Hg pk Hpk.
    destruct (pool_steps_consts _ _ _ _ _ Hs3) as (_ & Hm & _). rewrite Hm.
    assert (Hm' : max_payload_len (set_interrupted false l2) = max_payload_len l2)
      by (by destruct l2).
    rewrite Hm'. apply (Hk2 HB Hg). rewrite Hr3 in Hpk. by destruct l2.
Qed.

Lemma do_events_receive_env B P l tk :
  (B -> tick_ok tk) ->
  post any_fault
    (fun '(l', got) =>
       pool_steps B P 0 l l' /\
       (B -> got = true ->
        forall pk, recpkt l' = Some pk -> keeper_ok (max_payload_len l') pk))
    (do_events_receive l tk).
Proof.
  intros Htk. unfold do_events_receive.
  eapply (post_bind _ (fun l1 => pool_steps B P 0 l l1)).
  { destruct (_ && _); [|simpl; apply steps_nil].
    eapply post_mono; [apply (interrupts_on_env B P) | done | by intros ? [? ?]]. }
  intros l1 Hs1. simpl.
  match goal with |- context [set_interrupted ?f l1] => set (flag := f) end.
  assert (Hs2 : pool_steps B P 0 l (set_interrupted flag l1)).
  { eapply pool_steps_then; [exact Hs1 | | apply Nat.le_refl].
    clearbody flag. destruct l1. simpl. env_step. }
  destruct (interrupted (set_interrupted flag l1)).
  - eapply post_mono; [by apply (do_events_drain_env B P) | done |].
    intros [l2 got] [H1 H2]. split; [|done].
    eapply pool_steps_then; [exact Hs2 | exact H1 | apply Nat.le_refl].
  - simpl. split; [done | intros; discriminate].
Qed.

Lemma do_events_seen_env B P l tref got :
  post any_fault
    (fun '(l', _) => pool_steps B P 0 l l' /\ recpkt l' = recpkt l)
    (do_events_seen l tref got).
Proof.
  unfold do_events_seen. destruct got; [|simpl; split; [apply steps_nil | done]].
  destruct (recpkt l) as [pk|] eqn:Er; [|done].
  destruct (deref_header pk) as [h|]; [|done]. simpl.
  destruct (check_pktid_already_seen _ _ _ _) as [[c seen]|]; [|done]. simpl.
  split; [|by destruct l]. destruct l. simpl. env_step.
Qed.

Lemma do_events_finish_env B P tk st : pool_steps B P 0 (lk st) (do_events_finish tk st).
Proof.
  unfold do_events_finish, log. destruct st as [l g r]. simpl.
  assert (He : forall l', tskhead l' = tskhead l ->
            is_eligible_for_sleep l' = is_eligible_for_sleep l).
  { intros l' H. unfold is_eligible_for_sleep. by rewrite H. }
  destruct r; [destruct (_ >=? _)|]; rewrite ?He by (by destruct l);
    match goal with |- context [if ?c then _ else _] => destruct c end;
    destruct l; simpl; first [apply steps_nil | env_step].
Qed.

(** The steps of one call of [do_events]: at most one task is created. *)
Lemma do_events_steps B l tk :
  (B -> tick_ok tk) ->
  post any_fault (pool_steps B (fun _ => True) 1 l) (do_events l tk).
Proof.
  intros Htk. unfold do_events.
  destruct (negb (deviceInit (funcs l))); [simpl; apply steps_nil|].
  eapply post_bind; [by apply (do_events_receive_env B (fun _ => True))|].
  intros [l2 got] [Hs2 Hk2]. simpl.
  eapply post_bind; [apply (do_events_seen_env B (fun _ => True))|].
  intros [l3 seen] [Hs3 Hr3]. simpl.
  unfold do_events_tasks.
  eapply post_bind.
  { apply (do_events_loop_steps B (fun _ => True) tk seen _ (mkLoop l3 got false)).
    - by apply Forall_forall.
    - simpl. intros HB Hg pk Hpk.
      destruct (pool_steps_consts _ _ _ _ _ Hs3) as (_ & Hm & _). rewrite Hm.
      apply (Hk2 HB Hg). by rewrite <- Hr3. }
  intros st [Hs4 _]. simpl in *.
  eapply pool_steps_then; [exact Hs2 | | apply Nat.le_refl].
  eapply pool_steps_then; [exact Hs3 | | apply Nat.le_refl].
  eapply pool_steps_then; [exact Hs4 | apply do_events_finish_env |].
  destruct got; simpl; lia.
Qed.

Lemma send_noblock_steps B P l tnow adst d alen ack :
  post any_fault (fun '(l', _, _) => pool_steps B P 1 l l')
    (send_noblock l tnow adst d alen ack).
Proof.
  unfold send_noblock.
  destruct (negb (deviceInit (funcs l))); [simpl; apply steps_nil|].
  destruct (negb (deviceSend (funcs l))); [simpl; apply steps_nil|].
  destruct (alen >? max_payload_len l) eqn:Emax; [simpl; apply steps_nil|].
  destruct (_ && _); [simpl; apply steps_nil|].
  destruct (task_create l ST_SEND tnow) as [l1 [j|]] eqn:Ec.
  - pose proof Ec as Ec'.
    apply task_create_Some in Ec'. destruct Ec' as (t0 & Ht0 & Hs0 & _ & _ & El1).
    rewrite (get_task_created _ _ _ _ _ _ Ec Ht0).
    destruct t0 as [tid tst [tpk] tref twk trc tnb tptr tpos tew ter tia tna tha tun t1 t2 tns].
    simpl. unfold sched_at, prepare_for_sending, assert, get_max_payload_len. simpl.
    assert (Hm1 : forall v, max_payload_len (set_last_pktid v l1) = max_payload_len l)
      by (intros; rewrite El1; by destruct l).
    assert (Hsched : forall (b : bool), (if b then snd_expack_sched else snd_sched) !! 0%nat
                                        = Some 0).
    { by intros []. }
    rewrite Hsched. simpl.
    destruct (bool_decide _) eqn:Ep; simpl; [|by destruct ack].
    destruct ((alen =? 0) && bool_decide (d = None)
              || (1 <=? alen) && negb (bool_decide (d = None))) eqn:Eargs;
      [|by destruct ack].
    assert (Hlen : 0 <= alen <= max_payload_len l).
    { rewrite Z.gtb_ltb in Emax. apply Z.ltb_ge in Emax.
      apply orb_prop in Eargs. destruct Eargs as [E|E]; apply andb_prop in E;
        destruct E as [E _]; [apply Z.eqb_eq in E | apply Z.leb_le in E]; lia. }
    rewrite Hm1. rewrite Emax.
    destruct ack; simpl in *;
      match goal with |- pool_steps _ _ _ _ (put_task j ?tnew ?lx) =>
        assert (Hsp : pool_steps B P 1 l (put_task j tnew l1));
          [eapply spawn_created; [exact Ec | exact Ht0 | reflexivity | discriminate |];
           intros Hm _ p Hp; simpl in Hp; inversion Hp; subst p; simpl; lia
          |]
      end;
      (eapply pool_steps_then; [exact Hsp | | apply Nat.le_refl]);
      rewrite El1; destruct l; simpl; env_step.
  - apply task_create_None in Ec. subst l1. simpl. apply steps_nil.
Qed.

Lemma receive_noblock_steps B P l tnow cfg :
  post any_fault (fun '(l', _, _) => pool_steps B P 1 l l') (receive_noblock l tnow cfg).
Proof.
  unfold receive_noblock.
  destruct (negb (deviceInit (funcs l))); [simpl; apply steps_nil|].
  destruct (negb (deviceReceive (funcs l))); [simpl; apply steps_nil|].
  destruct (task_create l ST_RECEIVE tnow) as [l1 [j|]] eqn:Ec.
  - pose proof Ec as Ec'.
    apply task_create_Some in Ec'. destruct Ec' as (t0 & Ht0 & Hs0 & _ & _ & El1).
    rewrite (get_task_created _ _ _ _ _ _ Ec Ht0).
    destruct t0 as [tid tst [tpk] tref twk trc tnb tptr tpos tew ter tia tna tha tun t1 t2 tns].
    simpl.
    eapply spawn_created; [exact Ec | exact Ht0 | | |].
    + by destruct cfg as [[? [] ? ? ?]|].
    + by destruct cfg as [[? [] ? ? ?]|].
    + intros _ Hok p Hp. apply (Hok p). by destruct cfg as [[? [] ? ? ?]|].
  - apply task_create_None in Ec. subst l1. simpl. apply steps_nil.
Qed.

Lemma data_retrieve_steps B l tnow tsk buf_len want_sender :
  post any_fault (fun '(l', _, _) => pool_steps B (fun _ => True) 1 l l')
    (data_retrieve l tnow tsk buf_len want_sender).
Proof.
  unfold data_retrieve. destruct tsk as [i|]; [|simpl; apply steps_nil].
  destruct (get_task l i) as [t|f] eqn:Eg; simpl; [|done].
  apply get_task_Ok in Eg. rename Eg into Hi.
  destruct (negb (status t =? ST_RECEIVE_DATA_AVAILABLE)) eqn:Es; [simpl; apply steps_nil|].
  apply negb_false_iff, Z.eqb_eq in Es.
  destruct (if want_sender then _ else _) as [snd|]; simpl; [|done].
  unfold data_retrieved_post, reduce_packet_to_its_header.
  destruct (pkt (pktkeeper t)) as [tp|] eqn:Ep; simpl; [|done].
  match goal with |- context [send_ack (put_task i ?t' l) tnow i] =>
    assert (Hs1 : pool_steps B (fun _ => True) 0 l (put_task i t' l))
  end.
  { apply (touch_put_task B (fun _ => True) 0 l i t); try done.
    - by destruct t.
    - destruct t. simpl in *. subst. split; intros Hx; vm_compute in Hx; discriminate Hx.
    - intros _ Hok p Hp. destruct t as [? ? [?] ? ? ? ? ? ? ? ? ? ? ? ? ? ? ?].
      simpl in *. inversion Hp; subst p. simpl. subst. specialize (Hok tp eq_refl). lia. }
  match goal with |- context [send_ack ?lx tnow i] =>
    pose proof (send_ack_steps B (fun _ => True) lx tnow i) as Hs2;
    destruct (send_ack lx tnow i) as [l'|]; simpl in *; [|done]
  end.
  destruct Hs2 as [Hs2 _]. eapply pool_steps_then; [exact Hs1 | exact Hs2 | apply Nat.le_refl].
Qed.

Lemma send_get_final_status_steps B l tnow id :
  post any_fault (fun '(l', _, _) => pool_steps B (fun _ => True) 1 l l')
    (send_get_final_status l tnow id).
Proof.
  unfold send_get_final_status.
  destruct (get_task_by_taskid l id) as [i|]; [|simpl; apply steps_nil].
  destruct (get_task l i) as [t|f] eqn:Eg; simpl; [|done].
  apply get_task_Ok in Eg. rename Eg into Hi.
  destruct (negb _); simpl; [apply steps_nil|].
  apply (touch_put_task B (fun _ => True) 1 l i t); try done; by destruct t as [? ? [?]].
Qed.

Lemma set_opt_byte_steps B P n l opt value : pool_steps B P n l (set_opt_byte l opt value).
Proof.
  unfold set_opt_byte. destruct (negb _); [apply steps_nil|].
  destruct opt; try apply steps_nil. destruct l. simpl. env_step.
Qed.

(** Every operation of the application is a sequence of steps on the pool,
    with at most one task created. *)
Lemma run_op_steps B l op :
  (B -> op_ok op) ->
  post any_fault (pool_steps B (fun _ => True) 1 l) (run_op l op).
Proof.
  intros Hok.
  destruct op as [tnow adst d alen ack | tnow cfg | tk | tnow id buf_len ws | tnow id | opt v];
    simpl in *.
  - pose proof (send_noblock_steps B (fun _ => True) l tnow adst d alen ack) as H.
    by destruct (send_noblock l tnow adst d alen ack) as [[[l' r] oid]|f].
  - pose proof (receive_noblock_steps B (fun _ => True) l tnow cfg) as H.
    by destruct (receive_noblock l tnow cfg) as [[[l' r] oid]|f].
  - by apply do_events_steps.
  - pose proof (data_retrieve_steps B l tnow (get_task_by_taskid l id) buf_len ws) as H.
    by destruct (data_retrieve l tnow (get_task_by_taskid l id) buf_len ws)
      as [[[l' r] out]|f].
  - pose proof (send_get_final_status_steps B l tnow id) as H.
    by destruct (send_get_final_status l tnow id) as [[[l' r] n]|f].
  - apply set_opt_byte_steps.
Qed.
(** ** Invariants of the pool over the operations *)

Lemma run_ops_app l ops1 ops2 :
  run_ops l (ops1 ++ ops2) = (l' <- run_ops l ops1 ;; run_ops l' ops2).
Proof.
  revert l. induction ops1 as [|op ops1 IH]; intros l; simpl; [done|].
  destruct (run_op l op) as [l1|f]; simpl; [apply IH | done].
Qed.

(** An invariant of the writes to the pool holds after any sequence of
    operations, from an engine where it holds. The invariant is indexed by
    the number of tasks created so far. *)
Lemma run_ops_invariant (B : Prop) (I : nat -> RFLink -> Prop) :
  (forall n l l', I n l -> pool_step B (fun _ => True) l l' -> I n l') ->
  (forall n l l', I n l -> pool_spawn l l' -> I (S n) l') ->
  (forall n m l, (n <= m)%nat -> I n l -> I m l) ->
  forall ops n l l',
    I n l -> (B -> Forall op_ok ops) -> run_ops l ops = Ok l' ->
    I (n + length ops)%nat l'.
Proof.
  intros Hstep Hspawn Hmono.
  assert (Hsteps : forall k l l', pool_steps B (fun _ => True) k l l' ->
            forall n, I n l -> I (n + k)%nat l').
  { induction 1 as [k l|k l l1 l2 Hs Hr IH|k l l1 l2 Hs Hr IH]; intros n Hn.
    - apply (Hmono n); [lia | done].
    - apply IH. by apply (Hstep n l l1).
    - replace (n + S k)%nat with (S n + k)%nat by lia. apply IH. by apply (Hspawn n l l1). }
  induction ops as [|op ops IH]; intros n l l' Hn Hok Hrun; simpl in *.
  - inversion Hrun; subst l'. apply (Hmono n); [lia | done].
  - pose proof (run_op_steps B l op) as Hop.
    destruct (run_op l op) as [l1|f]; simpl in *; [|done].
    replace (n + S (length ops))%nat with ((n + 1) + length ops)%nat by lia.
    apply (IH (n + 1)%nat l1); [|  | done].
    + apply (Hsteps 1%nat l l1); [|done]. apply Hop. intros HB. specialize (Hok HB).
      by inversion Hok.
    + intros HB. specialize (Hok HB). by inversion Hok.
Qed.

(** The same for the engines an application can get. *)
Lemma reachable_invariant (I : RFLink -> Prop) :
  (forall maxtask fs mdl l0, RFLink_new maxtask = Ok l0 -> I (register_funcs l0 fs mdl)) ->
  (forall l l', I l -> pool_step False (fun _ => True) l l' -> I l') ->
  (forall l l', I l -> pool_spawn l l' -> I l') ->
  forall l, engine_reachable l -> I l.
Proof.
  intros Hboot Hstep Hspawn.
  assert (Hsteps : forall k l l', pool_steps False (fun _ => True) k l l' -> I l -> I l').
  { induction 1 as [k l|k l l1 l2 Hs Hr IH|k l l1 l2 Hs Hr IH]; intros Hn; [done| |].
    - apply IH. by apply (Hstep l l1).
    - apply IH. by apply (Hspawn l l1). }
  induction 1 as [maxtask mdl fs l0 Hnew Hfs|l l' op Hr IH Hop].
  - by eapply Hboot.
  - pose proof (run_op_steps False l op ltac:(intros [])) as H.
    rewrite Hop in H. simpl in H. by eapply Hsteps.
Qed.

(** *** The counter of tasks *)

Lemma count_if_insert {A : Type} (P : A -> bool) (xs : list A) (i : nat) (x x' : A) :
  xs !! i = Some x ->
  (count_if P (<[i := x']> xs) + (if P x then 1 else 0)
   = count_if P xs + (if P x' then 1 else 0))%nat.
Proof.
  revert i. induction xs as [|y xs IH]; intros [|i] H; simpl in *; try done.
  - inversion H; subst. lia.
  - specialize (IH i H). lia.
Qed.

Lemma count_if_replicate {A : Type} (P : A -> bool) (n : nat) (x : A) :
  P x = false -> count_if P (replicate n x) = 0%nat.
Proof. intros H. induction n as [|n IH]; simpl; [done|]. by rewrite H. Qed.

Lemma count_if_full {A : Type} (P : A -> bool) (xs : list A) :
  count_if P xs = length xs <-> forall x, x ∈ xs -> P x = true.
Proof.
  induction xs as [|x xs IH]; simpl.
  - split; [|done]. intros _ y Hy. by apply elem_of_nil in Hy.
  - pose proof (count_if_le P xs) as Hle. split.
    + intros H y Hy. destruct (P x) eqn:Ex; [|lia].
      apply elem_of_cons in Hy as [->|Hy]; [done|]. apply IH; [lia | done].
    + intros H. rewrite (H x) by apply list_elem_of_here.
      f_equal. apply IH. intros y Hy. apply H. by apply list_elem_of_further.
Qed.

Lemma live_task_true t : live_task t = true <-> status t <> ST_NOTHING.
Proof.
  unfold live_task. rewrite negb_true_iff. split.
  - intros H. by apply Z.eqb_neq.
  - intros H. by apply Z.eqb_neq.
Qed.

Lemma live_task_false t : live_task t = false <-> status t = ST_NOTHING.
Proof.
  unfold live_task. rewrite negb_false_iff. apply Z.eqb_eq.
Qed.

Lemma live_task_same t t' :
  (status t' = ST_NOTHING <-> status t = ST_NOTHING) -> live_task t' = live_task t.
Proof.
  intros H. destruct (live_task t) eqn:E.
  - apply live_task_true. apply live_task_true in E. tauto.
  - apply live_task_false. apply live_task_false in E. tauto.
Qed.

Lemma count_inv_boot maxtask fs mdl l0 :
  RFLink_new maxtask = Ok l0 -> count_inv (register_funcs l0 fs mdl).
Proof.
  unfold RFLink_new. destruct (_ || _) eqn:E; [done|]. intros H. inversion H; subst l0. clear H.
  apply orb_false_elim in E. destruct E as [E1 E2].
  apply Z.ltb_ge in E1. rewrite Z.gtb_ltb in E2. apply Z.ltb_ge in E2.
  unfold register_funcs, initialize_recpkt_if_necessary, log, count_inv.
  destruct (negb _); simpl; rewrite count_if_replicate by done;
    rewrite length_replicate; (split; [done|]); (split; [lia | exact E2]).
Qed.

Lemma count_inv_step B P l l' : count_inv l -> pool_step B P l l' -> count_inv l'.
Proof.
  intros (Hc & Hl & Hm)
    [i t t' calls Hp Hf Hi Ht Hcnt|i t Hp Hf Hi Hs Ht Hcnt|calls H1 H2 H3 H4].
  - unfold count_inv. rewrite (frame_max_task_count _ _ Hf), Ht, Hcnt, length_insert.
    split; [|done]. rewrite Hc. f_equal.
    pose proof (count_if_insert live_task _ i t t' Hi) as Hins.
    rewrite (live_task_same t t') in Hins by done. lia.
  - unfold count_inv. rewrite (frame_max_task_count _ _ Hf), Ht, Hcnt, length_insert.
    split; [|done].
    pose proof (count_if_insert live_task _ i t (destroyed_task t) Hi) as Hins.
    assert (E1 : live_task t = true) by (by apply live_task_true).
    assert (E2 : live_task (destroyed_task t) = false) by (by destruct t).
    rewrite E1, E2 in Hins.
    pose proof (count_if_le live_task (tskhead l)) as Hle.
    unfold DEFAULT_MAX_TASK_COUNT in Hm.
    rewrite wrap8_small by lia. lia.
  - unfold count_inv. by rewrite H1, H3, H4.
Qed.

Lemma count_inv_spawn l l' : count_inv l -> pool_spawn l l' -> count_inv l'.
Proof.
  intros (Hc & Hl & Hm) [j t0 tnew Hf Hj Hs Ht Hlt Hcnt _ _ _ Hlive _].
  unfold count_inv. rewrite (frame_max_task_count _ _ Hf), Ht, Hcnt, length_insert.
  split; [|done].
  pose proof (count_if_insert live_task _ j t0 tnew Hj) as Hins.
  assert (E1 : live_task t0 = false) by (by apply live_task_false).
  assert (E2 : live_task tnew = true) by (by apply live_task_true).
  rewrite E1, E2 in Hins.
  unfold DEFAULT_MAX_TASK_COUNT in Hm.
  rewrite wrap8_small by lia. lia.
Qed.

Lemma engine_reachable_count_inv l : engine_reachable l -> count_inv l.
Proof.
  apply reachable_invariant.
  - intros. by eapply count_inv_boot.
  - intros. by eapply count_inv_step.
  - intros. by eapply count_inv_spawn.
Qed.

Lemma max_task_count_boot maxtask fs mdl l0 :
  RFLink_new maxtask = Ok l0 -> max_task_count (register_funcs l0 fs mdl) = maxtask.
Proof.
  unfold RFLink_new. destruct (_ || _) eqn:E; [done|]. intros H. inversion H; subst l0. clear H.
  unfold register_funcs, initialize_recpkt_if_necessary, log.
  destruct (negb _); reflexivity.
Qed.

(** X15. On an engine constructed with 1 to 15 task slots, whatever the
    operations performed since, the counter of tasks is the number of slots in
    use and the pool has the [max_task_count] slots asked for; so the creation
    of a task fails exactly when every slot is in use. *)
Theorem task_count_is_exact
    (maxtask mdl : Z) (fs : RFLinkFunctions) (l0 l : RFLink) (ops : list engine_op) :
  1 <= maxtask <= DEFAULT_MAX_TASK_COUNT ->
  RFLink_new maxtask = Ok l0 -> funcs_ok fs ->
  run_ops (register_funcs l0 fs mdl) ops = Ok l ->
  max_task_count l = maxtask /\
  task_count l = Z.of_nat (count_if live_task (tskhead l)) /\
  Z.of_nat (length (tskhead l)) = max_task_count l /\
  0 <= task_count l <= max_task_count l /\
  forall st tnow,
    snd (task_create l st tnow) = None <->
    forall t, t ∈ tskhead l -> status t <> ST_NOTHING.
Proof.
  intros Hmt Hnew Hfs Hrun.
  assert (Hr : engine_reachable l).
  { eapply run_ops_reachable; [|exact Hrun]. by eapply reachable_boot. }
  destruct (engine_reachable_count_inv l Hr) as (Hc & Hl & Hm).
  pose proof (count_if_le live_task (tskhead l)) as Hle.
  split.
  { apply (run_ops_invariant False
             (fun (_ : nat) (x : RFLink) => max_task_count x = maxtask)
             ltac:(intros n l1 l2 H1 Hs;
                   destruct (pool_step_consts _ _ _ _ Hs) as (H & _); congruence)
             ltac:(intros n l1 l2 H1 Hs;
                   destruct (pool_spawn_consts _ _ Hs) as (H & _); congruence)
             ltac:(by intros n m l1 _ H)
             ops 0%nat (register_funcs l0 fs mdl) l
             (max_task_count_boot maxtask fs mdl l0 Hnew)
             ltac:(intros []) Hrun). }
  split; [done|]. split; [done|]. split; [lia|].
  intros st tnow. unfold task_create.
  destruct (task_count l >=? max_task_count l) eqn:Ege.
  - simpl. split; [|done]. intros _ t Ht.
    assert (Hfull : count_if live_task (tskhead l) = length (tskhead l)).
    { rewrite Z.geb_leb in Ege. apply Z.leb_le in Ege. lia. }
    apply live_task_true. by apply (proj1 (count_if_full _ _) Hfull).
  - assert (Hnot : count_if live_task (tskhead l) <> length (tskhead l)).
    { rewrite Z.geb_leb in Ege. apply Z.leb_gt in Ege. lia. }
    destruct (list_find _ _) as [[i t0]|] eqn:Ef; simpl.
    + split; [done|]. intros Hall. exfalso.
      apply list_find_Some in Ef. destruct Ef as (Hi & Hs & _).
      apply (Hall t0); [|done]. by eapply list_elem_of_lookup_2.
    + split; [|done]. intros _ t Ht Hs.
      apply list_find_None in Ef. rewrite Forall_forall in Ef. by apply (Ef t).
Qed.

Lemma task_count_is_exact_witness :
  max_task_count ex_listening = DEFAULT_MAX_TASK_COUNT /\
  task_count ex_listening = Z.of_nat (count_if live_task (tskhead ex_listening)) /\
  Z.of_nat (length (tskhead ex_listening)) = max_task_count ex_listening.
Proof.
  destruct (task_count_is_exact DEFAULT_MAX_TASK_COUNT 61 all_funcs ex_new ex_listening
              [Op_set_opt_byte OPT_ADDRESS 94; Op_receive_noblock 0 None;
               Op_do_events (quiet_tick 1)]
              ltac:(vm_compute; split; discriminate) ltac:(vm_compute; reflexivity)
              all_funcs_ok ltac:(vm_compute; reflexivity)) as (H0 & H1 & H2 & _).
  exact (conj H0 (conj H1 H2)).
Defined.
(** ** Task ids *)

Lemma wrap16_small (z : Z) : 0 <= z < 65536 -> wrap16 z = z.
Proof. intros. unfold wrap16. by apply Z.mod_small. Qed.

Lemma ids_inv_mono n m l : n <= m -> ids_inv n l -> ids_inv m l.
Proof. intros Hnm (H1 & H2 & H3 & H4). split; [lia|]. done. Qed.

Lemma ids_inv_boot maxtask fs mdl l0 :
  RFLink_new maxtask = Ok l0 -> ids_inv 0 (register_funcs l0 fs mdl).
Proof.
  unfold RFLink_new. destruct (_ || _) eqn:E; [done|]. intros H. inversion H; subst l0. clear H.
  assert (Hfree : forall i t,
            replicate (Z.to_nat maxtask) (task_initialize blank_task) !! i = Some t ->
            status t = ST_NOTHING /\ taskid t = 0).
  { intros i t Hi. apply lookup_replicate in Hi as [-> _]. done. }
  unfold register_funcs, initialize_recpkt_if_necessary, log, ids_inv.
  destruct (negb _); simpl.
  - split; [lia|]. split; [intros i t Hi _; by apply (Hfree i)|].
    split; [intros i t Hi Hs; by destruct (Hfree i t Hi)|].
    intros i j ti tj Hi _ Hs. by destruct (Hfree i ti Hi).
  - split; [lia|]. split; [intros i t Hi _; by apply (Hfree i)|].
    split; [intros i t Hi Hs; by destruct (Hfree i t Hi)|].
    intros i j ti tj Hi _ Hs. by destruct (Hfree i ti Hi).
Qed.

(** What a write to one slot leaves of the invariant. *)
Lemma ids_inv_insert n l l' i t t' :
  ids_inv n l ->
  tskhead l !! i = Some t ->
  tskhead l' = <[i := t']> (tskhead l) ->
  last_taskid l' = last_taskid l ->
  (status t' = ST_NOTHING -> taskid t' = 0) ->
  (status t' <> ST_NOTHING -> status t <> ST_NOTHING /\ taskid t' = taskid t) ->
  ids_inv n l'.
Proof.
  intros (H1 & H2 & H3 & H4) Hi Ht Hl Hfree Hlive.
  pose proof (lookup_lt_Some _ _ _ Hi) as Hlt.
  assert (Hlook : forall j tj, tskhead l' !! j = Some tj ->
            (j = i /\ tj = t') \/ (j <> i /\ tskhead l !! j = Some tj)).
  { intros j tj Hj. rewrite Ht in Hj. destruct (decide (j = i)) as [->|Hne].
    - rewrite list_lookup_insert_eq in Hj by done. inversion Hj. by left.
    - rewrite list_lookup_insert_ne in Hj by done. by right. }
  unfold ids_inv. rewrite Hl. split; [done|]. split; [|split].
  - intros j tj Hj Hs. destruct (Hlook j tj Hj) as [[-> ->]|[_ Hj']]; [by apply Hfree|].
    by apply (H2 j).
  - intros j tj Hj Hs. destruct (Hlook j tj Hj) as [[-> ->]|[_ Hj']].
    + destruct (Hlive Hs) as [Hs' ->]. by apply (H3 i).
    + by apply (H3 j).
  - intros j k tj tk Hj Hk Hsj Hsk Hid.
    destruct (Hlook j tj Hj) as [[-> ->]|[Hnj Hj']];
      destruct (Hlook k tk Hk) as [[-> ->]|[Hnk Hk']]; try done.
    + destruct (Hlive Hsj) as [Hs' Hid']. apply (H4 i k t tk); try done. congruence.
    + destruct (Hlive Hsk) as [Hs' Hid']. apply (H4 j i tj t); try done. congruence.
    + by apply (H4 j k tj tk).
Qed.

Lemma ids_inv_step B P n l l' : ids_inv n l -> pool_step B P l l' -> ids_inv n l'.
Proof.
  intros Hinv [i t t' calls Hp Hf Hi Ht Hcnt Hl Hd Hid Hst|i t Hp Hf Hi Hs Ht Hcnt Hl
              |calls H1 H2 H3 H4 H5].
  - apply (ids_inv_insert n l l' i t t'); try done.
    + intros Hs. rewrite Hid. destruct Hinv as (_ & H2 & _). apply (H2 i); [done | tauto].
    + intros Hs. split; [tauto | done].
  - apply (ids_inv_insert n l l' i t (destroyed_task t)); try done.
    + intros _. by destruct t.
    + intros Hs'. exfalso. apply Hs'. by destruct t.
  - destruct Hinv as (Ha & Hb & Hc & Hd). unfold ids_inv. rewrite H3, H5. done.
Qed.

Lemma ids_inv_spawn n l l' :
  ids_inv n l -> n < 65535 -> pool_spawn l l' -> ids_inv (n + 1) l'.
Proof.
  intros (H1 & H2 & H3 & H4) Hn [j t0 tnew Hf Hj Hs0 Ht Hlt Hcnt Hl Hd Hid Hlive _].
  rewrite wrap16_small in Hl, Hid by lia.
  pose proof (lookup_lt_Some _ _ _ Hj) as Hjlt.
  assert (Hlook : forall k tk, tskhead l' !! k = Some tk ->
            (k = j /\ tk = tnew) \/ (k <> j /\ tskhead l !! k = Some tk)).
  { intros k tk Hk. rewrite Ht in Hk. destruct (decide (k = j)) as [->|Hne].
    - rewrite list_lookup_insert_eq in Hk by done. inversion Hk. by left.
    - rewrite list_lookup_insert_ne in Hk by done. by right. }
  unfold ids_inv. rewrite Hl. split; [lia|]. split; [|split].
  - intros k tk Hk Hs. destruct (Hlook k tk Hk) as [[-> ->]|[_ Hk']]; [done|].
    by apply (H2 k).
  - intros k tk Hk Hs. destruct (Hlook k tk Hk) as [[-> ->]|[_ Hk']]; [lia|].
    specialize (H3 k tk Hk' Hs). lia.
  - intros k m tk tm Hk Hm Hsk Hsm Hids.
    destruct (Hlook k tk Hk) as [[-> ->]|[Hnk Hk']];
      destruct (Hlook m tm Hm) as [[-> ->]|[Hnm Hm']]; try done.
    + specialize (H3 m tm Hm' Hsm). lia.
    + specialize (H3 k tk Hk' Hsk). lia.
    + by apply (H4 k m tk tm).
Qed.

(** While fewer than 65536 operations were performed since the engine was
    built, the task ids have not wrapped. *)
Lemma run_ops_ids_inv maxtask fs mdl l0 ops l :
  RFLink_new maxtask = Ok l0 ->
  run_ops (register_funcs l0 fs mdl) ops = Ok l ->
  Z.of_nat (length ops) <= 65535 ->
  ids_inv (Z.of_nat (length ops)) l.
Proof.
  intros Hnew Hrun Hlen.
  pose (I := fun (n : nat) (l : RFLink) => Z.of_nat n <= 65535 -> ids_inv (Z.of_nat n) l).
  assert (HI : I (0 + length ops)%nat l).
  { apply (run_ops_invariant False I) with (l := register_funcs l0 fs mdl).
    - intros n l1 l2 H1 Hs Hn. eapply ids_inv_step; [by apply H1 | exact Hs].
    - intros n l1 l2 H1 Hs Hn.
      replace (Z.of_nat (S n)) with (Z.of_nat n + 1) by lia.
      eapply ids_inv_spawn; [apply H1; lia | lia | exact Hs].
    - intros n m l1 Hnm H1 Hm. apply (ids_inv_mono (Z.of_nat n)); [lia|]. apply H1. lia.
    - intros _. by eapply ids_inv_boot.
    - intros [].
    - exact Hrun. }
  by apply HI.
Qed.

(** Under the invariant a task in use is the first one of the pool with its
    id. *)
Lemma ids_inv_found n l i t :
  ids_inv n l -> tskhead l !! i = Some t -> status t <> ST_NOTHING ->
  get_task_by_taskid l (taskid t) = Some i.
Proof.
  intros (H1 & H2 & H3 & H4) Hi Hs. unfold get_task_by_taskid.
  destruct (list_find _ _) as [[j tj]|] eqn:Ef.
  - apply list_find_Some in Ef. destruct Ef as (Hj & Hid & Hfirst).
    f_equal. destruct (decide (status tj = ST_NOTHING)) as [Hn|Hn].
    + specialize (H2 j tj Hj Hn). specialize (H3 i t Hi Hs). lia.
    + by apply (H4 j i tj t).
  - apply list_find_None in Ef. rewrite Forall_forall in Ef.
    exfalso. apply (Ef t); [by eapply list_elem_of_lookup_2 | done].
Qed.

(** X16. While at most 65535 operations were performed since the engine was
    built, every task in use is the one its id names: the id is not 0, no
    other task in use carries it, and the lookup by id and the status query
    find that task. *)
Theorem tasks_are_found_by_id
    (maxtask mdl : Z) (fs : RFLinkFunctions) (l0 l : RFLink) (ops : list engine_op) :
  RFLink_new maxtask = Ok l0 ->
  run_ops (register_funcs l0 fs mdl) ops = Ok l ->
  Z.of_nat (length ops) <= 65535 ->
  forall i t,
    tskhead l !! i = Some t -> status t <> ST_NOTHING ->
    taskid t <> 0 /\
    get_task_by_taskid l (taskid t) = Some i /\
    task_get_status l (taskid t) = status t /\
    forall j tj, tskhead l !! j = Some tj -> status tj <> ST_NOTHING ->
                 taskid tj = taskid t -> j = i.
Proof.
  intros Hnew Hrun Hlen i t Hi Hs.
  pose proof (run_ops_ids_inv _ _ _ _ _ _ Hnew Hrun Hlen) as Hinv.
  pose proof (ids_inv_found _ _ _ _ Hinv Hi Hs) as Hfound.
  destruct Hinv as (H1 & H2 & H3 & H4).
  split; [specialize (H3 i t Hi Hs); lia|]. split; [done|].
  split; [unfold task_get_status; by rewrite Hfound, Hi|].
  intros j tj Hj Hsj Hid. by apply (H4 j i tj t).
Qed.

Lemma tasks_are_found_by_id_witness :
  get_task_by_taskid ex_available (taskid ex_available_task) = Some 0%nat.
Proof.
  pose (ops := [Op_set_opt_byte OPT_ADDRESS 94; Op_receive_noblock 0 None;
                Op_do_events (quiet_tick 1); Op_do_events (rx_tick 2 (hi_frame 0))]).
  destruct (tasks_are_found_by_id DEFAULT_MAX_TASK_COUNT 61 all_funcs ex_new ex_available ops
              eq_refl eq_refl ltac:(simpl; lia) 0%nat ex_available_task eq_refl
              ltac:(discriminate)) as (_ & H & _).
  exact H.
Defined.

Lemma send_noblock_created l tnow adst d alen ack l' r id :
  send_noblock l tnow adst d alen ack = Ok (l', r, Some id) ->
  id = wrap16 (last_taskid l + 1) /\
  exists i tsk, tskhead l' !! i = Some tsk /\ taskid tsk = id /\ status tsk = ST_SEND.
Proof.
  unfold send_noblock.
  destruct (negb (deviceInit (funcs l))); [intros H; inversion H|].
  destruct (negb (deviceSend (funcs l))); [intros H; inversion H|].
  destruct (alen >? max_payload_len l); [intros H; inversion H|].
  destruct ((alen =? 0) && _); [intros H; inversion H|].
  destruct (task_create l ST_SEND tnow) as [l1 [i|]] eqn:Ec; [|intros H; inversion H].
  apply task_create_Some in Ec. destruct Ec as (t0 & Ht0 & _ & _ & _ & ->).
  apply lookup_lt_Some in Ht0.
  destruct l, t0. unfold get_task, put_task. simpl in *.
  rewrite list_lookup_insert_eq by done. simpl.
  unfold sched_at. intros H.
  destruct ack; simpl in H; inv_ok;
    (split; [reflexivity|]);
    (exists i; eexists; split;
     [simpl; rewrite list_lookup_insert_eq; [reflexivity | by rewrite length_insert]
     | simpl; repeat split]).
Qed.

Lemma receive_noblock_created l tnow cfg l' r id :
  receive_noblock l tnow cfg = Ok (l', r, Some id) ->
  id = wrap16 (last_taskid l + 1) /\
  exists i tsk, tskhead l' !! i = Some tsk /\ taskid tsk = id /\ status tsk = ST_RECEIVE.
Proof.
  unfold receive_noblock.
  destruct (negb (deviceInit (funcs l))); [intros H; inversion H|].
  destruct (negb (deviceReceive (funcs l))); [intros H; inversion H|].
  destruct (task_create l ST_RECEIVE tnow) as [l1 [i|]] eqn:Ec; [|intros H; inversion H].
  pose proof Ec as Ec'.
  apply task_create_Some in Ec'. destruct Ec' as (t0 & Ht0 & _ & _ & _ & El1).
  rewrite (get_task_created _ _ _ _ _ _ Ec Ht0). simpl.
  intros H. inversion H; subst l' r id. clear H.
  assert (Hlt : (i < length (tskhead l1))%nat).
  { apply lookup_lt_Some in Ht0. subst l1. destruct l. simpl in *. by rewrite length_insert. }
  split; [destruct t0; by destruct cfg as [[? [] ? ? ?]|]|].
  eexists i, _. split; [rewrite tskhead_put_task; by apply list_lookup_insert_eq|].
  destruct t0. by destruct cfg as [[? [] ? ? ?]|].
Qed.

(** X17. While fewer than 65535 operations were performed since the engine
    was built, the id [send_noblock] or [receive_noblock] hands back names the
    task just created, in ST_SEND or ST_RECEIVE, and no task in use carried
    that id before the call. *)
Theorem created_task_is_named_by_its_id
    (maxtask mdl : Z) (fs : RFLinkFunctions) (l0 l : RFLink) (ops : list engine_op) :
  RFLink_new maxtask = Ok l0 ->
  run_ops (register_funcs l0 fs mdl) ops = Ok l ->
  Z.of_nat (length ops) < 65535 ->
  (forall tnow adst d alen ack l' r id,
     send_noblock l tnow adst d alen ack = Ok (l', r, Some id) ->
     task_get_status l' id = ST_SEND /\ no_live_task l id) /\
  (forall tnow cfg l' r id,
     receive_noblock l tnow cfg = Ok (l', r, Some id) ->
     task_get_status l' id = ST_RECEIVE /\ no_live_task l id).
Proof.
  intros Hnew Hrun Hlen.
  assert (Hinv : forall op l',
            run_ops (register_funcs l0 fs mdl) (ops ++ [op]) = Ok l' ->
            ids_inv (Z.of_nat (length (ops ++ [op]))) l').
  { intros op l' H. eapply run_ops_ids_inv; [exact Hnew | exact H |].
    rewrite length_app. simpl. lia. }
  assert (Hfresh : forall st i tsk l',
            tskhead l' !! i = Some tsk -> status tsk = st -> st <> ST_NOTHING ->
            ids_inv (Z.of_nat (length ops) + 1) l' ->
            task_get_status l' (taskid tsk) = st).
  { intros st i tsk l' Hi Hs Hst Hinv'. unfold task_get_status.
    rewrite (ids_inv_found _ _ _ _ Hinv' Hi) by congruence. by rewrite Hi. }
  pose proof (run_ops_ids_inv _ _ _ _ _ _ Hnew Hrun ltac:(lia)) as Hinv0.
  assert (Hnew_id : no_live_task l (wrap16 (last_taskid l + 1))).
  { destruct Hinv0 as (H1 & _ & H3 & _). rewrite wrap16_small by lia.
    intros t Ht Hid. destruct (decide (status t = ST_NOTHING)) as [Hn|Hn]; [done|].
    apply list_elem_of_lookup_1 in Ht as [i Hi]. specialize (H3 i t Hi Hn). lia. }
  split.
  - intros tnow adst d alen ack l' r id Hs.
    destruct (send_noblock_created _ _ _ _ _ _ _ _ _ Hs) as (Eid & i & tsk & Hi & Hid & Hst).
    specialize (Hinv (Op_send_noblock tnow adst d alen ack) l').
    rewrite run_ops_app, Hrun in Hinv. simpl in Hinv. rewrite Hs in Hinv. simpl in Hinv.
    specialize (Hinv eq_refl). rewrite length_app in Hinv. simpl in Hinv.
    replace (Z.of_nat (length ops + 1)) with (Z.of_nat (length ops) + 1) in Hinv by lia.
    split; [|by rewrite Eid]. rewrite <- Hid. by apply (Hfresh ST_SEND i).
  - intros tnow cfg l' r id Hs.
    destruct (receive_noblock_created _ _ _ _ _ _ Hs) as (Eid & i & tsk & Hi & Hid & Hst).
    specialize (Hinv (Op_receive_noblock tnow cfg) l').
    rewrite run_ops_app, Hrun in Hinv. simpl in Hinv. rewrite Hs in Hinv. simpl in Hinv.
    specialize (Hinv eq_refl). rewrite length_app in Hinv. simpl in Hinv.
    replace (Z.of_nat (length ops + 1)) with (Z.of_nat (length ops) + 1) in Hinv by lia.
    split; [|by rewrite Eid]. rewrite <- Hid. by apply (Hfresh ST_RECEIVE i).
Qed.

Lemma created_task_is_named_by_its_id_witness :
  task_get_status
    (or_blank (run_ops (register_funcs ex_new all_funcs 61)
                 [Op_set_opt_byte OPT_ADDRESS 94; Op_receive_noblock 0 None])) 1
  = ST_RECEIVE.
Proof.
  pose (ops := [Op_set_opt_byte OPT_ADDRESS 94]).
  destruct (created_task_is_named_by_its_id DEFAULT_MAX_TASK_COUNT 61 all_funcs ex_new
              (set_opt_byte (register_funcs ex_new all_funcs 61) OPT_ADDRESS 94) ops
              eq_refl eq_refl ltac:(simpl; lia)) as [_ H].
  destruct (H 0 None (or_blank (run_ops (register_funcs ex_new all_funcs 61)
                                 [Op_set_opt_byte OPT_ADDRESS 94;
                                  Op_receive_noblock 0 None]))
              ERR_TASK_CREATED_OK 1 eq_refl) as [H1 _].
  exact H1.
Defined.
(** ** The frames handed to the driver *)

Lemma send_of_fits m t :
  0 <= m -> sizeof_Header + m <= 255 -> pkt_ok m t -> send_fits m (send_of t).
Proof.
  intros Hm Hmax Hok. unfold send_of, get_pkt_ptr_ro, get_pkt_len, send_fits.
  unfold sizeof_Header in *.
  destruct (pkt (pktkeeper t)) as [p|] eqn:Ep.
  - specialize (Hok p Ep). rewrite wrap8_small by lia.
    split; [lia|]. intros pk Hpk. by inversion Hpk.
  - split; [lia | done].
Qed.

Lemma not_send_fits m c : is_send c = false -> send_fits m c.
Proof. by destruct c. Qed.

Lemma fits_inv_boot maxtask fs mdl l0 :
  RFLink_new maxtask = Ok l0 -> sizeof_Header <= mdl <= 255 ->
  fits_inv (register_funcs l0 fs mdl) /\
  sizeof_Header + max_payload_len (register_funcs l0 fs mdl) <= mdl.
Proof.
  unfold RFLink_new. destruct (_ || _) eqn:E; [done|]. intros H. inversion H; subst l0. clear H.
  intros Hmdl. unfold sizeof_Header in *.
  assert (Hfree : forall m i t,
            replicate (Z.to_nat maxtask) (task_initialize blank_task) !! i = Some t ->
            pkt_ok m t).
  { intros m i t Hi. apply lookup_replicate in Hi as [-> _]. by intros p Hp. }
  unfold register_funcs, initialize_recpkt_if_necessary, log, fits_inv.
  destruct (negb _); simpl; unfold sizeof_Header.
  - split; [|lia]. split; [lia|]. split; [lia|]. split; [by apply Hfree | by constructor].
  - rewrite wrap8_small by lia.
    split; [|lia]. split; [lia|]. split; [lia|].
    split; [by apply Hfree | by repeat constructor].
Qed.

Lemma fits_inv_step P l l' : fits_inv l -> pool_step True P l l' -> fits_inv l'.
Proof.
  intros (Hm & Hmax & Hpk & Hlog)
    [i t t' calls Hp Hf Hi Ht Hcnt Hl Hd Hid Hst Hok Hcalls|i t Hp Hf Hi Hs Ht Hcnt Hl Hd
    |calls H1 H2 H3 H4 H5 H6 Hcalls].
  - unfold fits_inv. rewrite (frame_max_payload_len _ _ Hf), Ht, Hd.
    split; [done|]. split; [done|]. split.
    + intros j tj Hj. destruct (decide (j = i)) as [->|Hne].
      * rewrite list_lookup_insert_eq in Hj by (by apply lookup_lt_Some in Hi).
        inversion Hj; subst tj. apply Hok; [done|]. by apply (Hpk i).
      * rewrite list_lookup_insert_ne in Hj by done. by apply (Hpk j).
    + apply Forall_app. split; [done|].
      eapply Forall_impl; [exact Hcalls|]. intros c ->. apply send_of_fits; try done.
      by apply (Hpk i).
  - unfold fits_inv. rewrite (frame_max_payload_len _ _ Hf), Ht, Hd.
    split; [done|]. split; [done|]. split; [|done].
    intros j tj Hj. destruct (decide (j = i)) as [->|Hne].
    + rewrite list_lookup_insert_eq in Hj by (by apply lookup_lt_Some in Hi).
      inversion Hj; subst tj. intros p Hp'. by destruct t.
    + rewrite list_lookup_insert_ne in Hj by done. by apply (Hpk j).
  - unfold fits_inv. rewrite H2, H3, H6.
    split; [done|]. split; [done|]. split; [done|].
    apply Forall_app. split; [done|].
    eapply Forall_impl; [exact Hcalls|]. intros c Hc. by apply not_send_fits.
Qed.

Lemma fits_inv_spawn l l' : fits_inv l -> pool_spawn l l' -> fits_inv l'.
Proof.
  intros (Hm & Hmax & Hpk & Hlog) [j t0 tnew Hf Hj Hs0 Ht Hlt Hcnt Hl Hd Hid Hlive Hok].
  unfold fits_inv. rewrite (frame_max_payload_len _ _ Hf), Ht, Hd.
  split; [done|]. split; [done|]. split; [|done].
  intros k tk Hk. destruct (decide (k = j)) as [->|Hne].
  - rewrite list_lookup_insert_eq in Hk by (by apply lookup_lt_Some in Hj).
    inversion Hk; subst tk. apply Hok; [done|]. by apply (Hpk j).
  - rewrite list_lookup_insert_ne in Hk by done. by apply (Hpk k).
Qed.

Lemma pool_steps_max_payload_len B P n l l' :
  pool_steps B P n l l' -> max_payload_len l' = max_payload_len l.
Proof. intros H. by destruct (pool_steps_consts _ _ _ _ _ H) as (_ & ? & _). Qed.

(** X18. When the driver announces a frame size of at least the header, and
    the length byte of what it delivers is a byte, the engine never hands it
    more than that size: every transmission is the six bytes of the header
    plus the length byte of the frame, and every task holds a packet whose
    length byte is within the limit of the link. *)
Theorem transmissions_fit_the_device
    (maxtask mdl : Z) (fs : RFLinkFunctions) (l0 l : RFLink) (ops : list engine_op) :
  RFLink_new maxtask = Ok l0 ->
  sizeof_Header <= mdl <= 255 ->
  Forall op_ok ops ->
  run_ops (register_funcs l0 fs mdl) ops = Ok l ->
  sizeof_Header + max_payload_len l <= mdl /\
  (forall p n, DeviceSend p n ∈ dev_log l ->
     0 <= n <= mdl /\ forall pk, p = Some pk -> n = sizeof_Header + len (header pk)) /\
  (forall i t pk, tskhead l !! i = Some t -> pkt (pktkeeper t) = Some pk ->
     0 <= len (header pk) <= max_payload_len l).
Proof.
  intros Hnew Hmdl Hops Hrun.
  destruct (fits_inv_boot maxtask fs mdl l0 Hnew Hmdl) as [Hboot Hle].
  pose (I := fun (_ : nat) (l : RFLink) =>
               fits_inv l /\ sizeof_Header + max_payload_len l <= mdl).
  assert (HI : I (0 + length ops)%nat l).
  { apply (run_ops_invariant True I) with (l := register_funcs l0 fs mdl).
    - intros n l1 l2 [H1 H2] Hs. split; [by eapply fits_inv_step|].
      by rewrite (pool_steps_max_payload_len _ _ 0 l1 l2 (pool_steps_one _ _ _ _ _ Hs)).
    - intros n l1 l2 [H1 H2] Hs. split; [by eapply fits_inv_spawn|].
      by rewrite (pool_steps_max_payload_len True (fun _ => True) 1 l1 l2
                    (pool_steps_one_spawn _ _ _ _ _ Hs)).
    - by intros n m l1 _ H.
    - by split.
    - done.
    - exact Hrun. }
  destruct HI as [(Hm & Hmax & Hpk & Hlog) Hle'].
  split; [done|]. split.
  - intros p n Hin. rewrite Forall_forall in Hlog. specialize (Hlog _ Hin).
    simpl in Hlog. destruct Hlog as [Hn Hp]. split; [lia | done].
  - intros i t pk Hi Hp. by apply (Hpk i t Hi pk).
Qed.

Lemma transmissions_fit_the_device_witness :
  sizeof_Header + max_payload_len ex_sent <= 61 /\
  Forall (send_fits 55) (dev_log ex_sent).
Proof.
  destruct (transmissions_fit_the_device DEFAULT_MAX_TASK_COUNT 61 all_funcs ex_new
              ex_sent ex_sent_ops
              ltac:(vm_compute; reflexivity) ltac:(vm_compute; split; discriminate)
              ltac:(repeat constructor; vm_compute; discriminate)
              ltac:(vm_compute; reflexivity)) as (H1 & H2 & _).
  split; [exact H1|].
  apply Forall_forall. intros c Hc. destruct c as [| p n | | | | |]; try exact I.
  destruct (H2 p n Hc) as [Hn Hp]. split; [|exact Hp].
  change (sizeof_Header + 55) with 61. exact Hn.
Defined.
(** ** What can stop an operation *)

Lemma fits_inv_steps P n l l' :
  fits_inv l -> pool_steps True P n l l' -> fits_inv l'.
Proof.
  intros Hf Hs. revert Hf.
  induction Hs as [n l|n l l1 l2 Hs Hr IH|n l l1 l2 Hs Hr IH]; intros Hf; [done| |].
  - apply IH. by apply (fits_inv_step P l l1).
  - apply IH. by apply (fits_inv_spawn l l1).
Qed.

(** X12. Where [do_events] can stop. The packet buffers are taken to be
    allocated (the code does not test what [malloc] returns), and the limit of
    the link to fit its byte (the driver announced 6 to 255 bytes). On a
    well-formed engine [do_events] then fails none of its assertions and
    reads no schedule outside its array: the one place where it can stop is
    the write outside the packet-id cache, and the engine it returns is well
    formed again, with the same limit. When no reception is pending (the flag
    of the interrupt handler is down and the radio does not pull its line) it
    does not stop there either, and the cache is left as it was. *)
Theorem do_events_returns (l : RFLink) (tk : tick_t) :
  engine_wf l ->
  sizeof_Header + max_payload_len l <= 255 ->
  tick_ok tk ->
  post cache_overrun
    (fun l' => engine_wf l' /\ max_payload_len l' = max_payload_len l) (do_events l tk) /\
  (interrupted l = false -> irq tk = false ->
   exists l', do_events l tk = Ok l' /\ engine_wf l' /\ cache_pktids l' = cache_pktids l).
Proof.
  intros Hwf Hmax Htk. split.
  { pose proof (do_events_wf l tk Hwf) as H1.
    pose proof (do_events_steps True l tk ltac:(done)) as H2.
    destruct (do_events l tk) as [l'|f]; simpl in *; [|done].
    split; [done|]. by apply (pool_steps_max_payload_len _ _ _ _ _ H2). }
  intros Hint Hirq. unfold do_events.
  destruct (negb (deviceInit (funcs l))); [by exists l|].
  pose proof (do_events_receive_wf l tk Hwf) as Hr.
  pose proof (do_events_receive_silent l tk) as Hs.
  destruct (do_events_receive l tk) as [[l2 got]|f]; simpl in Hr; [|done].
  destruct Hr as (Hwf2 & Hc2 & _).
  rewrite (Hs l2 got Hint Hirq eq_refl). simpl.
  pose proof (do_events_tasks_wf l2 tk false false Hwf2 ltac:(discriminate)) as Ht.
  destruct (do_events_tasks l2 tk false false) as [l3|f]; simpl in Ht; [|done].
  destruct Ht as [Hwf3 Hc3].
  exists l3. split; [done|]. split; [done|].
  rewrite Hc3. by apply core_cache.
Qed.

Lemma do_events_returns_witness :
  post cache_overrun
    (fun l' => engine_wf l' /\ max_payload_len l' = max_payload_len ex_listening)
    (do_events ex_listening (rx_tick 2 (hi_frame 0))) /\
  exists l', do_events ex_listening (quiet_tick 2) = Ok l' /\ engine_wf l'
             /\ cache_pktids l' = cache_pktids ex_listening.
Proof.
  split.
  - apply (do_events_returns ex_listening (rx_tick 2 (hi_frame 0))
             (engine_reachable_wf _ ex_listening_reachable));
      vm_compute; discriminate.
  - apply (do_events_returns ex_listening (quiet_tick 2)
             (engine_reachable_wf _ ex_listening_reachable));
      try reflexivity; vm_compute; discriminate.
Defined.

(** X13. Where the operations can stop. The engine is constructed with 1 to
    15 task slots, the driver announces a frame size of 6 to 255 bytes, the
    callbacks are registered consistently, and the packet buffers are taken
    to be allocated (the code does not test what [malloc] returns). After any
    operations that returned, an operation then fails no assertion and leaves
    no array, with two exceptions: [do_events] can stop on the write outside
    the packet-id cache, and [send_noblock] on the argument assertion of
    [prepare_for_sending]. The engine it returns is well formed again and
    every packet it holds or sent is within the limit of the link, so that
    the same holds of the next operation. *)
Theorem operations_stop_at_two_sites
    (maxtask mdl : Z) (fs : RFLinkFunctions) (l0 l : RFLink) (ops : list engine_op)
    (op : engine_op) :
  1 <= maxtask <= DEFAULT_MAX_TASK_COUNT ->
  sizeof_Header <= mdl <= 255 ->
  RFLink_new maxtask = Ok l0 -> funcs_ok fs ->
  Forall op_ok ops -> op_ok op ->
  run_ops (register_funcs l0 fs mdl) ops = Ok l ->
  engine_wf l /\ fits_inv l /\
  post (op_fault_of op)
    (fun l' => engine_wf l' /\ fits_inv l' /\
               run_ops (register_funcs l0 fs mdl) (ops ++ [op]) = Ok l')
    (run_op l op).
Proof.
  intros Hmt Hmdl Hnew Hfs Hops Hop Hrun.
  assert (Hr : engine_reachable l).
  { eapply run_ops_reachable; [|exact Hrun]. by eapply reachable_boot. }
  pose proof (engine_reachable_wf _ Hr) as Hwf.
  assert (Hfits : fits_inv l).
  { destruct (fits_inv_boot maxtask fs mdl l0 Hnew Hmdl) as [Hboot _].
    apply (run_ops_invariant True (fun _ => fits_inv)) with
      (ops := ops) (n := 0%nat) (l := register_funcs l0 fs mdl); try done.
    - intros n l1 l2 H1 Hs. by eapply fits_inv_step.
    - intros n l1 l2 H1 Hs. by eapply fits_inv_spawn. }
  split; [done|]. split; [done|].
  assert (Hok : forall l', run_op l op = Ok l' ->
            engine_wf l' /\ fits_inv l' /\
            run_ops (register_funcs l0 fs mdl) (ops ++ [op]) = Ok l').
  { intros l' Hl'. assert (Hr' : engine_reachable l') by (by eapply reachable_step).
    split; [by apply engine_reachable_wf|]. split.
    - pose proof (run_op_steps True l op ltac:(done)) as Hs. rewrite Hl' in Hs.
      simpl in Hs. by apply (fits_inv_steps _ _ _ _ Hfits Hs).
    - rewrite run_ops_app, Hrun. simpl. by rewrite Hl'. }
  destruct op as [tnow adst d alen ack | tnow cfg | tk | tnow id buf_len ws | tnow id | opt v];
    simpl in *.
  - pose proof (send_noblock_wf l tnow adst d alen ack Hwf) as H.
    destruct (send_noblock l tnow adst d alen ack) as [[[l' r] oid]|f]; simpl in *;
      [by apply Hok | done].
  - pose proof (receive_noblock_wf l tnow cfg Hwf) as H.
    destruct (receive_noblock l tnow cfg) as [[[l' r] oid]|f]; simpl in *;
      [by apply Hok | done].
  - pose proof (do_events_wf l tk Hwf) as H.
    destruct (do_events l tk) as [l'|f]; simpl in *; [by apply Hok | done].
  - assert (Hin : forall i, get_task_by_taskid l id = Some i -> is_Some (tskhead l !! i)).
    { intros i Hi. destruct (get_task_by_taskid_Some _ _ _ Hi) as (t & Ht & _). by exists t. }
    pose proof (data_retrieve_wf l tnow _ buf_len ws Hwf Hin) as H.
    destruct (data_retrieve l tnow (get_task_by_taskid l id) buf_len ws)
      as [[[l' r] out]|f]; simpl in *; [by apply Hok | done].
  - pose proof (send_get_final_status_wf l tnow id Hwf) as H.
    destruct (send_get_final_status l tnow id) as [[[l' r] n]|f]; simpl in *;
      [by apply Hok | done].
  - by apply Hok.
Qed.

Lemma operations_stop_at_two_sites_witness :
  engine_wf ex_listening /\ fits_inv ex_listening /\
  post (op_fault_of (Op_do_events (rx_tick 2 (hi_frame 0))))
    (fun l' => engine_wf l' /\ fits_inv l' /\
               run_ops (register_funcs ex_new all_funcs 61)
                 ([Op_set_opt_byte OPT_ADDRESS 94; Op_receive_noblock 0 None;
                   Op_do_events (quiet_tick 1)]
                  ++ [Op_do_events (rx_tick 2 (hi_frame 0))]) = Ok l')
    (run_op ex_listening (Op_do_events (rx_tick 2 (hi_frame 0)))).
Proof.
  apply (operations_stop_at_two_sites DEFAULT_MAX_TASK_COUNT 61 all_funcs ex_new
           ex_listening
           [Op_set_opt_byte OPT_ADDRESS 94; Op_receive_noblock 0 None;
            Op_do_events (quiet_tick 1)]
           (Op_do_events (rx_tick 2 (hi_frame 0)))).
  - vm_compute. split; discriminate.
  - vm_compute. split; discriminate.
  - vm_compute. reflexivity.
  - apply all_funcs_ok.
  - repeat constructor. vm_compute. discriminate.
  - vm_compute. discriminate.
  - vm_compute. reflexivity.
Defined.
(** ** Tasks with no event due *)

Lemma set_status_id t : set_status (status t) t = t.
Proof. by destruct t. Qed.

(** The body of the task loop on a task with no event due. *)
Lemma do_events_task_idle tk seen k st t :
  tskhead (lk st) !! k = Some t ->
  status t <> ST_FINISHED ->
  evtsub_pktrcvd t = false \/ got_a_pkt st = false ->
  evtsub_wakeup t = false \/ signed32 (now tk - mtime_wakeup t) < 0 ->
  post any_fault
    (fun st' => tskhead (lk st') !! k = Some t /\ got_a_pkt st' = got_a_pkt st)
    (do_events_task tk seen k st).
Proof.
  intros Hk Hfin Hrcv Hwk. destruct st as [l got rst]. simpl in *.
  unfold do_events_task. simpl.
  rewrite (get_task_lookup _ _ _ Hk). simpl.
  assert (E1 : evtsub_pktrcvd t && got = false).
  { destruct Hrcv as [-> | ->]; [done | apply andb_false_r]. }
  rewrite E1. simpl. rewrite (get_task_lookup _ _ _ Hk). simpl.
  assert (E2 : (if evtsub_wakeup t && (status t =? status t)
                then if signed32 (now tk - mtime_wakeup t) >=? 0
                     then tev_wakeup l (now tk) (send_rc tk) k
                     else Ok (l, status t)
                else Ok (l, status t)) = Ok (l, status t)).
  { destruct Hwk as [-> | Hlt]; [reflexivity|].
    destruct (evtsub_wakeup t && (status t =? status t)); [|reflexivity].
    assert (E : (signed32 (now tk - mtime_wakeup t) >=? 0) = false).
    { rewrite Z.geb_leb. by apply Z.leb_gt. }
    by rewrite E. }
  rewrite E2. simpl. rewrite (get_task_lookup _ _ _ Hk). simpl.
  destruct (assert _ _); simpl; [|done].
  assert (E3 : (status t =? ST_FINISHED) = false) by (by apply Z.eqb_neq).
  rewrite E3. simpl. split; [|done].
  rewrite tskhead_put_task, set_status_id.
  apply list_lookup_insert_eq. by apply lookup_lt_Some in Hk.
Qed.

(** The task loop leaves such a task as it is, whatever happens to the
    others. *)
Lemma do_events_loop_idle tk seen k t idxs :
  forall st,
    tskhead (lk st) !! k = Some t ->
    status t <> ST_NOTHING -> status t <> ST_FINISHED ->
    evtsub_pktrcvd t = false \/ got_a_pkt st = false ->
    evtsub_wakeup t = false \/ signed32 (now tk - mtime_wakeup t) < 0 ->
    post any_fault (fun st' => tskhead (lk st') !! k = Some t)
      (do_events_loop tk seen idxs st).
Proof.
  induction idxs as [|i idxs IH]; intros st Hk Hlive Hfin Hrcv Hwk; simpl; [done|].
  eapply (post_bind _
    (fun st1 => tskhead (lk st1) !! k = Some t /\
                (got_a_pkt st1 = true -> got_a_pkt st = true))).
  - destruct (decide (i = k)) as [->|Hne].
    + eapply post_mono; [by apply do_events_task_idle | done |].
      intros st1 [H1 H2]. split; [done | by rewrite H2].
    + eapply post_mono;
        [apply (do_events_task_steps False (fun j => j <> k) tk seen i st Hne);
         intros [] | done |].
      intros st1 (Hs & _ & Hg). split; [|done].
      eapply pool_steps_keeps; [exact Hs | | exact Hk | exact Hlive]. by intros H.
  - intros st1 [Hk1 Hg1]. apply IH; try done.
    destruct Hrcv as [Hr|Hr]; [by left | right].
    destruct (got_a_pkt st1); [|done]. rewrite Hg1 in Hr; done.
Qed.

(** X19. [do_events] leaves a task in use as it is when none of its events
    is due: it does not listen to frames, or no frame can have come in, and
    its timer is off or its deadline lies ahead. The other tasks may send,
    be acknowledged, be created or destroyed meanwhile. *)
Theorem do_events_leaves_idle_task
    (l l' : RFLink) (tk : tick_t) (k : nat) (t : Task) :
  tskhead l !! k = Some t ->
  status t <> ST_NOTHING -> status t <> ST_FINISHED ->
  evtsub_pktrcvd t = false \/ (interrupted l = false /\ irq tk = false) ->
  evtsub_wakeup t = false \/ signed32 (now tk - mtime_wakeup t) < 0 ->
  do_events l tk = Ok l' ->
  tskhead l' !! k = Some t.
Proof.
  intros Hk Hlive Hfin Hrcv Hwk. unfold do_events.
  destruct (negb (deviceInit (funcs l))); [intros H; inversion H; by subst|].
  pose proof (do_events_receive_env False (fun j => j <> k) l tk ltac:(intros [])) as H1.
  destruct (do_events_receive l tk) as [[l1 got]|f] eqn:E1; simpl in *; [|done].
  destruct H1 as [Hs1 _].
  pose proof (do_events_seen_env False (fun j => j <> k) l1 (now tk) got) as H2.
  destruct (do_events_seen l1 (now tk) got) as [[l2 seen]|f] eqn:E2; simpl in *; [|done].
  destruct H2 as [Hs2 _].
  assert (Hk2 : tskhead l2 !! k = Some t).
  { eapply pool_steps_keeps; [exact Hs2 | by intros H | | exact Hlive].
    eapply pool_steps_keeps; [exact Hs1 | by intros H | exact Hk | exact Hlive]. }
  unfold do_events_tasks.
  pose proof (do_events_loop_idle tk seen k t (seq 0 (length (tskhead l2)))
                (mkLoop l2 got false) Hk2 Hlive Hfin) as H3.
  destruct (do_events_loop tk seen _ _) as [st|f]; simpl in *; [|done].
  intros H. inversion H; subst l'. clear H.
  pose proof (do_events_finish_env False (fun j => j <> k) tk st) as Hs4.
  eapply pool_steps_keeps; [exact Hs4 | by intros H | | exact Hlive].
  apply H3; [|done].
  destruct Hrcv as [Hr|[Hi Hq]]; [by left | right].
  by apply (do_events_receive_silent l tk l1 got Hi Hq).
Qed.

Lemma do_events_leaves_idle_task_witness :
  tskhead (or_blank (do_events ex_sent (quiet_tick 100))) !! 0%nat = Some ex_sent_task.
Proof.
  apply (do_events_leaves_idle_task ex_sent _ (quiet_tick 100) 0 ex_sent_task).
  - reflexivity.
  - vm_compute. discriminate.
  - vm_compute. discriminate.
  - left. reflexivity.
  - right. vm_compute. reflexivity.
  - vm_compute. reflexivity.
Defined.
(** ** The blocking send *)

Lemma late_due tcreate tk off :
  late tcreate tk = true -> 0 <= off <= 900 ->
  (signed32 (now tk - wrap32 (tcreate + off)) >=? 0) = true.
Proof.
  unfold late. intros H Hoff. apply andb_prop in H. destruct H as [H1 H2].
  apply Z.leb_le in H1. apply Z.ltb_lt in H2.
  unfold signed32, wrap32 in *.
  rewrite Zminus_mod_idemp_r.
  replace (now tk - (tcreate + off)) with ((now tk - tcreate) - off) by lia.
  rewrite <- Zminus_mod_idemp_l.
  rewrite (Z.mod_small ((now tk - tcreate) mod 4294967296 - off)) by lia.
  assert (E : ((now tk - tcreate) mod 4294967296 - off <? 2147483648) = true)
    by (apply Z.ltb_lt; lia).
  rewrite E. rewrite Z.geb_leb. apply Z.leb_le. lia.
Qed.

Lemma sending_cases id tcreate p t :
  sending id tcreate p t ->
  (p = 0 \/ p = 1 \/ p = 2 \/ p = 3) /\
  exists off, 0 <= off <= 900 /\ mtime_wakeup t = wrap32 (tcreate + off).
Proof.
  intros (_ & _ & _ & _ & _ & _ & _ & _ & _ & _ & Hp & off & Hoff & Hwk).
  assert (Hc : p = 0 \/ p = 1 \/ p = 2 \/ p = 3 \/ 4 <= p) by lia.
  destruct Hc as [->|[->|[->|[->|Hc]]]]; simpl in Hoff;
    try (inversion Hoff; subst off; split; [tauto|]; eexists; split; [|exact Hwk]; lia).
  exfalso. apply lookup_lt_Some in Hoff. simpl in Hoff. lia.
Qed.

(** The wake-up of the task at entry [p]: it is at entry [p + 1]
    afterwards, or done after the last one. *)
Lemma tev_wakeup_sending l tnow rc k id tcreate p t :
  tskhead l !! k = Some t -> sending id tcreate p t ->
  post any_fault
    (fun '(l', r) =>
       r <> ST_FINISHED /\
       exists t', tskhead l' !! k = Some t' /\ sent_to id tcreate (p + 1) (set_status r t'))
    (tev_wakeup l tnow rc k).
Proof.
  intros Hk Hs. destruct (sending_cases _ _ _ _ Hs) as [Hp _].
  pose proof (lookup_lt_Some _ _ _ Hk) as Hlt.
  unfold tev_wakeup. rewrite (get_task_lookup _ _ _ Hk). simpl.
  destruct Hs as (Hid & Hst & Hna & Hew & Her & Hptr & Hnb & Hpos & Hns & Href & _ & _).
  destruct t as [tid tst tpk tref twk trc tnb tptr tpos tew ter tia tna tha tun t1 t2 tns].
  simpl in *. subst tid tst tna tew ter tptr tnb tref tns.
  unfold call. simpl.
  destruct (deviceSend (funcs l)); simpl; [|done].
  unfold sent_to, sending, sent_done, snd_sched_len, sched_at.
  subst tpos. destruct Hp as [-> | [-> | [-> | ->]]]; simpl;
    rewrite ?(wrap8_small 1), ?(wrap8_small 2), ?(wrap8_small 3), ?(wrap8_small 4) by lia;
    simpl;
    try (split; [discriminate|]; eexists; split;
         [rewrite tskhead_put_task, tskhead_log; by apply list_lookup_insert_eq|];
         simpl; repeat split; try lia; eexists; split; reflexivity).
  destruct tun; simpl;
    (split; [discriminate|]; eexists; split;
     [rewrite tskhead_put_task, tskhead_log; by apply list_lookup_insert_eq|];
     simpl; repeat split).
Qed.

Lemma sending_live id tcreate p t : sending id tcreate p t -> status t <> ST_NOTHING.
Proof. intros (_ & -> & _). discriminate. Qed.

Lemma sent_to_live id tcreate p t : sent_to id tcreate p t -> status t <> ST_NOTHING.
Proof.
  unfold sent_to. destruct (p <? snd_sched_len).
  - apply sending_live.
  - intros (_ & -> & _). discriminate.
Qed.

Lemma sent_to_taskid id tcreate p t : sent_to id tcreate p t -> taskid t = id.
Proof. unfold sent_to. destruct (p <? snd_sched_len); by intros (-> & _). Qed.

Lemma pumped_live id tcreate p tk t : pumped id tcreate p tk t -> status t <> ST_NOTHING.
Proof. intros [[H|H] _]; [by eapply sending_live | by eapply sent_to_live]. Qed.

(** The body of the task loop on the sending task. *)
Lemma do_events_task_sending tk seen k st id tcreate p t :
  tskhead (lk st) !! k = Some t -> sending id tcreate p t ->
  post any_fault
    (fun st' => exists t', tskhead (lk st') !! k = Some t' /\ pumped id tcreate p tk t')
    (do_events_task tk seen k st).
Proof.
  intros Hk Hs. destruct st as [l got rst]. simpl in *.
  pose proof (lookup_lt_Some _ _ _ Hk) as Hlt.
  destruct (sending_cases _ _ _ _ Hs) as [_ (off & Hoff & Hwk)].
  unfold do_events_task. simpl.
  rewrite (get_task_lookup _ _ _ Hk). simpl.
  pose proof Hs as (Hid & Hst & Hna & Hew & Her & _).
  rewrite Her. simpl. rewrite (get_task_lookup _ _ _ Hk). simpl.
  rewrite Hew, Z.eqb_refl. simpl.
  destruct (signed32 (now tk - mtime_wakeup t) >=? 0) eqn:Edue.
  - pose proof (tev_wakeup_sending l (now tk) (send_rc tk) k id tcreate p t Hk Hs) as Hw.
    destruct (tev_wakeup l (now tk) (send_rc tk) k) as [[l1 r]|f]; simpl in *; [|done].
    destruct Hw as (Hr & t' & Hk' & Hto).
    rewrite (get_task_lookup _ _ _ Hk'). simpl.
    destruct (assert _ _); simpl; [|done].
    apply Z.eqb_neq in Hr. rewrite Hr. simpl.
    exists (set_status r t'). split.
    + rewrite tskhead_put_task. apply list_lookup_insert_eq. by apply lookup_lt_Some in Hk'.
    + split; [by right | done].
  - simpl. rewrite (get_task_lookup _ _ _ Hk). simpl.
    destruct (assert _ _); simpl; [|done].
    assert (E3 : (status t =? ST_FINISHED) = false) by (by rewrite Hst).
    rewrite E3. simpl. exists t. split.
    + rewrite tskhead_put_task, set_status_id. by apply list_lookup_insert_eq.
    + split; [by left|]. intros Hlate.
      rewrite Hwk, (late_due tcreate tk off Hlate Hoff) in Edue. discriminate.
Qed.

(** The task loop does not write a slot it does not visit, when the slot is
    in use. *)
Lemma do_events_loop_keeps tk seen k t idxs st :
  k ∉ idxs -> tskhead (lk st) !! k = Some t -> status t <> ST_NOTHING ->
  post any_fault (fun st' => tskhead (lk st') !! k = Some t)
    (do_events_loop tk seen idxs st).
Proof.
  intros Hnotin Hk Hlive.
  eapply post_mono;
    [apply (do_events_loop_steps False (fun j => j <> k) tk seen idxs st);
     [|intros []] | done |].
  - apply Forall_forall. intros j Hj ->. done.
  - intros st' [Hs _]. eapply pool_steps_keeps; [exact Hs | | exact Hk | exact Hlive].
    by intros H.
Qed.

Lemma do_events_loop_sending tk seen k id tcreate p idxs :
  forall st t,
    NoDup idxs -> k ∈ idxs ->
    tskhead (lk st) !! k = Some t -> sending id tcreate p t ->
    post any_fault
      (fun st' => exists t', tskhead (lk st') !! k = Some t' /\ pumped id tcreate p tk t')
      (do_events_loop tk seen idxs st).
Proof.
  induction idxs as [|i idxs IH]; intros st t Hnd Hin Hk Hs; [by apply elem_of_nil in Hin|].
  apply NoDup_cons in Hnd as [Hnotin Hnd]. simpl.
  destruct (decide (i = k)) as [->|Hne].
  - eapply post_bind; [by eapply do_events_task_sending|].
    intros st1 (t1 & Hk1 & Hp1). simpl.
    eapply post_mono;
      [apply (do_events_loop_keeps tk seen k t1 idxs st1 Hnotin Hk1);
       by eapply pumped_live | done |].
    intros st2 Hk2. by exists t1.
  - apply elem_of_cons in Hin as [->|Hin]; [done|].
    eapply post_bind;
      [apply (do_events_task_steps False (fun j => j <> k) tk seen i st Hne); intros []|].
    intros st1 (Hs1 & _ & _). simpl.
    apply (IH st1 t); try done.
    eapply pool_steps_keeps; [exact Hs1 | by intros H | exact Hk | by eapply sending_live].
Qed.

(** One call of [do_events] on an engine that holds the sending task. *)
Lemma do_events_sending l tk k id tcreate p t :
  deviceInit (funcs l) = true ->
  tskhead l !! k = Some t -> sending id tcreate p t ->
  post any_fault
    (fun l' => exists t', tskhead l' !! k = Some t' /\ pumped id tcreate p tk t')
    (do_events l tk).
Proof.
  intros Hinit Hk Hs. unfold do_events. rewrite Hinit. simpl.
  pose proof (sending_live _ _ _ _ Hs) as Hlive.
  pose proof (do_events_receive_env False (fun j => j <> k) l tk ltac:(intros [])) as H1.
  destruct (do_events_receive l tk) as [[l1 got]|f] eqn:E1; simpl in *; [|done].
  destruct H1 as [Hs1 _].
  pose proof (do_events_seen_env False (fun j => j <> k) l1 (now tk) got) as H2.
  destruct (do_events_seen l1 (now tk) got) as [[l2 seen]|f] eqn:E2; simpl in *; [|done].
  destruct H2 as [Hs2 _].
  assert (Hk2 : tskhead l2 !! k = Some t).
  { eapply pool_steps_keeps; [exact Hs2 | by intros H | | exact Hlive].
    eapply pool_steps_keeps; [exact Hs1 | by intros H | exact Hk | exact Hlive]. }
  unfold do_events_tasks.
  pose proof (do_events_loop_sending tk seen k id tcreate p (seq 0 (length (tskhead l2)))
                (mkLoop l2 got false) t (NoDup_seq _ _)) as H3.
  destruct (do_events_loop tk seen _ _) as [st|f]; simpl in *; [|done].
  destruct H3 as (t' & Hk' & Hp'); [| done | done |].
  { apply elem_of_seq. apply lookup_lt_Some in Hk2. lia. }
  exists t'. split; [|done].
  pose proof (do_events_finish_env False (fun j => j <> k) tk st) as Hs4.
  eapply pool_steps_keeps; [exact Hs4 | by intros H | exact Hk' | by eapply pumped_live].
Qed.

Lemma wait_while_eq st l id ticks :
  wait_while st l id ticks =
  if negb (task_get_status l id =? st) then Ok (Some (l, ticks))
  else match ticks with
       | [] => Ok None
       | tk :: rest => l' <- do_events l tk ;; wait_while st l' id rest
       end.
Proof. by destruct ticks. Qed.

(** The wait of [send]: it ends, on the engine where the task is done, once
    the clock was late enough in as many calls of [do_events] as there are
    entries left. *)
Lemma wait_while_sending id tcreate k ticks :
  forall n p l t,
    engine_wf l -> deviceInit (funcs l) = true ->
    ids_inv n l -> n + Z.of_nat (length ticks) <= 65535 ->
    tskhead l !! k = Some t -> sent_to id tcreate p t -> 0 <= p ->
    (Z.to_nat (snd_sched_len - p) <= count_if (late tcreate) ticks)%nat ->
    post cache_overrun
      (fun w => exists l' rest t',
         w = Some (l', rest) /\ engine_wf l' /\
         ids_inv (n + Z.of_nat (length ticks)) l' /\
         tskhead l' !! k = Some t' /\ sent_done id t')
      (wait_while ST_SEND l id ticks).
Proof.
  induction ticks as [|tk rest IH]; intros n p l t Hwf Hinit Hids Hn Hk Hto Hp Hcnt;
    rewrite wait_while_eq.
  - assert (Est : task_get_status l id = status t).
    { unfold task_get_status. rewrite <- (sent_to_taskid _ _ _ _ Hto).
      rewrite (ids_inv_found _ _ _ _ Hids Hk) by (by eapply sent_to_live). by rewrite Hk. }
    rewrite Est. unfold sent_to in Hto.
    destruct (p <? snd_sched_len) eqn:Ep.
    + apply Z.ltb_lt in Ep. simpl in Hcnt. unfold snd_sched_len in *. simpl in *. lia.
    + pose proof Hto as (_ & Hst & _). rewrite Hst. simpl.
      exists l, [], t. split; [done|]. split; [done|]. split; [|done].
      eapply ids_inv_mono; [|exact Hids]. lia.
  - assert (Est : task_get_status l id = status t).
    { unfold task_get_status. rewrite <- (sent_to_taskid _ _ _ _ Hto).
      rewrite (ids_inv_found _ _ _ _ Hids Hk) by (by eapply sent_to_live). by rewrite Hk. }
    rewrite Est. unfold sent_to in Hto.
    destruct (p <? snd_sched_len) eqn:Ep.
    + pose proof Hto as (_ & Hst & _). rewrite Hst.
      replace (n + Z.of_nat (length (tk :: rest)))
        with ((n + 1) + Z.of_nat (length rest)) by (simpl length; lia).
      simpl length in Hn. simpl.
      pose proof (do_events_wf l tk Hwf) as H1.
      pose proof (do_events_steps False l tk ltac:(intros [])) as H2.
      pose proof (do_events_sending l tk k id tcreate p t Hinit Hk Hto) as H3.
      destruct (do_events l tk) as [l1|f]; simpl in *; [|done].
      destruct H3 as (t1 & Hk1 & [Hor Hlate]).
      assert (Hids1 : ids_inv (n + 1) l1).
      { clear -H2 Hids Hn.
        assert (Hgen : forall m la lb, pool_steps False (fun _ => True) m la lb ->
                  forall q, ids_inv q la -> q + Z.of_nat m <= 65535 ->
                  ids_inv (q + Z.of_nat m) lb).
        { induction 1 as [m la|m la l1' lb Hs Hr IH'|m la l1' lb Hs Hr IH']; intros q Hq Hb.
          - eapply ids_inv_mono; [|exact Hq]. lia.
          - apply IH'; [by eapply ids_inv_step | done].
          - replace (q + Z.of_nat (S m)) with ((q + 1) + Z.of_nat m) by lia.
            apply IH'; [|lia]. eapply ids_inv_spawn; [exact Hq | lia | exact Hs]. }
        apply (Hgen 1%nat l l1 H2 n Hids). lia. }
      assert (Hinit1 : deviceInit (funcs l1) = true).
      { by rewrite (pool_steps_funcs _ _ _ _ _ H2). }
      destruct (late tcreate tk) eqn:El.
      * apply (IH (n + 1) (p + 1) l1 t1); try done; try lia. by apply Hlate.
      * destruct Hor as [Hsame|Hnext].
        -- apply (IH (n + 1) p l1 t1); try done; try lia.
           unfold sent_to. by rewrite Ep.
        -- apply (IH (n + 1) (p + 1) l1 t1); try done; try lia.
    + pose proof Hto as (_ & Hst & _). rewrite Hst. simpl.
      exists l, (tk :: rest), t. split; [done|]. split; [done|]. split; [|done].
      eapply ids_inv_mono; [|exact Hids]. lia.
Qed.

(** The task [send_noblock] creates without acknowledgement is at entry 0. *)
Lemma send_noblock_sending l tnow adst d alen l1 r id :
  send_noblock l tnow adst d alen false = Ok (l1, r, Some id) ->
  deviceInit (funcs l1) = true /\
  exists k t, tskhead l1 !! k = Some t /\ sending id tnow 0 t.
Proof.
  unfold send_noblock.
  destruct (negb (deviceInit (funcs l))) eqn:Einit; [intros H; inversion H|].
  apply negb_false_iff in Einit.
  destruct (negb (deviceSend (funcs l))); [intros H; inversion H|].
  destruct (alen >? max_payload_len l); [intros H; inversion H|].
  destruct ((alen =? 0) && _); [intros H; inversion H|].
  destruct (task_create l ST_SEND tnow) as [l2 [i|]] eqn:Ec; [|intros H; inversion H].
  apply task_create_Some in Ec. destruct Ec as (t0 & Ht0 & _ & _ & _ & ->).
  apply lookup_lt_Some in Ht0.
  destruct l, t0. unfold get_task, put_task. simpl in *.
  rewrite list_lookup_insert_eq by done. simpl.
  unfold sched_at. simpl. intros H. inv_ok.
  split; [done|].
  exists i; eexists; split;
    [simpl; rewrite list_lookup_insert_eq; [reflexivity | by rewrite length_insert]|].
  unfold sending. simpl. repeat split; try lia. by exists 0.
Qed.

(** X20. The blocking [send] without acknowledgement returns, once its task
    is created on an engine built and operated fewer than 65535 times: when
    the clock is at least 900 ms (and less than 2^31 ms) past the creation in
    four of the calls of [do_events] at hand, the wait ends with the task in
    ST_SEND_DONE and the call hands back 4 as the number of transmissions,
    one for each entry of the schedule. The only way it stops instead is the
    write outside the packet-id cache in [do_events]. *)
Theorem send_without_ack_returns
    (maxtask mdl : Z) (fs : RFLinkFunctions) (l0 l l1 : RFLink) (ops : list engine_op)
    (tcreate tfinal : Z) (ticks : list tick_t) (adst : Z) (d : option (list Z))
    (alen id : Z) :
  RFLink_new maxtask = Ok l0 -> funcs_ok fs ->
  run_ops (register_funcs l0 fs mdl) ops = Ok l ->
  Z.of_nat (length ops) + Z.of_nat (length ticks) < 65535 ->
  send_noblock l tcreate adst (if alen =? 0 then None else d) alen false
    = Ok (l1, ERR_TASK_CREATED_OK, Some id) ->
  (4 <= count_if (late tcreate) ticks)%nat ->
  post cache_overrun
    (fun res => exists l' r,
       res = Some (l', r, Some 4) /\ engine_wf l' /\
       task_get_status l' id = ST_SEND_DONE)
    (send l tcreate tfinal ticks adst d alen false).
Proof.
  intros Hnew Hfs Hrun Hlen Hsend Hlate.
  set (d' := if alen =? 0 then None else d) in *.
  set (op := Op_send_noblock tcreate adst d' alen false).
  assert (Hrun1 : run_ops (register_funcs l0 fs mdl) (ops ++ [op]) = Ok l1).
  { rewrite run_ops_app, Hrun. simpl. by rewrite Hsend. }
  assert (Hreach : engine_reachable l1).
  { eapply run_ops_reachable; [|exact Hrun1]. by eapply reachable_boot. }
  pose proof (engine_reachable_wf _ Hreach) as Hwf1.
  assert (Hids1 : ids_inv (Z.of_nat (length ops) + 1) l1).
  { replace (Z.of_nat (length ops) + 1) with (Z.of_nat (length (ops ++ [op])))
      by (rewrite length_app; simpl; lia).
    eapply run_ops_ids_inv; [exact Hnew | exact Hrun1 |]. rewrite length_app. simpl. lia. }
  destruct (send_noblock_sending _ _ _ _ _ _ _ _ Hsend) as (Hinit1 & k & t & Hk & Hs).
  unfold send. fold d'. rewrite Hsend. simpl.
  pose proof (wait_while_sending id tcreate k ticks (Z.of_nat (length ops) + 1) 0 l1 t
                Hwf1 Hinit1 Hids1 ltac:(lia) Hk Hs ltac:(lia) Hlate) as Hw.
  destruct (wait_while ST_SEND l1 id ticks) as [w|f]; simpl in *; [|done].
  destruct Hw as (l2 & rest & t2 & -> & Hwf2 & Hids2 & Hk2 & Hdone).
  pose proof Hdone as (Hid2 & Hst2 & Hna2 & Hew2 & Hns2).
  assert (Hlive2 : status t2 <> ST_NOTHING) by (rewrite Hst2; discriminate).
  pose proof (ids_inv_found _ _ _ _ Hids2 Hk2 Hlive2) as Hfound. rewrite Hid2 in Hfound.
  pose proof (send_get_final_status_wf l2 tfinal id Hwf2) as Hwf3.
  unfold send_get_final_status in *. rewrite Hfound in *.
  rewrite (get_task_lookup _ _ _ Hk2) in *. simpl in Hwf3 |- *.
  rewrite Hst2 in Hwf3 |- *. simpl in Hwf3 |- *.
  eexists _, _. split; [by rewrite Hns2|]. split; [done|].
  set (t3 := set_mtime_wakeup tfinal (set_evtsub_wakeup true t2)).
  assert (Hids3 : ids_inv (Z.of_nat (length ops) + 1 + Z.of_nat (length ticks))
                    (put_task k t3 l2)).
  { apply (ids_inv_insert _ l2 _ k t2 t3); try done.
    - apply tskhead_put_task.
    - apply last_taskid_put_task.
    - intros H. exfalso. apply Hlive2. by destruct t2.
    - intros _. split; [done | by destruct t2]. }
  assert (Hk3 : tskhead (put_task k t3 l2) !! k = Some t3).
  { rewrite tskhead_put_task. apply list_lookup_insert_eq. by apply lookup_lt_Some in Hk2. }
  assert (Hst3 : status t3 = ST_SEND_DONE) by (subst t3; by destruct t2).
  assert (Hid3 : taskid t3 = id) by (subst t3; by destruct t2).
  unfold task_get_status. rewrite <- Hid3.
  rewrite (ids_inv_found _ _ _ _ Hids3 Hk3) by (rewrite Hst3; discriminate).
  by rewrite Hk3.
Qed.

Lemma send_without_ack_returns_witness :
  post cache_overrun
    (fun res => exists l' r,
       res = Some (l', r, Some 4) /\ engine_wf l' /\
       task_get_status l' 1 = ST_SEND_DONE)
    (send (register_funcs ex_new all_funcs 61) 0 1000
       [quiet_tick 10; quiet_tick 900; quiet_tick 901; quiet_tick 950; quiet_tick 1000]
       94 (Some [72; 105]) 2 false).
Proof.
  eapply (send_without_ack_returns DEFAULT_MAX_TASK_COUNT 61 all_funcs ex_new
            (register_funcs ex_new all_funcs 61) _ [] 0 1000 _ 94 (Some [72; 105]) 2 1).
  - vm_compute. reflexivity.
  - apply all_funcs_ok.
  - reflexivity.
  - simpl. lia.
  - vm_compute. reflexivity.
  - vm_compute. lia.
Defined.
(** ** The blocking receive *)

(** What one call of [do_events] makes of the task in slot [k], from what the
    body of the task loop makes of it: the other tasks do not write the
    slot. *)
Lemma do_events_loop_at tk seen k (S Q : Task -> Prop) idxs :
  (forall t, Q t -> status t <> ST_NOTHING) ->
  (forall t, S t -> status t <> ST_NOTHING) ->
  (forall st t, tskhead (lk st) !! k = Some t -> S t ->
     post any_fault (fun st' => exists t', tskhead (lk st') !! k = Some t' /\ Q t')
       (do_events_task tk seen k st)) ->
  forall st t,
    NoDup idxs -> k ∈ idxs ->
    tskhead (lk st) !! k = Some t -> S t ->
    post any_fault (fun st' => exists t', tskhead (lk st') !! k = Some t' /\ Q t')
      (do_events_loop tk seen idxs st).
Proof.
  intros HQ HS Htask.
  induction idxs as [|i idxs IH]; intros st t Hnd Hin Hk Hs; [by apply elem_of_nil in Hin|].
  apply NoDup_cons in Hnd as [Hnotin Hnd]. simpl.
  destruct (decide (i = k)) as [->|Hne].
  - eapply post_bind; [by eapply Htask|].
    intros st1 (t1 & Hk1 & Hq1). simpl.
    eapply post_mono;
      [apply (do_events_loop_keeps tk seen k t1 idxs st1 Hnotin Hk1); by apply HQ | done |].
    intros st2 Hk2. by exists t1.
  - apply elem_of_cons in Hin as [->|Hin]; [done|].
    eapply post_bind;
      [apply (do_events_task_steps False (fun j => j <> k) tk seen i st Hne); intros []|].
    intros st1 (Hs1 & _ & _). simpl.
    apply (IH st1 t); try done.
    eapply pool_steps_keeps; [exact Hs1 | by intros H | exact Hk | by apply HS].
Qed.

Lemma do_events_at tk k (S Q : Task -> Prop) l t :
  (forall t, Q t -> status t <> ST_NOTHING) ->
  (forall t, S t -> status t <> ST_NOTHING) ->
  (forall seen st t, tskhead (lk st) !! k = Some t -> S t ->
     post any_fault (fun st' => exists t', tskhead (lk st') !! k = Some t' /\ Q t')
       (do_events_task tk seen k st)) ->
  deviceInit (funcs l) = true ->
  tskhead l !! k = Some t -> S t ->
  post any_fault (fun l' => exists t', tskhead l' !! k = Some t' /\ Q t') (do_events l tk).
Proof.
  intros HQ HS Htask Hinit Hk Hs. unfold do_events. rewrite Hinit. simpl.
  pose proof (HS _ Hs) as Hlive.
  pose proof (do_events_receive_env False (fun j => j <> k) l tk ltac:(intros [])) as H1.
  destruct (do_events_receive l tk) as [[l1 got]|f] eqn:E1; simpl in *; [|done].
  destruct H1 as [Hs1 _].
  pose proof (do_events_seen_env False (fun j => j <> k) l1 (now tk) got) as H2.
  destruct (do_events_seen l1 (now tk) got) as [[l2 seen]|f] eqn:E2; simpl in *; [|done].
  destruct H2 as [Hs2 _].
  assert (Hk2 : tskhead l2 !! k = Some t).
  { eapply pool_steps_keeps; [exact Hs2 | by intros H | | exact Hlive].
    eapply pool_steps_keeps; [exact Hs1 | by intros H | exact Hk | exact Hlive]. }
  unfold do_events_tasks.
  pose proof (do_events_loop_at tk seen k S Q (seq 0 (length (tskhead l2))) HQ HS
                (Htask seen) (mkLoop l2 got false) t (NoDup_seq _ _)) as H3.
  destruct (do_events_loop tk seen _ _) as [st|f]; simpl in *; [|done].
  destruct H3 as (t' & Hk' & Hq'); [| done | done |].
  { apply elem_of_seq. apply lookup_lt_Some in Hk2. lia. }
  exists t'. split; [|done].
  pose proof (do_events_finish_env False (fun j => j <> k) tk st) as Hs4.
  eapply pool_steps_keeps; [exact Hs4 | by intros H | exact Hk' | by apply HQ].
Qed.

(** The ids after one more call of [do_events]. *)
Lemma do_events_ids_inv n l tk :
  ids_inv n l -> n < 65535 ->
  post any_fault (fun l' => ids_inv (n + 1) l' /\ funcs l' = funcs l) (do_events l tk).
Proof.
  intros Hids Hn.
  pose proof (do_events_steps False l tk ltac:(intros [])) as H2.
  destruct (do_events l tk) as [l1|f]; simpl in *; [|done].
  split; [|by apply (pool_steps_funcs _ _ _ _ _ H2)].
  assert (Hgen : forall m la lb, pool_steps False (fun _ => True) m la lb ->
            forall q, ids_inv q la -> q + Z.of_nat m <= 65535 ->
            ids_inv (q + Z.of_nat m) lb).
  { induction 1 as [m la|m la l1' lb Hs Hr IH'|m la l1' lb Hs Hr IH']; intros q Hq Hb.
    - eapply ids_inv_mono; [|exact Hq]. lia.
    - apply IH'; [by eapply ids_inv_step | done].
    - replace (q + Z.of_nat (S m)) with ((q + 1) + Z.of_nat m) by lia.
      apply IH'; [|lia]. eapply ids_inv_spawn; [exact Hq | lia | exact Hs]. }
  apply (Hgen 1%nat l l1 H2 n Hids). lia.
Qed.

Lemma waiting_live id tcreate c t : waiting id tcreate c t -> status t <> ST_NOTHING.
Proof. intros (_ & -> & _). discriminate. Qed.

Lemma answered_live id t : answered id t -> status t <> ST_NOTHING.
Proof. intros (_ & [[-> _] | ->]); discriminate. Qed.

(** The body of the task loop on the waiting task: it takes a frame, or its
    time runs out, or it keeps waiting, which it does not when the deadline has
    passed. *)
Lemma do_events_task_waiting tk seen k st id tcreate c t :
  tskhead (lk st) !! k = Some t -> waiting id tcreate c t ->
  post any_fault
    (fun st' => exists t', tskhead (lk st') !! k = Some t' /\
       (waiting id tcreate c t' \/ answered id t') /\
       (due (wrap32 (tcreate + timeout c)) tk = true -> answered id t'))
    (do_events_task tk seen k st).
Proof.
  intros Hk (Hid & Hst & Her & Hew & Hpk & Hwk). destruct st as [l got rst]. simpl in *.
  pose proof (lookup_lt_Some _ _ _ Hk) as Hlt.
  unfold do_events_task. simpl.
  rewrite (get_task_lookup _ _ _ Hk). simpl. rewrite Her. simpl.
  destruct t as [tid tst [tpk] tref twk trc tnb tptr tpos tew ter tia tna tha tun t1 t2 tns].
  simpl in *. subst tid tst ter tew tpk twk.
  eapply (post_bind _
    (fun '(l1, r1, g1) =>
       (r1 = ST_RECEIVE /\ l1 = l) \/
       (r1 = ST_RECEIVE_DATA_AVAILABLE /\
        exists tx, tskhead l1 !! k = Some tx /\ taskid tx = id /\ status tx = ST_RECEIVE /\
                   evtsub_wakeup tx = true /\ pkt (pktkeeper tx) <> None))).
  { destruct got; simpl; [|by left].
    destruct (recpkt l) as [pk|]; [|done].
    unfold tev_received. rewrite (get_task_lookup _ _ _ Hk). simpl.
    destruct (deref_header pk) as [hb|]; simpl; [|done].
    destruct (negb _); simpl; [by left|].
    destruct (negb seen); simpl; [|by left].
    unfold copy_packet. simpl.
    destruct (get_pkt_ptr_ro pk) as [p|]; simpl; [|done].
    right. split; [done|]. eexists. split.
    - rewrite tskhead_put_task. by apply list_lookup_insert_eq.
    - done. }
  intros [[l1 r1] g1] [[-> ->] | (-> & tx & Hk1 & Hid1 & Hst1 & Hew1 & Hpk1)].
  - rewrite (get_task_lookup _ _ _ Hk). simpl.
    unfold due. destruct (signed32 (now tk - wrap32 (tcreate + timeout c)) >=? 0) eqn:Edue.
    + unfold tev_wakeup. rewrite (get_task_lookup _ _ _ Hk). simpl.
      rewrite (get_task_put_task _ _ _ _ Hk). simpl.
      eexists. split.
      { rewrite !tskhead_put_task. apply list_lookup_insert_eq. by rewrite length_insert. }
      assert (Ha : answered id
                (set_status ST_RECEIVE_TIMEDOUT
                   (mkTask id ST_RECEIVE (mkPktKeeper None) tref
                      (wrap32 (tref + DEFAULT_RECEIVE_TIMEOUT_DELAY)) trc tnb tptr tpos
                      true true tia tna tha tun t1 t2 tns))).
      { split; [done | by right]. }
      split; [by right | done].
    + simpl. rewrite (get_task_lookup _ _ _ Hk). simpl.
      eexists. split; [rewrite tskhead_put_task; by apply list_lookup_insert_eq|].
      split; [|done]. left. done.
  - rewrite (get_task_lookup _ _ _ Hk1). simpl.
    rewrite Hst1. simpl. rewrite andb_false_r. simpl.
    rewrite (get_task_lookup _ _ _ Hk1). simpl. rewrite Hew1. simpl.
    eexists. split.
    + rewrite tskhead_put_task. apply list_lookup_insert_eq. by apply lookup_lt_Some in Hk1.
    + assert (Ha : answered id (set_status ST_RECEIVE_DATA_AVAILABLE tx)).
      { split; [by destruct tx|]. left. split; by destruct tx. }
      split; [by right | done].
Qed.

Lemma do_events_waiting l tk k id tcreate c t :
  deviceInit (funcs l) = true ->
  tskhead l !! k = Some t -> waiting id tcreate c t ->
  post any_fault
    (fun l' => exists t', tskhead l' !! k = Some t' /\
       (waiting id tcreate c t' \/ answered id t') /\
       (due (wrap32 (tcreate + timeout c)) tk = true -> answered id t'))
    (do_events l tk).
Proof.
  intros Hinit Hk Hw.
  apply (do_events_at tk k (waiting id tcreate c)
           (fun t' => (waiting id tcreate c t' \/ answered id t') /\
                      (due (wrap32 (tcreate + timeout c)) tk = true -> answered id t'))
           l t); try done.
  - intros t' [[H|H] _]; [exact (waiting_live _ _ _ _ H) | exact (answered_live _ _ H)].
  - intros t' H. exact (waiting_live _ _ _ _ H).
  - intros seen st t0 Hk0 Hw0.
    exact (do_events_task_waiting tk seen k st id tcreate c t0 Hk0 Hw0).
Qed.

(** The wait of [receive]: it ends, with a call of [do_events] left, on the
    engine where the task has its answer. *)
Lemma wait_while_waiting id tcreate c k ticks :
  forall n l t,
    engine_wf l -> deviceInit (funcs l) = true ->
    ids_inv n l -> n + Z.of_nat (length ticks) <= 65535 ->
    tskhead l !! k = Some t ->
    (waiting id tcreate c t /\ due_then_more (wrap32 (tcreate + timeout c)) ticks)
    \/ (answered id t /\ ticks <> []) ->
    post cache_overrun
      (fun w => exists l' tkf rest t',
         w = Some (l', tkf :: rest) /\ engine_wf l' /\
         ids_inv (n + Z.of_nat (length ticks)) l' /\
         tskhead l' !! k = Some t' /\ answered id t')
      (wait_while ST_RECEIVE l id ticks).
Proof.
  induction ticks as [|tk rest IH]; intros n l t Hwf Hinit Hids Hn Hk Hcase;
    rewrite wait_while_eq.
  - destruct Hcase as [[_ (pre & tl & tkf & post & E & _)] | [_ Hne]]; [|done].
    by destruct pre.
  - assert (Hlive : status t <> ST_NOTHING).
    { destruct Hcase as [[H _]|[H _]];
        [exact (waiting_live _ _ _ _ H) | exact (answered_live _ _ H)]. }
    assert (Hid : taskid t = id).
    { by destruct Hcase as [[(H & _) _]|[(H & _) _]]. }
    assert (Est : task_get_status l id = status t).
    { unfold task_get_status. rewrite <- Hid.
      rewrite (ids_inv_found _ _ _ _ Hids Hk Hlive). by rewrite Hk. }
    rewrite Est.
    destruct Hcase as [[Hw Hdue] | [Ha _]].
    + pose proof Hw as (_ & Hst & _). rewrite Hst.
      replace (n + Z.of_nat (length (tk :: rest)))
        with ((n + 1) + Z.of_nat (length rest)) by (simpl length; lia).
      simpl length in Hn. simpl.
      pose proof (do_events_wf l tk Hwf) as H1.
      pose proof (do_events_ids_inv n l tk Hids ltac:(lia)) as H2.
      pose proof (do_events_waiting l tk k id tcreate c t Hinit Hk Hw) as H3.
      destruct (do_events l tk) as [l1|f]; simpl in *; [|done].
      destruct H2 as [Hids1 Hf1].
      destruct H3 as (t1 & Hk1 & Hor & Hdue1).
      apply (IH (n + 1) l1 t1); try done; [by rewrite Hf1 | lia |].
      destruct Hdue as (pre & tl & tkf & post & E & Htl).
      destruct pre as [|tk' pre]; simpl in E; inversion E; subst.
      * right. split; [by apply Hdue1 | done].
      * destruct Hor as [Hw1|Ha1].
        -- left. split; [done|]. by exists pre, tl, tkf, post.
        -- right. split; [done|]. by destruct pre.
    + assert (Hne : (status t =? ST_RECEIVE) = false).
      { destruct Ha as (_ & [[-> _] | ->]); reflexivity. }
      rewrite Hne. simpl.
      exists l, tk, rest, t. split; [done|]. split; [done|]. split; [|done].
      eapply ids_inv_mono; [|exact Hids]. lia.
Qed.

(** The task [receive_noblock] creates with a timeout. *)
Lemma receive_noblock_waiting l tnow c l1 r id :
  engine_wf l ->
  def_timeout c = true ->
  receive_noblock l tnow (Some c) = Ok (l1, r, Some id) ->
  deviceInit (funcs l1) = true /\
  exists k t, tskhead l1 !! k = Some t /\ waiting id tnow c t.
Proof.
  intros Hwf Hc. unfold receive_noblock.
  destruct (negb (deviceInit (funcs l))) eqn:Einit; [intros H; inversion H|].
  apply negb_false_iff in Einit.
  destruct (negb (deviceReceive (funcs l))); [intros H; inversion H|].
  destruct (task_create l ST_RECEIVE tnow) as [l2 [i|]] eqn:Ec; [|intros H; inversion H].
  pose proof Ec as Ec'.
  apply task_create_Some in Ec'. destruct Ec' as (t0 & Ht0 & Hs0 & _ & _ & El2).
  rewrite (get_task_created _ _ _ _ _ _ Ec Ht0). simpl. rewrite Hc.
  intros H. inversion H; subst l1 r id. clear H.
  pose proof (free_slot_no_packet _ _ (proj1 Hwf i t0 Ht0) Hs0) as Hpk.
  split; [subst l2; by destruct l|].
  eexists i, _. split.
  - rewrite tskhead_put_task. apply list_lookup_insert_eq.
    apply lookup_lt_Some in Ht0. subst l2. destruct l. simpl in *. by rewrite length_insert.
  - destruct t0 as [tid tst [tpk] tref twk trc tnb tptr tpos tew ter tia tna tha tun t1 t2 tns].
    simpl in *. subst tpk. unfold waiting. simpl. repeat split.
Qed.

(** The retrieval on the task that has its answer. *)
Lemma data_retrieve_answered l tnow k id t buf_len ws :
  engine_wf l -> tskhead l !! k = Some t -> answered id t ->
  exists l' r out,
    data_retrieve l tnow (Some k) buf_len ws = Ok (l', r, out) /\ engine_wf l' /\
    ((r = ST_RECEIVE_DATA_RETRIEVED /\
      exists n bytes, rec_data out = Some (n, bytes) /\ n <= buf_len /\
                      (length bytes <= Z.to_nat n)%nat)
     \/ (r = ST_RECEIVE_TIMEDOUT /\ out = mkRetrieved None None)).
Proof.
  intros Hwf Hk (Hid & Hcase).
  pose proof (data_retrieve_wf l tnow (Some k) buf_len ws Hwf) as H.
  assert (Hin : forall i, Some k = Some i -> is_Some (tskhead l !! i)).
  { intros i Hi. inversion Hi; subst i. by exists t. }
  specialize (H Hin). clear Hin.
  unfold data_retrieve in *. rewrite (get_task_lookup _ _ _ Hk) in *. simpl in *.
  destruct Hcase as [[Hst Hpk] | Hst]; rewrite Hst in *; simpl in *.
  - destruct (pkt (pktkeeper t)) as [p|] eqn:Ep; [|done].
    unfold deref_header, get_header_ptr, data_retrieved_post, reduce_packet_to_its_header,
      copy_data in *. rewrite Ep in *. simpl in *.
    destruct ws; simpl in *;
      match goal with
      | H : post _ _ (rbind (send_ack ?la ?ta ?ka) _) |- _ =>
          destruct (send_ack la ta ka) as [l'|f]; simpl in *; [|done]
      end;
      (eexists _, _, _; split; [reflexivity|]; split; [done|]; left; split; [by destruct t|];
       simpl; eexists _, _; split; [reflexivity|]; split;
       [destruct (len (header p) >? buf_len) eqn:E; [lia|];
        rewrite Z.gtb_ltb in E; apply Z.ltb_ge in E; lia
       | rewrite length_take; lia]).
  - eexists _, _, _. split; [reflexivity|]. split; [done|]. right. by split.
Qed.

(** X21. The blocking [receive] with a timeout returns, once its task is
    created on an engine built and operated fewer than 65535 times: when the
    deadline has passed in one of the calls of [do_events] at hand and one
    more call follows, the answer is ERR_OK with at most [buf_len] bytes, or
    ERR_TIMEOUT with nothing handed out. The only way it stops instead is the
    write outside the packet-id cache in [do_events]. *)
Theorem receive_with_timeout_returns
    (maxtask mdl : Z) (fs : RFLinkFunctions) (l0 l l1 : RFLink) (ops : list engine_op)
    (tcreate tretr : Z) (ticks : list tick_t) (buf_len : Z) (want_sender : bool)
    (c : RXConfig) (id : Z) :
  RFLink_new maxtask = Ok l0 -> funcs_ok fs ->
  run_ops (register_funcs l0 fs mdl) ops = Ok l ->
  Z.of_nat (length ops) + Z.of_nat (length ticks) < 65535 ->
  def_timeout c = true ->
  receive_noblock l tcreate (Some c) = Ok (l1, ERR_TASK_CREATED_OK, Some id) ->
  due_then_more (wrap32 (tcreate + timeout c)) ticks ->
  post cache_overrun
    (fun res => exists l' r out,
       res = Some (l', r, out) /\ engine_wf l' /\
       ((r = ERR_OK /\
         exists n bytes, rec_data out = Some (n, bytes) /\ n <= buf_len /\
                         (length bytes <= Z.to_nat n)%nat)
        \/ (r = ERR_TIMEOUT /\ out = mkRetrieved None None)))
    (receive l tcreate tretr ticks buf_len want_sender (Some c)).
Proof.
  intros Hnew Hfs Hrun Hlen Hc Hrecv Hdue.
  set (op := Op_receive_noblock tcreate (Some c)).
  assert (Hrun1 : run_ops (register_funcs l0 fs mdl) (ops ++ [op]) = Ok l1).
  { rewrite run_ops_app, Hrun. simpl. by rewrite Hrecv. }
  assert (Hreach0 : engine_reachable l).
  { eapply run_ops_reachable; [|exact Hrun]. by eapply reachable_boot. }
  assert (Hreach : engine_reachable l1).
  { eapply run_ops_reachable; [|exact Hrun1]. by eapply reachable_boot. }
  pose proof (engine_reachable_wf _ Hreach) as Hwf1.
  assert (Hids1 : ids_inv (Z.of_nat (length ops) + 1) l1).
  { replace (Z.of_nat (length ops) + 1) with (Z.of_nat (length (ops ++ [op])))
      by (rewrite length_app; simpl; lia).
    eapply run_ops_ids_inv; [exact Hnew | exact Hrun1 |]. rewrite length_app. simpl. lia. }
  destruct (receive_noblock_waiting _ _ _ _ _ _ (engine_reachable_wf _ Hreach0) Hc Hrecv)
    as (Hinit1 & k & t & Hk & Hw).
  unfold receive. rewrite Hrecv. simpl.
  destruct ticks as [|tk0 ticks1].
  { destruct Hdue as (pre & tl & tkf & post & E & _). by destruct pre. }
  simpl length in Hlen.
  pose proof (do_events_wf l1 tk0 Hwf1) as H1.
  pose proof (do_events_ids_inv _ l1 tk0 Hids1 ltac:(lia)) as H2.
  pose proof (do_events_waiting l1 tk0 k id tcreate c t Hinit1 Hk Hw) as H3.
  destruct (do_events l1 tk0) as [l2|f]; simpl in *; [|done].
  destruct H2 as [Hids2 Hf2]. destruct H3 as (t2 & Hk2 & Hor & Hdue2).
  assert (Hcase : (waiting id tcreate c t2
                   /\ due_then_more (wrap32 (tcreate + timeout c)) ticks1)
                  \/ (answered id t2 /\ ticks1 <> [])).
  { destruct Hdue as (pre & tl & tkf & post & E & Htl).
    destruct pre as [|tk' pre]; simpl in E; inversion E; subst.
    - right. split; [by apply Hdue2 | done].
    - destruct Hor as [Hw2|Ha2].
      + left. split; [done|]. by exists pre, tl, tkf, post.
      + right. split; [done|]. by destruct pre. }
  pose proof (wait_while_waiting id tcreate c k ticks1 (Z.of_nat (length ops) + 1 + 1) l2 t2
                H1 ltac:(by rewrite Hf2) Hids2 ltac:(lia) Hk2 Hcase) as Hwait.
  destruct (wait_while ST_RECEIVE l2 id ticks1) as [w|f]; simpl in *; [|done].
  destruct Hwait as (l3 & tkf & rest & t3 & -> & Hwf3 & Hids3 & Hk3 & Ha3).
  unfold receive_finish.
  pose proof (answered_live _ _ Ha3) as Hlive3.
  pose proof (ids_inv_found _ _ _ _ Hids3 Hk3 Hlive3) as Hfound.
  rewrite (proj1 Ha3) in Hfound. rewrite Hfound.
  destruct (data_retrieve_answered l3 tretr k id t3 buf_len want_sender Hwf3 Hk3 Ha3)
    as (l4 & r & out & -> & Hwf4 & Hr).
  simpl.
  pose proof (do_events_wf l4 tkf Hwf4) as H5.
  destruct (do_events l4 tkf) as [l5|f]; simpl in *; [|done].
  destruct Hr as [[-> Hout] | [-> ->]]; simpl.
  - exists l5, ERR_OK, out. split; [done|]. split; [done|]. by left.
  - exists l5, ERR_TIMEOUT, (mkRetrieved None None). split; [done|]. split; [done|]. by right.
Qed.

Lemma receive_with_timeout_returns_witness :
  post cache_overrun
    (fun res => exists l' r out,
       res = Some (l', r, out) /\ engine_wf l' /\
       ((r = ERR_OK /\
         exists n bytes, rec_data out = Some (n, bytes) /\ n <= 10 /\
                         (length bytes <= Z.to_nat n)%nat)
        \/ (r = ERR_TIMEOUT /\ out = mkRetrieved None None)))
    (receive (register_funcs ex_new all_funcs 61) 0 600
       [quiet_tick 1; quiet_tick 500; quiet_tick 501] 10 true
       (Some (mkRXConfig false true false 0 500))).
Proof.
  eapply (receive_with_timeout_returns DEFAULT_MAX_TASK_COUNT 61 all_funcs ex_new
            (register_funcs ex_new all_funcs 61) _ [] 0 600 _ 10 true
            (mkRXConfig false true false 0 500) 1).
  - vm_compute. reflexivity.
  - apply all_funcs_ok.
  - reflexivity.
  - simpl. lia.
  - reflexivity.
  - vm_compute. reflexivity.
  - exists [quiet_tick 1], (quiet_tick 500), (quiet_tick 501), []. split; reflexivity.
Defined.
(** ** The blocking send with acknowledgement *)

Lemma sending_ack_cases id tcreate p t :
  sending_ack id tcreate p t ->
  (p = 0 \/ p = 1 \/ p = 2 \/ p = 3 \/ p = 4) /\
  exists off, 0 <= off <= 900 /\ mtime_wakeup t = wrap32 (tcreate + off).
Proof.
  intros (_ & _ & _ & _ & _ & _ & _ & _ & _ & _ & _ & Hp & off & Hoff & Hwk).
  assert (Hc : p = 0 \/ p = 1 \/ p = 2 \/ p = 3 \/ p = 4 \/ 5 <= p) by lia.
  destruct Hc as [->|[->|[->|[->|[->|Hc]]]]]; simpl in Hoff;
    try (inversion Hoff; subst off; split; [tauto|]; eexists; split; [|exact Hwk]; lia).
  exfalso. apply lookup_lt_Some in Hoff. simpl in Hoff. lia.
Qed.

Lemma sending_ack_live id tcreate p t : sending_ack id tcreate p t -> status t <> ST_NOTHING.
Proof. intros (_ & -> & _). discriminate. Qed.

Lemma done_ack_live id t : done_ack id t -> status t <> ST_NOTHING.
Proof. intros (_ & -> & _). discriminate. Qed.

Lemma sent_to_ack_live id tcreate p t : sent_to_ack id tcreate p t -> status t <> ST_NOTHING.
Proof.
  unfold sent_to_ack. destruct (p <? snd_expack_sched_len);
    [apply sending_ack_live | apply done_ack_live].
Qed.

Lemma sent_to_ack_taskid id tcreate p t : sent_to_ack id tcreate p t -> taskid t = id.
Proof. unfold sent_to_ack. destruct (p <? snd_expack_sched_len); by intros (-> & _). Qed.

Lemma sent_to_ack_done id tcreate p t :
  snd_expack_sched_len <= p -> done_ack id t -> sent_to_ack id tcreate p t.
Proof.
  intros Hp Hd. unfold sent_to_ack.
  assert (E : (p <? snd_expack_sched_len) = false) by (apply Z.ltb_ge; lia).
  by rewrite E.
Qed.

(** The wake-up of the task at entry [p]. *)
Lemma tev_wakeup_sending_ack l tnow rc k id tcreate p t :
  tskhead l !! k = Some t -> sending_ack id tcreate p t ->
  post any_fault
    (fun '(l', r) =>
       r <> ST_FINISHED /\
       exists t', tskhead l' !! k = Some t' /\
                  sent_to_ack id tcreate (p + 1) (set_status r t'))
    (tev_wakeup l tnow rc k).
Proof.
  intros Hk Hs. destruct (sending_ack_cases _ _ _ _ Hs) as [Hp _].
  pose proof (lookup_lt_Some _ _ _ Hk) as Hlt.
  unfold tev_wakeup. rewrite (get_task_lookup _ _ _ Hk). simpl.
  destruct Hs as (Hid & Hst & Hna & Hha & Hew & Her & Hptr & Hnb & Hpos & Hns & Href & _ & _).
  destruct t as [tid tst tpk tref twk trc tnb tptr tpos tew ter tia tna tha tun t1 t2 tns].
  simpl in *. subst tid tst tna tha tew ter tptr tnb tref tns.
  unfold call. simpl.
  unfold sent_to_ack, sending_ack, done_ack, snd_expack_sched_len, sched_at.
  subst tpos. destruct Hp as [-> | [-> | [-> | [-> | ->]]]]; simpl;
    try (destruct (deviceSend (funcs l)); simpl; [|done]);
    rewrite ?(wrap8_small 1), ?(wrap8_small 2), ?(wrap8_small 3), ?(wrap8_small 4),
      ?(wrap8_small 5) by lia;
    simpl;
    try (split; [discriminate|]; eexists; split;
         [rewrite tskhead_put_task, ?tskhead_log; by apply list_lookup_insert_eq|];
         simpl; repeat split; try lia; eexists; split; reflexivity).
  destruct tun; simpl;
    (split; [discriminate|]; eexists; split;
     [rewrite tskhead_put_task; by apply list_lookup_insert_eq|];
     simpl; repeat split; lia).
Qed.

(** The body of the task loop on the sending task. *)
Lemma do_events_task_sending_ack tk seen k st id tcreate p t :
  tskhead (lk st) !! k = Some t -> sending_ack id tcreate p t ->
  post any_fault
    (fun st' => exists t', tskhead (lk st') !! k = Some t' /\ pumped_ack id tcreate p tk t')
    (do_events_task tk seen k st).
Proof.
  intros Hk Hs. destruct st as [l got rst]. simpl in *.
  pose proof (lookup_lt_Some _ _ _ Hk) as Hlt.
  destruct (sending_ack_cases _ _ _ _ Hs) as [Hpc (off & Hoff & Hwk)].
  unfold do_events_task. simpl.
  rewrite (get_task_lookup _ _ _ Hk). simpl.
  pose proof Hs as (Hid & Hst & Hna & Hha & Hew & Her & _ & _ & _ & Hns & _).
  rewrite Her. simpl.
  eapply (post_bind _
    (fun '(l1, r1, g1) =>
       (r1 = ST_SEND /\ l1 = l) \/
       (r1 = ST_SEND_DONE /\
        exists tx, tskhead l1 !! k = Some tx /\ taskid tx = id /\ status tx = ST_SEND /\
                   need_ack tx = true /\ has_received_ack tx = true /\
                   evtsub_wakeup tx = true /\ nbsend tx = p))).
  { destruct got; simpl; [|left; by rewrite Hst].
    destruct (recpkt l) as [pk|]; [|done].
    unfold tev_received. rewrite (get_task_lookup _ _ _ Hk). simpl.
    destruct (deref_header pk) as [hb|]; simpl; [|done].
    rewrite Hst, Hna, Hha. simpl.
    destruct (negb _); simpl; [|by left].
    destruct (deref_header (pktkeeper t)) as [th|]; simpl; [|done].
    destruct (pktid th =? pktid hb); simpl; [|by left].
    destruct (reduce_packet_to_its_header _) as [pk'|]; simpl; [|done].
    right. split; [done|]. eexists. split.
    - rewrite tskhead_put_task. by apply list_lookup_insert_eq.
    - by destruct t. }
  intros [[l1 r1] g1] [[-> ->] | (-> & tx & Hk1 & Hid1 & Hst1 & Hna1 & Hha1 & Hew1 & Hns1)].
  - rewrite (get_task_lookup _ _ _ Hk). simpl. rewrite Hew, Hst. simpl.
    destruct (signed32 (now tk - mtime_wakeup t) >=? 0) eqn:Edue.
    + pose proof (tev_wakeup_sending_ack l (now tk) (send_rc tk) k id tcreate p t Hk Hs)
        as Hw.
      destruct (tev_wakeup l (now tk) (send_rc tk) k) as [[l2 r]|f]; simpl in *; [|done].
      destruct Hw as (Hr & t' & Hk' & Hto).
      rewrite (get_task_lookup _ _ _ Hk'). simpl.
      destruct (assert _ _); simpl; [|done].
      apply Z.eqb_neq in Hr. rewrite Hr. simpl.
      exists (set_status r t'). split.
      * rewrite tskhead_put_task. apply list_lookup_insert_eq. by apply lookup_lt_Some in Hk'.
      * exists (p + 1). split; [lia|]. split; [intros; lia | done].
    + simpl. rewrite (get_task_lookup _ _ _ Hk). simpl.
      destruct (assert _ _); simpl; [|done].
      exists t. split.
      * rewrite tskhead_put_task, <- Hst, set_status_id. by apply list_lookup_insert_eq.
      * exists p. split; [lia|]. split.
        -- intros Hlate.
           rewrite Hwk, (late_due tcreate tk off Hlate Hoff) in Edue. discriminate.
        -- unfold sent_to_ack.
           assert (E : (p <? snd_expack_sched_len) = true).
           { apply Z.ltb_lt. unfold snd_expack_sched_len. simpl. lia. }
           by rewrite E.
  - rewrite (get_task_lookup _ _ _ Hk1). simpl.
    rewrite Hst1. simpl. rewrite andb_false_r. simpl.
    rewrite (get_task_lookup _ _ _ Hk1). simpl. rewrite Hew1. simpl.
    eexists. split.
    + rewrite tskhead_put_task. apply list_lookup_insert_eq. by apply lookup_lt_Some in Hk1.
    + exists (Z.max (p + 1) snd_expack_sched_len). split; [lia|]. split; [intros; lia|].
      apply sent_to_ack_done; [lia|].
      unfold done_ack. destruct tx. simpl in *. subst.
      repeat split; try done; try lia.
Qed.

Lemma pumped_ack_live id tcreate p tk t : pumped_ack id tcreate p tk t -> status t <> ST_NOTHING.
Proof. intros (q & _ & _ & H). exact (sent_to_ack_live _ _ _ _ H). Qed.

Lemma do_events_sending_ack l tk k id tcreate p t :
  deviceInit (funcs l) = true ->
  tskhead l !! k = Some t -> sending_ack id tcreate p t ->
  post any_fault
    (fun l' => exists t', tskhead l' !! k = Some t' /\ pumped_ack id tcreate p tk t')
    (do_events l tk).
Proof.
  intros Hinit Hk Hs.
  apply (do_events_at tk k (sending_ack id tcreate p) (pumped_ack id tcreate p tk) l t);
    try done.
  - intros t' H. exact (pumped_ack_live _ _ _ _ _ H).
  - intros t' H. exact (sending_ack_live _ _ _ _ H).
  - intros seen st t0 Hk0 Hs0.
    exact (do_events_task_sending_ack tk seen k st id tcreate p t0 Hk0 Hs0).
Qed.

(** The wait of [send]: it ends, on the engine where the task is over, once
    the clock was late enough in as many calls of [do_events] as there are
    entries left. *)
Lemma wait_while_sending_ack id tcreate k ticks :
  forall n p l t,
    engine_wf l -> deviceInit (funcs l) = true ->
    ids_inv n l -> n + Z.of_nat (length ticks) <= 65535 ->
    tskhead l !! k = Some t -> sent_to_ack id tcreate p t -> 0 <= p ->
    (Z.to_nat (snd_expack_sched_len - p) <= count_if (late tcreate) ticks)%nat ->
    post cache_overrun
      (fun w => exists l' rest t',
         w = Some (l', rest) /\ engine_wf l' /\
         ids_inv (n + Z.of_nat (length ticks)) l' /\
         tskhead l' !! k = Some t' /\ done_ack id t')
      (wait_while ST_SEND l id ticks).
Proof.
  induction ticks as [|tk rest IH]; intros n p l t Hwf Hinit Hids Hn Hk Hto Hp Hcnt;
    rewrite wait_while_eq.
  - assert (Est : task_get_status l id = status t).
    { unfold task_get_status. rewrite <- (sent_to_ack_taskid _ _ _ _ Hto).
      rewrite (ids_inv_found _ _ _ _ Hids Hk) by (by eapply sent_to_ack_live). by rewrite Hk. }
    rewrite Est. unfold sent_to_ack in Hto.
    destruct (p <? snd_expack_sched_len) eqn:Ep.
    + apply Z.ltb_lt in Ep. simpl in Hcnt. unfold snd_expack_sched_len in *. simpl in *. lia.
    + pose proof Hto as (_ & Hst & _). rewrite Hst. simpl.
      exists l, [], t. split; [done|]. split; [done|]. split; [|done].
      eapply ids_inv_mono; [|exact Hids]. lia.
  - assert (Est : task_get_status l id = status t).
    { unfold task_get_status. rewrite <- (sent_to_ack_taskid _ _ _ _ Hto).
      rewrite (ids_inv_found _ _ _ _ Hids Hk) by (by eapply sent_to_ack_live). by rewrite Hk. }
    rewrite Est. unfold sent_to_ack in Hto.
    destruct (p <? snd_expack_sched_len) eqn:Ep.
    + pose proof Hto as (_ & Hst & _). rewrite Hst.
      replace (n + Z.of_nat (length (tk :: rest)))
        with ((n + 1) + Z.of_nat (length rest)) by (simpl length; lia).
      simpl length in Hn. simpl.
      pose proof (do_events_wf l tk Hwf) as H1.
      pose proof (do_events_ids_inv n l tk Hids ltac:(lia)) as H2.
      pose proof (do_events_sending_ack l tk k id tcreate p t Hinit Hk Hto) as H3.
      destruct (do_events l tk) as [l1|f]; simpl in *; [|done].
      destruct H2 as [Hids1 Hf1].
      destruct H3 as (t1 & Hk1 & q & Hq & Hlate & Hto1).
      apply (IH (n + 1) q l1 t1); try done; try lia; [by rewrite Hf1|].
      destruct (late tcreate tk); [specialize (Hlate eq_refl)|]; lia.
    + pose proof Hto as (_ & Hst & _). rewrite Hst. simpl.
      exists l, (tk :: rest), t. split; [done|]. split; [done|]. split; [|done].
      eapply ids_inv_mono; [|exact Hids]. lia.
Qed.

(** The task [send_noblock] creates with [ack] is at entry 0. *)
Lemma send_noblock_sending_ack l tnow adst d alen l1 r id :
  send_noblock l tnow adst d alen true = Ok (l1, r, Some id) ->
  deviceInit (funcs l1) = true /\
  exists k t, tskhead l1 !! k = Some t /\ sending_ack id tnow 0 t.
Proof.
  unfold send_noblock.
  destruct (negb (deviceInit (funcs l))) eqn:Einit; [intros H; inversion H|].
  apply negb_false_iff in Einit.
  destruct (negb (deviceSend (funcs l))); [intros H; inversion H|].
  destruct (alen >? max_payload_len l); [intros H; inversion H|].
  destruct ((alen =? 0) && _); [intros H; inversion H|].
  destruct (task_create l ST_SEND tnow) as [l2 [i|]] eqn:Ec; [|intros H; inversion H].
  apply task_create_Some in Ec. destruct Ec as (t0 & Ht0 & _ & _ & _ & ->).
  apply lookup_lt_Some in Ht0.
  destruct l, t0. unfold get_task, put_task. simpl in *.
  rewrite list_lookup_insert_eq by done. simpl.
  unfold sched_at. simpl. intros H. inv_ok.
  split; [done|].
  exists i; eexists; split;
    [simpl; rewrite list_lookup_insert_eq; [reflexivity | by rewrite length_insert]|].
  unfold sending_ack. simpl. repeat split; try lia. by exists 0.
Qed.

(** X22. The blocking [send] with acknowledgement returns, once its task is
    created on an engine built and operated fewer than 65535 times: when the
    clock is at least 900 ms (and less than 2^31 ms) past the creation in five
    of the calls of [do_events] at hand, the answer is ERR_OK or
    ERR_SEND_NO_ACK_RCVD, with at most 4 transmissions counted, and exactly 4
    when the answer is ERR_SEND_NO_ACK_RCVD. The only way it stops instead is
    the write outside the packet-id cache in [do_events]. *)
Theorem send_with_ack_returns
    (maxtask mdl : Z) (fs : RFLinkFunctions) (l0 l l1 : RFLink) (ops : list engine_op)
    (tcreate tfinal : Z) (ticks : list tick_t) (adst : Z) (d : option (list Z))
    (alen id : Z) :
  RFLink_new maxtask = Ok l0 -> funcs_ok fs ->
  run_ops (register_funcs l0 fs mdl) ops = Ok l ->
  Z.of_nat (length ops) + Z.of_nat (length ticks) < 65535 ->
  send_noblock l tcreate adst (if alen =? 0 then None else d) alen true
    = Ok (l1, ERR_TASK_CREATED_OK, Some id) ->
  (5 <= count_if (late tcreate) ticks)%nat ->
  post cache_overrun
    (fun res => exists l' r n,
       res = Some (l', r, Some n) /\ engine_wf l' /\ 0 <= n <= 4 /\
       (r = ERR_OK \/ (r = ERR_SEND_NO_ACK_RCVD /\ n = 4)))
    (send l tcreate tfinal ticks adst d alen true).
Proof.
  intros Hnew Hfs Hrun Hlen Hsend Hlate.
  set (d' := if alen =? 0 then None else d) in *.
  set (op := Op_send_noblock tcreate adst d' alen true).
  assert (Hrun1 : run_ops (register_funcs l0 fs mdl) (ops ++ [op]) = Ok l1).
  { rewrite run_ops_app, Hrun. simpl. by rewrite Hsend. }
  assert (Hreach : engine_reachable l1).
  { eapply run_ops_reachable; [|exact Hrun1]. by eapply reachable_boot. }
  pose proof (engine_reachable_wf _ Hreach) as Hwf1.
  assert (Hids1 : ids_inv (Z.of_nat (length ops) + 1) l1).
  { replace (Z.of_nat (length ops) + 1) with (Z.of_nat (length (ops ++ [op])))
      by (rewrite length_app; simpl; lia).
    eapply run_ops_ids_inv; [exact Hnew | exact Hrun1 |]. rewrite length_app. simpl. lia. }
  destruct (send_noblock_sending_ack _ _ _ _ _ _ _ _ Hsend) as (Hinit1 & k & t & Hk & Hs).
  unfold send. fold d'. rewrite Hsend. simpl.
  pose proof (wait_while_sending_ack id tcreate k ticks (Z.of_nat (length ops) + 1) 0 l1 t
                Hwf1 Hinit1 Hids1 ltac:(lia) Hk Hs ltac:(lia) Hlate) as Hw.
  destruct (wait_while ST_SEND l1 id ticks) as [w|f]; simpl in *; [|done].
  destruct Hw as (l2 & rest & t2 & -> & Hwf2 & Hids2 & Hk2 & Hdone).
  pose proof Hdone as (Hid2 & Hst2 & Hna2 & Hew2 & Hns2 & Hnoack).
  pose proof (done_ack_live _ _ Hdone) as Hlive2.
  pose proof (ids_inv_found _ _ _ _ Hids2 Hk2 Hlive2) as Hfound. rewrite Hid2 in Hfound.
  pose proof (send_get_final_status_wf l2 tfinal id Hwf2) as Hwf3.
  unfold send_get_final_status in *. rewrite Hfound in *.
  rewrite (get_task_lookup _ _ _ Hk2) in *. simpl in Hwf3 |- *.
  rewrite Hst2 in Hwf3 |- *. simpl in Hwf3 |- *.
  eexists _, _, _. split; [reflexivity|]. split; [done|]. split; [done|].
  rewrite Hna2. simpl. destruct (has_received_ack t2); [by left | right].
  split; [done | by apply Hnoack].
Qed.

Lemma send_with_ack_returns_witness :
  post cache_overrun
    (fun res => exists l' r n,
       res = Some (l', r, Some n) /\ engine_wf l' /\ 0 <= n <= 4 /\
       (r = ERR_OK \/ (r = ERR_SEND_NO_ACK_RCVD /\ n = 4)))
    (send (register_funcs ex_new all_funcs 61) 0 1000
       [quiet_tick 10; quiet_tick 900; quiet_tick 901; quiet_tick 950; quiet_tick 960;
        quiet_tick 1000]
       94 (Some [72; 105]) 2 true).
Proof.
  eapply (send_with_ack_returns DEFAULT_MAX_TASK_COUNT 61 all_funcs ex_new
            (register_funcs ex_new all_funcs 61) _ [] 0 1000 _ 94 (Some [72; 105]) 2 1).
  - vm_compute. reflexivity.
  - apply all_funcs_ok.
  - reflexivity.
  - simpl. lia.
  - vm_compute. reflexivity.
  - vm_compute. lia.
Defined.
(** ** A frame from one station to another *)

Lemma recpkt_ok_boot maxtask fs mdl l0 :
  RFLink_new maxtask = Ok l0 -> recpkt_ok (register_funcs l0 fs mdl).
Proof.
  unfold RFLink_new. destruct (_ || _); [done|]. intros H. inversion H; subst l0. clear H.
  unfold register_funcs, initialize_recpkt_if_necessary, log, recpkt_ok.
  destruct (negb _); simpl; intros pk Hpk; [done|]. by inversion Hpk.
Qed.

Lemma engine_reachable_recpkt_ok l : engine_reachable l -> recpkt_ok l.
Proof.
  apply reachable_invariant.
  - intros. by eapply recpkt_ok_boot.
  - intros l1 l2 Hok Hs.
    exact (pool_steps_recpkt_ok _ _ 0 l1 l2 (pool_steps_one _ _ _ _ _ Hs) Hok).
  - intros l1 l2 Hok Hs.
    exact (pool_steps_recpkt_ok False (fun _ => True) 1 l1 l2
             (pool_steps_one_spawn _ _ _ _ _ Hs) Hok).
Qed.

(** The drain of a valid frame when a task listens: the frame is in the
    receive buffer. *)
Lemma do_events_receive_gets l tk l2 got :
  engine_wf l -> recpkt_ok l ->
  existsb evtsub_pktrcvd (tskhead l) = true -> deviceReceive (funcs l) = true ->
  irq tk = true -> frame_valid l tk = true ->
  do_events_receive l tk = Ok (l2, got) ->
  got = true /\ recpkt l2 = Some (mkPktKeeper (Some (rx_pkt tk))).
Proof.
  intros (_ & [Hf1 Hf2] & _) Hok Hex Hrecv Hirq Hval.
  specialize (Hf1 Hrecv). specialize (Hf2 Hf1).
  unfold do_events_receive, do_events_drain, interrupts_on, interrupts_off, call,
    initialize_recpkt_if_necessary, frame_valid, get_max_payload_len, log in *.
  rewrite Hex, Hrecv, Hirq.
  destruct l as [a1 a2 a3 a4 a5 a6 a7 a8 a9 a10 a11 a12 a13 a14 a15 lts lf a18 alog].
  unfold recpkt_ok in Hok. simpl in *. rewrite ?Hf1, ?Hf2.
  assert (Hpk : forall pk, a12 = Some pk -> exists p, pkt pk = Some p).
  { intros pk Hpk. specialize (Hok pk Hpk). destruct (pkt pk) as [p|]; [by exists p | done]. }
  destruct a2; simpl; rewrite ?orb_true_r; simpl; rewrite ?Hf1, ?Hf2; simpl;
    (destruct a12 as [pk|]; simpl;
     [destruct (Hpk pk eq_refl) as [p Hp]; rewrite Hp; simpl | ];
     rewrite ?Hf1; simpl; rewrite Hval; intros H; inversion H; subst; done).
Qed.

(** The body of the task loop on a free slot does nothing. *)
Lemma do_events_task_free tk seen j st t :
  tskhead (lk st) !! j = Some t ->
  status t = ST_NOTHING -> evtsub_wakeup t = false -> evtsub_pktrcvd t = false ->
  do_events_task tk seen j st = Ok st.
Proof.
  intros Hj Hs Hw Hr. destruct st as [l got rst]. simpl in *.
  unfold do_events_task. simpl.
  rewrite (get_task_lookup _ _ _ Hj). simpl. rewrite Hr. simpl.
  rewrite (get_task_lookup _ _ _ Hj). simpl. rewrite Hw. simpl.
  rewrite (get_task_lookup _ _ _ Hj). simpl. rewrite Hs. simpl.
  rewrite <- Hs, set_status_same, (put_task_same _ _ _ Hj). reflexivity.
Qed.

(** The task loop on a pool with one task in use: what its body makes of that
    task. *)
Lemma do_events_loop_single tk seen k idxs :
  forall st st',
    NoDup idxs -> k ∈ idxs ->
    (forall j, j <> k -> j ∈ idxs ->
       exists t, tskhead (lk st) !! j = Some t /\ status t = ST_NOTHING /\
                 evtsub_wakeup t = false /\ evtsub_pktrcvd t = false) ->
    do_events_task tk seen k st = Ok st' ->
    (forall j, j <> k -> tskhead (lk st') !! j = tskhead (lk st) !! j) ->
    do_events_loop tk seen idxs st = Ok st'.
Proof.
  assert (Hrest : forall idxs0 st,
            k ∉ idxs0 ->
            (forall j, j <> k -> j ∈ idxs0 ->
               exists t, tskhead (lk st) !! j = Some t /\ status t = ST_NOTHING /\
                         evtsub_wakeup t = false /\ evtsub_pktrcvd t = false) ->
            do_events_loop tk seen idxs0 st = Ok st).
  { induction idxs0 as [|i idxs0 IH0]; intros st Hnotin Hothers; [done|]. simpl.
    assert (Hik : i <> k) by (intros ->; apply Hnotin, list_elem_of_here).
    destruct (Hothers i Hik ltac:(apply list_elem_of_here)) as (t & Hi & Hs & Hw & Hr).
    rewrite (do_events_task_free tk seen i st t Hi Hs Hw Hr). simpl.
    apply IH0.
    - intros H. apply Hnotin. by apply list_elem_of_further.
    - intros j Hj Hin. apply Hothers; [done|]. by apply list_elem_of_further. }
  induction idxs as [|i idxs IH]; intros st st' Hnd Hin Hothers Htask Hsame;
    [by apply elem_of_nil in Hin|].
  apply NoDup_cons in Hnd as [Hnotin Hnd]. simpl.
  destruct (decide (i = k)) as [->|Hne].
  - rewrite Htask. simpl. apply Hrest; [done|].
    intros j Hj Hjin. rewrite (Hsame j Hj). apply Hothers; [done|].
    by apply list_elem_of_further.
  - apply elem_of_cons in Hin as [->|Hin]; [done|].
    destruct (Hothers i Hne ltac:(apply list_elem_of_here)) as (t & Hi & Hs & Hw & Hr).
    rewrite (do_events_task_free tk seen i st t Hi Hs Hw Hr). simpl.
    apply IH; try done.
    intros j Hj Hjin. apply Hothers; [done|]. by apply list_elem_of_further.
Qed.

(** The body of the task loop on a waiting task when a data frame not seen
    before is in the receive buffer: the task takes it. *)
Lemma do_events_task_delivers tk k l t p rst :
  tskhead l !! k = Some t ->
  status t = ST_RECEIVE -> evtsub_pktrcvd t = true -> pkt (pktkeeper t) = None ->
  recpkt l = Some (mkPktKeeper (Some p)) ->
  Z.land (flags (header p)) FLAG_ACK = 0 ->
  exists st' t',
    do_events_task tk false k (mkLoop l true rst) = Ok st' /\
    tskhead (lk st') = <[k := t']> (tskhead l) /\
    status t' = ST_RECEIVE_DATA_AVAILABLE /\
    pktkeeper t' =
      mkPktKeeper
        (Some (mkPacket (header p)
                 (take (Z.to_nat (wrap8 (sizeof_Header + len (header p)) - sizeof_Header))
                    (data p)))).
Proof.
  intros Hk Hst Her Hpk Hrec Hack.
  pose proof (lookup_lt_Some _ _ _ Hk) as Hlt.
  destruct t as [tid tst [tpk] tref twk trc tnb tptr tpos tew ter tia tna tha tun t1 t2 tns].
  simpl in *. subst tst ter tpk.
  unfold do_events_task. simpl.
  rewrite (get_task_lookup _ _ _ Hk). simpl. rewrite Hrec. simpl.
  unfold tev_received. rewrite (get_task_lookup _ _ _ Hk). simpl.
  unfold deref_header, get_header_ptr, get_flags. simpl.
  change (from_flags (flags (header p))) with
    (Z.shiftr (flags (header p)) 4, Z.land (flags (header p)) 15).
  cbv beta iota.
  rewrite flag_test_low_nibble by (unfold FLAG_ACK; lia). rewrite Hack. simpl.
  rewrite (get_task_put_task _ _ _ _ Hk). simpl.
  rewrite (get_task_put_task _ _ _ _ Hk). simpl.
  eexists _, _. split; [reflexivity|]. simpl.
  split; [rewrite !tskhead_put_task; by rewrite list_insert_insert_eq|].
  split; reflexivity.
Qed.

(** [do_events] on a station whose only task waits for a frame, when a valid
    data frame not seen before comes in. *)
Lemma do_events_delivers l tk k t c' :
  engine_wf l -> recpkt_ok l ->
  deviceInit (funcs l) = true -> deviceReceive (funcs l) = true ->
  tskhead l !! k = Some t -> status t = ST_RECEIVE -> evtsub_pktrcvd t = true ->
  (forall j t', j <> k -> tskhead l !! j = Some t' -> status t' = ST_NOTHING) ->
  irq tk = true -> frame_valid l tk = true ->
  Z.land (flags (header (rx_pkt tk))) FLAG_ACK = 0 ->
  check_pktid_already_seen (cache_pktids l) (src (header (rx_pkt tk)))
    (pktid (header (rx_pkt tk))) (now tk) = Ok (c', false) ->
  exists l1 t1,
    do_events l tk = Ok l1 /\ engine_wf l1 /\
    tskhead l1 !! k = Some t1 /\
    status t1 = ST_RECEIVE_DATA_AVAILABLE /\
    pktkeeper t1 =
      mkPktKeeper
        (Some (mkPacket (header (rx_pkt tk))
                 (take (Z.to_nat (wrap8 (sizeof_Header + len (header (rx_pkt tk)))
                                  - sizeof_Header))
                    (data (rx_pkt tk))))).
Proof.
  intros Hwf Hok Hinit Hrecv Hk Hst Her Hothers Hirq Hval Hack Hseen.
  pose proof (do_events_wf l tk Hwf) as Hret.
  unfold do_events in *. rewrite Hinit in *. simpl in *.
  assert (Hex : existsb evtsub_pktrcvd (tskhead l) = true).
  { apply existsb_exists. exists t. split; [|done].
    apply list_elem_of_In. by eapply list_elem_of_lookup_2. }
  pose proof (do_events_receive_wf l tk Hwf) as H1.
  destruct (do_events_receive l tk) as [[l2 got]|f] eqn:E1; simpl in H1; [|done].
  destruct H1 as (Hwf2 & Hc2 & _).
  destruct (do_events_receive_gets l tk l2 got Hwf Hok Hex Hrecv Hirq Hval E1) as [-> Hrec2].
  simpl in *.
  unfold do_events_seen in *. rewrite Hrec2 in *. simpl in *.
  rewrite (core_cache _ _ Hc2) in Hret |- *. rewrite Hseen in *. simpl in *.
  set (l3 := set_cache_pktids c' l2) in *.
  assert (Hts3 : tskhead l3 = tskhead l).
  { subst l3. rewrite <- (core_tskhead _ _ Hc2). by destruct l2. }
  assert (Hrec3 : recpkt l3 = Some (mkPktKeeper (Some (rx_pkt tk)))).
  { subst l3. rewrite <- Hrec2. by destruct l2. }
  assert (Hk3 : tskhead l3 !! k = Some t) by (by rewrite Hts3).
  assert (Hpk : pkt (pktkeeper t) = None).
  { destruct (proj1 Hwf k t Hk) as [H|[H|[H|[H|[H|H]]]]];
      try (destruct H as [H _]; try destruct H as [H|H]; rewrite Hst in H; discriminate).
    tauto. }
  destruct (do_events_task_delivers tk k l3 t (rx_pkt tk) false Hk3 Hst Her Hpk Hrec3 Hack)
    as (st' & t1 & Htask & Hts' & Hst1 & Hpk1).
  assert (Hfree : forall t', task_wf (funcs l) t' -> status t' = ST_NOTHING ->
            evtsub_wakeup t' = false /\ evtsub_pktrcvd t' = false).
  { intros t' [H|[H|[H|[H|[H|H]]]]] Hs;
      try (destruct H as [H _]; try destruct H as [H|H]; rewrite Hs in H; discriminate).
    tauto. }
  assert (Hloop : do_events_loop tk false (seq 0 (length (tskhead l3)))
                    (mkLoop l3 true false) = Ok st').
  { apply (do_events_loop_single tk false k); try done.
    - apply NoDup_seq.
    - apply elem_of_seq. apply lookup_lt_Some in Hk3. lia.
    - intros j Hj Hin. simpl. rewrite Hts3.
      apply elem_of_seq in Hin. rewrite Hts3 in Hin.
      destruct (lookup_lt_is_Some_2 (tskhead l) j ltac:(lia)) as [t' Hj'].
      exists t'. split; [done|].
      pose proof (Hothers j t' Hj Hj') as Hs. split; [done|].
      exact (Hfree t' (proj1 Hwf j t' Hj') Hs).
    - intros j Hj. simpl. rewrite Hts'. by rewrite list_lookup_insert_ne. }
  unfold do_events_tasks in *. rewrite Hloop in *. simpl in *.
  exists (do_events_finish tk st'), t1.
  split; [done|]. split; [done|]. split; [|done].
  pose proof (do_events_finish_env False (fun j => j <> k) tk st') as Hs4.
  eapply pool_steps_keeps; [exact Hs4 | by intros H | | rewrite Hst1; discriminate].
  rewrite Hts'. apply list_lookup_insert_eq. by apply lookup_lt_Some in Hk3.
Qed.

(** The frame [send_noblock] builds, and its first transmission. *)
Lemma send_noblock_frame l tnow adst d alen ack l1 r id :
  send_noblock l tnow adst (Some d) alen ack = Ok (l1, r, Some id) ->
  1 <= alen /\
  exists i t,
    tskhead l1 !! i = Some t /\ taskid t = id /\
    pkt (pktkeeper t) = Some (sent_packet l adst d alen ack) /\
    forall tw rc,
      exists l2,
        tev_wakeup l1 tw rc i = Ok (l2, ST_SEND) /\
        dev_log l2 = dev_log l1 ++
          [DeviceSend (Some (sent_packet l adst d alen ack)) (wrap8 (sizeof_Header + alen))].
Proof.
  unfold send_noblock.
  destruct (negb (deviceInit (funcs l))) eqn:Einit; [intros H; inversion H|].
  destruct (negb (deviceSend (funcs l))) eqn:Esend; [intros H; inversion H|].
  apply negb_false_iff in Esend.
  destruct (alen >? max_payload_len l) eqn:Emax; [intros H; inversion H|].
  destruct ((alen =? 0) && _) eqn:Ez; [intros H; inversion H|].
  destruct (task_create l ST_SEND tnow) as [l2 [i|]] eqn:Ec; [|intros H; inversion H].
  apply task_create_Some in Ec. destruct Ec as (t0 & Ht0 & _ & _ & _ & ->).
  apply lookup_lt_Some in Ht0.
  destruct l as [a1 a2 a3 a4 a5 a6 a7 a8 a9 a10 a11 a12 a13 a14 a15 lts lf a18 alog].
  destruct t0 as [tid tst [tpk] tref twk trc tnb tptr tpos tew ter tia tna tha tun t1 t2 tns].
  unfold get_task, put_task, prepare_for_sending, get_max_payload_len, assert, sent_packet,
    tev_wakeup, get_task.
  simpl in *.
  rewrite list_lookup_insert_eq by done.
  assert (Hne : bool_decide (Some d = None) = false) by done.
  rewrite ?Hne in *. simpl in Ez. rewrite ?andb_true_r in Ez.
  destruct ack; simpl;
    unfold sched_at; simpl;
    (destruct (bool_decide (tpk = None)) eqn:Etpk; simpl; [|intros H; inversion H]);
    rewrite Ez, Emax; simpl;
    (destruct (1 <=? alen) eqn:E1; simpl; [|intros H; inversion H]);
    apply Z.leb_le in E1;
    intros H; inversion H; subst; clear H; simpl;
    (split; [done|]);
    (eexists i, _; split;
     [rewrite list_lookup_insert_eq by (by rewrite length_insert); reflexivity|]);
    simpl; rewrite Ez; simpl;
    (split; [reflexivity|]); (split; [reflexivity|]);
    intros tw rc; rewrite list_lookup_insert_eq by (by rewrite length_insert); simpl;
    unfold call; rewrite Esend; simpl;
    unfold sched_at, get_pkt_len; simpl;
    (eexists; split; [reflexivity|]; reflexivity).
Qed.

(** The retrieval of a payload that waits for the application. *)
Lemma data_retrieve_available l tnow k t p buf_len :
  engine_wf l -> tskhead l !! k = Some t ->
  status t = ST_RECEIVE_DATA_AVAILABLE -> pkt (pktkeeper t) = Some p ->
  exists l',
    data_retrieve l tnow (Some k) buf_len true
      = Ok (l', ST_RECEIVE_DATA_RETRIEVED,
            mkRetrieved (copy_data (pktkeeper t) buf_len) (Some (src (header p)))).
Proof.
  intros Hwf Hk Hst Hp.
  pose proof (data_retrieve_wf l tnow (Some k) buf_len true Hwf) as H.
  assert (Hin : forall i, Some k = Some i -> is_Some (tskhead l !! i)).
  { intros i Hi. inversion Hi; subst i. by exists t. }
  specialize (H Hin). clear Hin.
  unfold data_retrieve in *. rewrite (get_task_lookup _ _ _ Hk) in *. simpl in *.
  rewrite Hst in *. simpl in *.
  unfold deref_header, get_header_ptr, data_retrieved_post, reduce_packet_to_its_header in *.
  rewrite Hp in *. simpl in *.
  match goal with
  | H : post _ _ (rbind (send_ack ?la ?ta ?ka) _) |- _ =>
      destruct (send_ack la ta ka) as [l'|f]; simpl in *; [|done]
  end.
  exists l'. by destruct t.
Qed.

(** X23. A frame crosses the link. The first wake-up of the task that
    [send_noblock] created hands the driver the frame built from the
    arguments, with 6 bytes of header plus the payload. When that frame comes
    in at a station whose only task waits for a frame, and the packet-id cache
    of that station has not seen it, [do_events] takes it and [data_retrieve]
    hands the application the first [min len buf_len] bytes of what was sent,
    and the address of the sender. *)
Theorem sent_payload_is_received
    (lA lA1 : RFLink) (tnow adst : Z) (d : list Z) (alen : Z) (ack : bool) (rA id : Z)
    (lB : RFLink) (k : nat) (tB : Task) (tk : tick_t) (c' : list cache_pktid_t)
    (tretr buf_len : Z) :
  send_noblock lA tnow adst (Some d) alen ack = Ok (lA1, rA, Some id) ->
  alen <= Z.of_nat (length d) ->
  engine_reachable lB ->
  deviceInit (funcs lB) = true -> deviceReceive (funcs lB) = true ->
  max_payload_len lB + sizeof_Header <= 255 -> alen <= max_payload_len lB ->
  tskhead lB !! k = Some tB -> status tB = ST_RECEIVE -> evtsub_pktrcvd tB = true ->
  (forall j t', j <> k -> tskhead lB !! j = Some t' -> status t' = ST_NOTHING) ->
  irq tk = true ->
  rx_pkt tk = sent_packet lA adst d alen ack ->
  rx_nb tk = wrap8 (sizeof_Header + alen) ->
  check_pktid_already_seen (cache_pktids lB) (device_addr lA) (wrap16 (last_pktid lA + 1))
    (now tk) = Ok (c', false) ->
  (exists i tA,
     tskhead lA1 !! i = Some tA /\ taskid tA = id /\
     forall tw rc,
       exists lA2,
         tev_wakeup lA1 tw rc i = Ok (lA2, ST_SEND) /\
         dev_log lA2 = dev_log lA1 ++
           [DeviceSend (Some (sent_packet lA adst d alen ack))
              (wrap8 (sizeof_Header + alen))]) /\
  exists lB1 lB2,
    do_events lB tk = Ok lB1 /\
    data_retrieve lB1 tretr (Some k) buf_len true
      = Ok (lB2, ST_RECEIVE_DATA_RETRIEVED,
            mkRetrieved
              (Some (Z.min alen buf_len, take (Z.to_nat (Z.min alen buf_len)) d))
              (Some (device_addr lA))).
Proof.
  intros Hsend Hlen Hreach Hinit Hrecv Hmax Halen Hk Hst Her Hothers Hirq Hpkt Hnb Hseen.
  destruct (send_noblock_frame _ _ _ _ _ _ _ _ _ Hsend)
    as (H1 & i & tA & Hi & Hid & HpA & Hwake).
  split; [by exists i, tA|].
  pose proof (engine_reachable_wf _ Hreach) as Hwf.
  pose proof (engine_reachable_recpkt_ok _ Hreach) as Hok.
  unfold sizeof_Header in *.
  assert (Hw : wrap8 (6 + alen) = 6 + alen).
  { apply wrap8_small. lia. }
  assert (Hval : frame_valid lB tk = true).
  { unfold frame_valid, check_rcvd_pkt_is_ok, get_max_payload_len, get_pkt_len. simpl.
    rewrite Hpkt, Hnb. unfold sent_packet, sizeof_Header. simpl.
    assert (E : (alen >? max_payload_len lB) = false).
    { rewrite Z.gtb_ltb. apply Z.ltb_ge. lia. }
    rewrite E, !Hw. apply Z.eqb_refl. }
  assert (Hack : Z.land (flags (header (rx_pkt tk))) FLAG_ACK = 0).
  { rewrite Hpkt. by destruct ack. }
  destruct (do_events_delivers lB tk k tB c' Hwf Hok Hinit Hrecv Hk Hst Her Hothers Hirq
              Hval Hack) as (lB1 & t1 & Hdo & Hwf1 & Hk1 & Hst1 & Hpk1).
  { by rewrite Hpkt. }
  rewrite Hpkt in Hpk1. unfold sent_packet, sizeof_Header in Hpk1. simpl in Hpk1.
  rewrite Hw in Hpk1.
  destruct (data_retrieve_available lB1 tretr k t1 _ buf_len Hwf1 Hk1 Hst1
              ltac:(by rewrite Hpk1)) as (lB2 & Hret).
  exists lB1, lB2. split; [done|]. rewrite Hret. do 2 f_equal.
  rewrite Hpk1. unfold copy_data. simpl.
  replace (6 + alen - 6) with alen by lia.
  rewrite !take_take.
  assert (Emin : (if alen >? buf_len then buf_len else alen) = Z.min alen buf_len).
  { destruct (alen >? buf_len) eqn:E.
    - rewrite Z.gtb_ltb in E. apply Z.ltb_lt in E. lia.
    - rewrite Z.gtb_ltb in E. apply Z.ltb_ge in E. lia. }
  rewrite Emin.
  replace ((Z.to_nat (Z.min alen buf_len) `min` Z.to_nat alen) `min` Z.to_nat alen)%nat
    with (Z.to_nat (Z.min alen buf_len)) by lia.
  reflexivity.
Qed.

Lemma sent_payload_is_received_witness :
  exists lB1 lB2,
    do_events ex_listening (rx_tick 2 (sent_packet ex_booted 94 [104; 105; 0] 3 true))
      = Ok lB1 /\
    data_retrieve lB1 4 (Some 0%nat) 2 true
      = Ok (lB2, ST_RECEIVE_DATA_RETRIEVED,
            mkRetrieved (Some (2, [104; 105])) (Some 11)).
Proof.
  destruct (sent_payload_is_received ex_booted
              (or_blank (run_op ex_booted (Op_send_noblock 0 94 (Some [104; 105; 0]) 3 true)))
              0 94 [104; 105; 0] 3 true ERR_TASK_CREATED_OK 1
              ex_listening 0 (default blank_task (tskhead ex_listening !! 0%nat))
              (rx_tick 2 (sent_packet ex_booted 94 [104; 105; 0] 3 true))
              (<[0%nat := mkCache true 11 2 1]> (cache_pktids ex_listening)) 4 2)
    as [_ H].
  - vm_compute. reflexivity.
  - vm_compute. discriminate.
  - apply ex_listening_reachable.
  - reflexivity.
  - reflexivity.
  - vm_compute. discriminate.
  - vm_compute. discriminate.
  - reflexivity.
  - reflexivity.
  - reflexivity.
  - intros j t' Hj Ht'.
    destruct j as [|j]; [done|].
    assert (Hall : forallb (fun t => status t =? ST_NOTHING) (drop 1 (tskhead ex_listening))
                   = true) by (vm_compute; reflexivity).
    rewrite forallb_forall in Hall. apply Z.eqb_eq, Hall.
    apply list_elem_of_In. apply (list_elem_of_lookup_2 _ j). by rewrite lookup_drop.
  - reflexivity.
  - reflexivity.
  - vm_compute. reflexivity.
  - vm_compute. reflexivity.
  - exact H.
Defined.

(** ** The blocking receive without timeout *)

Lemma do_events_tasks_idle l tk got seen k t :
  tskhead l !! k = Some t ->
  status t <> ST_NOTHING -> status t <> ST_FINISHED ->
  evtsub_pktrcvd t = false \/ got = false ->
  evtsub_wakeup t = false \/ signed32 (now tk - mtime_wakeup t) < 0 ->
  post any_fault (fun l' => tskhead l' !! k = Some t) (do_events_tasks l tk got seen).
Proof.
  intros Hk Hlive Hfin Hrcv Hwk. unfold do_events_tasks.
  pose proof (do_events_loop_idle tk seen k t (seq 0 (length (tskhead l)))
                (mkLoop l got false) Hk Hlive Hfin Hrcv Hwk) as H3.
  destruct (do_events_loop tk seen _ _) as [st|f]; simpl in *; [|done].
  pose proof (do_events_finish_env False (fun j => j <> k) tk st) as Hs4.
  eapply pool_steps_keeps; [exact Hs4 | by intros H | exact H3 | exact Hlive].
Qed.

(** [do_events] while the radio is silent: it returns, the flag of the
    interrupt handler stays down, and a task whose timer is off or not due is
    left as it is. *)
Lemma do_events_silent l tk k t :
  engine_wf l -> deviceInit (funcs l) = true ->
  interrupted l = false -> irq tk = false ->
  tskhead l !! k = Some t ->
  status t <> ST_NOTHING -> status t <> ST_FINISHED ->
  evtsub_wakeup t = false \/ signed32 (now tk - mtime_wakeup t) < 0 ->
  exists l',
    do_events l tk = Ok l' /\ engine_wf l' /\ interrupted l' = false /\
    tskhead l' !! k = Some t.
Proof.
  intros Hwf Hinit Hint Hirq Hk Hlive Hfin Hwk.
  unfold do_events. rewrite Hinit. simpl.
  pose proof (do_events_receive_wf l tk Hwf) as H1.
  pose proof (do_events_receive_irq l tk Hwf) as H1i.
  pose proof (do_events_receive_env False (fun j => j <> k) l tk ltac:(intros [])) as H1s.
  destruct (do_events_receive l tk) as [[l2 got]|f] eqn:E1;
    simpl in H1, H1i, H1s; [|done].
  destruct H1 as (Hwf2 & Hc2 & _). destruct H1i as [Hint2 _]. destruct H1s as [Hs1 _].
  assert (got = false) as -> by exact (do_events_receive_silent l tk l2 got Hint Hirq E1).
  simpl.
  assert (Hk2 : tskhead l2 !! k = Some t).
  { eapply pool_steps_keeps; [exact Hs1 | by intros H | exact Hk | exact Hlive]. }
  pose proof (do_events_tasks_wf l2 tk false false Hwf2 ltac:(discriminate)) as H3.
  pose proof (do_events_tasks_irq l2 tk false false Hwf2 ltac:(discriminate)) as H3i.
  pose proof (do_events_tasks_idle l2 tk false false k t Hk2 Hlive Hfin
                ltac:(by right) Hwk) as H3k.
  destruct (do_events_tasks l2 tk false false) as [l3|f]; simpl in *; [|done].
  exists l3. split; [done|]. split; [by destruct H3|]. split; [|done].
  destruct H3i as [H _]. congruence.
Qed.

(** The task [receive_noblock] creates without a timeout. *)
Lemma receive_noblock_listening l tnow cfg l1 r id :
  match cfg with Some c => def_timeout c = false | None => True end ->
  receive_noblock l tnow cfg = Ok (l1, r, Some id) ->
  deviceInit (funcs l1) = true /\ interrupted l1 = interrupted l /\
  exists k t, tskhead l1 !! k = Some t /\ listening id t.
Proof.
  intros Hc. unfold receive_noblock.
  destruct (negb (deviceInit (funcs l))) eqn:Einit; [intros H; inversion H|].
  apply negb_false_iff in Einit.
  destruct (negb (deviceReceive (funcs l))); [intros H; inversion H|].
  destruct (task_create l ST_RECEIVE tnow) as [l2 [i|]] eqn:Ec; [|intros H; inversion H].
  pose proof Ec as Ec'.
  apply task_create_Some in Ec'. destruct Ec' as (t0 & Ht0 & Hs0 & _ & _ & El2).
  rewrite (get_task_created _ _ _ _ _ _ Ec Ht0). simpl.
  intros H. inversion H; subst l1 r id. clear H.
  split; [subst l2; by destruct l|]. split; [subst l2; by destruct l|].
  eexists i, _. split.
  - rewrite tskhead_put_task. apply list_lookup_insert_eq.
    apply lookup_lt_Some in Ht0. subst l2. destruct l. simpl in *. by rewrite length_insert.
  - destruct t0 as [tid tst [tpk] tref twk trc tnb tptr tpos tew ter tia tna tha tun t1 t2 tns].
    destruct cfg as [[ds dto drx sd to]|]; simpl in *; [subst dto|]; by repeat split.
Qed.

(** The wait of [receive] while the radio is silent: the calls of
    [do_events] run out. *)
Lemma wait_while_listening id k ticks :
  forall n l t,
    engine_wf l -> deviceInit (funcs l) = true -> interrupted l = false ->
    ids_inv n l -> n + Z.of_nat (length ticks) <= 65535 ->
    tskhead l !! k = Some t -> listening id t ->
    Forall (fun tk => irq tk = false) ticks ->
    wait_while ST_RECEIVE l id ticks = Ok None.
Proof.
  induction ticks as [|tk rest IH]; intros n l t Hwf Hinit Hint Hids Hn Hk Hli Hq;
    rewrite wait_while_eq.
  - destruct Hli as (Hid & Hst & Hew).
    assert (Est : task_get_status l id = ST_RECEIVE).
    { unfold task_get_status. rewrite <- Hid.
      rewrite (ids_inv_found _ _ _ _ Hids Hk) by (rewrite Hst; discriminate).
      by rewrite Hk. }
    by rewrite Est.
  - pose proof Hli as (Hid & Hst & Hew).
    assert (Est : task_get_status l id = ST_RECEIVE).
    { unfold task_get_status. rewrite <- Hid.
      rewrite (ids_inv_found _ _ _ _ Hids Hk) by (rewrite Hst; discriminate).
      by rewrite Hk. }
    rewrite Est. simpl. simpl length in Hn.
    apply Forall_cons in Hq as [Hq1 Hq].
    destruct (do_events_silent l tk k t Hwf Hinit Hint Hq1 Hk
                ltac:(rewrite Hst; discriminate) ltac:(rewrite Hst; discriminate)
                ltac:(by left)) as (l1 & Hdo & Hwf1 & Hint1 & Hk1).
    pose proof (do_events_ids_inv n l tk Hids ltac:(lia)) as H2.
    rewrite Hdo in *. simpl in *. destruct H2 as [Hids1 Hf1].
    apply (IH (n + 1) l1 t); try done; [by rewrite Hf1 | lia].
Qed.

(** X24. The blocking [receive] without timeout does not return while the
    radio is silent. On an engine where no reception is pending, built and
    operated fewer than 65535 times with the calls of [do_events] at hand (so
    that the 16-bit task id handed out has not wrapped), once its task is
    created the wait never sees it leave ST_RECEIVE: every call of
    [do_events] at hand is used up, however many they are and whatever the
    clock shows. *)
Theorem receive_without_timeout_waits
    (maxtask mdl : Z) (fs : RFLinkFunctions) (l0 l l1 : RFLink) (ops : list engine_op)
    (tcreate tretr : Z) (ticks : list tick_t) (buf_len : Z) (want_sender : bool)
    (cfg : option RXConfig) (id : Z) :
  RFLink_new maxtask = Ok l0 -> funcs_ok fs ->
  run_ops (register_funcs l0 fs mdl) ops = Ok l ->
  Z.of_nat (length ops) + Z.of_nat (length ticks) < 65535 ->
  match cfg with Some c => def_timeout c = false | None => True end ->
  receive_noblock l tcreate cfg = Ok (l1, ERR_TASK_CREATED_OK, Some id) ->
  interrupted l = false ->
  Forall (fun tk => irq tk = false) ticks ->
  receive l tcreate tretr ticks buf_len want_sender cfg = Ok None.
Proof.
  intros Hnew Hfs Hrun Hlen Hc Hrecv Hint Hq.
  set (op := Op_receive_noblock tcreate cfg).
  assert (Hrun1 : run_ops (register_funcs l0 fs mdl) (ops ++ [op]) = Ok l1).
  { rewrite run_ops_app, Hrun. simpl. by rewrite Hrecv. }
  assert (Hreach : engine_reachable l1).
  { eapply run_ops_reachable; [|exact Hrun1]. by eapply reachable_boot. }
  pose proof (engine_reachable_wf _ Hreach) as Hwf1.
  assert (Hids1 : ids_inv (Z.of_nat (length ops) + 1) l1).
  { replace (Z.of_nat (length ops) + 1) with (Z.of_nat (length (ops ++ [op])))
      by (rewrite length_app; simpl; lia).
    eapply run_ops_ids_inv; [exact Hnew | exact Hrun1 |]. rewrite length_app. simpl. lia. }
  destruct (receive_noblock_listening _ _ _ _ _ _ Hc Hrecv)
    as (Hinit1 & Hint1 & k & t & Hk & Hli).
  rewrite Hint in Hint1.
  unfold receive. rewrite Hrecv. simpl.
  destruct ticks as [|tk0 ticks1]; [done|].
  simpl length in Hlen. apply Forall_cons in Hq as [Hq0 Hq].
  pose proof Hli as (Hid & Hst & Hew).
  destruct (do_events_silent l1 tk0 k t Hwf1 Hinit1 Hint1 Hq0 Hk
              ltac:(rewrite Hst; discriminate) ltac:(rewrite Hst; discriminate)
              ltac:(by left)) as (l2 & Hdo & Hwf2 & Hint2 & Hk2).
  pose proof (do_events_ids_inv _ l1 tk0 Hids1 ltac:(lia)) as H2.
  rewrite Hdo in *. simpl in *. destruct H2 as [Hids2 Hf2].
  rewrite (wait_while_listening id k ticks1 (Z.of_nat (length ops) + 1 + 1) l2 t);
    try done; [by rewrite Hf2 | lia].
Qed.

Lemma receive_without_timeout_waits_witness :
  receive (register_funcs ex_new all_funcs 61) 0 600
    [quiet_tick 1; quiet_tick 500; quiet_tick 100000] 10 true None = Ok None.
Proof.
  eapply (receive_without_timeout_waits DEFAULT_MAX_TASK_COUNT 61 all_funcs ex_new
            (register_funcs ex_new all_funcs 61) _ [] 0 600 _ 10 true None 1).
  - vm_compute. reflexivity.
  - apply all_funcs_ok.
  - reflexivity.
  - simpl. lia.
  - exact I.
  - vm_compute. reflexivity.
  - reflexivity.
  - repeat constructor.
Defined.
(** ** Duplicates of a delivered frame, across a call of the event pump (C2) *)













(** C2, a second departure, on the delivery count. Station 0x0B sends packet 7
    to station 0x5E, which hands it to the application, and retransmits it
    after an acknowledgement of its own, with another packet-id, has reached
    station 0x5E: the packet-id cache keeps one packet-id per source, so it
    no longer recognises packet 7, and the retransmission is delivered to the
    task that waits in a slot before the one of the task that holds the first
    copy. The application gets the payload twice, from tasks 2 and 4, while
    task 2 is still RECEIVE_DATA_RETRIEVED. *)
Lemma forgotten_duplicate_is_delivered_again :
  ex_forgotten_duplicate
  = Ok (mkRetrieved (Some (3, [104; 105; 0])) (Some 11),
        mkRetrieved (Some (3, [104; 105; 0])) (Some 11),
        ST_RECEIVE_DATA_RETRIEVED, ST_RECEIVE_DATA_AVAILABLE, 4).
Proof. vm_compute. reflexivity. Qed.
